(** * Home Harmony: the AI analysis pipeline, embedded and verified

    A shallow embedding of the response parser, the ergonomic insight
    engine, the product recommendation generator, the colour extraction
    service and the retrying orchestrator of the application, with the
    properties its specification states about them.

    Conventions of the embedding.
    - A JavaScript string is a [string]: a sequence of 8-bit code units,
      read as Latin-1.  Strings with code units above 255 are outside the
      model.
    - A JavaScript value of type [any] is a [JsVal].  Numbers are rationals
      (or reals in the colour service), without the rounding to binary64
      and without NaN; where a result turns on the rounding, as the mood
      of a palette does at its thresholds, the function is given on
      binary64 values as well (module [Binary64] of the colour service).
    - An exception is an explicit error result; [try]/[catch] is a match
      on it.
    - [Math.random] is a stream indexed by the number of calls made so
      far; the values of [Date.now] are parameters. *)

From Stdlib Require Import ZArith List String Ascii Bool Lia QArith Qround.
From Stdlib Require Import Permutation Sorted DecimalString HexadecimalString.
From Stdlib Require Import Reals Lra.
From Stdlib Require Lqa Floats.

Import ListNotations.

Set Warnings "-inexact-float".

Close Scope Q_scope.
Open Scope string_scope.
Open Scope list_scope.

(** ** JavaScript strings *)

Module Js.

Definition code (c : ascii) : nat := nat_of_ascii c.

Definition in_range (lo hi : nat) (c : ascii) : bool :=
  (lo <=? code c)%nat && (code c <=? hi)%nat.

Definition is_upper (c : ascii) : bool := in_range 65 90 c.
Definition is_lower (c : ascii) : bool := in_range 97 122 c.
Definition is_digit (c : ascii) : bool := in_range 48 57 c.
Definition is_alnum (c : ascii) : bool := is_upper c || is_lower c || is_digit c.

(** [\w] of a regular expression: [A-Za-z0-9_]. *)
Definition is_word (c : ascii) : bool := is_alnum c || (code c =? 95)%nat.

(** [\s] of a regular expression, and the characters [trim] removes:
    TAB, LF, VT, FF, CR, space and NBSP (the Latin-1 part of the set). *)
Definition is_space (c : ascii) : bool :=
  in_range 9 13 c || (code c =? 32)%nat || (code c =? 160)%nat.

(** [String.prototype.toLowerCase], one code unit: [A-Z], and the Latin-1
    capitals 192..222 except the multiplication sign 215. *)
Definition lower_char (c : ascii) : ascii :=
  if is_upper c || (in_range 192 222 c && negb (code c =? 215)%nat)
  then ascii_of_nat (code c + 32) else c.

(** [toUpperCase] on [a-z], the only place the cleaner applies it. *)
Definition upper_char (c : ascii) : ascii :=
  if is_lower c then ascii_of_nat (code c - 32) else c.

Fixpoint toLowerCase (s : string) : string :=
  match s with
  | EmptyString => EmptyString
  | String c s' => String (lower_char c) (toLowerCase s')
  end.

Fixpoint startsWith (p s : string) : bool :=
  match p, s with
  | EmptyString, _ => true
  | String a p', String b s' => Ascii.eqb a b && startsWith p' s'
  | String _ _, EmptyString => false
  end.

(** [s.includes(sub)]. *)
Fixpoint includes (s sub : string) : bool :=
  startsWith sub s ||
  match s with
  | EmptyString => false
  | String _ s' => includes s' sub
  end.

(** [s.substring(0, n)] for [0 <= n]. *)
Fixpoint take (n : nat) (s : string) : string :=
  match n, s with
  | S n', String c s' => String c (take n' s')
  | _, _ => EmptyString
  end.

Fixpoint rev_onto (s acc : string) : string :=
  match s with
  | EmptyString => acc
  | String c s' => rev_onto s' (String c acc)
  end.

Definition rev (s : string) : string := rev_onto s EmptyString.

(** [s.trimStart()]. *)
Fixpoint trimStart (s : string) : string :=
  match s with
  | String c s' => if is_space c then trimStart s' else s
  | EmptyString => EmptyString
  end.

(** [s.trimEnd()]: what is left of a tail that is all white space is
    nothing. *)
Fixpoint trimEnd (s : string) : string :=
  match s with
  | EmptyString => EmptyString
  | String c s' =>
      match trimEnd s' with
      | EmptyString => if is_space c then EmptyString else String c EmptyString
      | t => String c t
      end
  end.

(** The text from its first character outside [p] on. *)
Fixpoint dropWhile (p : ascii -> bool) (s : string) : string :=
  match s with
  | String c s' => if p c then dropWhile p s' else s
  | EmptyString => EmptyString
  end.

(** [s.trim()]. *)
Definition trim (s : string) : string := trimEnd (trimStart s).

Fixpoint all_chars (p : ascii -> bool) (s : string) : bool :=
  match s with
  | EmptyString => true
  | String c s' => p c && all_chars p s'
  end.

End Js.

(** ** JavaScript values *)

(** What [JSON.parse] can produce, [undefined], and [JNative]: a member
    inherited from [Object.prototype] (a built-in function or the
    prototype object itself), which a lookup in an object literal returns
    for a key such as [constructor]. *)
#[warnings="-register-all"]
Inductive JsVal : Type :=
| JUndefined
| JNull
| JBool (b : bool)
| JNum (q : Q)
| JStr (s : string)
| JArr (items : list JsVal)
| JObj (fields : list (string * JsVal))
| JNative (name : string).

Module Val.

(** [ToBoolean]. *)
Definition truthy (v : JsVal) : bool :=
  match v with
  | JUndefined | JNull => false
  | JBool b => b
  | JNum q => negb (Qeq_bool q 0%Q)
  | JStr s => negb (String.eqb s "")
  | JArr _ | JObj _ | JNative _ => true
  end.

(** [a || b]. *)
Definition or_else (a b : JsVal) : JsVal := if truthy a then a else b.

(** Own property of an object built by [JSON.parse]: for a duplicated
    key the last occurrence wins. *)
Fixpoint own (fields : list (string * JsVal)) (k : string) : option JsVal :=
  match fields with
  | [] => None
  | (k', v) :: rest =>
      match own rest k with
      | Some v' => Some v'
      | None => if String.eqb k' k then Some v else None
      end
  end.

(** [v.k] for one of the field names the services read ([category],
    [status], [observation], ...; none of them is inherited from a
    prototype).  [None]: the access throws a TypeError. *)
Definition prop (v : JsVal) (k : string) : option JsVal :=
  match v with
  | JUndefined | JNull => None
  | JObj fields =>
      match own fields k with Some x => Some x | None => Some JUndefined end
  | _ => Some JUndefined
  end.

(** [v.toLowerCase()]: defined on strings only; on anything else the call
    throws. *)
Definition toLowerCase (v : JsVal) : option string :=
  match v with
  | JStr s => Some (Js.toLowerCase s)
  | _ => None
  end.

(** Strict equality with a string, as [indexOf] and [includes] test it. *)
Definition is_string (v : JsVal) (s : string) : bool :=
  match v with
  | JStr s' => String.eqb s' s
  | _ => false
  end.

End Val.

(** ** Object literals used as lookup tables *)

Module Table.

(** The names every object literal inherits from [Object.prototype]. *)
Definition inherited_names : list string :=
  [ "constructor"; "__proto__"; "hasOwnProperty"; "isPrototypeOf";
    "propertyIsEnumerable"; "toLocaleString"; "toString"; "valueOf";
    "__defineGetter__"; "__defineSetter__"; "__lookupGetter__";
    "__lookupSetter__" ].

Definition inherited (k : string) : bool :=
  existsb (String.eqb k) inherited_names.

Inductive Lookup (V : Type) : Type :=
| Own (v : V)
| Inherited (name : string)
| Absent.
Arguments Own {V} v.
Arguments Inherited {V} name.
Arguments Absent {V}.

Fixpoint assoc {V : Type} (tbl : list (string * V)) (k : string) : option V :=
  match tbl with
  | [] => None
  | (k', v) :: rest => if String.eqb k' k then Some v else assoc rest k
  end.

(** [tbl[k]] on an object literal: own keys first, then the prototype. *)
Definition get {V : Type} (tbl : list (string * V)) (k : string) : Lookup V :=
  match assoc tbl k with
  | Some v => Own v
  | None => if inherited k then Inherited k else Absent
  end.

(** [tbl[k]] on a table of strings, as a JavaScript value. *)
Definition get_str (tbl : list (string * string)) (k : string) : JsVal :=
  match get tbl k with
  | Own s => JStr s
  | Inherited n => JNative n
  | Absent => JUndefined
  end.

(** [String(v)] for a value used as a property key or inside a template. *)
Definition key_of (v : JsVal) : string :=
  match v with
  | JStr s => s
  | JNative "__proto__" => "[object Object]"
  | JNative "constructor" => "function Object() { [native code] }"
  | JNative n => ("function " ++ n ++ "() { [native code] }")%string
  | JUndefined => "undefined"
  | JNull => "null"
  | JBool true => "true"
  | JBool false => "false"
  | _ => "[object Object]"
  end.

End Table.

(** ** Numbers read from strings *)

Module Num.

(** The result of [ToNumber]. *)
Inductive Number : Type :=
| Fin (q : Q)
| PosInf
| NegInf
| NaN.

Definition digit_of (radix : nat) (c : ascii) : option Z :=
  let n := Js.code c in
  let d := if Js.is_digit c then Some (n - 48)%nat
           else if Js.in_range 97 102 c then Some (n - 87)%nat
           else if Js.in_range 65 70 c then Some (n - 55)%nat
           else None in
  match d with
  | Some v => if (v <? radix)%nat then Some (Z.of_nat v) else None
  | None => None
  end.

(** The longest prefix of digits: its value continuing [acc], how many
    digits were read, and the rest of the string. *)
Fixpoint digits (radix : nat) (s : string) (acc : Z) (count : nat)
  : Z * nat * string :=
  match s with
  | String c s' =>
      match digit_of radix c with
      | Some d => digits radix s' (acc * Z.of_nat radix + d)%Z (S count)
      | None => (acc, count, s)
      end
  | EmptyString => (acc, count, s)
  end.

(** [mantissa * 10^exponent]. *)
Definition scale (mantissa exponent : Z) : Q :=
  (inject_Z mantissa * Qpower (inject_Z 10) exponent)%Q.

(** An optional exponent part [e] or [E], sign, digits.  When the
    letter is not followed by digits there is no exponent part and
    nothing is consumed. *)
Definition exponent (s : string) : Z * string :=
  match s with
  | String c s1 =>
      if Ascii.eqb c "e" || Ascii.eqb c "E" then
        let '(neg, s2) :=
          match s1 with
          | String "-" t => (true, t)
          | String "+" t => (false, t)
          | _ => (false, s1)
          end in
        let '(e, n, rest) := digits 10 s2 0%Z 0 in
        match n with
        | O => (0%Z, s)
        | _ => ((if neg then - e else e)%Z, rest)
        end
      else (0%Z, s)
  | EmptyString => (0%Z, s)
  end.

(** The unsigned [StrDecimalLiteral] grammar without [Infinity]:
    digits with an optional fraction, or a fraction alone, then an
    optional exponent; the whole string must be consumed. *)
Definition unsigned_decimal (s : string) : option Q :=
  let '(i, ni, s1) := digits 10 s 0%Z 0 in
  let '(m, nf, s2) :=
    match s1 with
    | String "." t => digits 10 t i 0
    | _ => (i, 0, s1)
    end in
  if ((ni =? 0)%nat && (nf =? 0)%nat) then None
  else
    let '(e, s3) := exponent s2 in
    match s3 with
    | EmptyString => Some (scale m (e - Z.of_nat nf))
    | _ => None
    end.

Definition radix_literal (radix : nat) (s : string) : Number :=
  let '(v, n, rest) := digits radix s 0%Z 0 in
  match n, rest with
  | S _, EmptyString => Fin (inject_Z v)
  | _, _ => NaN
  end.

(** [StringToNumber]. *)
Definition of_string (s : string) : Number :=
  let t := Js.trim s in
  match t with
  | EmptyString => Fin 0%Q
  | String "0" (String x r) =>
      if Ascii.eqb x "x" || Ascii.eqb x "X" then radix_literal 16 r
      else if Ascii.eqb x "o" || Ascii.eqb x "O" then radix_literal 8 r
      else if Ascii.eqb x "b" || Ascii.eqb x "B" then radix_literal 2 r
      else match unsigned_decimal t with Some q => Fin q | None => NaN end
  | String "-" r =>
      if String.eqb r "Infinity" then NegInf
      else match unsigned_decimal r with Some q => Fin (- q) | None => NaN end
  | String "+" r =>
      if String.eqb r "Infinity" then PosInf
      else match unsigned_decimal r with Some q => Fin q | None => NaN end
  | _ =>
      if String.eqb t "Infinity" then PosInf
      else match unsigned_decimal t with Some q => Fin q | None => NaN end
  end.

(** [ToNumber], with [ToPrimitive] on arrays (their elements joined by
    commas) and objects. *)
Fixpoint of_val (v : JsVal) : Number :=
  match v with
  | JUndefined => NaN
  | JNull => Fin 0%Q
  | JBool b => Fin (if b then 1%Q else 0%Q)
  | JNum q => Fin q
  | JStr s => of_string s
  | JArr [] => Fin 0%Q
  | JArr [JNull] | JArr [JUndefined] => Fin 0%Q
  | JArr [JBool _] | JArr [JObj _] | JArr [JNative _] => NaN
  | JArr [x] => of_val x
  | JArr _ => NaN
  | JObj _ | JNative _ => NaN
  end.

(** [v > bound] for a finite [bound]. *)
Definition gt (v : JsVal) (bound : Q) : bool :=
  match of_val v with
  | Fin q => negb (Qle_bool q bound)
  | PosInf => true
  | NegInf | NaN => false
  end.

(** [v.length], read after [v] was found truthy.  No built-in function
    inherited from [Object.prototype] has a [length] above 2. *)
Definition length_of (v : JsVal) : JsVal :=
  match v with
  | JStr s => JNum (inject_Z (Z.of_nat (String.length s)))
  | JArr l => JNum (inject_Z (Z.of_nat (List.length l)))
  | JObj fields =>
      match Val.own fields "length" with Some x => x | None => JUndefined end
  | JNative "__proto__" => JUndefined
  | JNative _ => JNum 1%Q
  | _ => JUndefined
  end.

End Num.

(** ** Stable sorting with a comparator *)

Module Sort.

Section WithComparator.
Context {A : Type}.
Variable compare : A -> A -> Z.

(** [x] goes after the elements that compare strictly below it. *)
Fixpoint insert (x : A) (l : list A) : list A :=
  match l with
  | [] => [x]
  | y :: l' => if (compare y x <? 0)%Z then y :: insert x l' else x :: l
  end.

(** [Array.prototype.sort(compare)]: the stable sort of the array. *)
Definition sort (l : list A) : list A := fold_right insert [] l.
End WithComparator.

(** [arr.indexOf(v)] in an array of strings: the position, or -1. *)
Fixpoint indexOf_from (i : Z) (arr : list string) (v : JsVal) : Z :=
  match arr with
  | [] => (-1)%Z
  | s :: rest => if Val.is_string v s then i else indexOf_from (i + 1)%Z rest v
  end.

Definition indexOf (arr : list string) (v : JsVal) : Z := indexOf_from 0%Z arr v.

End Sort.

(** ** The ergonomic insight engine *)

Module ErgonomicAnalysisService.

Inductive Strictness : Type := lenient | standard | strict.

Record ErgonomicAnalysisConfig : Type := {
  enableDetailedMetrics : bool;
  includePostureAnalysis : bool;
  strictnessLevel : Strictness
}.

Definition default_config : ErgonomicAnalysisConfig :=
  {| enableDetailedMetrics := true;
     includePostureAnalysis := true;
     strictnessLevel := standard |}.

(** The fields are typed by closed unions in the source; at run time
    they hold whatever the lookups returned, hence [JsVal]. *)
Record ErgonomicInsight : Type := {
  category : JsVal;
  status : JsVal;
  title : JsVal;
  description : JsVal;
  recommendation : JsVal
}.

(** A computation that may call [Math.random]: it receives the number of
    draws made so far and returns it updated. *)
Definition Rand (A : Type) : Type := nat -> A * nat.

Definition categoryMap : list (string * string) :=
  [ ("desk-height", "desk-height");
    ("desk_height", "desk-height");
    ("deskheight", "desk-height");
    ("chair-posture", "chair-posture");
    ("chair_posture", "chair-posture");
    ("chairposture", "chair-posture");
    ("chair", "chair-posture");
    ("posture", "chair-posture");
    ("lighting", "lighting");
    ("light", "lighting");
    ("illumination", "lighting");
    ("screen-position", "screen-position");
    ("screen_position", "screen-position");
    ("screenposition", "screen-position");
    ("monitor", "screen-position");
    ("display", "screen-position");
    ("organization", "organization");
    ("organisation", "organization");
    ("clutter", "organization");
    ("storage", "organization") ].

(** [normalizeCategory]; [None]: [category.toLowerCase()] threw. *)
Definition normalizeCategory (category : JsVal) : option JsVal :=
  match Val.toLowerCase category with
  | Some k => Some (Val.or_else (Table.get_str categoryMap k) JNull)
  | None => None
  end.

Definition statusMap (strictness : Strictness) : list (string * string) :=
  match strictness with
  | lenient =>
      [ ("good", "good");
        ("ok", "good");
        ("acceptable", "good");
        ("needs-improvement", "needs-improvement");
        ("fair", "needs-improvement");
        ("poor", "poor");
        ("bad", "poor") ]
  | standard =>
      [ ("good", "good");
        ("excellent", "good");
        ("ok", "needs-improvement");
        ("acceptable", "needs-improvement");
        ("needs-improvement", "needs-improvement");
        ("fair", "needs-improvement");
        ("poor", "poor");
        ("bad", "poor") ]
  | strict =>
      [ ("excellent", "good");
        ("good", "needs-improvement");
        ("ok", "needs-improvement");
        ("acceptable", "poor");
        ("needs-improvement", "poor");
        ("fair", "poor");
        ("poor", "poor");
        ("bad", "poor") ]
  end.

(** [normalizeStatus]; [None]: [status.toLowerCase()] threw. *)
Definition normalizeStatus (status : JsVal) (strictness : Strictness)
  : option JsVal :=
  match Val.toLowerCase status with
  | Some k =>
      Some (Val.or_else (Table.get_str (statusMap strictness) k)
                        (JStr "needs-improvement"))
  | None => None
  end.

Definition degree : string := String (ascii_of_nat 176) "".

Definition recommendations : list (string * list (string * list string)) :=
  [ ("desk-height",
      [ ("needs-improvement",
          [ ("Adjust desk height so elbows are at 90" ++ degree ++ " when typing")%string;
            "Consider a height-adjustable desk or keyboard tray";
            "Ensure feet are flat on floor or footrest" ]);
        ("poor",
          [ "Immediately adjust desk height - current setup may cause strain";
            "Use a standing desk converter or adjustable keyboard tray";
            "Consider ergonomic assessment for proper measurements" ]) ]);
    ("chair-posture",
      [ ("needs-improvement",
          [ "Adjust chair height and back angle for better lumbar support";
            "Ensure chair back supports natural spine curve";
            "Consider ergonomic chair with adjustable features" ]);
        ("poor",
          [ "Replace chair or add lumbar support immediately";
            "Adjust chair settings: height, back angle, armrests";
            "Take regular breaks to prevent long-term strain" ]) ]);
    ("lighting",
      [ ("needs-improvement",
          [ "Add task lighting to reduce eye strain";
            "Position light source to minimize screen glare";
            "Consider adjustable desk lamp with warm light" ]);
        ("poor",
          [ "Improve lighting immediately - current setup strains eyes";
            "Add multiple light sources for even illumination";
            "Position screen perpendicular to windows to reduce glare" ]) ]);
    ("screen-position",
      [ ("needs-improvement",
          [ "Adjust monitor height so top is at eye level";
            "Position screen 50-70cm away from eyes";
            ("Tilt screen slightly backward (10-20" ++ degree ++ ")")%string ]);
        ("poor",
          [ "Reposition screen immediately to prevent neck strain";
            "Use monitor arm or stand for proper height adjustment";
            "Ensure screen is directly in front, not to the side" ]) ]);
    ("organization",
      [ ("needs-improvement",
          [ "Add storage solutions to reduce desktop clutter";
            "Organize frequently used items within arm's reach";
            "Create designated spaces for different work materials" ]);
        ("poor",
          [ "Declutter workspace immediately for better focus";
            "Implement filing system for papers and supplies";
            "Remove unnecessary items from work surface" ]) ]) ].

Definition titles : list (string * list (string * string)) :=
  [ ("desk-height",
      [ ("good", "Desk Height Optimal");
        ("needs-improvement", "Desk Height Adjustment Needed");
        ("poor", "Desk Height Requires Attention") ]);
    ("chair-posture",
      [ ("good", "Chair & Posture Excellent");
        ("needs-improvement", "Chair Setup Needs Improvement");
        ("poor", "Chair & Posture Issues Detected") ]);
    ("lighting",
      [ ("good", "Lighting Conditions Good");
        ("needs-improvement", "Lighting Could Be Enhanced");
        ("poor", "Lighting Needs Immediate Attention") ]);
    ("screen-position",
      [ ("good", "Screen Position Optimal");
        ("needs-improvement", "Screen Position Adjustment Needed");
        ("poor", "Screen Position Problematic") ]);
    ("organization",
      [ ("good", "Workspace Well Organized");
        ("needs-improvement", "Organization Opportunities");
        ("poor", "Workspace Needs Organization") ]) ].

(** [generateTitle]: [titles[category]?.[status] || `${category} Assessment`].
    A member of [titles] inherited from the prototype has none of the
    status names as a property. *)
Definition generateTitle (category status : JsVal) : JsVal :=
  let found :=
    match Table.get titles (Table.key_of category) with
    | Table.Own row => Table.get_str row (Table.key_of status)
    | Table.Inherited _ | Table.Absent => JUndefined
    end in
  Val.or_else found (JStr (Table.key_of category ++ " Assessment")%string).

Section WithRandom.

(** The successive results of [Math.random()], each in [0, 1). *)
Variable Math_random : nat -> Q.

(** [arr[Math.floor(Math.random() * arr.length)]]. *)
Definition pick (arr : list string) : Rand (option string) := fun n =>
  let i := Qfloor (Math_random n * inject_Z (Z.of_nat (List.length arr)))%Q in
  ((if (i <? 0)%Z then None else nth_error arr (Z.to_nat i)), S n).

(** [generateRecommendation]. *)
Definition generateRecommendation (category status : JsVal)
  : Rand JsVal := fun n =>
  let maintain := JStr "Maintain current setup and monitor for changes" in
  let draw (statusRecs : list string) :=
    let '(selectedRec, n') := pick statusRecs n in
    (match selectedRec with
     | Some r =>
         Val.or_else (JStr r)
           (JStr "Consider ergonomic improvements for better comfort")
     | None => JStr "Consider ergonomic improvements for better comfort"
     end, n') in
  match Table.get recommendations (Table.key_of category) with
  | Table.Absent => (maintain, n)
  | Table.Own categoryRecs =>
      if Val.is_string status "good" then (maintain, n)
      else match Table.get categoryRecs (Table.key_of status) with
           | Table.Own statusRecs => draw statusRecs
           | Table.Inherited _ | Table.Absent => draw []
           end
  | Table.Inherited _ =>
      if Val.is_string status "good" then (maintain, n) else draw []
  end.

(** [enhanceRecommendation]. *)
Definition enhanceRecommendation (baseRecommendation category status : JsVal)
  : Rand JsVal := fun n =>
  if Val.truthy baseRecommendation
     && Num.gt (Num.length_of baseRecommendation) (inject_Z 20)
  then (baseRecommendation, n)
  else generateRecommendation category status n.

(** [processErgonomicItem]: [None] is [null], returned when the
    category is not recognised and when anything in the body throws. *)
Definition processErgonomicItem (item : JsVal) (config : ErgonomicAnalysisConfig)
  : Rand (option ErgonomicInsight) := fun n =>
  match Val.prop item "category",
        Val.prop item "status",
        Val.prop item "observation",
        Val.prop item "description",
        Val.prop item "recommendation" with
  | Some rawCategory, Some rawStatus, Some observation, Some description0,
    Some rawRecommendation =>
      match normalizeCategory rawCategory with
      | None => (None, n)
      | Some category0 =>
          if negb (Val.truthy category0) then (None, n)
          else
            match normalizeStatus rawStatus (strictnessLevel config) with
            | None => (None, n)
            | Some status0 =>
                let title0 := generateTitle category0 status0 in
                let description1 :=
                  Val.or_else observation
                    (Val.or_else description0 (JStr "Assessment in progress")) in
                let '(recommendation0, n') :=
                  enhanceRecommendation rawRecommendation category0 status0 n in
                (Some {| category := category0;
                         status := status0;
                         title := title0;
                         description := description1;
                         recommendation := recommendation0 |}, n')
            end
      end
  | _, _, _, _, _ => (None, n)
  end.

Definition categoryMappings : list (string * string) :=
  [ ("ergonomic", "chair-posture");
    ("posture", "chair-posture");
    ("chair", "chair-posture");
    ("desk", "desk-height");
    ("height", "desk-height");
    ("light", "lighting");
    ("illumination", "lighting");
    ("screen", "screen-position");
    ("monitor", "screen-position");
    ("display", "screen-position");
    ("organization", "organization");
    ("clutter", "organization");
    ("storage", "organization") ].

(** The [for ... of Object.entries(categoryMappings)] loop with its
    [break]: the category of the first keyword the text includes. *)
Fixpoint detect (entries : list (string * string)) (lowerImprovement : string)
  : option string :=
  match entries with
  | [] => None
  | (keyword, category0) :: rest =>
      if Js.includes lowerImprovement keyword then Some category0
      else detect rest lowerImprovement
  end.

(** [parseImprovement].  The outer [option] is [None] when
    [improvement.toLowerCase()] throws, the inner one when the function
    returns [null]. *)
Definition parseImprovement (improvement : JsVal) (priority : nat)
    (config : ErgonomicAnalysisConfig)
  : Rand (option (option ErgonomicInsight)) := fun n =>
  match Val.toLowerCase improvement with
  | None => (None, n)
  | Some lowerImprovement =>
      match detect categoryMappings lowerImprovement with
      | None => (Some None, n)
      | Some detectedCategory =>
          let status0 :=
            match priority with
            | O => JStr "poor"
            | S O => JStr "needs-improvement"
            | _ => JStr "needs-improvement"
            end in
          let title0 := generateTitle (JStr detectedCategory) status0 in
          let '(recommendation0, n') :=
            generateRecommendation (JStr detectedCategory) status0 n in
          (Some (Some {| category := JStr detectedCategory;
                         status := status0;
                         title := title0;
                         description := improvement;
                         recommendation := recommendation0 |}), n')
      end
  end.

(** [extractInsightsFromPriorities]: the [forEach] with its index;
    [None] when an element makes [parseImprovement] throw. *)
Fixpoint extractFrom (index : nat) (priorities : list JsVal)
    (config : ErgonomicAnalysisConfig)
  : Rand (option (list ErgonomicInsight)) := fun n =>
  match priorities with
  | [] => (Some [], n)
  | priority :: rest =>
      match parseImprovement priority index config n with
      | (None, n') => (None, n')
      | (Some insight, n') =>
          match extractFrom (S index) rest config n' with
          | (None, n'') => (None, n'')
          | (Some insights, n'') =>
              (Some (match insight with
                     | Some i => i :: insights
                     | None => insights
                     end), n'')
          end
      end
  end.

Definition extractInsightsFromPriorities (priorities : list JsVal)
    (config : ErgonomicAnalysisConfig)
  : Rand (option (list ErgonomicInsight)) :=
  extractFrom 0 priorities config.

(** The [forEach] over [ergonomic_evaluation]. *)
Fixpoint processItems (items : list JsVal) (config : ErgonomicAnalysisConfig)
  : Rand (list ErgonomicInsight) := fun n =>
  match items with
  | [] => ([], n)
  | item :: rest =>
      let '(insight, n') := processErgonomicItem item config n in
      let '(insights, n'') := processItems rest config n' in
      (match insight with
       | Some i => i :: insights
       | None => insights
       end, n'')
  end.

End WithRandom.

Definition allCategories : list string :=
  [ "desk-height"; "chair-posture"; "lighting"; "screen-position";
    "organization" ].

(** [getMissingCategories]. *)
Definition getMissingCategories (coveredCategories : list JsVal) : list string :=
  filter (fun c => negb (existsb (fun v => Val.is_string v c) coveredCategories))
         allCategories.

(** [generateDefaultInsight]. *)
Definition generateDefaultInsight (category0 : string) : ErgonomicInsight :=
  {| category := JStr category0;
     status := JStr "good";
     title := generateTitle (JStr category0) (JStr "good");
     description := JStr "No specific issues identified in this area.";
     recommendation := JUndefined |}.

Definition priorityOrder : list string := [ "poor"; "needs-improvement"; "good" ].

Definition categoryOrder : list string :=
  [ "chair-posture"; "desk-height"; "screen-position"; "lighting";
    "organization" ].

(** The comparator of [prioritizeInsights]. *)
Definition compareInsights (a b : ErgonomicInsight) : Z :=
  let statusDiff :=
    (Sort.indexOf priorityOrder (status a) - Sort.indexOf priorityOrder (status b))%Z in
  if negb (statusDiff =? 0)%Z then statusDiff
  else (Sort.indexOf categoryOrder (category a)
        - Sort.indexOf categoryOrder (category b))%Z.

(** [prioritizeInsights]. *)
Definition prioritizeInsights (insights : list ErgonomicInsight)
  : list ErgonomicInsight :=
  Sort.sort compareInsights insights.

(** The body of the [try] of [analyzeErgonomics] up to the point where
    nothing can throw any more: the insights read from the evaluation
    entries and from the priorities.  [None]: an exception reached the
    [catch]. *)
Definition collectInsights (Math_random : nat -> Q) (analysisData : JsVal)
    (config : ErgonomicAnalysisConfig)
  : Rand (option (list ErgonomicInsight)) := fun n =>
  match Val.prop analysisData "ergonomic_evaluation",
        Val.prop analysisData "improvement_priorities" with
  | Some evaluation, Some priorities =>
      let '(fromItems, n1) :=
        match evaluation with
        | JArr items => processItems Math_random items config n
        | _ => ([], n)
        end in
      match priorities with
      | JArr ps =>
          match extractInsightsFromPriorities Math_random ps config n1 with
          | (Some additionalInsights, n2) =>
              (Some (fromItems ++ additionalInsights), n2)
          | (None, n2) => (None, n2)
          end
      | _ => (Some fromItems, n1)
      end
  | _, _ => (None, n)
  end.

(** The rest of the [try]: one default insight per category that no
    insight covers, then the sort. *)
Definition completeInsights (insights : list ErgonomicInsight)
  : list ErgonomicInsight :=
  let coveredCategories := map category insights in
  let missingCategories := getMissingCategories coveredCategories in
  prioritizeInsights (insights ++ map generateDefaultInsight missingCategories).

(** [analyzeErgonomics]. *)
Definition analyzeErgonomics (Math_random : nat -> Q) (analysisData : JsVal)
    (config : ErgonomicAnalysisConfig)
  : Rand (list ErgonomicInsight) := fun n =>
  match collectInsights Math_random analysisData config n with
  | (Some insights, n') => (completeInsights insights, n')
  | (None, n') => ([], n')
  end.

End ErgonomicAnalysisService.

(** ** Regular expressions *)

(** The fragment the services use: sequences of literals, character
    classes, quantified character classes, one capturing group around a
    quantified class, anchors, and alternation at top level.  Matching is
    the backtracking search of the language: the first alternative, the
    greedy or lazy order of each quantifier. *)
Module Regex.

Inductive Item : Type :=
| Lit (c : ascii)                (* a literal character *)
| LitI (c : ascii)               (* a literal under the [i] flag *)
| Cls (p : ascii -> bool)        (* one character of a class *)
| Star (p : ascii -> bool)       (* p* *)
| Lazy (p : ascii -> bool)       (* p*? *)
| Plus (p : ascii -> bool)       (* p+ *)
| Opt (c : ascii)                (* c? *)
| CapStar (p : ascii -> bool)    (* (p* ), group 1 *)
| CapLazy (p : ascii -> bool)    (* (p*?), group 1 *)
| Bol                            (* ^, no m flag *)
| Eol.                           (* $, no m flag *)

Definition Regex : Type := list (list Item).

Definition eq_nocase (c a : ascii) : bool :=
  Ascii.eqb (Js.upper_char a) (Js.upper_char c).

(** The continuation of a match: the capture of group 1 so far and the
    input that is left. *)
Definition Found : Type := (option string * string)%type.

Definition orelse (a : option Found) (b : option Found) : option Found :=
  match a with Some x => Some x | None => b end.

(** [m items bol cap s]: match [items] at the head of [s]; [bol] tells
    whether [s] is the whole input. *)
Fixpoint m (items : list Item) (bol : bool) (cap : option string) (s : string)
  {struct items} : option Found :=
  match items with
  | [] => Some (cap, s)
  | Lit c :: r =>
      match s with
      | String a s' => if Ascii.eqb a c then m r false cap s' else None
      | EmptyString => None
      end
  | LitI c :: r =>
      match s with
      | String a s' => if eq_nocase c a then m r false cap s' else None
      | EmptyString => None
      end
  | Cls p :: r =>
      match s with
      | String a s' => if p a then m r false cap s' else None
      | EmptyString => None
      end
  | Star p :: r =>
      (fix star (bol : bool) (s : string) {struct s} : option Found :=
         match s with
         | String a s' =>
             if p a then orelse (star false s') (m r bol cap s)
             else m r bol cap s
         | EmptyString => m r bol cap s
         end) bol s
  | Lazy p :: r =>
      (fix more (bol : bool) (s : string) {struct s} : option Found :=
         orelse (m r bol cap s)
           match s with
           | String a s' => if p a then more false s' else None
           | EmptyString => None
           end) bol s
  | Plus p :: r =>
      match s with
      | String a s' =>
          if p a then
            (fix star (s : string) {struct s} : option Found :=
               match s with
               | String b s'' =>
                   if p b then orelse (star s'') (m r false cap s)
                   else m r false cap s
               | EmptyString => m r false cap s
               end) s'
          else None
      | EmptyString => None
      end
  | Opt c :: r =>
      match s with
      | String a s' =>
          if Ascii.eqb a c then orelse (m r false cap s') (m r bol cap s)
          else m r bol cap s
      | EmptyString => m r bol cap s
      end
  | CapStar p :: r =>
      (fix star (acc : string) (bol : bool) (s : string) {struct s}
         : option Found :=
         match s with
         | String a s' =>
             if p a then
               orelse (star (String a acc) false s')
                      (m r bol (Some (Js.rev acc)) s)
             else m r bol (Some (Js.rev acc)) s
         | EmptyString => m r bol (Some (Js.rev acc)) s
         end) EmptyString bol s
  | CapLazy p :: r =>
      (fix more (acc : string) (bol : bool) (s : string) {struct s}
         : option Found :=
         orelse (m r bol (Some (Js.rev acc)) s)
           match s with
           | String a s' => if p a then more (String a acc) false s' else None
           | EmptyString => None
           end) EmptyString bol s
  | Bol :: r => if bol then m r bol cap s else None
  | Eol :: r =>
      match s with
      | EmptyString => m r bol cap s
      | String _ _ => None
      end
  end.

(** The alternatives at one position, in order. *)
Fixpoint here (re : Regex) (bol : bool) (s : string) : option Found :=
  match re with
  | [] => None
  | items :: rest => orelse (m items bol None s) (here rest bol s)
  end.

(** The replacement text: a constant, or [$1]. *)
Inductive Repl : Type :=
| Text (t : string)
| Group1.

Definition expand (r : Repl) (cap : option string) : string :=
  match r with
  | Text t => t
  | Group1 => match cap with Some c => c | None => EmptyString end
  end.

(** [s.replace(re, r)] without the [g] flag: the leftmost match. *)
Fixpoint replace_at (re : Regex) (r : Repl) (bol : bool) (s : string) : string :=
  match here re bol s with
  | Some (cap, rest) => (expand r cap ++ rest)%string
  | None =>
      match s with
      | String a s' => String a (replace_at re r false s')
      | EmptyString => EmptyString
      end
  end.

Definition replace (re : Regex) (r : Repl) (s : string) : string :=
  replace_at re r true s.

(** [s.replace(re, r)] with the [g] flag: every match, left to right,
    the search resuming where the last match ended (one character later
    after an empty match). *)
Fixpoint replace_all_at (fuel : nat) (re : Regex) (r : Repl) (bol : bool)
    (s : string) : string :=
  match fuel with
  | O => s
  | S fuel' =>
      let step :=
        match s with
        | String a s' => String a (replace_all_at fuel' re r false s')
        | EmptyString => EmptyString
        end in
      match here re bol s with
      | Some (cap, rest) =>
          if (String.length rest <? String.length s)%nat
          then (expand r cap ++ replace_all_at fuel' re r false rest)%string
          else (expand r cap ++ step)%string
      | None => step
      end
  end.

Definition replaceAll (re : Regex) (r : Repl) (s : string) : string :=
  replace_all_at (S (String.length s)) re r true s.

(** [re.test(s)]. *)
Fixpoint test_at (re : Regex) (bol : bool) (s : string) : bool :=
  match here re bol s with
  | Some _ => true
  | None =>
      match s with
      | String _ s' => test_at re false s'
      | EmptyString => false
      end
  end.

Definition test (re : Regex) (s : string) : bool := test_at re true s.

(** [s.match(re)] without the [g] flag: the matched text and group 1. *)
Fixpoint exec_at (re : Regex) (bol : bool) (s : string)
  : option (string * option string) :=
  match here re bol s with
  | Some (cap, rest) =>
      Some (Js.take (String.length s - String.length rest) s, cap)
  | None =>
      match s with
      | String _ s' => exec_at re false s'
      | EmptyString => None
      end
  end.

Definition exec (re : Regex) (s : string) : option (string * option string) :=
  exec_at re true s.

(** Character classes. *)
Definition any (_ : ascii) : bool := true.
Definition dot (c : ascii) : bool :=
  negb (Ascii.eqb c "010") && negb (Ascii.eqb c "013").
Definition chr (c : ascii) (a : ascii) : bool := Ascii.eqb a c.
Definition not_chr (c : ascii) (a : ascii) : bool := negb (Ascii.eqb a c).
Definition one_of (cs : list ascii) (a : ascii) : bool :=
  existsb (Ascii.eqb a) cs.
Definition none_of (cs : list ascii) (a : ascii) : bool :=
  negb (one_of cs a).

Definition lits (s : string) : list Item := map Lit (list_ascii_of_string s).
Definition litsI (s : string) : list Item := map LitI (list_ascii_of_string s).

End Regex.

(** ** [JSON.parse] *)

Module Json.

(** The result of parsing a piece of text: a value and the text after
    it, or a [SyntaxError]. *)
Inductive Parsed (A : Type) : Type :=
| Value (a : A) (rest : string)
| SyntaxError.
Arguments Value {A} a rest.
Arguments SyntaxError {A}.

Definition is_ws (c : ascii) : bool :=
  let n := Js.code c in
  (n =? 32)%nat || (n =? 9)%nat || (n =? 10)%nat || (n =? 13)%nat.

Fixpoint skip_ws (s : string) : string :=
  match s with
  | String c s' => if is_ws c then skip_ws s' else s
  | EmptyString => EmptyString
  end.

Definition hex4 (a b c d : ascii) : option Z :=
  match Num.digit_of 16 a, Num.digit_of 16 b, Num.digit_of 16 c,
        Num.digit_of 16 d with
  | Some x, Some y, Some z, Some w => Some (((x * 16 + y) * 16 + z) * 16 + w)%Z
  | _, _, _, _ => None
  end.

(** The characters of a string literal after its opening quote, up to
    the closing quote.  A [\u] escape above 255 is kept modulo 256 here;
    [parse] reports such texts as [Beyond]. *)
Fixpoint string_body (s : string) (acc : string) : Parsed string :=
  match s with
  | EmptyString => SyntaxError
  | String "034" r => Value (Js.rev acc) r
  | String "092" (String e r) =>
      match e with
      | "034"%char | "092"%char | "/"%char => string_body r (String e acc)
      | "b"%char => string_body r (String "008" acc)
      | "f"%char => string_body r (String "012" acc)
      | "n"%char => string_body r (String "010" acc)
      | "r"%char => string_body r (String "013" acc)
      | "t"%char => string_body r (String "009" acc)
      | "u"%char =>
          match r with
          | String a (String b (String c (String d r'))) =>
              match hex4 a b c d with
              | Some n =>
                  string_body r' (String (ascii_of_nat (Z.to_nat (n mod 256))) acc)
              | None => SyntaxError
              end
          | _ => SyntaxError
          end
      | _ => SyntaxError
      end
  | String "092" EmptyString => SyntaxError
  | String c r =>
      if (Js.code c <? 32)%nat then SyntaxError
      else string_body r (String c acc)
  end.

(** A number: an optional minus sign; [0], or a digit from 1 to 9 and
    more digits; an optional fraction; an optional exponent. *)
Definition number (s : string) : Parsed Q :=
  let '(neg, s1) :=
    match s with String "-" t => (true, t) | _ => (false, s) end in
  let '(i, ni, s2) :=
    match s1 with
    | String "0" t => (0%Z, 1, t)
    | _ => Num.digits 10 s1 0%Z 0
    end in
  match ni with
  | O => SyntaxError
  | S _ =>
      let frac :=
        match s2 with
        | String "." t =>
            let '(m, nf, s3) := Num.digits 10 t i 0 in
            match nf with
            | O => None
            | S _ => Some (m, nf, s3)
            end
        | _ => Some (i, 0, s2)
        end in
      match frac with
      | None => SyntaxError
      | Some (m, nf, s3) =>
          let '(e, s4) := Num.exponent s3 in
          let q := Num.scale m (e - Z.of_nat nf) in
          Value (if neg then (- q)%Q else q) s4
      end
  end.

Fixpoint value (fuel : nat) (s : string) {struct fuel} : Parsed JsVal :=
  match fuel with
  | O => SyntaxError
  | S f =>
      match skip_ws s with
      | String "{" r =>
          match skip_ws r with
          | String "}" r' => Value (JObj []) r'
          | r1 => members f r1 []
          end
      | String "[" r =>
          match skip_ws r with
          | String "]" r' => Value (JArr []) r'
          | r1 => elements f r1 []
          end
      | String "034" r =>
          match string_body r EmptyString with
          | Value str r' => Value (JStr str) r'
          | SyntaxError => SyntaxError
          end
      | String "t" (String "r" (String "u" (String "e" r))) =>
          Value (JBool true) r
      | String "f" (String "a" (String "l" (String "s" (String "e" r)))) =>
          Value (JBool false) r
      | String "n" (String "u" (String "l" (String "l" r))) =>
          Value JNull r
      | s' =>
          match number s' with
          | Value q r => Value (JNum q) r
          | SyntaxError => SyntaxError
          end
      end
  end

with members (fuel : nat) (s : string) (acc : list (string * JsVal))
  {struct fuel} : Parsed JsVal :=
  match fuel with
  | O => SyntaxError
  | S f =>
      match s with
      | String "034" r =>
          match string_body r EmptyString with
          | Value k r1 =>
              match skip_ws r1 with
              | String ":" r2 =>
                  match value f r2 with
                  | Value v r3 =>
                      match skip_ws r3 with
                      | String "," r4 => members f (skip_ws r4) ((k, v) :: acc)
                      | String "}" r4 => Value (JObj (List.rev ((k, v) :: acc))) r4
                      | _ => SyntaxError
                      end
                  | SyntaxError => SyntaxError
                  end
              | _ => SyntaxError
              end
          | SyntaxError => SyntaxError
          end
      | _ => SyntaxError
      end
  end

with elements (fuel : nat) (s : string) (acc : list JsVal)
  {struct fuel} : Parsed JsVal :=
  match fuel with
  | O => SyntaxError
  | S f =>
      match value f s with
      | Value v r1 =>
          match skip_ws r1 with
          | String "," r2 => elements f r2 (v :: acc)
          | String "]" r2 => Value (JArr (List.rev (v :: acc))) r2
          | _ => SyntaxError
          end
      | SyntaxError => SyntaxError
      end
  end.

(** Does the text hold a [\u] escape above 255?  In a well-formed text
    a backslash occurs inside string literals only, where it starts an
    escape. *)
Fixpoint wide_escape (s : string) : bool :=
  match s with
  | String "092" (String "u" (String a (String b (String c (String d r))))) =>
      match hex4 a b c d with
      | Some n => (255 <? n)%Z || wide_escape r
      | None => wide_escape r
      end
  | String "092" (String _ r) => wide_escape r
  | String _ r => wide_escape r
  | EmptyString => false
  end.

(** What [JSON.parse] does: it returns a value, it throws a
    [SyntaxError], or, [Beyond], the text is well formed but one of its
    strings holds a [\u] escape above 255, which no [string] of the model
    represents. *)
Inductive Result : Type :=
| Ok (v : JsVal)
| Throws
| Beyond.

(** [JSON.parse(text)].  Every call of the parser consumes a character,
    so twice the length of the text is fuel enough. *)
Definition parse (text : string) : Result :=
  match value (2 * String.length text + 2) text with
  | Value v rest =>
      match skip_ws rest with
      | EmptyString => if wide_escape text then Beyond else Ok v
      | String _ _ => Throws
      end
  | SyntaxError => Throws
  end.

End Json.

(** ** The response parser *)

Module AIResponseParserService.

Import Regex.

Definition sp : ascii -> bool := Js.is_space.
Definition dq : ascii := "034"%char.
Definition backtick : ascii := "096"%char.
Definition backslash : ascii := "092"%char.
Definition fence : list Item := [Lit backtick; Lit backtick; Lit backtick].

(** [parseUnstructuredResponse]. *)
Definition parseUnstructuredResponse (content : string) : JsVal :=
  JObj
    [ ("workspace_description", JStr (Js.take 200 content ++ "...")%string);
      ("style_assessment",
        JObj [ ("current_style", JStr "Modern workspace");
               ("alignment_score", JNum (7 # 10));
               ("alignment_explanation", JStr "Good potential for improvement") ]);
      ("ergonomic_evaluation", JArr []);
      ("improvement_priorities",
        JArr [ JStr "Enhance ergonomics"; JStr "Improve organization";
               JStr "Add personal touches" ]);
      ("color_analysis",
        JObj [ ("dominant_colors",
                 JArr [ JStr "#F5F5F5"; JStr "#E0E0E0"; JStr "#D0D0D0" ]);
               ("mood", JStr "focus");
               ("color_harmony", JStr "Neutral color scheme") ]) ].

(** The regular expressions of [cleanText], in the order of the source.
    In the comments [Q] stands for the double quote character and [B]
    for the backtick. *)

(* /BBBjson\s*/gi *)
Definition re_fence_json : Regex := [ fence ++ litsI "json" ++ [Star sp] ].
(* /BBB\s*/g *)
Definition re_fence : Regex := [ fence ++ [Star sp] ].
(* /^\s*{\s*Q[^Q]*Q\s*:\s*Q([^Q]* )Q.*}\s*$/s *)
Definition re_object_field : Regex :=
  [ [ Bol; Star sp; Lit "{"; Star sp; Lit dq; Star (not_chr dq); Lit dq;
      Star sp; Lit ":"; Star sp; Lit dq; CapStar (not_chr dq); Lit dq;
      Star any; Lit "}"; Star sp; Eol ] ].
(* /^\s*{\s*([^}]* )\s*}\s*$/s *)
Definition re_object : Regex :=
  [ [ Bol; Star sp; Lit "{"; Star sp; CapStar (not_chr "}"); Star sp; Lit "}";
      Star sp; Eol ] ].
(* /^\s*\[\s*([^\]]* )\s*\]\s*$/s *)
Definition re_array : Regex :=
  [ [ Bol; Star sp; Lit "["; Star sp; CapStar (not_chr "]"); Star sp; Lit "]";
      Star sp; Eol ] ].
(* /^[^:]*:\s*Q([^Q]* )Q.*$/s *)
Definition re_prefix_quoted : Regex :=
  [ [ Bol; Star (not_chr ":"); Lit ":"; Star sp; Lit dq; CapStar (not_chr dq);
      Lit dq; Star any; Eol ] ].
(* /^[^:]*:\s*([^,}]* ).*$/s *)
Definition re_prefix_bare : Regex :=
  [ [ Bol; Star (not_chr ":"); Lit ":"; Star sp;
      CapStar (none_of [","%char; "}"%char]); Star any; Eol ] ].
(* /^[Q']|[Q']$/g, where ' is the apostrophe *)
Definition re_outer_quotes : Regex :=
  [ [ Bol; Cls (one_of [dq; "'"%char]) ]; [ Cls (one_of [dq; "'"%char]); Eol ] ].
(* /\\Q/g  /\\n/g  /\\t/g  /\\r/g  /\\\\/g *)
Definition re_esc_quote : Regex := [ [ Lit backslash; Lit dq ] ].
Definition re_esc_n : Regex := [ [ Lit backslash; Lit "n" ] ].
Definition re_esc_t : Regex := [ [ Lit backslash; Lit "t" ] ].
Definition re_esc_r : Regex := [ [ Lit backslash; Lit "r" ] ].
Definition re_esc_backslash : Regex := [ [ Lit backslash; Lit backslash ] ].
(* /,\s*$/ *)
Definition re_trailing_comma : Regex := [ [ Lit ","; Star sp; Eol ] ].
(* /^\s*,/ *)
Definition re_leading_comma : Regex := [ [ Bol; Star sp; Lit "," ] ].
(* /[{}[\]]/g *)
Definition re_brackets : Regex :=
  [ [ Cls (one_of ["{"%char; "}"%char; "["%char; "]"%char]) ] ].
(* /^QcategoryQ:\s*Q[^Q]*Q,?\s*/i   /^QstatusQ:\s*Q[^Q]*Q,?\s*/i *)
Definition re_key_dropped (key : string) : Regex :=
  [ [Bol; Lit dq] ++ litsI key ++
    [ Lit dq; Lit ":"; Star sp; Lit dq; Star (not_chr dq); Lit dq; Opt ",";
      Star sp ] ].
(* /^QobservationQ:\s*Q([^Q]* )Q.*$/i   /^QrecommendationQ:\s*Q([^Q]* )Q.*$/i *)
Definition re_key_value (key : string) : Regex :=
  [ [Bol; Lit dq] ++ litsI key ++
    [ Lit dq; Lit ":"; Star sp; Lit dq; CapStar (not_chr dq); Lit dq; Star dot;
      Eol ] ].
(* /Q[^Q]*Q:\s*/g *)
Definition re_any_key : Regex :=
  [ [ Lit dq; Star (not_chr dq); Lit dq; Lit ":"; Star sp ] ].
(* /Q\s*,?\s*$/g *)
Definition re_trailing_quote : Regex :=
  [ [ Lit dq; Star sp; Opt ","; Star sp; Eol ] ].
(* /^[^a-zA-Z0-9]*/ *)
Definition re_leading_junk : Regex :=
  [ [ Bol; Star (fun c => negb (Js.is_alnum c)) ] ].
(* /\s+/g *)
Definition re_spaces : Regex := [ [ Plus sp ] ].
(* /^[^\w]*$/ *)
Definition re_no_word : Regex :=
  [ [ Bol; Star (fun c => negb (Js.is_word c)); Eol ] ].
(* /^[a-z]/ *)
Definition re_lower_start : Regex := [ [ Bol; Cls Js.is_lower ] ].

Definition none : Repl := Text EmptyString.

(** The replacements of [cleanText], before the final test. *)
Definition scrub (text : string) : string :=
  let cleaned := text in
  let cleaned := replaceAll re_fence_json none cleaned in
  let cleaned := replaceAll re_fence none cleaned in
  let cleaned := replace re_object_field Group1 cleaned in
  let cleaned := replace re_object Group1 cleaned in
  let cleaned := replace re_array Group1 cleaned in
  let cleaned := replace re_prefix_quoted Group1 cleaned in
  let cleaned := replace re_prefix_bare Group1 cleaned in
  let cleaned := replaceAll re_outer_quotes none cleaned in
  let cleaned := replaceAll re_esc_quote (Text (String dq EmptyString)) cleaned in
  let cleaned := replaceAll re_esc_n (Text " ") cleaned in
  let cleaned := replaceAll re_esc_t (Text " ") cleaned in
  let cleaned := replaceAll re_esc_r none cleaned in
  let cleaned := replaceAll re_esc_backslash (Text (String backslash EmptyString)) cleaned in
  let cleaned := replace re_trailing_comma none cleaned in
  let cleaned := replace re_leading_comma none cleaned in
  let cleaned := replaceAll re_brackets none cleaned in
  let cleaned := replace (re_key_dropped "category") none cleaned in
  let cleaned := replace (re_key_dropped "status") none cleaned in
  let cleaned := replace (re_key_value "observation") Group1 cleaned in
  let cleaned := replace (re_key_value "recommendation") Group1 cleaned in
  let cleaned := replaceAll re_any_key none cleaned in
  let cleaned := replaceAll re_trailing_quote none cleaned in
  let cleaned := replace re_leading_junk none cleaned in
  let cleaned := replaceAll re_spaces (Text " ") cleaned in
  Js.trim cleaned.

(** [cleaned.charAt(0).toUpperCase() + cleaned.slice(1)] *)
Definition capitalize (s : string) : string :=
  match s with
  | String c s' => String (Js.upper_char c) s'
  | EmptyString => EmptyString
  end.

(** [cleanText]. *)
Definition cleanText (text : JsVal) : string :=
  match text with
  | JStr t =>
      let cleaned := scrub t in
      if String.eqb cleaned "" || (String.length cleaned <? 3)%nat
         || test re_no_word cleaned
      then EmptyString
      else if test re_lower_start cleaned then capitalize cleaned
      else cleaned
  | _ => EmptyString
  end.

(* /BBBjson\s*([\s\S]*?)\s*BBB/ *)
Definition re_json_block : Regex :=
  [ fence ++ lits "json" ++ [Star sp; CapLazy any; Star sp] ++ fence ].
(* /\{[\s\S]*\}/ *)
Definition re_json_object : Regex := [ [ Lit "{"; Star any; Lit "}" ] ].

(** What [extractStructuredData] hands back: a value, or [Unmodelled]
    when the value holds a string outside the model. *)
Inductive Extracted : Type :=
| Returned (v : JsVal)
| Unmodelled.

(** [extractStructuredData]: the [try] block evaluates to a parse
    result, and the [catch] turns a thrown [SyntaxError] into the
    unstructured fallback. *)
Definition extractStructuredData (aiContent : string) : Extracted :=
  let attempt :=
    match exec re_json_block aiContent with
    | Some (_, group1) => Json.parse (expand Group1 group1)
    | None =>
        match exec re_json_object aiContent with
        | Some (whole, _) => Json.parse whole
        | None => Json.Ok (parseUnstructuredResponse aiContent)
        end
    end in
  match attempt with
  | Json.Ok v => Returned v
  | Json.Throws => Returned (parseUnstructuredResponse aiContent)
  | Json.Beyond => Unmodelled
  end.

(** The property key of array index [i]. *)
Definition index_key (i : nat) : string :=
  DecimalString.NilZero.string_of_uint (Nat.to_uint i).

Fixpoint indexed (i : nat) (items : list JsVal) : list (string * JsVal) :=
  match items with
  | [] => []
  | x :: rest => (index_key i, x) :: indexed (S i) rest
  end.

Fixpoint characters (s : string) : list JsVal :=
  match s with
  | EmptyString => []
  | String c s' => JStr (String c EmptyString) :: characters s'
  end.

(** [{ ...v }]: the own enumerable properties of [v], those of an array
    or of a string being its elements under their indices. *)
Definition spread (v : JsVal) : list (string * JsVal) :=
  match v with
  | JObj fields => fields
  | JArr items => indexed 0 items
  | JStr s => indexed 0 (characters s)
  | _ => []
  end.

(** [typeof v === 'object'] for a truthy [v]; of the inherited members
    only the prototype object itself is not a function. *)
Definition is_object (v : JsVal) : bool :=
  match v with
  | JArr _ | JObj _ | JNative "__proto__" => true
  | _ => false
  end.

(** [obj.k] on the fields of an object built by a spread. *)
Definition field (fields : list (string * JsVal)) (k : string) : JsVal :=
  match Val.own fields k with
  | Some x => x
  | None => JUndefined
  end.

(** [v.k] for a [v] already found truthy: the access cannot throw. *)
Definition member (v : JsVal) (k : string) : JsVal :=
  match Val.prop v k with
  | Some x => x
  | None => JUndefined
  end.

(** [obj.k = x], and [{ ...obj, k: x }]. *)
Definition assign (fields : list (string * JsVal)) (k : string) (x : JsVal)
  : list (string * JsVal) :=
  fields ++ [(k, x)].

(** [a || b] on strings. *)
Definition or_text (a b : string) : string :=
  if String.eqb a "" then b else a.

(** The callback of [ergonomic_evaluation.map] in [cleanAnalysisData];
    [None]: reading [evaluation.observation] threw. *)
Definition cleanEvaluation (evaluation : JsVal) : option JsVal :=
  match Val.prop evaluation "observation",
        Val.prop evaluation "description",
        Val.prop evaluation "recommendation" with
  | Some observation, Some description0, Some recommendation0 =>
      Some (JObj
              (assign
                 (assign (spread evaluation) "observation"
                    (JStr (or_text (cleanText observation)
                             (or_text (cleanText description0)
                                      "Assessment in progress"))))
                 "recommendation"
                 (JStr (or_text (cleanText recommendation0)
                                "Consider ergonomic improvements"))))
  | _, _, _ => None
  end.

(** [arr.map(f)] for a callback that can throw. *)
Fixpoint map_or_throw (f : JsVal -> option JsVal) (items : list JsVal)
  : option (list JsVal) :=
  match items with
  | [] => Some []
  | x :: rest =>
      match f x with
      | None => None
      | Some y =>
          match map_or_throw f rest with
          | None => None
          | Some ys => Some (y :: ys)
          end
      end
  end.

(** [cleanAnalysisData]; [None]: a TypeError was thrown. *)
Definition cleanAnalysisData (data : JsVal) : option JsVal :=
  if negb (Val.truthy data) || negb (is_object data) then Some data
  else
    let cleaned := spread data in
    let cleaned :=
      if Val.truthy (field cleaned "workspace_description")
      then assign cleaned "workspace_description"
             (JStr (cleanText (field cleaned "workspace_description")))
      else cleaned in
    let cleaned :=
      if Val.truthy (field cleaned "style_assessment")
      then
        let assessment := field cleaned "style_assessment" in
        assign cleaned "style_assessment"
          (JObj
             (assign
                (assign (spread assessment) "current_style"
                   (JStr (cleanText (member assessment "current_style"))))
                "alignment_explanation"
                (JStr (cleanText (member assessment "alignment_explanation")))))
      else cleaned in
    let evaluated :=
      match field cleaned "ergonomic_evaluation" with
      | JArr items =>
          match map_or_throw cleanEvaluation items with
          | Some evaluations =>
              Some (assign cleaned "ergonomic_evaluation"
                      (JArr (filter (fun evaluation =>
                                       Val.truthy (member evaluation "category"))
                                    evaluations)))
          | None => None
          end
      | _ => Some cleaned
      end in
    match evaluated with
    | None => None
    | Some cleaned =>
        Some
          (JObj
             match field cleaned "improvement_priorities" with
             | JArr priorities =>
                 assign cleaned "improvement_priorities"
                   (JArr (map (fun priority => JStr (cleanText priority))
                              priorities))
             | _ => cleaned
             end)
    end.

Record StructureCheck : Type := {
  isValid : bool;
  error : option string;
  missingFields : option (list string)
}.

(** [validateResponseStructure]. *)
Definition validateResponseStructure (data : JsVal) : StructureCheck :=
  let requiredFields := ["workspace_description"] in
  if negb (Val.truthy data) || negb (is_object data) then
    {| isValid := false;
       error := Some "Response is not a valid object";
       missingFields := None |}
  else
    let missing :=
      filter (fun field0 => negb (Val.truthy (member data field0)))
             requiredFields in
    if (0 <? List.length missing)%nat then
      {| isValid := false;
         error := Some "Missing required fields";
         missingFields := Some missing |}
    else {| isValid := true; error := None; missingFields := None |}.

End AIResponseParserService.

(** ** The prompt context *)

Module AIPromptService.

Record QuizResponse : Type := {
  questionId : string;
  selectedOptionIds : list string;
  timestamp : Z
}.

(** [new Map(pairs).get(k)]: the value of the last pair with key [k]. *)
Fixpoint map_get (pairs : list (string * option string)) (k : string)
  : option (option string) :=
  match pairs with
  | [] => None
  | (k', v) :: rest =>
      match map_get rest k with
      | Some v' => Some v'
      | None => if String.eqb k' k then Some v else None
      end
  end.

Definition vibeMap : list (string * string) :=
  [ ("focus-minimal",
      "Focus & Minimal - Clean, distraction-free environment for deep work");
    ("creative-inspiring",
      "Creative & Inspiring - Vibrant space that sparks creativity and innovation");
    ("cozy-warm",
      "Cozy & Warm - Comfortable, welcoming atmosphere for relaxed productivity") ].

Definition colorMap : list (string * string) :=
  [ ("neutral-tones", "Neutral Tones - Calming beiges, whites, and soft grays");
    ("bold-accents",
      "Bold Accents - Energizing pops of color with strong contrasts");
    ("natural-greens",
      "Natural Greens - Refreshing plant-inspired earth tones") ].

Definition budgetMap : list (string * string) :=
  [ ("budget-low", "Under $500 - Budget-friendly essentials and DIY solutions");
    ("budget-mid", "$500 - $1500 - Quality pieces with good value for money");
    ("budget-high",
      "$1500+ - Premium furniture and complete workspace transformation") ].

(** [tbl[responseMap.get(question) || ''] || fallback] *)
Definition describe (responseMap : list (string * option string))
    (question : string) (tbl : list (string * string)) (fallback : string)
  : JsVal :=
  let answer :=
    match map_get responseMap question with
    | Some (Some a) => a
    | Some None | None => EmptyString
    end in
  Val.or_else (Table.get_str tbl answer) (JStr fallback).

(** [createPromptContext]: the [AIPromptContext] object. *)
Definition createPromptContext (quizResponses : list QuizResponse) : JsVal :=
  let responseMap :=
    map (fun response =>
           (questionId response, nth_error (selectedOptionIds response) 0))
        quizResponses in
  JObj
    [ ("userVibe",
        describe responseMap "workspace-vibe" vibeMap "Modern and functional");
      ("colorPreference",
        describe responseMap "color-preference" colorMap "Neutral and calming");
      ("budgetRange",
        describe responseMap "budget-range" budgetMap "Mid-range quality");
      ("imageDescription", JStr "") ].

End AIPromptService.

(** ** The product recommendation generator *)

Module ProductRecommendationService.

Record Product : Type := {
  product_category : string;
  product_name : string;
  product_description : string;
  basePrice : Z;
  product_tags : list string
}.

Record Price : Type := {
  min : Z;
  max : Z;
  currency : string
}.

Record ProductRecommendation : Type := {
  id : string;
  name : string;
  description : string;
  price : Price;
  category : string;
  imageUrl : string;
  tags : list string;
  rating : Q
}.

Definition Rand (A : Type) : Type := nat -> A * nat.

(** [Math.round]: the nearest integer, halves upwards. *)
Definition Math_round (x : Q) : Z := Qfloor (x + (1 # 2))%Q.

(** [calculatePriceMultiplier]; [None]: [budgetRange.toLowerCase()]
    threw. *)
Definition calculatePriceMultiplier (budgetRange : JsVal) : option Q :=
  if negb (Val.truthy budgetRange) then Some 1%Q
  else
    match Val.toLowerCase budgetRange with
    | None => None
    | Some budgetStr =>
        if Js.includes budgetStr "under" || Js.includes budgetStr "500"
        then Some (6 # 10)%Q
        else if Js.includes budgetStr "1500" || Js.includes budgetStr "high"
                || Js.includes budgetStr "premium"
        then Some (18 # 10)%Q
        else Some 1%Q
    end.

(** [getBaseProducts]. *)
Definition getBaseProducts : list Product :=
  [ {| product_category := "chair";
       product_name := "Ergonomic Office Chair";
       product_description :=
         "Comfortable office chair with lumbar support and adjustable height for better posture and productivity.";
       basePrice := 150;
       product_tags := ["ergonomic"; "comfort"; "productivity"] |};
    {| product_category := "desk";
       product_name := "Standing Desk Converter";
       product_description :=
         "Adjustable desk converter that allows you to alternate between sitting and standing throughout the day.";
       basePrice := 200;
       product_tags := ["adjustable"; "health"; "ergonomic"] |};
    {| product_category := "lighting";
       product_name := "LED Desk Lamp";
       product_description :=
         "Adjustable LED desk lamp with multiple brightness levels and color temperatures to reduce eye strain.";
       basePrice := 60;
       product_tags := ["adjustable"; "eye-care"; "modern"] |};
    {| product_category := "storage";
       product_name := "Desktop Organizer";
       product_description :=
         "Multi-compartment desk organizer to keep your workspace tidy and improve organization.";
       basePrice := 35;
       product_tags := ["organization"; "tidy"; "productivity"] |};
    {| product_category := "tech";
       product_name := "Monitor Stand";
       product_description :=
         "Adjustable monitor stand to improve screen positioning and reduce neck strain.";
       basePrice := 45;
       product_tags := ["ergonomic"; "adjustable"; "organization"] |};
    {| product_category := "decor";
       product_name := "Desktop Plant";
       product_description :=
         "Low-maintenance succulent or air plant to add natural elements and improve air quality.";
       basePrice := 25;
       product_tags := ["natural"; "air-quality"; "aesthetic"] |} ].

Definition when (b : bool) (p : Product) : list Product :=
  if b then [p] else [].

(** [getStyleSpecificProducts]; [None]: [userVibe.toLowerCase()] threw. *)
Definition getStyleSpecificProducts (userVibe : JsVal) : option (list Product) :=
  if negb (Val.truthy userVibe) then Some []
  else
    match Val.toLowerCase userVibe with
    | None => None
    | Some vibe =>
        Some
          (when (Js.includes vibe "modern" || Js.includes vibe "minimalist")
             {| product_category := "decor";
                product_name := "Minimalist Wall Art";
                product_description :=
                  "Clean, geometric wall art that complements a modern workspace aesthetic.";
                basePrice := 40;
                product_tags := ["modern"; "minimalist"; "aesthetic"] |}
           ++ when (Js.includes vibe "cozy" || Js.includes vibe "warm")
             {| product_category := "lighting";
                product_name := "Warm Ambient Light";
                product_description :=
                  "Soft, warm lighting to create a cozy and comfortable workspace atmosphere.";
                basePrice := 55;
                product_tags := ["cozy"; "warm"; "ambient"] |}
           ++ when (Js.includes vibe "productive" || Js.includes vibe "professional")
             {| product_category := "storage";
                product_name := "Filing Cabinet";
                product_description :=
                  "Compact filing cabinet to organize documents and maintain a professional workspace.";
                basePrice := 120;
                product_tags := ["professional"; "organization"; "storage"] |}
           ++ when (Js.includes vibe "creative" || Js.includes vibe "artistic")
             {| product_category := "decor";
                product_name := "Inspiration Board";
                product_description :=
                  "Cork board or magnetic board for displaying ideas, sketches, and inspiration.";
                basePrice := 30;
                product_tags := ["creative"; "inspiration"; "organization"] |}
           ++ when (Js.includes vibe "tech" || Js.includes vibe "gaming")
             {| product_category := "tech";
                product_name := "RGB LED Strip";
                product_description :=
                  "Customizable RGB LED lighting to create an immersive tech workspace atmosphere.";
                basePrice := 35;
                product_tags := ["tech"; "gaming"; "customizable"] |})
    end.

(** [getFallbackRecommendations]. *)
Definition getFallbackRecommendations : list ProductRecommendation :=
  [ {| id := "rec_fallback_1";
       name := "Ergonomic Office Chair";
       description :=
         "Comfortable office chair with lumbar support for better posture.";
       price := {| min := 120; max := 180; currency := "USD" |};
       category := "chair";
       imageUrl :=
         "https://via.placeholder.com/300x200/4A90E2/FFFFFF?text=Office+Chair";
       tags := ["ergonomic"; "comfort"];
       rating := (43 # 10)%Q |};
    {| id := "rec_fallback_2";
       name := "LED Desk Lamp";
       description := "Adjustable LED desk lamp to reduce eye strain.";
       price := {| min := 45; max := 75; currency := "USD" |};
       category := "lighting";
       imageUrl :=
         "https://via.placeholder.com/300x200/4A90E2/FFFFFF?text=Desk+Lamp";
       tags := ["lighting"; "adjustable"];
       rating := (45 # 10)%Q |};
    {| id := "rec_fallback_3";
       name := "Desktop Organizer";
       description :=
         "Multi-compartment organizer to keep your workspace tidy.";
       price := {| min := 25; max := 45; currency := "USD" |};
       category := "storage";
       imageUrl :=
         "https://via.placeholder.com/300x200/4A90E2/FFFFFF?text=Organizer";
       tags := ["organization"; "storage"];
       rating := (44 # 10)%Q |} ].

Definition hex_digit (n : nat) : ascii :=
  if (n <? 10)%nat then ascii_of_nat (48 + n) else ascii_of_nat (55 + n).

Definition percent (n : nat) : string :=
  String "%" (String (hex_digit (n / 16)) (String (hex_digit (n mod 16)) EmptyString)).

(** The characters [encodeURIComponent] leaves alone. *)
Definition unreserved (c : ascii) : bool :=
  Js.is_alnum c || Regex.one_of (list_ascii_of_string "-_.!~*'()") c.

(** [encodeURIComponent]: every other character as the percent-encoded
    bytes of its UTF-8 form (two bytes from 128 on). *)
Fixpoint encodeURIComponent (s : string) : string :=
  match s with
  | EmptyString => EmptyString
  | String c s' =>
      let n := Js.code c in
      ((if unreserved c then String c EmptyString
        else if (n <? 128)%nat then percent n
        else percent (192 + n / 64) ++ percent (128 + n mod 64))
       ++ encodeURIComponent s')%string
  end.

Definition decimal (n : nat) : string :=
  DecimalString.NilZero.string_of_uint (Nat.to_uint n).

(** The body of [selectedProducts.forEach((product, index) => ...)].
    The rating is the exact value of [4.2 + Math.random() * 0.6]; the
    source rounds the product and the sum to binary64. *)
Definition recommend (Math_random : nat -> Q) (priceMultiplier : Q)
    (product : Product) (index : nat) : Rand ProductRecommendation := fun n =>
  let adjustedPrice :=
    Math_round (inject_Z (basePrice product) * priceMultiplier)%Q in
  let priceVariation := Math_round (inject_Z adjustedPrice * (2 # 10))%Q in
  ({| id := ("rec_" ++ decimal (index + 1))%string;
      name := product_name product;
      description := product_description product;
      price := {| min := (adjustedPrice - priceVariation)%Z;
                  max := (adjustedPrice + priceVariation)%Z;
                  currency := "USD" |};
      category := product_category product;
      imageUrl :=
        ("https://via.placeholder.com/300x200/4A90E2/FFFFFF?text="
         ++ encodeURIComponent (product_name product))%string;
      tags := product_tags product;
      rating := ((42 # 10) + Math_random n * (6 # 10))%Q |}, S n).

Fixpoint recommendAll (Math_random : nat -> Q) (priceMultiplier : Q)
    (products : list Product) (index : nat)
  : Rand (list ProductRecommendation) := fun n =>
  match products with
  | [] => ([], n)
  | product :: rest =>
      let '(r, n1) := recommend Math_random priceMultiplier product index n in
      let '(rs, n2) := recommendAll Math_random priceMultiplier rest (S index) n1 in
      (r :: rs, n2)
  end.

(** [generateRecommendations]. *)
Definition generateRecommendations (Math_random : nat -> Q)
    (analysisData promptContext : JsVal)
  : Rand (list ProductRecommendation) := fun n =>
  let attempt :=
    match Val.prop promptContext "budgetRange" with
    | None => None
    | Some budgetRange =>
        match calculatePriceMultiplier budgetRange with
        | None => None
        | Some priceMultiplier =>
            match Val.prop promptContext "userVibe" with
            | None => None
            | Some userVibe =>
                match getStyleSpecificProducts userVibe with
                | None => None
                | Some styleProducts =>
                    let allProducts := getBaseProducts ++ styleProducts in
                    let selectedProducts := firstn 8 allProducts in
                    Some (recommendAll Math_random priceMultiplier
                            selectedProducts 0 n)
                end
            end
        end
    end in
  match attempt with
  | Some result => result
  | None => (getFallbackRecommendations, n)
  end.

(** [priorities.some(p => p.toLowerCase().includes(a)
    || p.toLowerCase().includes(b))]: the elements are visited in order
    until one passes; [None] when [p.toLowerCase()] throws on the way. *)
Fixpoint some_mention (a b : string) (priorities : list JsVal) : option bool :=
  match priorities with
  | [] => Some false
  | p :: rest =>
      match Val.toLowerCase p with
      | None => None
      | Some lower =>
          if Js.includes lower a || Js.includes lower b then Some true
          else some_mention a b rest
      end
  end.

(** [analysisData.improvement_priorities?.some(...)]: [undefined], hence
    falsy, when there are no priorities; a TypeError when
    [analysisData] is [null] or [undefined], and when the priorities are
    not an array, for nothing else has a method [some]. *)
Definition priorities_mention (analysisData : JsVal) (a b : string)
  : option bool :=
  match Val.prop analysisData "improvement_priorities" with
  | None => None
  | Some JUndefined | Some JNull => Some false
  | Some (JArr priorities) => some_mention a b priorities
  | Some _ => None
  end.

(** The comparators of [filterByAnalysisInsights]: products of category
    [first] before the others. *)
Definition category_first (first : string) (a b : ProductRecommendation) : Z :=
  if String.eqb (category a) first && negb (String.eqb (category b) first)
  then (-1)%Z
  else if String.eqb (category b) first && negb (String.eqb (category a) first)
  then 1%Z
  else 0%Z.

(** The array [filterByAnalysisInsights] sorts in place: as it is
    returned, or as it is left when an exception leaves the function. *)
Inductive Filtered : Type :=
| Prioritized (recommendations : list ProductRecommendation)
| LeftAt (recommendations : list ProductRecommendation).

(** [filterByAnalysisInsights]. *)
Definition filterByAnalysisInsights
    (recommendations : list ProductRecommendation) (analysisData : JsVal)
  : Filtered :=
  match priorities_mention analysisData "light" "bright" with
  | None => LeftAt recommendations
  | Some lighting =>
      let recommendations :=
        if lighting
        then Sort.sort (category_first "lighting") recommendations
        else recommendations in
      match priorities_mention analysisData "organiz" "clutter" with
      | None => LeftAt recommendations
      | Some storage =>
          Prioritized
            (if storage
             then Sort.sort (category_first "storage") recommendations
             else recommendations)
      end
  end.

End ProductRecommendationService.

(** ** The colour extraction service *)

(** Pixel channels and centroids are integers; luminance, saturation and
    their averages are real numbers. *)
Module ColorExtractionService.

Inductive Mood : Type := focus | creativity | calm | energizing.

Record ColorPalette : Type := {
  id : string;
  name : string;
  colors : list string;
  mood : Mood;
  description : string
}.

Record ColorExtractionOptions : Type := {
  maxColors : Z;
  quality : Z;
  ignoreWhite : bool;
  ignoreBlack : bool
}.

(** [Partial<ColorExtractionOptions>]. *)
Record PartialOptions : Type := {
  maxColors_opt : option Z;
  quality_opt : option Z;
  ignoreWhite_opt : option bool;
  ignoreBlack_opt : option bool
}.

Definition Pixel : Type := (Z * Z * Z)%type.

Record ExtractedColor : Type := {
  hex : string;
  rgb : R * R * R;
  frequency : R;
  luminance : R
}.

Record Group : Type := {
  pixels : list Pixel;
  centroid : Pixel
}.

Definition DEFAULT_OPTIONS : ColorExtractionOptions :=
  {| maxColors := 6; quality := 10; ignoreWhite := true; ignoreBlack := true |}.

(** [{ ...DEFAULT_OPTIONS, ...options }] *)
Definition merge (options : PartialOptions) : ColorExtractionOptions :=
  let pick {A} (o : option A) (d : A) := match o with Some x => x | None => d end in
  {| maxColors := pick (maxColors_opt options) (maxColors DEFAULT_OPTIONS);
     quality := pick (quality_opt options) (quality DEFAULT_OPTIONS);
     ignoreWhite := pick (ignoreWhite_opt options) (ignoreWhite DEFAULT_OPTIONS);
     ignoreBlack := pick (ignoreBlack_opt options) (ignoreBlack DEFAULT_OPTIONS) |}.

(** One channel of [calculateLuminance], on a value already divided by
    255. *)
Definition linearize (c : R) : R :=
  if Rle_dec c (3928 / 100000)
  then (c / (1292 / 100))%R
  else Rpower ((c + 55 / 1000) / (1055 / 1000)) (24 / 10).

(** [calculateLuminance]. *)
Definition calculateLuminance (r g b : R) : R :=
  let rs := linearize (r / 255) in
  let gs := linearize (g / 255) in
  let bs := linearize (b / 255) in
  (2126 / 10000 * rs + 7152 / 10000 * gs + 722 / 10000 * bs)%R.

Definition pixel_luminance (p : Pixel) : R :=
  let '(r, g, b) := p in calculateLuminance (IZR r) (IZR g) (IZR b).

(** The predicate of [pixels.filter] in [extractDominantColors]. *)
Definition keep (options : ColorExtractionOptions) (pixel : Pixel) : bool :=
  let luminance0 := pixel_luminance pixel in
  if ignoreWhite options && (if Rgt_dec luminance0 (9 / 10) then true else false)
  then false
  else if ignoreBlack options && (if Rlt_dec luminance0 (1 / 10) then true else false)
  then false
  else true.

(** The square of [calculateColorDistance], an integer. *)
Definition calculateColorDistance2 (color1 color2 : Pixel) : Z :=
  let '(r1, g1, b1) := color1 in
  let '(r2, g2, b2) := color2 in
  ((r2 - r1) ^ 2 + (g2 - g1) ^ 2 + (b2 - b1) ^ 2)%Z.

(** [calculateColorDistance]. *)
Definition calculateColorDistance (color1 color2 : Pixel) : R :=
  sqrt (IZR (calculateColorDistance2 color1 color2)).

(** [Math.round(sum / count)] for integers, [count > 0]. *)
Definition round_div (sum count : Z) : Z := ((2 * sum + count) / (2 * count))%Z.

(** [calculateAverageColor]. *)
Definition calculateAverageColor (ps : list Pixel) : Pixel :=
  let sum :=
    fold_left (fun acc pixel =>
                 let '(a0, a1, a2) := acc in
                 let '(p0, p1, p2) := pixel in
                 (a0 + p0, a1 + p1, a2 + p2)%Z)
              ps (0, 0, 0)%Z in
  let count := Z.of_nat (List.length ps) in
  let '(s0, s1, s2) := sum in
  (round_div s0 count, round_div s1 count, round_div s2 count).

Definition threshold : R := 30.

(** The inner loop of [groupSimilarColors]: the pixel joins the first
    group whose centroid is nearer than the threshold; [None] when no
    group is. *)
Fixpoint join (pixel : Pixel) (groups : list Group) : option (list Group) :=
  match groups with
  | [] => None
  | group :: rest =>
      if Rlt_dec (calculateColorDistance pixel (centroid group)) threshold
      then
        let ps := pixels group ++ [pixel] in
        Some ({| pixels := ps; centroid := calculateAverageColor ps |} :: rest)
      else
        match join pixel rest with
        | Some rest' => Some (group :: rest')
        | None => None
        end
  end.

(** [groupSimilarColors]. *)
Definition groupSimilarColors (ps : list Pixel) : list Group :=
  fold_left (fun groups pixel =>
               match join pixel groups with
               | Some groups' => groups'
               | None => groups ++ [ {| pixels := [pixel]; centroid := pixel |} ]
               end)
            ps [].

(** [arr.slice(0, n)]. *)
Definition slice0 {A : Type} (n : Z) (arr : list A) : list A :=
  if (n <? 0)%Z then firstn (Z.to_nat (Z.of_nat (List.length arr) + n)) arr
  else firstn (Z.to_nat n) arr.

Fixpoint toUpperCase (s : string) : string :=
  match s with
  | EmptyString => EmptyString
  | String c s' => String (Js.upper_char c) (toUpperCase s')
  end.

(** [Math.round(x).toString(16)], padded to two digits, for an integer. *)
Definition hex2 (x : Z) : string :=
  let digits := HexadecimalString.NilZero.string_of_uint (N.to_hex_uint (Z.abs_N x)) in
  let h := if (x <? 0)%Z then String "-" digits else digits in
  if (String.length h =? 1)%nat then String "0" h else h.

(** [rgbToHex]; the upper-casing meets hexadecimal digits only. *)
Definition rgbToHex (r g b : Z) : string :=
  String "#" (toUpperCase (hex2 r ++ hex2 g ++ hex2 b)%string).

(** [extractDominantColors]. *)
Definition extractDominantColors (ps : list Pixel)
    (options : ColorExtractionOptions) : list ExtractedColor :=
  let filteredPixels := filter (keep options) ps in
  let colorGroups := groupSimilarColors filteredPixels in
  let sortedGroups :=
    slice0 (maxColors options)
      (Sort.sort (fun a b => (Z.of_nat (List.length (pixels b))
                              - Z.of_nat (List.length (pixels a)))%Z)
                 colorGroups) in
  map (fun group =>
         let avgColor := calculateAverageColor (pixels group) in
         let '(r, g, b) := avgColor in
         {| hex := rgbToHex r g b;
            rgb := (IZR r, IZR g, IZR b);
            frequency := (INR (List.length (pixels group))
                          / INR (List.length filteredPixels))%R;
            luminance := calculateLuminance (IZR r) (IZR g) (IZR b) |})
      sortedGroups.

(** The saturation [determineMood] computes for one colour. *)
Definition saturation (color : ExtractedColor) : R :=
  let '(r, g, b) := rgb color in
  let max := Rmax (Rmax r g) b in
  let min := Rmin (Rmin r g) b in
  if Req_dec_T max 0 then 0%R else ((max - min) / max)%R.

(** The counters of [determineMood]. *)
Record Totals : Type := {
  warmColors : nat;
  coolColors : nat;
  totalSaturation : R;
  totalLuminance : R
}.

(** One round of [colors.forEach] in [determineMood]. *)
Definition tally (t : Totals) (color : ExtractedColor) : Totals :=
  let '(r, g, b) := rgb color in
  let warm := if Rgt_dec r b then true else false in
  {| warmColors := if warm then S (warmColors t) else warmColors t;
     coolColors := if warm then coolColors t else S (coolColors t);
     totalSaturation := (totalSaturation t + saturation color)%R;
     totalLuminance := (totalLuminance t + luminance color)%R |}.

Definition gtb (x y : R) : bool := if Rgt_dec x y then true else false.
Definition ltb (x y : R) : bool := if Rlt_dec x y then true else false.

(** [determineMood]. *)
Definition determineMood (colors0 : list ExtractedColor) : Mood :=
  match colors0 with
  | [] => focus
  | _ =>
      let t :=
        fold_left tally colors0
          {| warmColors := 0; coolColors := 0;
             totalSaturation := 0; totalLuminance := 0 |} in
      let avgSaturation := (totalSaturation t / INR (List.length colors0))%R in
      let avgLuminance := (totalLuminance t / INR (List.length colors0))%R in
      let isWarm := (coolColors t <? warmColors t)%nat in
      if gtb avgSaturation (6 / 10) && gtb avgLuminance (5 / 10) then energizing
      else if gtb avgSaturation (4 / 10) && isWarm then creativity
      else if ltb avgLuminance (3 / 10) || ltb avgSaturation (2 / 10) then focus
      else calm
  end.

Definition decimal (n : nat) : string :=
  DecimalString.NilZero.string_of_uint (Nat.to_uint n).

Definition decimalZ (z : Z) : string :=
  DecimalString.NilZero.string_of_int (Z.to_int z).

(** [generateDescription]. *)
Definition generateDescription (colors0 : list ExtractedColor) (mood0 : Mood)
  : string :=
  let colorCount := decimal (List.length colors0) in
  match mood0 with
  | focus =>
      "Neutral color scheme with " ++ colorCount
      ++ " balanced tones that promote concentration and minimize distractions"
  | creativity =>
      "Inspiring palette of " ++ colorCount
      ++ " warm colors that stimulate creative thinking and innovation"
  | calm =>
      "Soothing combination of " ++ colorCount
      ++ " gentle colors that create a peaceful and relaxing atmosphere"
  | energizing =>
      "Vibrant selection of " ++ colorCount
      ++ " bright colors that boost energy and motivation"
  end%string.

(** [createFallbackPalette]; [now] is [Date.now()]. *)
Definition createFallbackPalette (now : Z) : ColorPalette :=
  {| id := ("fallback_" ++ decimalZ now)%string;
     name := "Neutral Workspace";
     colors := ["#F5F5F0"; "#E8E4DD"; "#D4CFC4"; "#A8A39A"];
     mood := focus;
     description :=
       "A calming neutral palette perfect for focused work sessions" |}.

(** [extractColorPalette].  [resized] tells whether
    [resizeImageForAnalysis] returned (it is the one call of the [try]
    block that can throw); [pixelData] is what [extractPixelData]
    produced. *)
Definition extractColorPalette (resized : bool) (pixelData : list Pixel)
    (now : Z) (options : PartialOptions) : ColorPalette :=
  let config := merge options in
  if resized then
    let dominantColors := extractDominantColors pixelData config in
    let hexColors := map hex dominantColors in
    let mood0 := determineMood dominantColors in
    let description0 := generateDescription dominantColors mood0 in
    {| id := ("extracted_" ++ decimalZ now)%string;
       name := "Workspace Colors";
       colors := hexColors;
       mood := mood0;
       description := description0 |}
  else createFallbackPalette now.

(** The specification's reading of the mood rule, over the list of
    colours. *)
Definition sumR (l : list R) : R := fold_right Rplus 0%R l.



Definition isWarmColor (color : ExtractedColor) : bool :=
  let '(r, g, b) := rgb color in gtb r b.

Definition warmCount (colors0 : list ExtractedColor) : nat :=
  List.length (filter isWarmColor colors0).

Definition coolCount (colors0 : list ExtractedColor) : nat :=
  List.length (filter (fun c => negb (isWarmColor c)) colors0).

(** The decision order of the specification: high saturation and high
    luminance, energizing; else moderately saturated and warm-dominant,
    creativity; else low luminance or very low saturation, focus; else
    calm. *)
Definition moodRule (avgSaturation avgLuminance : R) (warm cool : nat) : Mood :=
  if gtb avgSaturation (6 / 10) && gtb avgLuminance (5 / 10) then energizing
  else if gtb avgSaturation (4 / 10) && (cool <? warm)%nat then creativity
  else if ltb avgLuminance (3 / 10) || ltb avgSaturation (2 / 10) then focus
  else calm.

Definition noOptions : PartialOptions :=
  {| maxColors_opt := None; quality_opt := None;
     ignoreWhite_opt := None; ignoreBlack_opt := None |}.

Definition white : Pixel := (255, 255, 255)%Z.

(** A computation that may call [Math.random]. *)
Definition Rand (A : Type) : Type := nat -> A * nat.

Definition sampleColors : list Pixel :=
  [ (240, 240, 235); (200, 195, 185); (150, 145, 135); (100, 95, 85);
    (180, 160, 140); (120, 140, 160) ]%Z.

Definition variation : list Z := [ -10; -5; 0; 5; 10 ]%Z.

(** [arr[Math.floor(Math.random() * arr.length)]]; [None] is
    [undefined], for an index outside the array. *)
Definition draw {A : Type} (Math_random : nat -> Q) (arr : list A)
  : Rand (option A) := fun n =>
  let i := Qfloor (Math_random n * inject_Z (Z.of_nat (List.length arr)))%Q in
  ((if (i <? 0)%Z then None else nth_error arr (Z.to_nat i)), S n).

(** [Math.max(0, Math.min(255, x))]. *)
Definition clamp (x : Z) : Z := Z.max 0 (Z.min 255 x).

(** The callback of [randomColor.map]: one channel with its variation.
    [None]: the variation drawn is [undefined], which makes the channel
    NaN. *)
Definition vary (Math_random : nat -> Q) (channel : Z) : Rand (option Z) :=
  fun n =>
    let '(v, n') := draw Math_random variation n in
    (option_map (fun d => clamp (channel + d)) v, n').

(** The body of the loop of [simulatePixelExtraction]: one pixel, from
    four draws.  [None]: a draw fell outside the arrays, as no value of
    [Math.random] in [0, 1) does; the source then throws a TypeError or
    produces NaN. *)
Definition simulatePixel (Math_random : nat -> Q) : Rand (option Pixel) :=
  fun n =>
    let '(randomColor, n0) := draw Math_random sampleColors n in
    match randomColor with
    | None => (None, n0)
    | Some (r, g, b) =>
        let '(r', n1) := vary Math_random r n0 in
        let '(g', n2) := vary Math_random g n1 in
        let '(b', n3) := vary Math_random b n2 in
        (match r', g', b' with
         | Some x, Some y, Some z => Some (x, y, z)
         | _, _, _ => None
         end, n3)
    end.

Fixpoint simulatePixels (Math_random : nat -> Q) (count : nat)
  : Rand (option (list Pixel)) := fun n =>
  match count with
  | O => (Some [], n)
  | S count' =>
      match simulatePixel Math_random n with
      | (None, n') => (None, n')
      | (Some pixel, n') =>
          match simulatePixels Math_random count' n' with
          | (None, n'') => (None, n'')
          | (Some rest, n'') => (Some (pixel :: rest), n'')
          end
      end
  end.

(** [simulatePixelExtraction]: 1000 sample pixels. *)
Definition simulatePixelExtraction (Math_random : nat -> Q)
  : Rand (option (list Pixel)) :=
  simulatePixels Math_random 1000.

(** *** The mood on the numbers of the source

    The numbers of the source are binary64 floating-point values.  The
    definitions above compute with real numbers: the sums, quotients
    and comparisons of the source without their rounding.  Here
    [determineMood] is given on binary64 values, with the rounding of
    every sum and quotient: an average that equals a threshold as a
    real number can fall on either side of it.  A decimal literal
    denotes the nearest binary64 value, as it does in the source. *)
Module Binary64.

Import PrimFloat.

Record ExtractedColor : Type := {
  hex : string;
  rgb : float * float * float;
  frequency : float;
  luminance : float
}.

(** [Math.max] of two numbers: NaN when one of them is NaN, and +0 of
    the two zeros.  [Math.max(r, g, b)] is [Math_max (Math_max r g) b]. *)
Definition Math_max (x y : float) : float :=
  if is_nan x || is_nan y then nan
  else if (x <? y)%float then y
  else if (y <? x)%float then x
  else if get_sign x then y else x.

(** [Math.min] of two numbers: NaN when one of them is NaN, and -0 of
    the two zeros. *)
Definition Math_min (x y : float) : float :=
  if is_nan x || is_nan y then nan
  else if (x <? y)%float then x
  else if (y <? x)%float then y
  else if get_sign x then x else y.

(** The length of an array as a number; an array has fewer than 2^32
    elements, and these integers are binary64 values. *)
Definition of_nat (n : nat) : float := of_uint63 (Uint63.of_Z (Z.of_nat n)).

(** The saturation [determineMood] computes for one colour. *)
Definition saturation (color : ExtractedColor) : float :=
  let '(r, g, b) := rgb color in
  let max := Math_max (Math_max r g) b in
  let min := Math_min (Math_min r g) b in
  if (max =? 0)%float then 0%float else ((max - min) / max)%float.

(** The counters of [determineMood]. *)
Record Totals : Type := {
  warmColors : nat;
  coolColors : nat;
  totalSaturation : float;
  totalLuminance : float
}.

(** One round of [colors.forEach] in [determineMood]. *)
Definition tally (t : Totals) (color : ExtractedColor) : Totals :=
  let '(r, g, b) := rgb color in
  let warm := (b <? r)%float in
  {| warmColors := if warm then S (warmColors t) else warmColors t;
     coolColors := if warm then coolColors t else S (coolColors t);
     totalSaturation := (totalSaturation t + saturation color)%float;
     totalLuminance := (totalLuminance t + luminance color)%float |}.

(** [determineMood]. *)
Definition determineMood (colors0 : list ExtractedColor) : Mood :=
  match colors0 with
  | [] => focus
  | _ =>
      let t :=
        fold_left tally colors0
          {| warmColors := 0; coolColors := 0;
             totalSaturation := 0; totalLuminance := 0 |} in
      let avgSaturation :=
        (totalSaturation t / of_nat (List.length colors0))%float in
      let avgLuminance :=
        (totalLuminance t / of_nat (List.length colors0))%float in
      let isWarm := (coolColors t <? warmColors t)%nat in
      if (0.6 <? avgSaturation)%float && (0.5 <? avgLuminance)%float
      then energizing
      else if (0.4 <? avgSaturation)%float && isWarm then creativity
      else if (avgLuminance <? 0.3)%float || (avgSaturation <? 0.2)%float
      then focus
      else calm
  end.



(** The vote: a colour is warm when its red exceeds its blue, and cool
    otherwise. *)
Definition isWarmColor (color : ExtractedColor) : bool :=
  let '(r, g, b) := rgb color in (b <? r)%float.

Definition warmCount (colors0 : list ExtractedColor) : nat :=
  List.length (filter isWarmColor colors0).

Definition coolCount (colors0 : list ExtractedColor) : nat :=
  List.length (filter (fun c => negb (isWarmColor c)) colors0).

(** The decision order of the specification. *)
Definition moodRule (avgSaturation avgLuminance : float) (warm cool : nat)
  : Mood :=
  if (0.6 <? avgSaturation)%float && (0.5 <? avgLuminance)%float then energizing
  else if (0.4 <? avgSaturation)%float && (cool <? warm)%nat then creativity
  else if (avgLuminance <? 0.3)%float || (avgSaturation <? 0.2)%float then focus
  else calm.

(** Two yellows, as [extractDominantColors] describes them; the
    luminances are those of [calculateLuminance] to four places. *)
Definition two_yellows : list ExtractedColor :=
  [ {| hex := "#C8C828"; rgb := (200, 200, 40)%float; frequency := 0.5;
       luminance := 0.5374 |};
    {| hex := "#C8C878"; rgb := (200, 200, 120)%float; frequency := 0.5;
       luminance := 0.5494 |} ].

End Binary64.

(** The same two yellows for the definitions that compute with real
    numbers. *)
Definition two_yellows : list ExtractedColor :=
  [ {| hex := "#C8C828"; rgb := (200, 200, 40)%R; frequency := (1 / 2)%R;
       luminance := (5374 / 10000)%R |};
    {| hex := "#C8C878"; rgb := (200, 200, 120)%R; frequency := (1 / 2)%R;
       luminance := (5494 / 10000)%R |} ].

End ColorExtractionService.

(** ** Image validation and the vision client *)

Module AIImageProcessingService.

Record Validation : Type := {
  isValid : bool;
  error : option string
}.

(** [validateImageForAI]; [bytes] is the length of the file read, or
    [None] when reading it throws. *)
Definition validateImageForAI (bytes : option Z) : Validation :=
  match bytes with
  | Some len =>
      (* sizeInMB > 20, with sizeInMB = len / (1024 * 1024) *)
      if (20 * (1024 * 1024) <? len)%Z then
        {| isValid := false;
           error := Some "Image size exceeds 20MB limit for AI processing" |}
      else if (len =? 0)%Z then
        {| isValid := false; error := Some "Image file is empty or corrupted" |}
      else {| isValid := true; error := None |}
  | None =>
      {| isValid := false; error := Some "Unable to validate image file" |}
  end.

(** [String.fromCharCode(...chunk)]: one code unit for each byte. *)
Definition fromCharCode (chunk : list ascii) : string :=
  string_of_list_ascii chunk.

(** [uint8Array.slice(i, j)] for [i <= j]. *)
Definition slice (uint8Array : list ascii) (i j : nat) : list ascii :=
  firstn (j - i) (skipn i uint8Array).

Definition chunkSize : nat := Z.to_nat 8192.

(** The [for] loop of [convertImageToBase64] from index [i] on, with
    [binaryString] as built so far; [fuel] bounds the iterations. *)
Fixpoint appendChunks (fuel : nat) (uint8Array : list ascii) (i : nat)
    (binaryString : string) : string :=
  match fuel with
  | O => binaryString
  | S fuel' =>
      if (i <? List.length uint8Array)%nat then
        appendChunks fuel' uint8Array (i + chunkSize)
          (binaryString
           ++ fromCharCode (slice uint8Array i (i + chunkSize)))%string
      else binaryString
  end.

(** The alphabet of [btoa], and its digit for a value below 64. *)
Definition base64 : string :=
  "ABCDEFGHIJKLMNOPQRSTUVWXYZabcdefghijklmnopqrstuvwxyz0123456789+/".

Definition digit (v : nat) : ascii :=
  match String.get v base64 with
  | Some c => c
  | None => "="%char
  end.

(** [btoa] on the code units of a binary string: three bytes give four
    digits, and the last group is padded. *)
Fixpoint encode (codes : list nat) : string :=
  match codes with
  | [] => EmptyString
  | [a] =>
      String (digit (a / 4))
        (String (digit (a mod 4 * 16)) "==")
  | [a; b] =>
      String (digit (a / 4))
        (String (digit (a mod 4 * 16 + b / 16))
           (String (digit (b mod 16 * 4)) "="))
  | a :: b :: c :: rest =>
      String (digit (a / 4))
        (String (digit (a mod 4 * 16 + b / 16))
           (String (digit (b mod 16 * 4 + c / 64))
              (String (digit (c mod 64)) (encode rest))))
  end.

Definition btoa (binaryString : string) : string :=
  encode (map nat_of_ascii (list_ascii_of_string binaryString)).

(** [convertImageToBase64]; [bytes] is the content of the file, [None]
    when reading it throws.  The loop is run for as many iterations as
    the file has bytes, and one more. *)
Definition convertImageToBase64 (bytes : option (list ascii))
  : string + string :=
  match bytes with
  | None => inl "Unable to process image file"
  | Some uint8Array =>
      inr (btoa (appendChunks (S (List.length uint8Array)) uint8Array 0 ""))
  end.

End AIImageProcessingService.

Module OpenAIClientService.

Inductive ErrorCode : Type :=
| NETWORK_ERROR | API_ERROR | TIMEOUT_ERROR | INVALID_IMAGE | QUOTA_EXCEEDED
| UNKNOWN_ERROR | RATE_LIMIT_ERROR | INVALID_API_KEY.

Record AIAnalysisError : Type := {
  code : ErrorCode;
  message : string;
  details : option string;
  retryable : bool
}.

(** [createError]. *)
Definition createError (code0 : ErrorCode) (message0 : string)
  : AIAnalysisError :=
  {| code := code0;
     message := message0;
     details := None;
     retryable :=
       match code0 with
       | NETWORK_ERROR | TIMEOUT_ERROR | API_ERROR | RATE_LIMIT_ERROR => true
       | _ => false
       end |}.

(** What the call to the remote model did: [getClient] failed with an
    [Error] before the [try] was entered, the request threw an [Error]
    ([Some] message) or some other value ([None]), or a response came
    back with its text content, if any. *)
Inductive Reply : Type :=
| ClientUnavailable (message0 : string)
| RequestThrew (message0 : option string)
| Responded (content : option string).

(** A value thrown at the orchestrator: an [Error], or the object
    [createError] builds. *)
Inductive Thrown : Type :=
| PlainError (message0 : string)
| AnalysisError (e : AIAnalysisError).

(** The [catch] of [analyzeImageWithPrompt], for an [Error] with the
    given message. *)
Definition classify (m : string) : AIAnalysisError :=
  if Js.includes m "rate limit" then
    createError RATE_LIMIT_ERROR "API rate limit exceeded. Please try again later."
  else if Js.includes m "invalid_api_key" then
    createError INVALID_API_KEY "Invalid OpenAI API key."
  else if Js.includes m "insufficient_quota" then
    createError QUOTA_EXCEEDED "OpenAI API quota exceeded."
  else if Js.includes m "timeout" then
    createError TIMEOUT_ERROR "Request timed out. Please try again."
  else if Js.includes m "network" || Js.includes m "fetch" then
    createError NETWORK_ERROR "Network error. Please check your connection."
  else if Js.includes m "Proxy connection failed" then
    createError NETWORK_ERROR
      "Unable to connect to secure proxy. Please check your internet connection."
  else if Js.includes m "Proxy API error" then
    createError INVALID_API_KEY
      "Authentication failed. Please check your access token configuration."
  else createError API_ERROR ("OpenAI API error: " ++ m)%string.

(** [analyzeImageWithPrompt]. *)
Definition analyzeImageWithPrompt (reply : Reply) : Thrown + string :=
  match reply with
  | ClientUnavailable m => inl (PlainError m)
  | RequestThrew (Some m) => inl (AnalysisError (classify m))
  | RequestThrew None =>
      inl (AnalysisError (createError API_ERROR "OpenAI API error: Unknown error"))
  | Responded (Some aiContent) =>
      if String.eqb aiContent "" then
        inl (AnalysisError (classify "No response from AI analysis"))
      else inr aiContent
  | Responded None =>
      inl (AnalysisError (classify "No response from AI analysis"))
  end.

(** [API_CONFIG.CACHE_DURATION]: 5 minutes. *)
Definition CACHE_DURATION : Z := 5 * 60 * 1000.

Record CachedApiKey : Type := {
  key : string;
  timestamp : Z
}.

(** The static fields of the class; a client is known by the key it
    was built with. *)
Record Statics : Type := {
  openai : option string;
  cachedApiKey : option CachedApiKey
}.

(** What one request to the proxy does: [fetch] or [response.json()]
    throws, an [Error] with a message or another value; the response is
    not [ok], with its status and the [message] of its body, empty when
    there is none; or the response is [ok], with the [key] of its body,
    empty when there is none. *)
Inductive Fetched : Type :=
| FetchThrew (message0 : option string)
| NotOk (status : nat) (message0 : string)
| Ok (key0 : string).

(** What the [try] block of [fetchApiKeyFromProxy] throws, if it
    throws: the message of the [Error], [None] for another value. *)
Definition thrown_in_try (proxy : Fetched) : option (option string) :=
  match proxy with
  | FetchThrew m => Some m
  | NotOk status message0 =>
      Some (Some ("Proxy API error ("
                  ++ DecimalString.NilZero.string_of_uint (Nat.to_uint status)
                  ++ "): "
                  ++ (if String.eqb message0 "" then "Failed to fetch API key"
                      else message0))%string)
  | Ok key0 =>
      if String.eqb key0 ""
      then Some (Some "Invalid response from proxy: missing API key")
      else None
  end.

(** [fetchApiKeyFromProxy]: the key, or the message of the [Error]
    thrown.  [ACCESS_TOKEN] is empty when the variable is not set; [now]
    and [later] are the values of [Date.now()] at the test of the cache
    and when the key is cached. *)
Definition fetchApiKeyFromProxy (ACCESS_TOKEN : string) (now later : Z)
    (proxy : Fetched) (s : Statics) : (string + string) * Statics :=
  let fresh :=
    match cachedApiKey s with
    | Some cached =>
        let isExpired := (CACHE_DURATION <? now - timestamp cached)%Z in
        if negb isExpired then Some (key cached) else None
    | None => None
    end in
  match fresh with
  | Some k => (inr k, s)
  | None =>
      if String.eqb ACCESS_TOKEN "" then
        (inl ("Access token not found. Please set "
              ++ "EXPO_PUBLIC_WARDROPE_SECURE_TOKEN in your environment.")%string,
         s)
      else
        match thrown_in_try proxy, proxy with
        | None, Ok key0 =>
            (inr key0,
             {| openai := openai s;
                cachedApiKey := Some {| key := key0; timestamp := later |} |})
        | Some (Some m), _ =>
            (inl ("Proxy connection failed: " ++ m)%string, s)
        | _, _ => (inl "Proxy connection failed: Unknown error", s)
        end
  end.

(** [getClient]. *)
Definition getClient (ACCESS_TOKEN : string) (now later : Z)
    (proxy : Fetched) (s : Statics) : (string + string) * Statics :=
  match openai s with
  | Some client => (inr client, s)
  | None =>
      match fetchApiKeyFromProxy ACCESS_TOKEN now later proxy s with
      | (inr apiKey, s1) =>
          (inr apiKey,
           {| openai := Some apiKey; cachedApiKey := cachedApiKey s1 |})
      | (inl e, s1) => (inl e, s1)
      end
  end.

(** [resetClient] and [clearCache]. *)
Definition resetClient (s : Statics) : Statics :=
  {| openai := None; cachedApiKey := None |}.

Definition clearCache (s : Statics) : Statics :=
  {| openai := openai s; cachedApiKey := None |}.

(** [validateConfiguration]; the proxy URL is a constant that is not
    empty. *)
Definition validateConfiguration (ACCESS_TOKEN : string)
  : bool * option string :=
  if String.eqb ACCESS_TOKEN "" then
    (false,
     Some ("Access token is not configured. Please add "
           ++ "EXPO_PUBLIC_WARDROPE_SECURE_TOKEN to your environment variables.")%string)
  else (true, None).

End OpenAIClientService.

(** ** The orchestrator *)

Module AIAnalysisService.

Import OpenAIClientService.

Definition MAX_RETRIES : nat := 5.
Definition RETRY_DELAY_MS : Z := 2000.

Definition INITIALIZING : string := "Initializing analysis...".
Definition PROCESSING_IMAGE : string := "Analyzing workspace image...".
Definition GENERATING_RECOMMENDATIONS : string :=
  "Generating product recommendations...".
Definition EXTRACTING_COLORS : string := "Extracting color palette...".
Definition EVALUATING_ERGONOMICS : string := "Evaluating ergonomic factors...".
Definition FINALIZING : string := "Finalizing results...".

(** What the orchestrator does to the outside, in order. *)
Inductive Event : Type :=
| Progress (step : string) (percent : Z)
| ReadImage
| ModelCall
| Warn (attempt : nat)
| Delay (ms : Z).

Record StyleMatch : Type := {
  vibe : string;
  confidence : Q;
  explanation : string
}.

Record WorkspaceAnalysisResult : Type := {
  id : string;
  summary : string;
  recommendations : list ProductRecommendationService.ProductRecommendation;
  colorPalette : option ColorExtractionService.ColorPalette;
  ergonomicInsights : list ErgonomicAnalysisService.ErgonomicInsight;
  styleMatch : StyleMatch;
  createdAt : Z;
  processingTime : Z
}.

(** [{ ...result, processingTime: t }] *)
Definition withProcessingTime (result : WorkspaceAnalysisResult) (t : Z)
  : WorkspaceAnalysisResult :=
  {| id := id result;
     summary := summary result;
     recommendations := recommendations result;
     colorPalette := colorPalette result;
     ergonomicInsights := ergonomicInsights result;
     styleMatch := styleMatch result;
     createdAt := createdAt result;
     processingTime := t |}.

(** The enrichment steps of [performAnalysis], from the model's text to
    the result object: parsing and cleaning, then the generators modelled
    above.  [CleaningThrew]: an exception before the 80% mark;
    [AssemblyThrew]: an exception while the result object was built. *)
Inductive Enriched : Type :=
| CleaningThrew (message0 : string)
| AssemblyThrew (message0 : string)
| Built (result : WorkspaceAnalysisResult).

(** What surrounds one run of the orchestrator. *)
Record World : Type := {
  (* the length of the photo file at each attempt, None when it cannot
     be read *)
  photo : nat -> option Z;
  (* what the remote model does at each attempt *)
  reply : nat -> Reply;
  (* the enrichment of the model's text at each attempt *)
  enrich : nat -> string -> Enriched;
  (* Date.now() on entry, and when an attempt has succeeded *)
  startTime : Z;
  endTime : nat -> Z
}.

Definition Outcome : Type := (Thrown + WorkspaceAnalysisResult)%type.

(** [performAnalysis], in attempt number [attempt]. *)
Definition performAnalysis (w : World) (attempt : nat)
  : list Event * Outcome :=
  let validation :=
    AIImageProcessingService.validateImageForAI (photo w attempt) in
  if negb (AIImageProcessingService.isValid validation) then
    ([Progress PROCESSING_IMAGE 30; ReadImage],
     inl (PlainError
            ("Image validation failed: "
             ++ match AIImageProcessingService.error validation with
                | Some e => e
                | None => "undefined"
                end)%string))
  else
    match photo w attempt with
    | None =>
        ([Progress PROCESSING_IMAGE 30; ReadImage; ReadImage],
         inl (PlainError "Unable to process image file"))
    | Some _ =>
        let before :=
          [Progress PROCESSING_IMAGE 30; ReadImage; ReadImage;
           Progress PROCESSING_IMAGE 50; ModelCall] in
        match analyzeImageWithPrompt (reply w attempt) with
        | inl e => (before, inl e)
        | inr aiContent =>
            match enrich w attempt aiContent with
            | CleaningThrew m =>
                (before ++ [Progress GENERATING_RECOMMENDATIONS 70],
                 inl (PlainError m))
            | AssemblyThrew m =>
                (before ++ [Progress GENERATING_RECOMMENDATIONS 70;
                            Progress EXTRACTING_COLORS 80;
                            Progress EVALUATING_ERGONOMICS 85;
                            Progress EVALUATING_ERGONOMICS 90],
                 inl (PlainError m))
            | Built result =>
                (before ++ [Progress GENERATING_RECOMMENDATIONS 70;
                            Progress EXTRACTING_COLORS 80;
                            Progress EVALUATING_ERGONOMICS 85;
                            Progress EVALUATING_ERGONOMICS 90],
                 inr result)
            end
        end
    end.

Definition message_of (e : Thrown) : string :=
  match e with
  | PlainError m => m
  | AnalysisError a => message a
  end.

Definition decimal (n : nat) : string :=
  DecimalString.NilZero.string_of_uint (Nat.to_uint n).

(** The [for] loop of [analyzeWorkspace] from attempt number [attempt]
    on, with [remaining] attempts left to make; [lastError] is the
    error of the previous attempt. *)
Fixpoint attempts (w : World) (remaining attempt : nat)
    (lastError : option Thrown) : list Event * Outcome :=
  match remaining with
  | O =>
      ([],
       inl (PlainError
              ("Analysis failed after " ++ decimal MAX_RETRIES ++ " attempts: "
               ++ match lastError with
                  | Some e =>
                      if String.eqb (message_of e) "" then "Unknown error"
                      else message_of e
                  | None => "Unknown error"
                  end)%string))
  | S remaining' =>
      match performAnalysis w attempt with
      | (events, inr result) =>
          (events ++ [Progress FINALIZING 100],
           inr (withProcessingTime result (endTime w attempt - startTime w)%Z))
      | (events, inl e) =>
          let pause :=
            if (attempt <? MAX_RETRIES)%nat then
              [Progress ("Retrying analysis (" ++ decimal attempt ++ "/"
                         ++ decimal MAX_RETRIES ++ ")...")%string 15;
               Delay (RETRY_DELAY_MS * Z.of_nat attempt)%Z]
            else [] in
          let '(later, outcome) :=
            attempts w remaining' (S attempt) (Some e) in
          (events ++ [Warn attempt] ++ pause ++ later, outcome)
      end
  end.

(** [analyzeWorkspace]. *)
Definition analyzeWorkspace (w : World) : list Event * Outcome :=
  let '(events, outcome) := attempts w MAX_RETRIES 1 None in
  ([Progress INITIALIZING 10; Progress PROCESSING_IMAGE 20] ++ events, outcome).

(** Observations on a trace. *)
Definition modelCalls (events : list Event) : nat :=
  List.length (filter (fun e => match e with ModelCall => true | _ => false end) events).

Definition attemptsMade (events : list Event) : nat :=
  List.length
    (filter (fun e => match e with Progress _ 30%Z => true | _ => false end) events).

Fixpoint delays (events : list Event) : list Z :=
  match events with
  | [] => []
  | Delay ms :: rest => ms :: delays rest
  | _ :: rest => delays rest
  end.

(** What [extractColorPalette] of the orchestrator returns: the palette
    of the colour service, or one built from the [color_analysis] of
    the response, whose fields are passed on as they are. *)
Inductive Palette : Type :=
| FromImage (palette : ColorExtractionService.ColorPalette)
| FromAnalysis (id0 name0 : string) (colors0 mood0 description0 : JsVal).

(** The options the orchestrator passes to the colour service. *)
Definition paletteOptions : ColorExtractionService.PartialOptions :=
  {| ColorExtractionService.maxColors_opt := Some 5%Z;
     ColorExtractionService.quality_opt := Some 10%Z;
     ColorExtractionService.ignoreWhite_opt := Some true;
     ColorExtractionService.ignoreBlack_opt := Some true |}.

(** [extractColorPalette] of the orchestrator; [None] is [undefined].
    [resized] and [pixelData] are as in the colour service, [now] and
    [later] the values of [Date.now()] there and here. *)
Definition extractColorPalette (analysisData : JsVal) (resized : bool)
    (pixelData : list ColorExtractionService.Pixel) (now later : Z)
  : option Palette :=
  let extractedPalette :=
    ColorExtractionService.extractColorPalette resized pixelData now
      paletteOptions in
  if (0 <? List.length (ColorExtractionService.colors extractedPalette))%nat
  then Some (FromImage extractedPalette)
  else
    match Val.prop analysisData "color_analysis" with
    | None => None
    | Some color_analysis =>
        let dominant_colors :=
          match color_analysis with
          | JUndefined | JNull => JUndefined
          | _ => AIResponseParserService.member color_analysis "dominant_colors"
          end in
        if Val.truthy dominant_colors then
          Some (FromAnalysis
                  ("palette_" ++ ColorExtractionService.decimalZ later)%string
                  "Workspace Colors"
                  dominant_colors
                  (Val.or_else
                     (AIResponseParserService.member color_analysis "mood")
                     (JStr "focus"))
                  (Val.or_else
                     (AIResponseParserService.member color_analysis
                        "color_harmony")
                     (JStr "Current workspace color scheme")))
        else None
    end.

(** The fields of the result that [performAnalysis] reads off the
    cleaned data. *)
Record Described : Type := {
  summaryText : string;
  styleVibe : string;
  styleConfidence : JsVal;
  styleExplanation : string
}.

(** [describe]: the [summary] and the [styleMatch] of the object
    [performAnalysis] returns; [None] when reading
    [cleanedAnalysisData.workspace_description] throws. *)
Definition describe (cleanedAnalysisData : JsVal) : option Described :=
  match Val.prop cleanedAnalysisData "workspace_description",
        Val.prop cleanedAnalysisData "style_assessment" with
  | Some workspace_description, Some style_assessment =>
      (* style_assessment?.k *)
      let optional k :=
        match Val.prop style_assessment k with
        | Some x => x
        | None => JUndefined
        end in
      Some {| summaryText :=
                AIResponseParserService.or_text
                  (AIResponseParserService.cleanText workspace_description)
                  "Workspace analysis completed";
              styleVibe :=
                AIResponseParserService.or_text
                  (AIResponseParserService.cleanText (optional "current_style"))
                  "Modern workspace";
              styleConfidence :=
                Val.or_else (optional "alignment_score") (JNum (7 # 10));
              styleExplanation :=
                AIResponseParserService.or_text
                  (AIResponseParserService.cleanText
                     (optional "alignment_explanation"))
                  "Good style alignment" |}
  | _, _ => None
  end.

End AIAnalysisService.

(** ** Orders and predicates the properties are stated with *)

Module Props.

Import ErgonomicAnalysisService.

(** The severity order: poor < needs-improvement < good. *)
Definition rank (status0 : JsVal) : option Z :=
  if Val.is_string status0 "poor" then Some 0%Z
  else if Val.is_string status0 "needs-improvement" then Some 1%Z
  else if Val.is_string status0 "good" then Some 2%Z
  else None.

(** [a] is a canonical status, so is [b], and [a] is not better than [b]. *)
Definition not_better (a b : option JsVal) : Prop :=
  match a, b with
  | Some x, Some y =>
      match rank x, rank y with
      | Some i, Some j => (i <= j)%Z
      | _, _ => False
      end
  | _, _ => False
  end.

Definition canonical_category (v : JsVal) : Prop :=
  exists c, In c allCategories /\ v = JStr c.

Definition canonical_status (v : JsVal) : Prop :=
  exists s, In s priorityOrder /\ v = JStr s.

(** Both closed enumerations are respected. *)
Definition canonical (i : ErgonomicInsight) : Prop :=
  canonical_category (category i) /\ canonical_status (status i).

(** How many insights of a list are about category [c]. *)
Definition count_category (c : string) (insights : list ErgonomicInsight) : nat :=
  List.length (filter (fun i => Val.is_string (category i) c) insights).

(** The raw category and status strings of the evaluation entries are
    not names that an object literal inherits from its prototype. *)
Definition plain_string (v : option JsVal) : bool :=
  match v with
  | Some (JStr s) => negb (Table.inherited (Js.toLowerCase s))
  | _ => true
  end.

Definition plain_item (item : JsVal) : bool :=
  plain_string (Val.prop item "category") && plain_string (Val.prop item "status").

Definition plain (analysisData : JsVal) : bool :=
  match Val.prop analysisData "ergonomic_evaluation" with
  | Some (JArr items) => forallb plain_item items
  | _ => true
  end.

(** Every element of an array of priorities is a string. *)
Definition is_str (v : JsVal) : bool :=
  match v with JStr _ => true | _ => false end.

(** The inputs on which [analyzeErgonomics] reaches its [catch]:
    [null], [undefined], and an [improvement_priorities] array with an
    element that is not a string. *)
Definition reaches_catch (analysisData : JsVal) : bool :=
  match Val.prop analysisData "improvement_priorities" with
  | None => true
  | Some (JArr priorities) => negb (forallb is_str priorities)
  | Some _ => false
  end.

(** The price range of a recommendation is well formed. *)
Definition ordered (r : ProductRecommendationService.ProductRecommendation) : Prop :=
  (ProductRecommendationService.min (ProductRecommendationService.price r)
   <= ProductRecommendationService.max (ProductRecommendationService.price r))%Z.

(** [v.toLowerCase()] is reached and throws: [v] is truthy and not a
    string. *)
Definition toLowerCase_throws (v : JsVal) : bool :=
  Val.truthy v && negb (is_str v).

(** The inputs on which [generateRecommendations] reaches its [catch]:
    a context that is [null] or [undefined], or whose [budgetRange] or
    [userVibe] is truthy and not a string. *)
Definition internal_failure (promptContext : JsVal) : bool :=
  match Val.prop promptContext "budgetRange",
        Val.prop promptContext "userVibe" with
  | Some budgetRange, Some userVibe =>
      toLowerCase_throws budgetRange || toLowerCase_throws userVibe
  | _, _ => true
  end.

(** The names of the six base templates, in their order. *)
Definition base_names : list string :=
  [ "Ergonomic Office Chair"; "Standing Desk Converter"; "LED Desk Lamp";
    "Desktop Organizer"; "Monitor Stand"; "Desktop Plant" ].

(** The five style templates, in their order, each with the two
    keywords that select it. *)
Definition style_templates : list (string * string * string) :=
  [ ("modern", "minimalist", "Minimalist Wall Art");
    ("cozy", "warm", "Warm Ambient Light");
    ("productive", "professional", "Filing Cabinet");
    ("creative", "artistic", "Inspiration Board");
    ("tech", "gaming", "RGB LED Strip") ].

(** The names of the style templates a vibe selects: those with a
    keyword that the vibe, in lower case, includes; none for a vibe
    that is missing or empty. *)
Definition style_names (userVibe : JsVal) : list string :=
  if negb (Val.truthy userVibe) then []
  else
    match Val.toLowerCase userVibe with
    | Some vibe =>
        map (fun template => snd template)
            (filter (fun template =>
                       Js.includes vibe (fst (fst template))
                       || Js.includes vibe (snd (fst template)))
                    style_templates)
    | None => []
    end.

(** The photo passes [validateImageForAI]. *)
Definition valid_photo (bytes : option Z) : bool :=
  AIImageProcessingService.isValid
    (AIImageProcessingService.validateImageForAI bytes).

(** The call to the model fails with an error marked retryable. *)
Definition retryable_failure (r : OpenAIClientService.Reply) : bool :=
  match OpenAIClientService.analyzeImageWithPrompt r with
  | inl (OpenAIClientService.AnalysisError e) => OpenAIClientService.retryable e
  | _ => false
  end.

(** The attempts the retry loop can make. *)
Definition all_attempts : list nat := seq 1 AIAnalysisService.MAX_RETRIES.

(** What the loop does after attempt [a] has failed. *)
Definition after_failure (a : nat) : list AIAnalysisService.Event :=
  AIAnalysisService.Warn a
  :: (if (a <? AIAnalysisService.MAX_RETRIES)%nat
      then [ AIAnalysisService.Progress
               ("Retrying analysis (" ++ AIAnalysisService.decimal a ++ "/5)...")%string
               15;
             AIAnalysisService.Delay (AIAnalysisService.RETRY_DELAY_MS * Z.of_nat a) ]
      else []).

(** The trace of a run whose attempts all fail, each attempt leaving the
    events [during]. *)
Definition failing_run (during : list AIAnalysisService.Event)
  : list AIAnalysisService.Event :=
  [ AIAnalysisService.Progress AIAnalysisService.INITIALIZING 10;
    AIAnalysisService.Progress AIAnalysisService.PROCESSING_IMAGE 20 ]
  ++ flat_map (fun a => during ++ after_failure a) all_attempts.

(** The text [extractStructuredData] hands to [JSON.parse]: the inside
    of the first fenced block, or else the span from the first opening
    brace to the last closing brace. *)
Definition found_json (aiContent : string) : option string :=
  match Regex.exec AIResponseParserService.re_json_block aiContent with
  | Some (_, group1) => Some (Regex.expand Regex.Group1 group1)
  | None =>
      match Regex.exec AIResponseParserService.re_json_object aiContent with
      | Some (whole, _) => Some whole
      | None => None
      end
  end.

Fixpoint last_char (s : string) : option ascii :=
  match s with
  | EmptyString => None
  | String a EmptyString => Some a
  | String _ s' => last_char s'
  end.

(** No character of [s] is in the class [q]. *)
Definition free (q : ascii -> bool) (s : string) : Prop :=
  Js.all_chars (fun c => negb (q c)) s = true.

(** The item consumes one character, and that character is in [q]. *)
Definition forces (q : ascii -> bool) (it : Regex.Item) : Prop :=
  match it with
  | Regex.Lit c => q c = true
  | Regex.LitI c => forall a, Regex.eq_nocase c a = true -> q a = true
  | Regex.Cls p | Regex.Plus p => forall a, p a = true -> q a = true
  | _ => False
  end.

(** Whatever the item consumes is in [q]. *)
Definition within (q : ascii -> bool) (it : Regex.Item) : Prop :=
  match it with
  | Regex.Lit c | Regex.Opt c => q c = true
  | Regex.LitI c => forall a, Regex.eq_nocase c a = true -> q a = true
  | Regex.Cls p | Regex.Star p | Regex.Lazy p | Regex.Plus p
  | Regex.CapStar p | Regex.CapLazy p => forall a, p a = true -> q a = true
  | Regex.Bol | Regex.Eol => True
  end.

(** The regular expression matches at no position of [s]; [bol] tells
    whether [s] is the whole input. *)
Fixpoint nowhere (re : Regex.Regex) (bol : bool) (s : string) : Prop :=
  Regex.here re bol s = None
  /\ match s with
     | String _ s' => nowhere re false s'
     | EmptyString => True
     end.

(** The alternative starts with the anchor [^]. *)
Definition anchored (items : list Regex.Item) : Prop :=
  match items with
  | Regex.Bol :: _ => True
  | _ => False
  end.

(** Clean text: what [cleanText] has nothing to do on. *)

(** Characters that start or belong to a JSON or fence artifact. *)
Definition forbidden (c : ascii) : bool :=
  Regex.one_of [ "096"%char; "{"%char; "}"%char; "["%char; "]"%char;
                 ":"%char; "092"%char ] c.

(** Characters a clean text does not end with. *)
Definition bad_end (c : ascii) : bool :=
  Js.is_space c || Regex.one_of [ ","%char; "034"%char; "'"%char ] c.

(** The only white space is single spaces, each followed by a character
    that is not white space. *)
Fixpoint spaced (s : string) : bool :=
  match s with
  | EmptyString => true
  | String a s' =>
      (if Js.is_space a
       then Ascii.eqb a " "
            && match s' with
               | String b _ => negb (Js.is_space b)
               | EmptyString => false
               end
       else true)
      && spaced s'
  end.

(** Like [spaced], but the text may end with one space. *)
Fixpoint collapsed (s : string) : bool :=
  match s with
  | EmptyString => true
  | String a s' =>
      (if Js.is_space a
       then Ascii.eqb a " "
            && match s' with
               | String b _ => negb (Js.is_space b)
               | EmptyString => true
               end
       else true)
      && collapsed s'
  end.

(** The text is empty or starts with a character of [p]. *)
Definition starts_with (p : ascii -> bool) (s : string) : bool :=
  match s with
  | String c _ => p c
  | EmptyString => true
  end.

(** No artifact is left in a text: none of the forbidden characters,
    and no comma or quote at its end. *)
Definition artifact_free (t : string) : bool :=
  Js.all_chars (fun c => negb (forbidden c)) t
  && match last_char t with
     | Some l => negb (Regex.one_of [ ","%char; "034"%char; "'"%char ] l)
     | None => true
     end.

Definition clean (s : string) : bool :=
  (3 <=? String.length s)%nat
  && Js.all_chars (fun c => negb (forbidden c)) s
  && match s with
     | String c _ => Js.is_upper c || Js.is_digit c
     | EmptyString => false
     end
  && match last_char s with
     | Some c => negb (bad_end c)
     | None => false
     end
  && spaced s.

End Props.

(** ** Sample inputs *)

Module Samples.

(** No randomness: every draw is 0. *)
Definition zeros : nat -> Q := fun _ => 0%Q.

Definition entry (category0 status0 observation : string) : JsVal :=
  JObj [ ("category", JStr category0);
         ("status", JStr status0);
         ("observation", JStr observation);
         ("recommendation", JStr "") ].

(** Scenario A of the specification. *)
Definition one_chair : JsVal :=
  JObj [ ("workspace_description", JStr "A tidy desk by a window.");
         ("ergonomic_evaluation",
           JArr [ entry "chair" "poor" "Chair lacks lumbar support." ]) ].


(** The quiz answered with the given budget option. *)
Definition quiz (budget : string) : list AIPromptService.QuizResponse :=
  [ {| AIPromptService.questionId := "workspace-vibe";
       AIPromptService.selectedOptionIds := ["cozy-warm"];
       AIPromptService.timestamp := 0 |};
    {| AIPromptService.questionId := "budget-range";
       AIPromptService.selectedOptionIds := [budget];
       AIPromptService.timestamp := 0 |} ].

Definition context (budget : string) : JsVal :=
  AIPromptService.createPromptContext (quiz budget).

(** A photo file without content; the model is never reached. *)
Definition empty_photo : AIAnalysisService.World :=
  {| AIAnalysisService.photo := fun _ => Some 0%Z;
     AIAnalysisService.reply := fun _ => OpenAIClientService.Responded None;
     AIAnalysisService.enrich := fun _ _ => AIAnalysisService.CleaningThrew "";
     AIAnalysisService.startTime := 0;
     AIAnalysisService.endTime := fun _ => 0%Z |}.

(** A photo of 1 MB, a model that times out at every attempt. *)
Definition always_timeout : AIAnalysisService.World :=
  {| AIAnalysisService.photo := fun _ => Some 1048576%Z;
     AIAnalysisService.reply :=
       fun _ => OpenAIClientService.RequestThrew (Some "Request timeout");
     AIAnalysisService.enrich := fun _ _ => AIAnalysisService.CleaningThrew "";
     AIAnalysisService.startTime := 0;
     AIAnalysisService.endTime := fun _ => 0%Z |}.

Definition quoted (s : string) : string :=
  (String "034" EmptyString ++ s ++ String "034" EmptyString)%string.

(** A response of one field: an opening brace, the key
    workspace_description and its value in double quotes, a closing
    brace. *)
Definition raw_description : string :=
  ("{" ++ quoted "workspace_description" ++ ": "
   ++ quoted "a tidy desk by a window." ++ "}")%string.

Definition newline : string := String "010" EmptyString.

(** Scenario A of the specification: the response as a fenced block. *)
Definition fenced_response : string :=
  ("```json" ++ newline
   ++ "{" ++ quoted "workspace_description" ++ ": "
   ++ quoted "A tidy desk by a window." ++ ", "
   ++ quoted "ergonomic_evaluation" ++ ": [{"
   ++ quoted "category" ++ ": " ++ quoted "chair" ++ ", "
   ++ quoted "status" ++ ": " ++ quoted "poor" ++ ", "
   ++ quoted "observation" ++ ": " ++ quoted "Chair lacks lumbar support." ++ ", "
   ++ quoted "recommendation" ++ ": " ++ quoted "" ++ "}]}"
   ++ newline ++ "```")%string.

End Samples.

(** ** The result screens *)

(** The helpers of the components that display an analysis result. *)
Module RecommendationCard.

Import ProductRecommendationService.

(** A number in a template literal, for an integer. *)
Definition text_of (z : Z) : string :=
  DecimalString.NilZero.string_of_int (Z.to_int z).

(** [formatPrice]. *)
Definition formatPrice (product : ProductRecommendation) : string :=
  if (min (price product) =? max (price product))%Z
  then ("$" ++ text_of (min (price product)))%string
  else ("$" ++ text_of (min (price product)) ++ " - $"
        ++ text_of (max (price product)))%string.

Definition iconMap : list (string * string) :=
  [ ("desk", "desktopcomputer");
    ("chair", "chair");
    ("lighting", "lightbulb");
    ("storage", "archivebox");
    ("decor", "leaf");
    ("tech", "display") ].

(** [getCategoryIcon]. *)
Definition getCategoryIcon (category0 : string) : JsVal :=
  Val.or_else (Table.get_str iconMap category0) (JStr "square.grid.2x2").

(** The icons [renderStars] pushes. *)
Inductive Star : Type := Full | Half | Empty.

(** [rating % 1]: the remainder has the sign of [rating]. *)
Definition remainder_1 (rating : Q) : Q :=
  (rating - inject_Z (if Qle_bool 0 rating then Qfloor rating
                      else Qceiling rating))%Q.

(** [renderStars]; [None] is [null], returned for a rating that is
    missing or 0.  The rating is a rational: every finite binary64
    value is one, and [Math.floor], [Math.ceil], [% 1] and the
    comparison with 0.5 are exact on it. *)
Definition renderStars (rating0 : option Q) : option (list Star) :=
  match rating0 with
  | None => None
  | Some r =>
      if Qeq_bool r 0 then None
      else
        let fullStars := Qfloor r in
        let hasHalfStar := Qle_bool (1 # 2) (remainder_1 r) in
        let emptyStars := (5 - Qceiling r)%Z in
        Some (repeat Full (Z.to_nat fullStars)
              ++ (if hasHalfStar then [Half] else [])
              ++ repeat Empty (Z.to_nat emptyStars))
  end.

End RecommendationCard.

Module ComfortMetricsDisplay.

Import ErgonomicAnalysisService.

Record ComfortMetric : Type := {
  id : string;
  title : string;
  value : JsVal;
  status : JsVal;
  unit : option string;
  icon : string;
  description : string;
  recommendation : JsVal
}.

Definition values : list (string * list (string * string)) :=
  [ ("height",
      [ ("good", "72-76"); ("needs-improvement", "68-71"); ("poor", "< 65") ]);
    ("angle",
      [ ("good", "100-110"); ("needs-improvement", "90-99"); ("poor", "< 90") ]);
    ("lux",
      [ ("good", "500-750"); ("needs-improvement", "300-499");
        ("poor", "< 300") ]);
    ("distance",
      [ ("good", "50-70"); ("needs-improvement", "40-49"); ("poor", "< 40") ]);
    ("organization",
      [ ("good", "Excellent"); ("needs-improvement", "Fair"); ("poor", "Poor") ]) ].

(** [getMetricValue]: [values[type]?.[status] || 'N/A'].  Every call of
    the component passes one of the five keys of [values] as [type]. *)
Definition getMetricValue (status0 : JsVal) (type : string) : JsVal :=
  let found :=
    match Table.get values type with
    | Table.Own row => Table.get_str row (Table.key_of status0)
    | Table.Inherited _ | Table.Absent => JUndefined
    end in
  Val.or_else found (JStr "N/A").

(** The [switch] of [generateComfortMetrics]: the metric for one
    insight, [None] when no [case] matches its category. *)
Definition metric_of (insight : ErgonomicInsight) : option ComfortMetric :=
  let make id0 title0 type unit0 icon0 description0 :=
    Some {| id := id0;
            title := title0;
            value := getMetricValue (ErgonomicAnalysisService.status insight) type;
            status := ErgonomicAnalysisService.status insight;
            unit := unit0;
            icon := icon0;
            description := description0;
            recommendation := ErgonomicAnalysisService.recommendation insight |} in
  if Val.is_string (category insight) "desk-height" then
    make "desk-height" "Desk Height" "height" (Some "cm")
      "rectangle.on.rectangle" "Optimal desk height for comfortable typing"
  else if Val.is_string (category insight) "chair-posture" then
    make "chair-angle" "Chair Angle" "angle" (Some degree)
      "chair" "Chair back angle for proper lumbar support"
  else if Val.is_string (category insight) "lighting" then
    make "lighting-level" "Lighting Level" "lux" (Some "lux")
      "lightbulb" "Ambient lighting for reduced eye strain"
  else if Val.is_string (category insight) "screen-position" then
    make "screen-distance" "Screen Distance" "distance" (Some "cm")
      "display" "Optimal viewing distance from screen"
  else if Val.is_string (category insight) "organization" then
    make "clutter-level" "Organization" "organization" None
      "square.grid.2x2" "Workspace organization and clutter level"
  else None.

(** [generateComfortMetrics]. *)
Fixpoint generateComfortMetrics (insights : list ErgonomicInsight)
  : list ComfortMetric :=
  match insights with
  | [] => []
  | insight :: rest =>
      match metric_of insight with
      | Some metric => metric :: generateComfortMetrics rest
      | None => generateComfortMetrics rest
      end
  end.

End ComfortMetricsDisplay.


(** ** The daily usage limit *)

Module UsageTrackingService.

Definition STORAGE_VERSION : Z := 1.
Definition DAILY_ANALYSES : Z := 5.

Record DailyUsage : Type := {
  date : string;
  analysisCount : Z;
  lastAnalysisAt : option Z;
  resetAt : Z
}.

Record UsageTracking : Type := {
  currentDaily : DailyUsage;
  totalAnalyses : Z;
  totalDesignsSaved : Z;
  firstUsageAt : Z;
  lastUsageAt : Z;
  version : Z
}.

(** What the storage key holds: nothing ([getItem] gives [null]); a text
    on which the [try] block of [getUsageTracking] throws ([JSON.parse]
    rejects it, or the value parsed has no [currentDaily]); or the text
    [JSON.stringify] wrote for a [UsageTracking], which [JSON.parse]
    reads back. *)
Inductive Item : Type :=
| NoItem
| Unreadable
| Saved (u : UsageTracking).

(** The device: the item held, and how many times the clock and the
    storage have been used. *)
Record Device : Type := {
  held : Item;
  ticks : nat;
  calls : nat
}.

(** [StorageResult<T>]: [{ success: true, data }] or
    [{ success: false, error }]. *)
Inductive StorageResult (A : Type) : Type :=
| Success (data : A)
| Failure (error : string).

Arguments Success {A} data.
Arguments Failure {A} error.

Definition success {A : Type} (r : StorageResult A) : bool :=
  match r with Success _ => true | Failure _ => false end.

Record UsageStats : Type := {
  stats_totalAnalyses : Z;
  stats_totalDesignsSaved : Z;
  todayAnalyses : Z;
  remainingToday : Z;
  dailyLimit : Z;
  daysSinceFirstUse : Z
}.

Section WithDevice.

(** The successive readings of the clock, in milliseconds. *)
Variable Date_now : nat -> Z.
(** [new Date(t).toISOString().split('T')[0]]. *)
Variable ISODate : Z -> string.
(** Whether the k-th call of [AsyncStorage] rejects. *)
Variable rejects : nat -> bool.

Definition tick (d : Device) : Device :=
  {| held := held d; ticks := S (ticks d); calls := calls d |}.

Definition called (d : Device) : Device :=
  {| held := held d; ticks := ticks d; calls := S (calls d) |}.

Definition now (d : Device) : Z * Device := (Date_now (ticks d), tick d).

Definition getTodayDateString (d : Device) : string * Device :=
  (ISODate (Date_now (ticks d)), tick d).

(** [AsyncStorage.getItem]: [None] when the call rejects. *)
Definition getItem (d : Device) : option Item * Device :=
  ((if rejects (calls d) then None else Some (held d)), called d).

(** [AsyncStorage.setItem] with the text of [u]: [false] when the call
    rejects, and nothing is written then. *)
Definition setItem (u : UsageTracking) (d : Device) : bool * Device :=
  if rejects (calls d) then (false, called d)
  else (true, {| held := Saved u; ticks := ticks d; calls := S (calls d) |}).

(** [AsyncStorage.removeItem]. *)
Definition removeItem (d : Device) : bool * Device :=
  if rejects (calls d) then (false, called d)
  else (true, {| held := NoItem; ticks := ticks d; calls := S (calls d) |}).

(** [createUsageTracking]. *)
Definition createUsageTracking (d : Device)
  : StorageResult UsageTracking * Device :=
  let '(now0, d1) := now d in
  let '(today, d2) := getTodayDateString d1 in
  let usageTracking :=
    {| currentDaily :=
         {| date := today; analysisCount := 0;
            lastAnalysisAt := None; resetAt := now0 |};
       totalAnalyses := 0;
       totalDesignsSaved := 0;
       firstUsageAt := now0;
       lastUsageAt := now0;
       version := STORAGE_VERSION |} in
  let '(written, d3) := setItem usageTracking d2 in
  if written then (Success usageTracking, d3)
  else (Failure "Failed to create usage tracking data", d3).

(** [resetDailyUsage]. *)
Definition resetDailyUsage (currentUsage : UsageTracking) (d : Device)
  : StorageResult UsageTracking * Device :=
  let '(now0, d1) := now d in
  let '(today, d2) := getTodayDateString d1 in
  let updatedUsage :=
    {| currentDaily :=
         {| date := today; analysisCount := 0;
            lastAnalysisAt := None; resetAt := now0 |};
       totalAnalyses := totalAnalyses currentUsage;
       totalDesignsSaved := totalDesignsSaved currentUsage;
       firstUsageAt := firstUsageAt currentUsage;
       lastUsageAt := now0;
       version := version currentUsage |} in
  let '(written, d3) := setItem updatedUsage d2 in
  if written then (Success updatedUsage, d3)
  else (Failure "Failed to reset daily usage", d3).

(** [migrateUsageTracking]; [None] when [setItem] rejects and the
    function throws. *)
Definition migrateUsageTracking (oldUsage : UsageTracking) (d : Device)
  : option UsageTracking * Device :=
  let migrated :=
    {| currentDaily := currentDaily oldUsage;
       totalAnalyses := totalAnalyses oldUsage;
       totalDesignsSaved := totalDesignsSaved oldUsage;
       firstUsageAt := firstUsageAt oldUsage;
       lastUsageAt := lastUsageAt oldUsage;
       version := STORAGE_VERSION |} in
  let '(written, d1) := setItem migrated d in
  ((if written then Some migrated else None), d1).

(** [getUsageTracking]. *)
Definition getUsageTracking (d : Device)
  : StorageResult UsageTracking * Device :=
  let failed := Failure "Failed to load usage tracking data" in
  match getItem d with
  | (None, d1) => (failed, d1)
  | (Some NoItem, d1) => createUsageTracking d1
  | (Some Unreadable, d1) => (failed, d1)
  | (Some (Saved usageTracking), d1) =>
      let '(today, d2) := getTodayDateString d1 in
      if negb (String.eqb (date (currentDaily usageTracking)) today) then
        resetDailyUsage usageTracking d2
      else if negb (version usageTracking =? STORAGE_VERSION)%Z then
        match migrateUsageTracking usageTracking d2 with
        | (Some migrated, d3) => (Success migrated, d3)
        | (None, d3) => (failed, d3)
        end
      else (Success usageTracking, d2)
  end.

(** [canPerformAnalysis].  Nothing in its [try] block throws, so the
    result of its [catch] is never returned. *)
Definition canPerformAnalysis (d : Device) : StorageResult bool * Device :=
  match getUsageTracking d with
  | (Failure _, d1) => (Success true, d1)
  | (Success usage, d1) =>
      (Success (analysisCount (currentDaily usage) <? DAILY_ANALYSES)%Z, d1)
  end.

(** [recordAnalysisUsage]. *)
Definition recordAnalysisUsage (d : Device)
  : StorageResult UsageTracking * Device :=
  match getUsageTracking d with
  | (Failure _, d1) => (Failure "Failed to record analysis usage", d1)
  | (Success usage, d1) =>
      let '(now0, d2) := now d1 in
      if (DAILY_ANALYSES <=? analysisCount (currentDaily usage))%Z then
        (Failure "Daily analysis limit of 5 reached", d2)
      else
        let updatedUsage :=
          {| currentDaily :=
               {| date := date (currentDaily usage);
                  analysisCount := analysisCount (currentDaily usage) + 1;
                  lastAnalysisAt := Some now0;
                  resetAt := resetAt (currentDaily usage) |};
             totalAnalyses := totalAnalyses usage + 1;
             totalDesignsSaved := totalDesignsSaved usage;
             firstUsageAt := firstUsageAt usage;
             lastUsageAt := now0;
             version := version usage |} in
        let '(written, d3) := setItem updatedUsage d2 in
        if written then (Success updatedUsage, d3)
        else (Failure "Failed to record analysis usage", d3)
  end.

(** [recordDesignSave]. *)
Definition recordDesignSave (d : Device)
  : StorageResult UsageTracking * Device :=
  match getUsageTracking d with
  | (Failure _, d1) => (Failure "Failed to record design save", d1)
  | (Success usage, d1) =>
      let '(now0, d2) := now d1 in
      let updatedUsage :=
        {| currentDaily := currentDaily usage;
           totalAnalyses := totalAnalyses usage;
           totalDesignsSaved := totalDesignsSaved usage + 1;
           firstUsageAt := firstUsageAt usage;
           lastUsageAt := now0;
           version := version usage |} in
      let '(written, d3) := setItem updatedUsage d2 in
      if written then (Success updatedUsage, d3)
      else (Failure "Failed to record design save", d3)
  end.

(** [getRemainingAnalyses]. *)
Definition getRemainingAnalyses (d : Device) : StorageResult Z * Device :=
  match getUsageTracking d with
  | (Failure _, d1) => (Success DAILY_ANALYSES, d1)
  | (Success usage, d1) =>
      (Success (Z.max 0 (DAILY_ANALYSES - analysisCount (currentDaily usage))),
       d1)
  end.

(** [getUsageStats]. *)
Definition getUsageStats (d : Device) : StorageResult UsageStats * Device :=
  match getUsageTracking d with
  | (Failure _, d1) =>
      (Success {| stats_totalAnalyses := 0;
                  stats_totalDesignsSaved := 0;
                  todayAnalyses := 0;
                  remainingToday := DAILY_ANALYSES;
                  dailyLimit := DAILY_ANALYSES;
                  daysSinceFirstUse := 0 |}, d1)
  | (Success usage, d1) =>
      let '(now0, d2) := now d1 in
      (Success {| stats_totalAnalyses := totalAnalyses usage;
                  stats_totalDesignsSaved := totalDesignsSaved usage;
                  todayAnalyses := analysisCount (currentDaily usage);
                  remainingToday :=
                    Z.max 0 (DAILY_ANALYSES
                             - analysisCount (currentDaily usage));
                  dailyLimit := DAILY_ANALYSES;
                  daysSinceFirstUse :=
                    (now0 - firstUsageAt usage) / (1000 * 60 * 60 * 24) |},
       d2)
  end.

(** [clearUsageTracking]. *)
Definition clearUsageTracking (d : Device) : StorageResult bool * Device :=
  let '(removed, d1) := removeItem d in
  if removed then (Success true, d1)
  else (Failure "Failed to clear usage tracking data", d1).

(** What the home screen does when the user asks for a design:
    [handleDesignMyOffice] opens the quiz or shows the alert of the
    daily limit. *)
Inductive Asked : Type :=
| QuizOpened
| DailyLimitReached.

Definition handleDesignMyOffice (d : Device) : Asked * Device :=
  match canPerformAnalysis d with
  | (Success true, d1) => (QuizOpened, d1)
  | (Success false, d1) | (Failure _, d1) => (DailyLimitReached, d1)
  end.

(** The head of [startAIAnalysis], up to the point where the analysis
    is started: the configuration is checked, then the usage is
    recorded. *)
Inductive Start : Type :=
| ConfigurationError
| UsageLimitError (text : string)
| AnalysisStarted.

Definition startAIAnalysis (configured : bool) (d : Device) : Start * Device :=
  if negb configured then (ConfigurationError, d)
  else
    match recordAnalysisUsage d with
    | (Failure e, d1) =>
        (UsageLimitError (if String.eqb e "" then "Unable to track usage."
                          else e), d1)
    | (Success _, d1) => (AnalysisStarted, d1)
    end.

End WithDevice.

End UsageTrackingService.


(** ** The style quiz *)

Module StyleQuizModal.

Import AIPromptService.

Record QuizOption : Type := {
  option_id : string;
  label : string;
  option_description : option string;
  icon : option string;
  colorSwatch : list string
}.

Inductive QuestionType : Type := single_select | multi_select.

Record QuizQuestion : Type := {
  id : string;
  title : string;
  subtitle : option string;
  options : list QuizOption;
  type : QuestionType
}.

Record QuizState : Type := {
  currentQuestionIndex : nat;
  responses : list QuizResponse;
  isComplete : bool
}.

Definition QUIZ_QUESTIONS : list QuizQuestion :=
  [ {| id := "workspace-vibe";
       title := "What's your ideal workspace mood?";
       subtitle := Some "Choose the vibe that inspires you most";
       type := single_select;
       options :=
         [ {| option_id := "focus-minimal";
              label := "Focus & Minimal";
              option_description :=
                Some "Clean, distraction-free environment for deep work";
              icon := Some "square.stack.3d.up";
              colorSwatch := [] |};
           {| option_id := "creative-inspiring";
              label := "Creative & Inspiring";
              option_description :=
                Some "Vibrant space that sparks creativity and innovation";
              icon := Some "paintbrush";
              colorSwatch := [] |};
           {| option_id := "cozy-warm";
              label := "Cozy & Warm";
              option_description :=
                Some "Comfortable, welcoming atmosphere for relaxed productivity";
              icon := Some "house.heart";
              colorSwatch := [] |} ] |};
    {| id := "color-preference";
       title := "Which color palette appeals to you?";
       subtitle := Some "Select colors that make you feel productive";
       type := single_select;
       options :=
         [ {| option_id := "neutral-tones";
              label := "Neutral Tones";
              option_description :=
                Some "Calming beiges, whites, and soft grays";
              icon := None;
              colorSwatch := ["#F5F5F0"; "#E8E4DD"; "#D4CFC4"; "#A8A39A"] |};
           {| option_id := "bold-accents";
              label := "Bold Accents";
              option_description :=
                Some "Energizing pops of color with strong contrasts";
              icon := None;
              colorSwatch := ["#D96A5F"; "#4A8A76"; "#F39C12"; "#2C3E50"] |};
           {| option_id := "natural-greens";
              label := "Natural Greens";
              option_description :=
                Some "Refreshing plant-inspired earth tones";
              icon := None;
              colorSwatch := ["#6BA394"; "#8FBC8F"; "#98D8C8"; "#A8E6CF"] |} ] |};
    {| id := "budget-range";
       title := "What's your furniture budget?";
       subtitle := Some "Help us suggest options within your price range";
       type := single_select;
       options :=
         [ {| option_id := "budget-low";
              label := "Under $500";
              option_description :=
                Some "Budget-friendly essentials and DIY solutions";
              icon := Some "dollarsign.circle";
              colorSwatch := [] |};
           {| option_id := "budget-mid";
              label := "$500 - $1500";
              option_description :=
                Some "Quality pieces with good value for money";
              icon := Some "dollarsign.circle.fill";
              colorSwatch := [] |};
           {| option_id := "budget-high";
              label := "$1500+";
              option_description :=
                Some "Premium furniture and complete workspace transformation";
              icon := Some "banknote";
              colorSwatch := [] |} ] |} ].

(** The state [useState] starts with. *)
Definition initialState : QuizState :=
  {| currentQuestionIndex := 0; responses := []; isComplete := false |}.

(** [QUIZ_QUESTIONS[quizState.currentQuestionIndex]]; [None] is
    [undefined]. *)
Definition currentQuestion (quizState : QuizState) : option QuizQuestion :=
  nth_error QUIZ_QUESTIONS (currentQuestionIndex quizState).

Definition isFirstQuestion (quizState : QuizState) : bool :=
  (currentQuestionIndex quizState =? 0)%nat.

(** [currentQuestionIndex === QUIZ_QUESTIONS.length - 1] *)
Definition isLastQuestion (quizState : QuizState) : bool :=
  (Z.of_nat (currentQuestionIndex quizState)
   =? Z.of_nat (List.length QUIZ_QUESTIONS) - 1)%Z.

(** [getCurrentResponse]: the first response to the current question.
    The outer [None]: there is no current question, and reading its
    [id] throws. *)
Definition getCurrentResponse (quizState : QuizState)
  : option (option QuizResponse) :=
  match currentQuestion quizState with
  | None => None
  | Some question =>
      Some (find (fun response => String.eqb (questionId response) (id question))
                 (responses quizState))
  end.

(** [canProceed]: [getCurrentResponse() !== null]. *)
Definition canProceed (quizState : QuizState) : option bool :=
  match getCurrentResponse quizState with
  | None => None
  | Some (Some _) => Some true
  | Some None => Some false
  end.

(** [handleOptionSelect]; [None] when reading [currentQuestion.id]
    throws. *)
Definition handleOptionSelect (optionId : string) (now : Z)
    (quizState : QuizState) : option QuizState :=
  match currentQuestion quizState with
  | None => None
  | Some question =>
      let newResponse :=
        {| questionId := id question;
           selectedOptionIds := [optionId];
           timestamp := now |} in
      let updatedResponses :=
        filter (fun response =>
                  negb (String.eqb (questionId response) (id question)))
               (responses quizState) in
      Some {| currentQuestionIndex := currentQuestionIndex quizState;
              responses := updatedResponses ++ [newResponse];
              isComplete := isComplete quizState |}
  end.

(** [handleNext]: the responses handed to [onComplete], if the quiz is
    completed, and the next state.  Whether [saveQuizData] succeeds
    changes the calls that follow in neither way. *)
Definition handleNext (quizState : QuizState)
  : option (list QuizResponse) * QuizState :=
  if isLastQuestion quizState then
    (Some (responses quizState),
     {| currentQuestionIndex := currentQuestionIndex quizState;
        responses := responses quizState;
        isComplete := true |})
  else
    (None,
     {| currentQuestionIndex := S (currentQuestionIndex quizState);
        responses := responses quizState;
        isComplete := isComplete quizState |}).

(** [handleBack]. *)
Definition handleBack (quizState : QuizState) : QuizState :=
  if negb (isFirstQuestion quizState) then
    {| currentQuestionIndex := currentQuestionIndex quizState - 1;
       responses := responses quizState;
       isComplete := isComplete quizState |}
  else quizState.

(** What the user can press while the modal is open: the k-th option
    shown, and the two navigation buttons.  The back button is shown
    only after the first question, and the next button is disabled
    until the current question has a response. *)
Inductive Press : Type :=
| PressOption (k : nat) (now : Z)
| PressNext
| PressBack.

(** One press: the responses handed to [onComplete], if any, and the
    next state; [None] when the render or a handler throws. *)
Definition press (p : Press) (quizState : QuizState)
  : option (option (list QuizResponse) * QuizState) :=
  match currentQuestion quizState with
  | None => None
  | Some question =>
      match p with
      | PressOption k now =>
          match nth_error (options question) k with
          | Some option0 =>
              match handleOptionSelect (option_id option0) now quizState with
              | Some next => Some (None, next)
              | None => None
              end
          | None => Some (None, quizState)
          end
      | PressNext =>
          match canProceed quizState with
          | Some true => Some (handleNext quizState)
          | Some false => Some (None, quizState)
          | None => None
          end
      | PressBack =>
          if negb (isFirstQuestion quizState)
          then Some (None, handleBack quizState)
          else Some (None, quizState)
      end
  end.

(** The presses of one opening of the modal, up to the one that
    completes the quiz: the responses handed to [onComplete], or the
    state when the presses are used up. *)
Fixpoint presses (ps : list Press) (quizState : QuizState)
  : option (list QuizResponse + QuizState) :=
  match ps with
  | [] => Some (inr quizState)
  | p :: rest =>
      match press p quizState with
      | None => None
      | Some (Some completed, _) => Some (inl completed)
      | Some (None, next) => presses rest next
      end
  end.

End StyleQuizModal.

(** ** Further predicates the properties are stated with *)

Module Observations.

(** [null] or [undefined]. *)
Definition nullish (v : JsVal) : bool :=
  match v with
  | JUndefined | JNull => true
  | _ => false
  end.

(** A string that is not empty. *)
Definition is_text (v : JsVal) : bool :=
  match v with
  | JStr s => negb (String.eqb s "")
  | _ => false
  end.

(** An evaluation entry as the cleaner leaves it: a truthy category, and
    an observation and a recommendation that are non-empty strings. *)
Definition usable (evaluation : JsVal) : bool :=
  Val.truthy (AIResponseParserService.member evaluation "category")
  && is_text (AIResponseParserService.member evaluation "observation")
  && is_text (AIResponseParserService.member evaluation "recommendation").

(** The recommendation is of category [c]. *)
Definition in_category (c : string)
    (r : ProductRecommendationService.ProductRecommendation) : bool :=
  String.eqb (ProductRecommendationService.category r) c.

(** The products of category [c] first, the others after them, each
    group in the order it had. *)
Definition partition_first (c : string)
    (l : list ProductRecommendationService.ProductRecommendation)
  : list ProductRecommendationService.ProductRecommendation :=
  filter (in_category c) l ++ filter (fun r => negb (in_category c r)) l.

(** The price range of a recommendation is a proper range above zero. *)
Definition banded (r : ProductRecommendationService.ProductRecommendation) : bool :=
  (0 <? ProductRecommendationService.min (ProductRecommendationService.price r))%Z
  && (ProductRecommendationService.min (ProductRecommendationService.price r)
      <? ProductRecommendationService.max (ProductRecommendationService.price r))%Z.

(** The multipliers [calculatePriceMultiplier] can return. *)
Definition multipliers : list Q := [ (6 # 10)%Q; 1%Q; (18 # 10)%Q ].

(** The base products and the five style products. *)
Definition catalogue : list ProductRecommendationService.Product :=
  ProductRecommendationService.getBaseProducts
  ++ match ProductRecommendationService.getStyleSpecificProducts
             (JStr "modern cozy productive creative tech") with
     | Some products => products
     | None => []
     end.

(** [responseMap.get(question) || ''] in [createPromptContext]: the
    first option of the last response to the question. *)
Definition answer (quizResponses : list AIPromptService.QuizResponse)
    (question : string) : string :=
  match AIPromptService.map_get
          (map (fun response =>
                  (AIPromptService.questionId response,
                   nth_error (AIPromptService.selectedOptionIds response) 0))
               quizResponses)
          question with
  | Some (Some a) => a
  | _ => EmptyString
  end.

(** The places of an insight in the two orders [prioritizeInsights]
    sorts by; -1 for a status or a category that is not in the order. *)
Definition severity (i : ErgonomicAnalysisService.ErgonomicInsight) : Z :=
  Sort.indexOf ErgonomicAnalysisService.priorityOrder
    (ErgonomicAnalysisService.status i).

Definition importance (i : ErgonomicAnalysisService.ErgonomicInsight) : Z :=
  Sort.indexOf ErgonomicAnalysisService.categoryOrder
    (ErgonomicAnalysisService.category i).

(** [a] may stand before [b]: it is more severe, or as severe and of a
    category at least as important. *)
Definition precedes (a b : ErgonomicAnalysisService.ErgonomicInsight) : Prop :=
  (severity a < severity b)%Z
  \/ (severity a = severity b /\ (importance a <= importance b)%Z).

(** One number for the two orders: the severity weighs more than any
    difference of importance. *)
Definition place (i : ErgonomicAnalysisService.ErgonomicInsight) : Z :=
  (10 * severity i + importance i)%Z.

(** The value of a digit of the base64 alphabet; [None] for any other
    character. *)
Definition value_of (c : ascii) : option nat :=
  let n := nat_of_ascii c in
  if (65 <=? n)%nat && (n <=? 90)%nat then Some (n - 65)%nat
  else if (97 <=? n)%nat && (n <=? 122)%nat then Some (n - 71)%nat
  else if (48 <=? n)%nat && (n <=? 57)%nat then Some (n + 4)%nat
  else if (n =? 43)%nat then Some 62%nat
  else if (n =? 47)%nat then Some 63%nat
  else None.

(** The bytes a base64 text stands for, read in groups of four
    characters; [None] for a text that is not base64. *)
Fixpoint decode (fuel : nat) (text : string) : option (list nat) :=
  match fuel, text with
  | _, EmptyString => Some []
  | S fuel', String c1 (String c2 (String c3 (String c4 rest))) =>
      match value_of c1, value_of c2 with
      | Some v1, Some v2 =>
          let first := (v1 * 4 + v2 / 16)%nat in
          if Ascii.eqb c3 "="%char then
            if Ascii.eqb c4 "="%char && String.eqb rest ""
            then Some [first] else None
          else
            match value_of c3 with
            | Some v3 =>
                let second := (v2 mod 16 * 16 + v3 / 4)%nat in
                if Ascii.eqb c4 "="%char then
                  if String.eqb rest "" then Some [first; second] else None
                else
                  match value_of c4, decode fuel' rest with
                  | Some v4, Some more =>
                      Some (first :: second :: (v3 mod 4 * 64 + v4)%nat :: more)
                  | _, _ => None
                  end
            | None => None
            end
      | _, _ => None
      end
  | _, _ => None
  end.

(** What the receiver of the data URL reads: the bytes of the text. *)
Definition atob (text : string) : option (list nat) :=
  decode (String.length text) text.

(** The titles of the table of [generateTitle]. *)
Definition listed_titles : list string :=
  List.concat (map (fun row => map snd (snd row))
                   ErgonomicAnalysisService.titles).

(** The texts the table of [generateRecommendation] holds for a
    category and a status. *)
Definition listed_recommendations (c s : string) : list string :=
  match Table.get ErgonomicAnalysisService.recommendations c with
  | Table.Own row =>
      match Table.get row s with
      | Table.Own texts => texts
      | Table.Inherited _ | Table.Absent => []
      end
  | Table.Inherited _ | Table.Absent => []
  end.

(** The recommendations of the reply that [enhanceRecommendation]
    keeps: those of the evaluation entries that are truthy and longer
    than 20 characters. *)
Definition reply_recommendations (analysisData : JsVal) : list JsVal :=
  match Val.prop analysisData "ergonomic_evaluation" with
  | Some (JArr items) =>
      filter (fun raw =>
                Val.truthy raw && Num.gt (Num.length_of raw) (inject_Z 20))
             (flat_map (fun item =>
                          match Val.prop item "recommendation" with
                          | Some raw => [raw]
                          | None => []
                          end)
                       items)
  | _ => []
  end.

(** The recommendation of the entry, when it is kept, is one of those
    of the reply. *)
Definition kept_is_listed (analysisData item : JsVal) : Prop :=
  forall raw,
    Val.prop item "recommendation" = Some raw ->
    Val.truthy raw && Num.gt (Num.length_of raw) (inject_Z 20) = true ->
    In raw (reply_recommendations analysisData).

(** The text [generateRecommendation] falls back on when its table has
    no entry. *)
Definition generic_recommendation : JsVal :=
  JStr "Consider ergonomic improvements for better comfort".

(** The title of an insight is one of the table, and its recommendation
    is absent (a default insight), one of those the reply gave (more
    than 20 characters), the text for a good status, or one of the
    table for its category and status. *)
Definition worded (analysisData : JsVal)
    (i : ErgonomicAnalysisService.ErgonomicInsight) : Prop :=
  (exists t, ErgonomicAnalysisService.title i = JStr t /\ In t listed_titles)
  /\ (ErgonomicAnalysisService.recommendation i = JUndefined
      \/ In (ErgonomicAnalysisService.recommendation i)
            (reply_recommendations analysisData)
      \/ (Val.is_string (ErgonomicAnalysisService.status i) "good" = true
          /\ ErgonomicAnalysisService.recommendation i
             = JStr "Maintain current setup and monitor for changes")
      \/ (exists r,
            ErgonomicAnalysisService.recommendation i = JStr r
            /\ In r (listed_recommendations
                       (Table.key_of (ErgonomicAnalysisService.category i))
                       (Table.key_of (ErgonomicAnalysisService.status i))))).

(** How the prompt context describes an option of the quiz: by its
    label and its description. *)
Definition described (o : StyleQuizModal.QuizOption) : JsVal :=
  JStr (StyleQuizModal.label o ++ " - "
        ++ match StyleQuizModal.option_description o with
           | Some d => d
           | None => "undefined"
           end)%string.

(** A response answers one of the questions with one of its options. *)
Definition answers (r : AIPromptService.QuizResponse) : Prop :=
  exists q o,
    In q StyleQuizModal.QUIZ_QUESTIONS
    /\ In o (StyleQuizModal.options q)
    /\ AIPromptService.questionId r = StyleQuizModal.id q
    /\ AIPromptService.selectedOptionIds r = [StyleQuizModal.option_id o].

(** At most one response per question, each an answer. *)
Definition valid_responses (rs : list AIPromptService.QuizResponse) : Prop :=
  NoDup (map AIPromptService.questionId rs) /\ Forall answers rs.

(** The response of [rs] to the question [q] selects the option [o]. *)
Definition selects (rs : list AIPromptService.QuizResponse)
    (q : StyleQuizModal.QuizQuestion) (o : StyleQuizModal.QuizOption) : Prop :=
  In o (StyleQuizModal.options q)
  /\ exists r,
       In r rs
       /\ AIPromptService.questionId r = StyleQuizModal.id q
       /\ AIPromptService.selectedOptionIds r = [StyleQuizModal.option_id o].

(** The j-th question of the quiz. *)
Definition question (j : nat) : StyleQuizModal.QuizQuestion :=
  nth j StyleQuizModal.QUIZ_QUESTIONS
    {| StyleQuizModal.id := "";
       StyleQuizModal.title := "";
       StyleQuizModal.subtitle := None;
       StyleQuizModal.options := [];
       StyleQuizModal.type := StyleQuizModal.single_select |}.

(** Every question before the current one has a response. *)
Definition answered_so_far (quizState : StyleQuizModal.QuizState) : Prop :=
  forall j,
    (j < StyleQuizModal.currentQuestionIndex quizState)%nat ->
    exists o, selects (StyleQuizModal.responses quizState) (question j) o.

(** The attempt [a] of the orchestrator returns a result. *)
Definition succeeds (w : AIAnalysisService.World) (a : nat) : bool :=
  match snd (AIAnalysisService.performAnalysis w a) with
  | inr _ => true
  | inl _ => false
  end.

(** The pauses after the attempts [first], [first + 1], ... *)
Definition pauses (first count : nat) : list Z :=
  map (fun a => (AIAnalysisService.RETRY_DELAY_MS * Z.of_nat a)%Z)
      (seq first count).

(** The progress reaches 100 in the trace. *)
Definition finalized (events : list AIAnalysisService.Event) : bool :=
  existsb (fun e =>
             match e with
             | AIAnalysisService.Progress _ 100%Z => true
             | _ => false
             end) events.

(** What the callers ask of the client service between two resets:
    the client, the key, or a cleared cache. *)
Inductive ClientCall : Type :=
| AskClient (now later : Z) (proxy : OpenAIClientService.Fetched)
| AskKey (now later : Z) (proxy : OpenAIClientService.Fetched)
| ClearCache.

(** The answers to the [AskClient] calls of a sequence, and the static
    fields at its end. *)
Fixpoint clients (ACCESS_TOKEN : string) (calls : list ClientCall)
    (s : OpenAIClientService.Statics)
  : list (string + string) * OpenAIClientService.Statics :=
  match calls with
  | [] => ([], s)
  | AskClient now later proxy :: rest =>
      let '(answer, s1) :=
        OpenAIClientService.getClient ACCESS_TOKEN now later proxy s in
      let '(answers, s2) := clients ACCESS_TOKEN rest s1 in
      (answer :: answers, s2)
  | AskKey now later proxy :: rest =>
      clients ACCESS_TOKEN rest
        (snd (OpenAIClientService.fetchApiKeyFromProxy ACCESS_TOKEN now later
                proxy s))
  | ClearCache :: rest =>
      clients ACCESS_TOKEN rest (OpenAIClientService.clearCache s)
  end.

Section Usage.
Import UsageTrackingService.

Variable Date_now : nat -> Z.
Variable ISODate : Z -> string.
Variable rejects : nat -> bool.

(** A call of one of the eight public methods of the usage service:
    what the home screen, the backup service and the recovery ask of
    it. *)
Inductive Request : Type :=
| Check        (* canPerformAnalysis *)
| Record_      (* recordAnalysisUsage *)
| Save         (* recordDesignSave *)
| Remaining    (* getRemainingAnalyses *)
| Stats        (* getUsageStats *)
| Load         (* getUsageTracking *)
| Create       (* createUsageTracking *)
| Clear.       (* clearUsageTracking *)

(** The two requests that start the item afresh. *)
Definition resets (r : Request) : bool :=
  match r with
  | Create | Clear => true
  | _ => false
  end.

(** One request: whether it was a recording that succeeded, and the
    device after it. *)
Definition serve (r : Request) (d : Device) : bool * Device :=
  match r with
  | Check => (false, snd (canPerformAnalysis Date_now ISODate rejects d))
  | Record_ =>
      let '(result, d1) := recordAnalysisUsage Date_now ISODate rejects d in
      (success result, d1)
  | Save => (false, snd (recordDesignSave Date_now ISODate rejects d))
  | Remaining => (false, snd (getRemainingAnalyses Date_now ISODate rejects d))
  | Stats => (false, snd (getUsageStats Date_now ISODate rejects d))
  | Load => (false, snd (getUsageTracking Date_now ISODate rejects d))
  | Create => (false, snd (createUsageTracking Date_now ISODate rejects d))
  | Clear => (false, snd (clearUsageTracking rejects d))
  end.

(** A sequence of requests: the number of recordings that succeeded,
    and the device at the end. *)
Fixpoint serve_all (rs : list Request) (d : Device) : nat * Device :=
  match rs with
  | [] => (0%nat, d)
  | r :: rest =>
      let '(recorded, d1) := serve r d in
      let '(n, d2) := serve_all rest d1 in
      ((if recorded then S n else n), d2)
  end.

End Usage.

(** The recordings an item still allows on the day [today]. *)
Definition allowance (today : string) (item : UsageTrackingService.Item) : Z :=
  match item with
  | UsageTrackingService.NoItem => 5
  | UsageTrackingService.Unreadable => 0
  | UsageTrackingService.Saved u =>
      if String.eqb (UsageTrackingService.date
                       (UsageTrackingService.currentDaily u)) today
      then Z.max 0 (5 - UsageTrackingService.analysisCount
                          (UsageTrackingService.currentDaily u))
      else 5
  end.

(** The item accounts for [n] recorded analyses. *)
Definition accounts_for (n : Z) (item : UsageTrackingService.Item) : Prop :=
  match item with
  | UsageTrackingService.NoItem => n = 0%Z
  | UsageTrackingService.Unreadable => False
  | UsageTrackingService.Saved u =>
      UsageTrackingService.totalAnalyses u = n
      /\ (0 <= UsageTrackingService.analysisCount
                 (UsageTrackingService.currentDaily u) <= 5)%Z
      /\ (UsageTrackingService.analysisCount
            (UsageTrackingService.currentDaily u) <= n)%Z
      /\ UsageTrackingService.version u = 1%Z
  end.

Section Colours.
Import ColorExtractionService.

(** Every value of [Math.random] is in [0, 1). *)
Definition unit_draws (Math_random : nat -> Q) : Prop :=
  forall k, (0 <= Math_random k)%Q /\ (Math_random k < 1)%Q.

(** Pixel [p] is the sample colour [c] with each channel moved by one
    of the variations. *)
Definition near (c p : Pixel) : Prop :=
  let '(r, g, b) := c in
  let '(x, y, z) := p in
  In (x - r)%Z variation /\ In (y - g)%Z variation /\ In (z - b)%Z variation.

(** The three channels are within 0..255. *)
Definition in_gamut (p : Pixel) : Prop :=
  let '(r, g, b) := p in
  (0 <= r <= 255 /\ 0 <= g <= 255 /\ 0 <= b <= 255)%Z.

(** No channel of the pixel is more than five thirds of another one,
    with [slack] to spare; its saturation is then at most 2/5. *)
Definition muted (slack : Z) (p : Pixel) : Prop :=
  let '(r, g, b) := p in
  (0 < r /\ 0 < g /\ 0 < b
   /\ 3 * r + slack <= 5 * g /\ 3 * r + slack <= 5 * b
   /\ 3 * g + slack <= 5 * r /\ 3 * g + slack <= 5 * b
   /\ 3 * b + slack <= 5 * r /\ 3 * b + slack <= 5 * g)%Z.

(** The group is not empty, and its centroid is the average of its
    pixels. *)
Definition settled (g : Group) : Prop :=
  pixels g <> [] /\ centroid g = calculateAverageColor (pixels g).

(** The pixels of all groups, group after group. *)
Definition members (groups : list Group) : list Pixel :=
  List.concat (map pixels groups).



(** The number two hexadecimal digits denote. *)
Definition hex_pair (a b : ascii) : option Z :=
  match Num.digit_of 16 a, Num.digit_of 16 b with
  | Some x, Some y => Some (16 * x + y)%Z
  | _, _ => None
  end.

(** The channels a code of a hash sign and six hexadecimal digits
    denotes. *)
Definition read_hex (s : string) : option Pixel :=
  match s with
  | String "#" (String a (String b (String c (String d (String e
      (String f EmptyString)))))) =>
      match hex_pair a b, hex_pair c d, hex_pair e f with
      | Some r, Some g, Some b' => Some (r, g, b')
      | _, _, _ => None
      end
  | _ => None
  end.

(** The hexadecimal form of [x] is two digits that denote [x]. *)
Definition two_digits (x : Z) : bool :=
  match toUpperCase (hex2 x) with
  | String a (String b EmptyString) =>
      match hex_pair a b with
      | Some y => (y =? x)%Z
      | None => false
      end
  | _ => false
  end.

End Colours.

End Observations.

(** * The properties *)

(** Case analysis on the key of a table lookup: one case per literal
    key the key is compared with, and the case of no match. *)
Ltac split_key k :=
  repeat match goal with
         | |- context [String.eqb ?a k] =>
             destruct (String.eqb_spec a k); [subst k | ]
         end.

(** ** Regular expressions: when nothing matches *)

Module RegexFacts.

Import Regex Props.

Lemma free_tail q a s : free q (String a s) -> q a = false /\ free q s.
Proof.
  unfold free. simpl. intros H. apply andb_prop in H. destruct H as [H1 H2].
  apply negb_true_iff in H1. auto.
Qed.

Lemma free_weaken (q q' : ascii -> bool) (s : string) :
  (forall a, q a = true -> q' a = true) -> free q' s -> free q s.
Proof.
  intros Hsub. unfold free. induction s as [|a s IH]; simpl; [reflexivity|].
  intros H. apply andb_prop in H. destruct H as [H1 H2].
  rewrite (IH H2), andb_true_r.
  apply negb_true_iff. apply negb_true_iff in H1.
  destruct (q a) eqn:Hq; [|reflexivity].
  rewrite (Hsub a Hq) in H1. discriminate.
Qed.

(** A sequence with an item that must consume a character of [q] does
    not match at the head of a text free of [q]. *)
Lemma m_forced (q : ascii -> bool) (items : list Item) :
  Exists (forces q) items ->
  forall s bol cap, free q s -> m items bol cap s = None.
Proof.
  induction items as [|it r IH]; intros Hex; [inversion Hex|].
  assert (Hrest : Exists (forces q) r ->
                  forall s bol cap, free q s -> m r bol cap s = None)
    by exact IH.
  clear IH.
  destruct it as [c|c|p|p|p|p|c|p|p| | ]; cbn [m]; intros s.
  - (* Lit *)
    intros bol cap Hs. destruct s as [|a s']; [reflexivity|].
    apply free_tail in Hs. destruct Hs as [Ha Hs'].
    destruct (Ascii.eqb_spec a c) as [->|]; [|reflexivity].
    inversion Hex as [? ? Hf|? ? Hf]; subst.
    + simpl in Hf. congruence.
    + apply Hrest; assumption.
  - (* LitI *)
    intros bol cap Hs. destruct s as [|a s']; [reflexivity|].
    apply free_tail in Hs. destruct Hs as [Ha Hs'].
    destruct (eq_nocase c a) eqn:He; [|reflexivity].
    inversion Hex as [? ? Hf|? ? Hf]; subst.
    + simpl in Hf. rewrite (Hf a He) in Ha. discriminate.
    + apply Hrest; assumption.
  - (* Cls *)
    intros bol cap Hs. destruct s as [|a s']; [reflexivity|].
    apply free_tail in Hs. destruct Hs as [Ha Hs'].
    destruct (p a) eqn:He; [|reflexivity].
    inversion Hex as [? ? Hf|? ? Hf]; subst.
    + simpl in Hf. rewrite (Hf a He) in Ha. discriminate.
    + apply Hrest; assumption.
  - (* Star *)
    inversion Hex as [? ? Hf|? ? Hf]; subst; [destruct Hf|].
    induction s as [|a s' IHs]; intros bol cap Hs.
    + apply Hrest; assumption.
    + pose proof (free_tail _ _ _ Hs) as [_ Hs'].
      rewrite (Hrest Hf _ bol cap Hs).
      destruct (p a); [|reflexivity].
      rewrite (IHs false cap Hs'). reflexivity.
  - (* Lazy *)
    inversion Hex as [? ? Hf|? ? Hf]; subst; [destruct Hf|].
    induction s as [|a s' IHs]; intros bol cap Hs.
    + rewrite (Hrest Hf _ bol cap Hs). reflexivity.
    + pose proof (free_tail _ _ _ Hs) as [_ Hs'].
      rewrite (Hrest Hf _ bol cap Hs). simpl.
      destruct (p a); [|reflexivity].
      apply (IHs false cap Hs').
  - (* Plus *)
    intros bol cap Hs. destruct s as [|a s']; [reflexivity|].
    apply free_tail in Hs. destruct Hs as [Ha Hs'].
    destruct (p a) eqn:He; [|reflexivity].
    inversion Hex as [? ? Hf|? ? Hf]; subst.
    + simpl in Hf. rewrite (Hf a He) in Ha. discriminate.
    + clear Ha He. revert Hs'.
      induction s' as [|b s'' IHs]; intros Hs'.
      * apply Hrest; assumption.
      * pose proof (free_tail _ _ _ Hs') as [_ Hs''].
        rewrite (Hrest Hf _ false cap Hs').
        destruct (p b); [|reflexivity].
        rewrite (IHs Hs''). reflexivity.
  - (* Opt *)
    inversion Hex as [? ? Hf|? ? Hf]; subst; [destruct Hf|].
    intros bol cap Hs. destruct s as [|a s']; [apply Hrest; assumption|].
    pose proof (free_tail _ _ _ Hs) as [_ Hs'].
    rewrite (Hrest Hf _ bol cap Hs).
    destruct (Ascii.eqb a c); [|reflexivity].
    rewrite (Hrest Hf _ false cap Hs'). reflexivity.
  - (* CapStar *)
    inversion Hex as [? ? Hf|? ? Hf]; subst; [destruct Hf|].
    intros bol cap. generalize EmptyString as acc. revert bol.
    induction s as [|a s' IHs]; intros bol acc Hs.
    + apply Hrest; assumption.
    + pose proof (free_tail _ _ _ Hs) as [_ Hs'].
      rewrite (Hrest Hf _ bol (Some (Js.rev acc)) Hs).
      destruct (p a); [|reflexivity].
      rewrite (IHs false (String a acc) Hs'). reflexivity.
  - (* CapLazy *)
    inversion Hex as [? ? Hf|? ? Hf]; subst; [destruct Hf|].
    intros bol cap. generalize EmptyString as acc. revert bol.
    induction s as [|a s' IHs]; intros bol acc Hs.
    + rewrite (Hrest Hf _ bol (Some (Js.rev acc)) Hs). reflexivity.
    + pose proof (free_tail _ _ _ Hs) as [_ Hs'].
      rewrite (Hrest Hf _ bol (Some (Js.rev acc)) Hs). simpl.
      destruct (p a); [|reflexivity].
      apply (IHs false (String a acc) Hs').
  - (* Bol *)
    inversion Hex as [? ? Hf|? ? Hf]; subst; [destruct Hf|].
    intros bol cap Hs. destruct bol; [|reflexivity]. apply Hrest; assumption.
  - (* Eol *)
    inversion Hex as [? ? Hf|? ? Hf]; subst; [destruct Hf|].
    intros bol cap Hs. destruct s; [|reflexivity]. apply Hrest; assumption.
Qed.

Lemma nowhere_here re bol s : nowhere re bol s -> here re bol s = None.
Proof.
  destruct s; simpl; tauto.
Qed.

(** Without a match the replacements and the test leave the text as it
    is. *)
Lemma replace_at_nowhere re r s :
  forall bol, nowhere re bol s -> replace_at re r bol s = s.
Proof.
  induction s as [|a s IH]; intros bol [Hh Ht]; simpl in *; rewrite Hh.
  - reflexivity.
  - rewrite (IH false Ht). reflexivity.
Qed.

Lemma replace_nowhere re r s : nowhere re true s -> replace re r s = s.
Proof.
  apply replace_at_nowhere.
Qed.

Lemma replace_all_at_nowhere re r s :
  forall fuel bol, nowhere re bol s -> replace_all_at fuel re r bol s = s.
Proof.
  induction s as [|a s IH]; intros [|fuel] bol [Hh Ht]; simpl in *;
    try reflexivity; rewrite Hh.
  - reflexivity.
  - rewrite (IH fuel false Ht). reflexivity.
Qed.

Lemma replaceAll_nowhere re r s : nowhere re true s -> replaceAll re r s = s.
Proof.
  apply replace_all_at_nowhere.
Qed.

Lemma test_at_nowhere re s :
  forall bol, nowhere re bol s -> test_at re bol s = false.
Proof.
  induction s as [|a s IH]; intros bol [Hh Ht]; simpl in *; rewrite Hh.
  - reflexivity.
  - apply (IH false Ht).
Qed.

Lemma test_nowhere re s : nowhere re true s -> test re s = false.
Proof.
  apply test_at_nowhere.
Qed.

Lemma here_none (re : Regex) (bol : bool) (s : string) :
  Forall (fun items => m items bol None s = None) re -> here re bol s = None.
Proof.
  induction 1 as [|items re Hi _ IH]; simpl; [reflexivity|].
  rewrite Hi. exact IH.
Qed.

(** A regular expression all of whose alternatives must consume a
    character of [q] matches nowhere in a text free of [q]. *)
Lemma nowhere_forced (q : ascii -> bool) (re : Regex) (s : string) :
  Forall (Exists (forces q)) re ->
  free q s -> forall bol, nowhere re bol s.
Proof.
  intros Hre. induction s as [|a s IH]; intros Hs bol; simpl; split; auto.
  - apply here_none. eapply Forall_impl; [|exact Hre].
    intros items Hex. apply m_forced with q; assumption.
  - apply here_none. eapply Forall_impl; [|exact Hre].
    intros items Hex. apply m_forced with q; assumption.
  - apply IH. apply free_tail in Hs. tauto.
Qed.

(** A regular expression anchored at the start matches at the start or
    nowhere. *)
Lemma here_anchored (re : Regex) (s : string) :
  Forall anchored re -> here re false s = None.
Proof.
  intros H. apply here_none. eapply Forall_impl; [|exact H].
  intros [|[ | | | | | | | | | | ] r] Ha; try destruct Ha. reflexivity.
Qed.

Lemma nowhere_anchored (re : Regex) (s : string) :
  Forall anchored re -> here re true s = None -> nowhere re true s.
Proof.
  intros Ha Hh.
  assert (Hf : forall t, nowhere re false t).
  { induction t as [|a t IH]; simpl; split; auto using here_anchored. }
  destruct s as [|a s]; simpl; split; auto.
Qed.

Lemma last_char_step (q : ascii -> bool) (a l : ascii) (s : string) :
  last_char (String a s) = Some l -> q a = true -> q l = false ->
  last_char s = Some l.
Proof.
  destruct s as [|b s]; simpl; [|tauto].
  intros H Ha Hl. inversion H; subst. congruence.
Qed.

(** A sequence that ends at [$] and consumes characters of [q] only
    does not match at the head of a text whose last character is not in
    [q]. *)
Lemma m_end (q : ascii -> bool) (l : ascii) (items : list Item) :
  q l = false ->
  Forall (within q) items -> In Eol items ->
  forall s bol cap, last_char s = Some l -> m items bol cap s = None.
Proof.
  intros Hl. induction items as [|it r IH]; intros Hw Hin; [destruct Hin|].
  inversion Hw as [|? ? Hit Hr]; subst.
  assert (Hrest : it <> Eol ->
                  forall s bol cap, last_char s = Some l -> m r bol cap s = None).
  { intros Hne. apply IH; [exact Hr|].
    destruct Hin as [->|Hin]; [congruence|exact Hin]. }
  clear IH Hin Hw.
  destruct it as [c|c|p|p|p|p|c|p|p| | ]; cbn [m]; intros s;
    try specialize (Hrest ltac:(discriminate)); simpl in Hit.
  - intros bol cap Hs. destruct s as [|a s']; [reflexivity|].
    destruct (Ascii.eqb_spec a c) as [->|]; [|reflexivity].
    apply Hrest. eapply (last_char_step q); eauto.
  - intros bol cap Hs. destruct s as [|a s']; [reflexivity|].
    destruct (eq_nocase c a) eqn:He; [|reflexivity].
    apply Hrest. eapply (last_char_step q); eauto.
  - intros bol cap Hs. destruct s as [|a s']; [reflexivity|].
    destruct (p a) eqn:He; [|reflexivity].
    apply Hrest. eapply (last_char_step q); eauto.
  - induction s as [|a s' IHs]; intros bol cap Hs; [discriminate Hs|].
    rewrite (Hrest _ bol cap Hs).
    destruct (p a) eqn:He; [|reflexivity].
    rewrite (IHs false cap); [reflexivity|]. eapply (last_char_step q); eauto.
  - induction s as [|a s' IHs]; intros bol cap Hs; [discriminate Hs|].
    rewrite (Hrest _ bol cap Hs). simpl.
    destruct (p a) eqn:He; [|reflexivity].
    apply (IHs false cap). eapply (last_char_step q); eauto.
  - intros bol cap Hs. destruct s as [|a s']; [reflexivity|].
    destruct (p a) eqn:He; [|reflexivity].
    assert (Hs' : last_char s' = Some l) by (eapply (last_char_step q); eauto).
    clear Hs He. revert Hs'.
    induction s' as [|b s'' IHs]; intros Hs'; [discriminate Hs'|].
    rewrite (Hrest _ false cap Hs').
    destruct (p b) eqn:He; [|reflexivity].
    rewrite IHs; [reflexivity|]. eapply (last_char_step q); eauto.
  - intros bol cap Hs. destruct s as [|a s']; [discriminate Hs|].
    rewrite (Hrest _ bol cap Hs).
    destruct (Ascii.eqb_spec a c) as [->|]; [|reflexivity].
    rewrite Hrest; [reflexivity|]. eapply (last_char_step q); eauto.
  - intros bol cap. generalize EmptyString as acc. revert bol.
    induction s as [|a s' IHs]; intros bol acc Hs; [discriminate Hs|].
    rewrite (Hrest _ bol (Some (Js.rev acc)) Hs).
    destruct (p a) eqn:He; [|reflexivity].
    rewrite (IHs false (String a acc)); [reflexivity|].
    eapply (last_char_step q); eauto.
  - intros bol cap. generalize EmptyString as acc. revert bol.
    induction s as [|a s' IHs]; intros bol acc Hs; [discriminate Hs|].
    rewrite (Hrest _ bol (Some (Js.rev acc)) Hs). simpl.
    destruct (p a) eqn:He; [|reflexivity].
    apply (IHs false (String a acc)). eapply (last_char_step q); eauto.
  - intros bol cap Hs. destruct bol; [|reflexivity]. apply Hrest; assumption.
  - intros bol cap Hs. destruct s; [discriminate Hs|reflexivity].
Qed.

Lemma last_char_tail (a b l : ascii) (s : string) :
  last_char (String a (String b s)) = Some l -> last_char (String b s) = Some l.
Proof.
  simpl. tauto.
Qed.

(** Such a sequence, when it cannot match the empty text either,
    matches nowhere. *)
Lemma nowhere_end (q : ascii -> bool) (l : ascii) (items : list Item) (s : string) :
  q l = false ->
  Forall (within q) items -> In Eol items ->
  m items false None EmptyString = None ->
  last_char s = Some l ->
  forall bol, nowhere [items] bol s.
Proof.
  intros Hl Hw Hin Hempty.
  induction s as [|a s IH]; intros Hs bol; [discriminate Hs|].
  simpl. split.
  - rewrite (m_end q l items Hl Hw Hin _ bol None Hs). reflexivity.
  - destruct s as [|b s].
    + simpl. rewrite Hempty. auto.
    + apply IH. eapply last_char_tail; eauto.
Qed.

(** All alternatives match nowhere: so does the regular expression. *)
Lemma nowhere_alternatives (re : Regex) (s : string) :
  forall bol,
    Forall (fun items => nowhere [items] bol s) re -> nowhere re bol s.
Proof.
  induction s as [|a s IH]; intros bol H; simpl.
  - split; auto. apply here_none. eapply Forall_impl; [|exact H].
    intros items [Hh _]. simpl in Hh.
    destruct (m items bol None EmptyString); [discriminate Hh|reflexivity].
  - split.
    + apply here_none. eapply Forall_impl; [|exact H].
      intros items [Hh _]. simpl in Hh.
      destruct (m items bol None (String a s)); [discriminate Hh|reflexivity].
    + apply IH. eapply Forall_impl; [|exact H]. intros items [_ Ht]. exact Ht.
Qed.

End RegexFacts.

(** ** Status normalisation *)

Module NormalizeStatusFacts.

Import ErgonomicAnalysisService Props.

(** Under each strictness a string that is not a name inherited from
    the prototype is mapped to one of the three statuses. *)
Lemma normalizeStatus_canonical (s : string) (level : Strictness) :
  Table.inherited (Js.toLowerCase s) = false ->
  exists v, normalizeStatus (JStr s) level = Some v /\ canonical_status v.
Proof.
  unfold normalizeStatus, Val.toLowerCase.
  generalize (Js.toLowerCase s). intros k Hk.
  unfold Table.get_str, Table.get, canonical_status.
  destruct level; cbn [statusMap Table.assoc]; split_key k.
  all: try rewrite Hk; vm_compute.
  all: eexists; (split; [reflexivity | ]); eexists; (split; [ | reflexivity ]);
    auto 6.
Qed.

(** Strict is never better than standard. *)
Lemma strict_not_better_than_standard (s : string) :
  Table.inherited (Js.toLowerCase s) = false ->
  not_better (normalizeStatus (JStr s) strict) (normalizeStatus (JStr s) standard).
Proof.
  unfold normalizeStatus, Val.toLowerCase.
  generalize (Js.toLowerCase s). intros k Hk.
  unfold Table.get_str, Table.get.
  cbn [statusMap Table.assoc]; split_key k; try (vm_compute; easy).
  rewrite Hk. vm_compute. easy.
Qed.

(** Standard is never better than lenient, for every word but
    excellent. *)
Lemma standard_not_better_than_lenient (s : string) :
  Table.inherited (Js.toLowerCase s) = false ->
  Js.toLowerCase s <> "excellent" ->
  not_better (normalizeStatus (JStr s) standard) (normalizeStatus (JStr s) lenient).
Proof.
  unfold normalizeStatus, Val.toLowerCase.
  generalize (Js.toLowerCase s). intros k Hk Hx.
  unfold Table.get_str, Table.get.
  cbn [statusMap Table.assoc]; split_key k; try (vm_compute; easy).
  rewrite Hk. vm_compute. easy.
Qed.

(** C4, at the word "excellent": the lenient table has no entry for it,
    so there the default "needs-improvement" applies, while the standard
    (and the strict) table maps it to "good".  The standard result is
    better than the lenient one: monotonicity in strictness fails. *)
Theorem normalizeStatus_excellent_not_monotone :
  normalizeStatus (JStr "excellent") lenient = Some (JStr "needs-improvement")
  /\ normalizeStatus (JStr "excellent") standard = Some (JStr "good")
  /\ normalizeStatus (JStr "excellent") strict = Some (JStr "good")
  /\ ~ not_better (normalizeStatus (JStr "excellent") standard)
                  (normalizeStatus (JStr "excellent") lenient).
Proof.
  repeat split; try reflexivity.
  simpl. lia.
Qed.

End NormalizeStatusFacts.

(** ** The response parser *)

Module ParserFacts.

Import Regex Props RegexFacts AIResponseParserService.

(** A fact about every character, by inspection of the 256 of them. *)
Ltac every_char c :=
  destruct c as [[] [] [] [] [] [] [] []]; vm_compute;
  try reflexivity; try discriminate; try tauto.

Lemma first_not_space (c : ascii) :
  Js.is_upper c || Js.is_digit c = true -> Js.is_space c = false.
Proof. every_char c. Qed.

Lemma first_not_comma (c : ascii) :
  Js.is_upper c || Js.is_digit c = true -> Ascii.eqb c "," = false.
Proof. every_char c. Qed.

Lemma first_not_quote (c : ascii) :
  Js.is_upper c || Js.is_digit c = true -> one_of [dq; "'"%char] c = false.
Proof. every_char c. Qed.

Lemma first_alnum (c : ascii) :
  Js.is_upper c || Js.is_digit c = true -> Js.is_alnum c = true.
Proof. every_char c. Qed.

Lemma first_word (c : ascii) :
  Js.is_upper c || Js.is_digit c = true -> Js.is_word c = true.
Proof. every_char c. Qed.

Lemma first_not_lower (c : ascii) :
  Js.is_upper c || Js.is_digit c = true -> Js.is_lower c = false.
Proof. every_char c. Qed.

Lemma brackets_forbidden (a : ascii) :
  one_of ["{"%char; "}"%char; "["%char; "]"%char] a = true -> forbidden a = true.
Proof. every_char a. Qed.

Lemma quotes_bad_end (a : ascii) :
  one_of [dq; "'"%char] a = true -> bad_end a = true.
Proof. every_char a. Qed.

Lemma space_bad_end (a : ascii) : sp a = true -> bad_end a = true.
Proof. every_char a. Qed.

(** What [clean] says, piece by piece. *)
Lemma clean_parts (s : string) :
  clean s = true ->
  (3 <= String.length s)%nat
  /\ free forbidden s
  /\ (exists c s0, s = String c s0 /\ Js.is_upper c || Js.is_digit c = true)
  /\ (exists l, last_char s = Some l /\ bad_end l = false)
  /\ spaced s = true.
Proof.
  unfold clean. intros H.
  repeat (apply andb_prop in H; destruct H as [H ?]).
  repeat split; auto.
  - apply Nat.leb_le. exact H.
  - destruct s as [|c s0]; [discriminate|]. eauto.
  - destruct (last_char s) as [l|]; [|discriminate].
    exists l. split; [reflexivity|]. apply negb_true_iff. assumption.
Qed.

(** An alternative with a literal or a class inside the forbidden
    characters. *)
Ltac find_forced :=
  solve [ apply Exists_cons_hd; first [ reflexivity | exact brackets_forbidden ]
        | apply Exists_cons_tl; find_forced ].

Ltac each_alternative tac :=
  repeat (apply Forall_cons; [ tac | ]); apply Forall_nil.

Ltac forced_by_forbidden :=
  apply replaceAll_nowhere || apply replace_nowhere;
  apply nowhere_forced with forbidden; [ | assumption ];
  each_alternative ltac:(cbn; find_forced).

Section CleanText.

Variable s : string.
Hypothesis Hfree : free forbidden s.

Lemma no_fence_json : replaceAll re_fence_json none s = s.
Proof. forced_by_forbidden. Qed.

Lemma no_fence : replaceAll re_fence none s = s.
Proof. forced_by_forbidden. Qed.

Lemma no_object_field : replace re_object_field Group1 s = s.
Proof. forced_by_forbidden. Qed.

Lemma no_object : replace re_object Group1 s = s.
Proof. forced_by_forbidden. Qed.

Lemma no_array : replace re_array Group1 s = s.
Proof. forced_by_forbidden. Qed.

Lemma no_prefix_quoted : replace re_prefix_quoted Group1 s = s.
Proof. forced_by_forbidden. Qed.

Lemma no_prefix_bare : replace re_prefix_bare Group1 s = s.
Proof. forced_by_forbidden. Qed.

Lemma no_escape (c : ascii) (r : Repl) :
  replaceAll [ [ Lit backslash; Lit c ] ] r s = s.
Proof. forced_by_forbidden. Qed.

Lemma no_brackets : replaceAll re_brackets none s = s.
Proof. forced_by_forbidden. Qed.

Lemma no_key_dropped (key : string) : replace (re_key_dropped key) none s = s.
Proof.
  apply replace_nowhere. apply nowhere_forced with forbidden; [|assumption].
  each_alternative ltac:(
    cbn [app]; apply Exists_cons_tl, Exists_cons_tl, Exists_app; right;
    find_forced).
Qed.

Lemma no_key_value (key : string) : replace (re_key_value key) Group1 s = s.
Proof.
  apply replace_nowhere. apply nowhere_forced with forbidden; [|assumption].
  each_alternative ltac:(
    cbn [app]; apply Exists_cons_tl, Exists_cons_tl, Exists_app; right;
    find_forced).
Qed.

Lemma no_any_key : replaceAll re_any_key none s = s.
Proof. forced_by_forbidden. Qed.

End CleanText.

Section CleanEnds.

Variable c : ascii.
Variable s0 : string.
Variable l : ascii.
Hypothesis Hfirst : Js.is_upper c || Js.is_digit c = true.
Hypothesis Hlast : last_char (String c s0) = Some l.
Hypothesis Hend : bad_end l = false.

Lemma no_outer_quotes : replaceAll re_outer_quotes none (String c s0) = String c s0.
Proof.
  apply replaceAll_nowhere, nowhere_alternatives.
  apply Forall_cons; [ | apply Forall_cons; [ | apply Forall_nil ] ].
  - apply nowhere_anchored; [each_alternative ltac:(exact I)|].
    cbn [here m orelse]. rewrite (first_not_quote c Hfirst). reflexivity.
  - apply nowhere_end with bad_end l; auto.
    + each_alternative ltac:(first [exact quotes_bad_end | exact I]).
    + simpl. tauto.
Qed.

Lemma no_trailing_comma :
  replace re_trailing_comma none (String c s0) = String c s0.
Proof.
  apply replace_nowhere, nowhere_end with bad_end l; auto.
  - each_alternative ltac:(first [reflexivity | exact space_bad_end | exact I]).
  - simpl. tauto.
Qed.

Lemma no_leading_comma :
  replace re_leading_comma none (String c s0) = String c s0.
Proof.
  apply replace_nowhere, nowhere_anchored; [each_alternative ltac:(exact I)|].
  unfold re_leading_comma, sp. cbn [here m orelse].
  rewrite (first_not_space c Hfirst), (first_not_comma c Hfirst).
  reflexivity.
Qed.

Lemma no_trailing_quote :
  replaceAll re_trailing_quote none (String c s0) = String c s0.
Proof.
  apply replaceAll_nowhere, nowhere_end with bad_end l; auto.
  - each_alternative ltac:(first [reflexivity | exact space_bad_end | exact I]).
  - simpl. tauto.
Qed.

Lemma no_leading_junk :
  replace re_leading_junk none (String c s0) = String c s0.
Proof.
  unfold replace, re_leading_junk. cbn [replace_at here m orelse].
  rewrite (first_alnum c Hfirst). reflexivity.
Qed.

Lemma has_word : test re_no_word (String c s0) = false.
Proof.
  apply test_nowhere, nowhere_anchored; [each_alternative ltac:(exact I)|].
  unfold re_no_word. cbn [here m orelse].
  rewrite (first_word c Hfirst). reflexivity.
Qed.

Lemma no_lower_start : test re_lower_start (String c s0) = false.
Proof.
  apply test_nowhere, nowhere_anchored; [each_alternative ltac:(exact I)|].
  unfold re_lower_start. cbn [here m orelse].
  rewrite (first_not_lower c Hfirst). reflexivity.
Qed.

End CleanEnds.

(** A run of white space is one space already. *)
Lemma no_spaces (s : string) :
  spaced s = true ->
  forall fuel bol, replace_all_at fuel re_spaces (Text " ") bol s = s.
Proof.
  induction s as [|a s IH]; intros Hs [|fuel] bol; try reflexivity.
  simpl in Hs. apply andb_prop in Hs. destruct Hs as [Ha Hs].
  cbn [replace_all_at re_spaces here m orelse]. unfold sp.
  destruct (Js.is_space a) eqn:Hsp.
  - apply andb_prop in Ha. destruct Ha as [Ha Hb].
    apply Ascii.eqb_eq in Ha. subst a.
    destruct s as [|b s]; [discriminate Hb|].
    apply negb_true_iff in Hb. rewrite Hb.
    cbn [orelse expand String.length].
    rewrite (proj2 (Nat.ltb_lt _ _)) by lia.
    rewrite (IH Hs fuel false). reflexivity.
  - cbn [orelse]. rewrite (IH Hs fuel false). reflexivity.
Qed.

Lemma trimEnd_fixed (s : string) (l : ascii) :
  last_char s = Some l -> Js.is_space l = false -> Js.trimEnd s = s.
Proof.
  intros Hl Hsp. induction s as [|a s IH]; [reflexivity|].
  destruct s as [|b s].
  - simpl in *. inversion Hl; subst. rewrite Hsp. reflexivity.
  - change (Js.trimEnd (String a (String b s)))
      with (match Js.trimEnd (String b s) with
            | EmptyString =>
                if Js.is_space a then EmptyString else String a EmptyString
            | t => String a t
            end).
    rewrite (IH Hl). reflexivity.
Qed.

(** [trim] has nothing to remove. *)
Lemma no_trim (c l : ascii) (s0 : string) :
  Js.is_space c = false ->
  last_char (String c s0) = Some l -> Js.is_space l = false ->
  Js.trim (String c s0) = String c s0.
Proof.
  intros Hc Hl Hsp. unfold Js.trim.
  cbn [Js.trimStart]. rewrite Hc. apply trimEnd_fixed with l; assumption.
Qed.

Lemma bad_end_space (l : ascii) : bad_end l = false -> Js.is_space l = false.
Proof.
  unfold bad_end. intros H. apply orb_false_elim in H. tauto.
Qed.

(** On clean text the replacements of [cleanText] change nothing. *)
Lemma scrub_clean (s : string) : clean s = true -> scrub s = s.
Proof.
  intros H. apply clean_parts in H.
  destruct H as [_ [Hfree [[c [s0 [-> Hfirst]]] [[l [Hlast Hend]] Hsp]]]].
  unfold scrub.
  rewrite no_fence_json, no_fence, no_object_field, no_object, no_array,
    no_prefix_quoted, no_prefix_bare by assumption.
  rewrite (no_outer_quotes c s0 l) by assumption.
  unfold re_esc_quote, re_esc_n, re_esc_t, re_esc_r, re_esc_backslash.
  rewrite !(no_escape (String c s0) Hfree).
  rewrite (no_trailing_comma c s0 l), no_leading_comma by assumption.
  rewrite no_brackets by assumption.
  rewrite !(no_key_dropped (String c s0) Hfree).
  rewrite !(no_key_value (String c s0) Hfree).
  rewrite no_any_key by assumption.
  rewrite (no_trailing_quote c s0 l), no_leading_junk by assumption.
  unfold replaceAll. rewrite no_spaces by assumption.
  apply no_trim with l; auto using first_not_space, bad_end_space.
Qed.

(** [cleanText] returns unchanged every text that is clean: at least 3
    characters long, starting with an upper-case letter or a digit, not
    ending with white space, a comma or a quote, free of backticks,
    braces, brackets, colons and backslashes, and with single spaces as
    its only white space. *)
Lemma cleanText_fixes_clean_text (s : string) :
  clean s = true -> cleanText (JStr s) = s.
Proof.
  intros H. unfold cleanText. rewrite (scrub_clean s H).
  apply clean_parts in H.
  destruct H as [Hlen [_ [[c [s0 [-> Hfirst]]] _]]].
  rewrite has_word, no_lower_start by assumption.
  cbn [String.eqb orb].
  destruct (String.length (String c s0) <? 3)%nat eqn:Hlt; [|reflexivity].
  apply Nat.ltb_lt in Hlt. lia.
Qed.

(** The workspace description of Scenario A is clean. *)
Example cleanText_fixes_the_scenario_description :
  cleanText (JStr "A tidy desk by a window.") = "A tidy desk by a window.".
Proof.
  apply cleanText_fixes_clean_text. reflexivity.
Qed.

Lemma star_drops (p : ascii -> bool) (s : string) :
  forall bol cap, m [Star p] bol cap s = Some (cap, Js.dropWhile p s).
Proof.
  cbn [m]. induction s as [|a s IH]; intros bol cap; [reflexivity|].
  simpl. destruct (p a); [|reflexivity].
  rewrite (IH false cap). reflexivity.
Qed.

Lemma leading_junk_dropped (x : string) :
  replace re_leading_junk none x
  = Js.dropWhile (fun c => negb (Js.is_alnum c)) x.
Proof.
  unfold replace, re_leading_junk.
  assert (H : here [[Bol; Star (fun c => negb (Js.is_alnum c))]] true x
              = Some (None, Js.dropWhile (fun c => negb (Js.is_alnum c)) x)).
  { cbn [here]. change (m [Bol; Star (fun c => negb (Js.is_alnum c))] true None x)
      with (m [Star (fun c => negb (Js.is_alnum c))] true None x).
    rewrite star_drops. reflexivity. }
  destruct x as [|a x]; cbn [replace_at]; rewrite H; reflexivity.
Qed.

Lemma dropWhile_starts (p : ascii -> bool) (s : string) :
  starts_with (fun c => negb (p c)) (Js.dropWhile p s) = true.
Proof.
  induction s as [|a s IH]; [reflexivity|].
  simpl. destruct (p a) eqn:Hp; [exact IH|]. simpl. rewrite Hp. reflexivity.
Qed.

Lemma dropWhile_length (p : ascii -> bool) (s : string) :
  (String.length (Js.dropWhile p s) <= String.length s)%nat.
Proof.
  induction s as [|a s IH]; simpl; [lia|]. destruct (p a); simpl; lia.
Qed.

Lemma plus_drops (p : ascii -> bool) (a : ascii) (s : string) :
  p a = true ->
  forall bol cap, m [Plus p] bol cap (String a s) = Some (cap, Js.dropWhile p s).
Proof.
  intros Ha bol cap. cbn [m]. rewrite Ha.
  induction s as [|b s IH]; [reflexivity|].
  simpl. destruct (p b); [|reflexivity]. rewrite IH. reflexivity.
Qed.

Lemma collapsed_cons (a : ascii) (s : string) :
  Js.is_space a = false -> collapsed (String a s) = collapsed s.
Proof.
  intros H. simpl. rewrite H. reflexivity.
Qed.

(** After the white space is collapsed: the first character, when it is
    not white space, is kept, and what follows is collapsed. *)
Lemma spaces_collapsed :
  forall fuel z bol,
    (String.length z < fuel)%nat ->
    collapsed (replace_all_at fuel re_spaces (Text " ") bol z) = true
    /\ forall p, (forall c, p c = true -> Js.is_space c = false) ->
                 starts_with p z = true ->
                 starts_with p (replace_all_at fuel re_spaces (Text " ") bol z) = true.
Proof.
  induction fuel as [|fuel IH]; intros z bol Hlen; [lia|].
  destruct z as [|a z].
  - split; [reflexivity|]. intros p _ _. reflexivity.
  - simpl in Hlen.
    cbn [replace_all_at re_spaces here]. unfold sp.
    destruct (Js.is_space a) eqn:Ha.
    + rewrite (plus_drops Js.is_space a z Ha). cbn [orelse expand].
      pose proof (dropWhile_length Js.is_space z) as Hd.
      rewrite (proj2 (Nat.ltb_lt _ _)) by (simpl; lia).
      destruct (IH (Js.dropWhile Js.is_space z) false ltac:(lia)) as [Hc Hs].
      split.
      * set (w := replace_all_at fuel re_spaces (Text " ") false
                    (Js.dropWhile Js.is_space z)) in *.
        change (" " ++ w)%string with (String " " w).
        cbn [collapsed]. rewrite Hc.
        replace (Js.is_space " ") with true by reflexivity.
        replace (Ascii.eqb " " " ") with true by reflexivity.
        specialize (Hs (fun c => negb (Js.is_space c))
                       ltac:(intros c Hc'; apply negb_true_iff; exact Hc')
                       (dropWhile_starts _ _)).
        destruct w as [|b w]; [reflexivity|].
        simpl in Hs. rewrite Hs. reflexivity.
      * intros p Hp Hst. simpl in Hst. rewrite (Hp a Hst) in Ha. discriminate.
    + assert (Hm : m [Plus Js.is_space] bol None (String a z) = None).
      { cbn [m]. rewrite Ha. reflexivity. }
      rewrite Hm. cbn [orelse].
      destruct (IH z false ltac:(lia)) as [Hc _].
      split.
      * rewrite collapsed_cons by assumption. exact Hc.
      * intros p _ Hst. exact Hst.
Qed.

Lemma trimEnd_empty_or_cons (w : string) :
  Js.trimEnd w = EmptyString \/ exists b t, Js.trimEnd w = String b t.
Proof.
  destruct (Js.trimEnd w) as [|b t]; eauto.
Qed.

(** [trimEnd] on collapsed text: what is left is spaced, ends with a
    character that is not white space, and starts as the text did. *)
Lemma trimEnd_collapsed (w : string) :
  collapsed w = true ->
  spaced (Js.trimEnd w) = true
  /\ (Js.trimEnd w = EmptyString
      \/ exists l, last_char (Js.trimEnd w) = Some l /\ Js.is_space l = false)
  /\ forall c t, w = String c t -> Js.is_space c = false ->
                 exists t', Js.trimEnd w = String c t'.
Proof.
  induction w as [|a w IH]; intros Hc.
  - repeat split; auto. intros c t H. discriminate H.
  - cbn [collapsed] in Hc. apply andb_prop in Hc. destruct Hc as [Ha Hw].
    destruct (IH Hw) as [Hsp [Hlast Hfirst]]. clear IH.
    cbn [Js.trimEnd].
    destruct (Js.trimEnd w) as [|b y] eqn:Hy.
    + destruct (Js.is_space a) eqn:Hsa.
      * repeat split; auto. intros c t H Hcs. inversion H; subst. congruence.
      * repeat split.
        -- simpl. rewrite Hsa. reflexivity.
        -- right. exists a. auto.
        -- intros c t H _. inversion H; subst. eauto.
    + repeat split.
      * change (spaced (String a (String b y)))
          with ((if Js.is_space a
                 then Ascii.eqb a " " && negb (Js.is_space b)
                 else true) && spaced (String b y)).
        rewrite Hsp, andb_true_r.
        destruct (Js.is_space a) eqn:Hsa; [|reflexivity].
        apply andb_prop in Ha. destruct Ha as [Ha Hnext]. rewrite Ha. simpl.
        destruct w as [|b0 w0]; [discriminate Hy|].
        destruct (Hfirst b0 w0 eq_refl ltac:(apply negb_true_iff; exact Hnext))
          as [t' Ht'].
        inversion Ht'; subst. exact Hnext.
      * right. destruct Hlast as [Hlast | [l [Hl Hsl]]]; [discriminate Hlast|].
        exists l. split; [|exact Hsl].
        simpl in *. exact Hl.
      * intros c t H _. inversion H; subst. eauto.
Qed.

Lemma trimStart_fixed (s : string) :
  starts_with (fun c => negb (Js.is_space c)) s = true -> Js.trimStart s = s.
Proof.
  destruct s as [|a s]; simpl; [reflexivity|].
  intros H. apply negb_true_iff in H. rewrite H. reflexivity.
Qed.

Lemma alnum_not_space (c : ascii) : Js.is_alnum c = true -> Js.is_space c = false.
Proof. every_char c. Qed.

(** The last three steps of the replacements: the text they leave is
    empty, or starts with a letter or a digit, is spaced and ends with a
    character that is not white space. *)
Lemma scrub_shape (s : string) :
  scrub s = EmptyString
  \/ exists c t l,
       scrub s = String c t /\ Js.is_alnum c = true
       /\ spaced (scrub s) = true
       /\ last_char (scrub s) = Some l /\ Js.is_space l = false.
Proof.
  unfold scrub.
  set (x := replaceAll re_trailing_quote none _).
  rewrite leading_junk_dropped.
  set (y := Js.dropWhile (fun c => negb (Js.is_alnum c)) x).
  assert (Hy : starts_with Js.is_alnum y = true).
  { pose proof (dropWhile_starts (fun c => negb (Js.is_alnum c)) x) as H.
    fold y in H. destruct y as [|c y']; [reflexivity|].
    simpl in *. apply negb_true_iff in H. apply negb_false_iff in H. exact H. }
  unfold replaceAll.
  destruct (spaces_collapsed (S (String.length y)) y true ltac:(lia)) as [Hc Hs].
  set (w := replace_all_at (S (String.length y)) re_spaces (Text " ") true y) in *.
  pose proof (Hs Js.is_alnum alnum_not_space Hy) as Hw.
  unfold Js.trim.
  rewrite trimStart_fixed.
  2:{ clearbody w. destruct w as [|c w']; [reflexivity|].
      cbn [starts_with] in Hw |- *.
      apply negb_true_iff, alnum_not_space, Hw. }
  destruct (trimEnd_collapsed w Hc) as [Hsp [Hlast Hfirst]].
  destruct Hlast as [He | [l [Hl Hsl]]]; [left; exact He|].
  right. clearbody w. destruct w as [|c w']; [discriminate Hl|].
  cbn [starts_with] in Hw.
  destruct (Hfirst c w' eq_refl (alnum_not_space c Hw)) as [t' Ht'].
  exists c, t', l. rewrite <- Ht'. auto.
Qed.

Lemma test_lower_start (c : ascii) (t : string) :
  test re_lower_start (String c t) = Js.is_lower c.
Proof.
  unfold test, re_lower_start. cbn [test_at here m orelse].
  destruct (Js.is_lower c); [reflexivity|].
  apply test_at_nowhere.
  assert (Hf : forall u, nowhere [[Bol; Cls Js.is_lower]] false u).
  { induction u as [|a u IH]; simpl; auto. }
  apply Hf.
Qed.

Lemma upper_of_lower (c : ascii) :
  Js.is_lower c = true -> Js.is_upper (Js.upper_char c) = true.
Proof. every_char c. Qed.

Lemma alnum_not_lower (c : ascii) :
  Js.is_alnum c = true -> Js.is_lower c = false ->
  Js.is_upper c || Js.is_digit c = true.
Proof. every_char c. Qed.

Lemma upper_not_space (c : ascii) :
  Js.is_upper c = true -> Js.is_space c = false.
Proof. every_char c. Qed.

Lemma last_char_cons (a b : ascii) (t : string) :
  last_char (String a (String b t)) = last_char (String b t).
Proof. reflexivity. Qed.

(** An output of [cleanText] without artifacts is clean. *)
Lemma cleanText_output_clean (s : string) :
  let t := cleanText (JStr s) in
  t <> EmptyString -> artifact_free t = true -> clean t = true.
Proof.
  cbv zeta. unfold cleanText.
  destruct (scrub_shape s) as [He | [c [u [l [Hs [Hc [Hsp [Hl Hsl]]]]]]]].
  - rewrite He. simpl. congruence.
  - rewrite Hs in *.
    destruct (String.eqb (String c u) "" || (String.length (String c u) <? 3)%nat
              || test re_no_word (String c u)) eqn:Htest; [congruence|].
    apply orb_false_elim in Htest. destruct Htest as [Htest _].
    apply orb_false_elim in Htest. destruct Htest as [_ Hlen].
    apply Nat.ltb_ge in Hlen.
    rewrite test_lower_start.
    assert (Hshape : forall c', (Js.is_upper c' || Js.is_digit c' = true) ->
               Js.is_space c' = false ->
               artifact_free (String c' u) = true -> clean (String c' u) = true).
    { intros c' Hc' Hsc' Haf. unfold artifact_free in Haf.
      apply andb_prop in Haf. destruct Haf as [Hfree Hend].
      unfold clean. rewrite Hfree, Hc'.
      replace (3 <=? String.length (String c' u))%nat with true
        by (symmetry; apply Nat.leb_le; simpl in *; lia).
      destruct u as [|b u']; [simpl in Hlen; lia|].
      rewrite last_char_cons in *.
      destruct (last_char (String b u')) as [l'|]; [|discriminate Hl].
      inversion Hl; subst l'.
      unfold bad_end. rewrite Hsl. cbn [orb]. rewrite Hend.
      cbn [spaced] in *. rewrite Hsc'.
      rewrite (alnum_not_space c Hc) in Hsp. rewrite Hsp. reflexivity. }
    destruct (Js.is_lower c) eqn:Hlow; intros _ Haf.
    + unfold capitalize in *. apply Hshape; auto.
      * rewrite (upper_of_lower c Hlow). reflexivity.
      * apply upper_not_space, upper_of_lower, Hlow.
    + apply Hshape; auto using alnum_not_lower, alnum_not_space.
Qed.

(** C9, as the code has it.  Applying [cleanText] to an output of the
    cleaner returns it unchanged when that output holds no artifact any
    more: none of the characters backtick, brace, bracket, colon and
    backslash, and no comma or quote at its end. *)
Theorem cleanText_idempotent_without_artifacts (s : string) :
  artifact_free (cleanText (JStr s)) = true ->
  cleanText (JStr (cleanText (JStr s))) = cleanText (JStr s).
Proof.
  intros H.
  destruct (String.eqb_spec (cleanText (JStr s)) EmptyString) as [E|N].
  - rewrite E. reflexivity.
  - apply cleanText_fixes_clean_text.
    apply cleanText_output_clean; assumption.
Qed.

(** A JSON object with one field, as the model may return it: the
    cleaner extracts the description and capitalises it. *)
Lemma cleanText_idempotent_without_artifacts_witness :
  artifact_free (cleanText (JStr Samples.raw_description)) = true
  /\ cleanText (JStr (cleanText (JStr Samples.raw_description)))
     = cleanText (JStr Samples.raw_description).
Proof.
  split.
  - vm_compute. reflexivity.
  - apply (cleanText_idempotent_without_artifacts Samples.raw_description).
    vm_compute. reflexivity.
Defined.

(** C9 as stated fails: the output of the cleaner for "a: b: c d e"
    still holds a key-like prefix, which a second pass removes. *)
Lemma cleanText_twice_differs :
  cleanText (JStr "a: b: c d e") = "B: c d e"
  /\ cleanText (JStr (cleanText (JStr "a: b: c d e"))) = "C d e"
  /\ cleanText (JStr (cleanText (JStr "a: b: c d e")))
     <> cleanText (JStr "a: b: c d e").
Proof.
  repeat split; try (vm_compute; reflexivity).
  vm_compute. discriminate.
Qed.

(** The unstructured fallback always carries a description. *)
Lemma parseUnstructuredResponse_description (content : string) :
  Val.prop (parseUnstructuredResponse content) "workspace_description"
  = Some (JStr (Js.take 200 content ++ "...")%string).
Proof.
  reflexivity.
Qed.

(** C2, as the code has it.  [extractStructuredData] is total: no input
    makes it throw.  When a fenced block or a brace span is found and
    [JSON.parse] accepts its text, the parsed value is returned as it
    is, whatever its shape; in every other case the unstructured
    fallback is returned, whose workspace description is defined: the
    first 200 characters of the input, followed by three dots. *)
Theorem extractStructuredData_total (aiContent : string) :
  match extractStructuredData aiContent with
  | Returned v =>
      (exists text,
         found_json aiContent = Some text /\ Json.parse text = Json.Ok v)
      \/ (v = parseUnstructuredResponse aiContent
          /\ Val.prop v "workspace_description"
             = Some (JStr (Js.take 200 aiContent ++ "...")%string)
          /\ match found_json aiContent with
             | Some text => Json.parse text = Json.Throws
             | None => True
             end)
  | Unmodelled =>
      exists text,
        found_json aiContent = Some text /\ Json.parse text = Json.Beyond
  end.
Proof.
  unfold extractStructuredData, found_json.
  destruct (exec re_json_block aiContent) as [[whole group1]|].
  - destruct (Json.parse (expand Group1 group1)) eqn:Hp;
      [left; eauto | right; repeat split | eauto].
  - destruct (exec re_json_object aiContent) as [[whole group1]|].
    + destruct (Json.parse whole) eqn:Hp;
        [left; eauto | right; repeat split | eauto].
    + right. repeat split.
Qed.

(** The kinds of input the specification lists: the empty text, plain
    prose and malformed JSON give the fallback; complete JSON gives the
    object it denotes. *)
Example extractStructuredData_empty_text :
  extractStructuredData "" = Returned (parseUnstructuredResponse "")
  /\ Val.prop (parseUnstructuredResponse "") "workspace_description"
     = Some (JStr "...").
Proof.
  split; reflexivity.
Qed.

Example extractStructuredData_prose :
  extractStructuredData "The lighting is dim. Add a lamp."
  = Returned (parseUnstructuredResponse "The lighting is dim. Add a lamp.").
Proof.
  reflexivity.
Qed.

Example extractStructuredData_malformed :
  extractStructuredData "{ not json }"
  = Returned (parseUnstructuredResponse "{ not json }").
Proof.
  reflexivity.
Qed.

Example extractStructuredData_scenario_A :
  extractStructuredData Samples.fenced_response = Returned Samples.one_chair.
Proof.
  vm_compute. reflexivity.
Qed.

(** C2 as stated fails on valid JSON that misses the field: for the
    text of an empty object the parsed object is returned, and its
    workspace description is undefined. *)
Lemma extractStructuredData_empty_object :
  extractStructuredData "{}" = Returned (JObj [])
  /\ Val.prop (JObj []) "workspace_description" = Some JUndefined.
Proof.
  split; reflexivity.
Qed.

End ParserFacts.

(** ** The ergonomic insight engine *)

Module ErgonomicFacts.

Import ErgonomicAnalysisService Props.

Section Sorting.
Context {A : Type}.
Variable compare : A -> A -> Z.

Lemma insert_perm (x : A) (l : list A) :
  Permutation (Sort.insert compare x l) (x :: l).
Proof.
  induction l as [|y l IH]; simpl.
  - apply Permutation_refl.
  - destruct (compare y x <? 0)%Z.
    + eapply Permutation_trans.
      * apply perm_skip, IH.
      * apply perm_swap.
    + apply Permutation_refl.
Qed.

(** Sorting rearranges, it neither drops nor adds. *)
Lemma sort_perm (l : list A) : Permutation (Sort.sort compare l) l.
Proof.
  induction l as [|x l IH]; simpl.
  - apply perm_nil.
  - eapply Permutation_trans.
    + apply insert_perm.
    + apply perm_skip, IH.
Qed.
End Sorting.

Lemma count_category_perm (c : string) (l l' : list ErgonomicInsight) :
  Permutation l l' -> count_category c l = count_category c l'.
Proof.
  unfold count_category.
  induction 1; simpl; try congruence.
  - destruct (Val.is_string (category x) c); simpl; congruence.
  - destruct (Val.is_string (category x) c), (Val.is_string (category y) c);
      reflexivity.
Qed.

Lemma count_category_app (c : string) (l l' : list ErgonomicInsight) :
  count_category c (l ++ l') = (count_category c l + count_category c l')%nat.
Proof.
  unfold count_category. rewrite filter_app, length_app. reflexivity.
Qed.

Lemma covered_iff_counted (c : string) (l : list ErgonomicInsight) :
  existsb (fun v => Val.is_string v c) (map category l)
  = (0 <? count_category c l)%nat.
Proof.
  unfold count_category.
  induction l as [|i l IH]; simpl; [reflexivity|].
  destruct (Val.is_string (category i) c); simpl; [reflexivity | exact IH].
Qed.

(** The defaults: one insight for a category exactly when the filter of
    [getMissingCategories] keeps it. *)
Lemma count_defaults (c : string) (keep : string -> bool) :
  In c allCategories ->
  count_category c (map generateDefaultInsight (filter keep allCategories))
  = if keep c then 1%nat else 0%nat.
Proof.
  unfold allCategories. simpl.
  intros [<- | [<- | [<- | [<- | [<- | []]]]]];
    destruct (keep "desk-height"), (keep "chair-posture"), (keep "lighting"),
             (keep "screen-position"), (keep "organization");
    reflexivity.
Qed.

(** After completion every category has the insights that were found
    for it, or one default insight when none was found. *)
Lemma completeInsights_count (c : string) (found : list ErgonomicInsight) :
  In c allCategories ->
  count_category c (completeInsights found) = Nat.max 1 (count_category c found).
Proof.
  intros Hc. unfold completeInsights, prioritizeInsights.
  rewrite (count_category_perm c _ _ (sort_perm compareInsights _)).
  rewrite count_category_app. unfold getMissingCategories.
  rewrite (count_defaults c _ Hc), covered_iff_counted.
  destruct (count_category c found); simpl; lia.
Qed.

Lemma normalizeCategory_canonical (s : string) (v : JsVal) :
  Table.inherited (Js.toLowerCase s) = false ->
  normalizeCategory (JStr s) = Some v ->
  Val.truthy v = true ->
  canonical_category v.
Proof.
  unfold normalizeCategory, Val.toLowerCase.
  generalize (Js.toLowerCase s). intros k Hk.
  unfold Table.get_str, Table.get, canonical_category.
  cbn [categoryMap Table.assoc]; split_key k.
  all: try rewrite Hk; vm_compute.
  all: intros H; inversion H; subst v; clear H; intros H; try discriminate H.
  all: eexists; (split; [ | reflexivity ]); auto 8.
Qed.

Lemma detect_canonical (l c : string) :
  detect categoryMappings l = Some c -> In c allCategories.
Proof.
  unfold categoryMappings, detect.
  repeat match goal with
         | |- context [Js.includes l ?k] => destruct (Js.includes l k)
         end.
  all: intros H; inversion H; subst; simpl; auto 8.
Qed.

Lemma processErgonomicItem_canonical rnd item cfg n i n' :
  plain_item item = true ->
  processErgonomicItem rnd item cfg n = (Some i, n') ->
  canonical_category (category i) /\ canonical_status (status i).
Proof.
  unfold plain_item, processErgonomicItem.
  destruct (Val.prop item "category") as [rawCategory|]; [|discriminate 2].
  destruct (Val.prop item "status") as [rawStatus|]; [|discriminate 2].
  destruct (Val.prop item "observation"); [|discriminate 2].
  destruct (Val.prop item "description"); [|discriminate 2].
  destruct (Val.prop item "recommendation"); [|discriminate 2].
  intros Hplain.
  destruct (normalizeCategory rawCategory) as [category0|] eqn:Hc; [|discriminate 1].
  destruct (Val.truthy category0) eqn:Ht; simpl; [|discriminate 1].
  destruct (normalizeStatus rawStatus (strictnessLevel cfg)) as [status0|] eqn:Hs;
    [|discriminate 1].
  destruct (enhanceRecommendation _ _ _ _ _) as [rec n1].
  intros H; inversion H; subst; clear H; simpl.
  apply andb_prop in Hplain. destruct Hplain as [Hpc Hps].
  split.
  - destruct rawCategory; try discriminate Hc.
    simpl in Hpc. apply negb_true_iff in Hpc.
    eapply normalizeCategory_canonical; eauto.
  - destruct rawStatus; try discriminate Hs.
    simpl in Hps. apply negb_true_iff in Hps.
    destruct (NormalizeStatusFacts.normalizeStatus_canonical s (strictnessLevel cfg) Hps)
      as [v [Hv Hcan]].
    rewrite Hv in Hs. inversion Hs; subst. exact Hcan.
Qed.

Lemma parseImprovement_canonical rnd improvement priority cfg n i n' :
  parseImprovement rnd improvement priority cfg n = (Some (Some i), n') ->
  canonical i.
Proof.
  unfold parseImprovement.
  destruct (Val.toLowerCase improvement) as [lower|]; [|discriminate 1].
  destruct (detect categoryMappings lower) as [c|] eqn:Hd; [|discriminate 1].
  destruct (generateRecommendation _ _ _ _) as [rec n1].
  intros H; inversion H; subst; clear H.
  split; simpl.
  - exists c. split; [eapply detect_canonical; eauto | reflexivity].
  - unfold canonical_status, priorityOrder.
    destruct priority as [|[|p]]; eexists; (split; [ | reflexivity ]); simpl; auto.
Qed.

Lemma processItems_canonical rnd cfg items :
  forall n found n',
    forallb plain_item items = true ->
    processItems rnd items cfg n = (found, n') ->
    Forall canonical found.
Proof.
  induction items as [|item items IH]; simpl; intros n found n' Hp H.
  - inversion H; constructor.
  - apply andb_prop in Hp. destruct Hp as [Hp1 Hp2].
    destruct (processErgonomicItem rnd item cfg n) as [insight n1] eqn:H1.
    destruct (processItems rnd items cfg n1) as [insights n2] eqn:H2.
    inversion H; subst; clear H.
    specialize (IH _ _ _ Hp2 H2).
    destruct insight as [i|]; [constructor|]; auto.
    eapply processErgonomicItem_canonical; eauto.
Qed.

Lemma extractFrom_canonical rnd cfg priorities :
  forall index n found n',
    extractFrom rnd index priorities cfg n = (Some found, n') ->
    Forall canonical found.
Proof.
  induction priorities as [|p ps IH]; simpl; intros index n found n' H.
  - inversion H; constructor.
  - destruct (parseImprovement rnd p index cfg n) as [[insight|] n1] eqn:H1;
      [|discriminate H].
    destruct (extractFrom rnd (S index) ps cfg n1) as [[insights|] n2] eqn:H2;
      [|discriminate H].
    inversion H; subst; clear H.
    specialize (IH _ _ _ _ H2).
    destruct insight as [i|]; [constructor|]; auto.
    eapply parseImprovement_canonical; eauto.
Qed.

Lemma collectInsights_canonical rnd data cfg n found n' :
  plain data = true ->
  collectInsights rnd data cfg n = (Some found, n') ->
  Forall canonical found.
Proof.
  unfold plain, collectInsights.
  destruct (Val.prop data "ergonomic_evaluation") as [evaluation|]; [|discriminate 2].
  destruct (Val.prop data "improvement_priorities") as [priorities|]; [|discriminate 2].
  intros Hp.
  assert (Hitems : forall fromItems n1,
             match evaluation with
             | JArr items => processItems rnd items cfg n
             | _ => ([], n)
             end = (fromItems, n1) -> Forall canonical fromItems).
  { intros fromItems n1 H. destruct evaluation; try (inversion H; constructor).
    eapply processItems_canonical; eauto. }
  destruct (match evaluation with
            | JArr items => processItems rnd items cfg n
            | _ => ([], n)
            end) as [fromItems n1].
  specialize (Hitems _ _ eq_refl).
  destruct priorities; try (intros H; inversion H; subst; exact Hitems).
  unfold extractInsightsFromPriorities.
  destruct (extractFrom rnd 0 items cfg n1) as [[additional|] n2] eqn:Hx;
    [|discriminate 1].
  intros H; inversion H; subst; clear H.
  apply Forall_app. split; [exact Hitems|].
  eapply extractFrom_canonical; eauto.
Qed.

Lemma default_canonical (c : string) :
  In c allCategories -> canonical (generateDefaultInsight c).
Proof.
  intros Hc. split; simpl.
  - exists c. auto.
  - exists "good". unfold priorityOrder. simpl. auto.
Qed.

Lemma completeInsights_canonical (found : list ErgonomicInsight) :
  Forall canonical found -> Forall canonical (completeInsights found).
Proof.
  intros Hf. unfold completeInsights, prioritizeInsights.
  eapply Permutation_Forall.
  - apply Permutation_sym, sort_perm.
  - apply Forall_app. split; [exact Hf|].
    apply Forall_forall. intros i Hi.
    apply in_map_iff in Hi. destruct Hi as [c [<- Hc]].
    apply default_canonical.
    unfold getMissingCategories in Hc. apply filter_In in Hc. tauto.
Qed.


Lemma parseImprovement_throws rnd improvement priority cfg n :
  fst (parseImprovement rnd improvement priority cfg n) = None
  <-> is_str improvement = false.
Proof.
  unfold parseImprovement.
  destruct improvement; simpl Val.toLowerCase; cbn iota;
    try (split; reflexivity).
  destruct (detect categoryMappings (Js.toLowerCase s)).
  - destruct (generateRecommendation rnd _ _ n). simpl. split; discriminate.
  - simpl. split; discriminate.
Qed.

Lemma extractFrom_throws rnd cfg priorities :
  forall index n,
    fst (extractFrom rnd index priorities cfg n) = None
    <-> forallb is_str priorities = false.
Proof.
  induction priorities as [|p ps IH]; intros index n; cbn [extractFrom forallb].
  - simpl. split; discriminate.
  - pose proof (parseImprovement_throws rnd p index cfg n) as Hp.
    destruct (parseImprovement rnd p index cfg n) as [[insight|] n1];
      simpl in Hp.
    + destruct (is_str p); [|destruct Hp as [_ Hp]; discriminate Hp; reflexivity].
      specialize (IH (S index) n1).
      destruct (extractFrom rnd (S index) ps cfg n1) as [[found|] n2];
        simpl in *; rewrite <- IH; split; congruence.
    + destruct Hp as [Hp _]. rewrite (Hp eq_refl). simpl. tauto.
Qed.

(** [analyzeErgonomics] reaches its [catch] on the inputs described by
    [reaches_catch], and on no other. *)
Lemma collectInsights_throws rnd data cfg n :
  fst (collectInsights rnd data cfg n) = None <-> reaches_catch data = true.
Proof.
  unfold collectInsights, reaches_catch.
  destruct (Val.prop data "improvement_priorities") as [priorities|] eqn:Hp.
  - destruct (Val.prop data "ergonomic_evaluation") as [evaluation|] eqn:He;
      [|destruct data; simpl in *; try discriminate;
        destruct (Val.own fields "ergonomic_evaluation"); discriminate].
    destruct (match evaluation with
              | JArr items => processItems rnd items cfg n
              | _ => ([], n)
              end) as [fromItems n1].
    destruct priorities as [ | | b | q | s | ps | fields | name ];
      try (simpl; split; discriminate).
    unfold extractInsightsFromPriorities.
    rewrite negb_true_iff, <- (extractFrom_throws rnd cfg ps 0 n1).
    destruct (extractFrom rnd 0 ps cfg n1) as [[found|] n2]; simpl;
      split; congruence.
  - destruct (Val.prop data "ergonomic_evaluation"); simpl; tauto.
Qed.





(** Scenario A in full: the chair insight is poor and gets a
    synthesized recommendation, the other four categories get the default
    insight; the poor insight comes first. *)
Example analyzeErgonomics_scenario_A :
  let result :=
    fst (analyzeErgonomics Samples.zeros Samples.one_chair default_config 0) in
  map (fun i => (category i, status i)) result
  = [ (JStr "chair-posture", JStr "poor");
      (JStr "desk-height", JStr "good");
      (JStr "screen-position", JStr "good");
      (JStr "lighting", JStr "good");
      (JStr "organization", JStr "good") ]
  /\ map recommendation (firstn 1 result)
     = [ JStr "Replace chair or add lumbar support immediately" ].
Proof.
  vm_compute. split; reflexivity.
Qed.


End ErgonomicFacts.

(** ** The product recommendation generator *)

Module RecommendationFacts.

Import ProductRecommendationService Props.

Lemma recommendAll_length rnd multiplier products :
  forall index n,
    List.length (fst (recommendAll rnd multiplier products index n))
    = List.length products.
Proof.
  induction products as [|p ps IH]; intros index n; simpl; [reflexivity|].
  specialize (IH (S index) (S n)).
  destruct (recommendAll rnd multiplier ps (S index) (S n)) as [rs n2].
  simpl in *. congruence.
Qed.

Lemma style_products_at_most_five (userVibe : JsVal) (products : list Product) :
  getStyleSpecificProducts userVibe = Some products ->
  (List.length products <= 5)%nat.
Proof.
  unfold getStyleSpecificProducts.
  destruct (negb (Val.truthy userVibe)); [intros H; inversion H; simpl; lia|].
  destruct (Val.toLowerCase userVibe) as [vibe|]; [|discriminate].
  intros H; inversion H; subst; clear H.
  rewrite !length_app. unfold when.
  repeat match goal with
         | |- context [if ?b then _ else _] => destruct b
         end; simpl; lia.
Qed.

(** The [try] block of [generateRecommendations] throws exactly on the
    inputs [internal_failure] describes. *)
Lemma throws_iff_internal_failure (budgetRange : JsVal) :
  calculatePriceMultiplier budgetRange = None
  <-> toLowerCase_throws budgetRange = true.
Proof.
  unfold calculatePriceMultiplier, toLowerCase_throws.
  destruct budgetRange as [ | | b | q | s | items | fields | name ]; simpl;
    try (split; congruence).
  - destruct b; simpl; split; congruence.
  - destruct (negb (Qeq_bool q 0)); simpl; split; congruence.
  - destruct (negb (String.eqb s "")); simpl; [|split; congruence].
    repeat match goal with
           | |- context [if ?b then _ else _] => destruct b
           end; split; congruence.
Qed.

Lemma style_throws_iff (userVibe : JsVal) :
  getStyleSpecificProducts userVibe = None
  <-> toLowerCase_throws userVibe = true.
Proof.
  unfold getStyleSpecificProducts, toLowerCase_throws.
  destruct userVibe as [ | | b | q | s | items | fields | name ]; simpl;
    try (split; congruence).
  - destruct b; simpl; split; congruence.
  - destruct (negb (Qeq_bool q 0)); simpl; split; congruence.
  - destruct (negb (String.eqb s "")); simpl; split; congruence.
Qed.

(** A recommendation keeps the name of its template, and is numbered
    from its place in the list. *)
Lemma recommendAll_names rnd multiplier products :
  forall index n,
    map name (fst (recommendAll rnd multiplier products index n))
    = map product_name products
    /\ map id (fst (recommendAll rnd multiplier products index n))
       = map (fun k => ("rec_" ++ decimal (k + 1))%string)
             (seq index (List.length products)).
Proof.
  induction products as [|p ps IH]; intros index n; simpl; [auto|].
  specialize (IH (S index) (S n)).
  destruct (recommendAll rnd multiplier ps (S index) (S n)) as [rs n2].
  simpl in *. destruct IH as [IH1 IH2]. rewrite IH1, IH2. auto.
Qed.

(** The style templates selected are those of the table. *)
Lemma style_products_named (userVibe : JsVal) (products : list Product) :
  getStyleSpecificProducts userVibe = Some products ->
  map product_name products = style_names userVibe.
Proof.
  unfold getStyleSpecificProducts, style_names.
  destruct (negb (Val.truthy userVibe)); [intros H; inversion H; reflexivity|].
  destruct (Val.toLowerCase userVibe) as [vibe|]; [|discriminate].
  intros H; inversion H; subst; clear H.
  unfold when, style_templates. cbn [filter fst snd].
  destruct (Js.includes vibe "modern" || Js.includes vibe "minimalist");
    destruct (Js.includes vibe "cozy" || Js.includes vibe "warm");
    destruct (Js.includes vibe "productive" || Js.includes vibe "professional");
    destruct (Js.includes vibe "creative" || Js.includes vibe "artistic");
    destruct (Js.includes vibe "tech" || Js.includes vibe "gaming");
    reflexivity.
Qed.

(** C10.  [generateRecommendations] returns a list and never an error.
    When its [try] block throws, the list is the 3 fixed fallback
    recommendations.  Otherwise it is made of the 6 base templates
    followed by the style templates the vibe selects, cut after the
    eighth: the recommendations bear these names in this order and are
    numbered from 1, so there are 6 plus the number of style templates
    selected, and 8 at most.  In both cases the list has between 3 and
    8 elements and is not empty. *)
Theorem generateRecommendations_count
    (Math_random : nat -> Q) (analysisData promptContext : JsVal) (n : nat) :
  let result :=
    fst (generateRecommendations Math_random analysisData promptContext n) in
  (if internal_failure promptContext
   then result = getFallbackRecommendations /\ List.length result = 3%nat
   else
     (exists userVibe,
        Val.prop promptContext "userVibe" = Some userVibe
        /\ map name result = firstn 8 (base_names ++ style_names userVibe)
        /\ List.length result
           = Nat.min 8 (6 + List.length (style_names userVibe)))
     /\ map id result
        = map (fun k => ("rec_" ++ decimal k)%string)
              (seq 1 (List.length result))
     /\ (6 <= List.length result <= 8)%nat)
  /\ (3 <= List.length result <= 8)%nat
  /\ result <> [].
Proof.
  cbv zeta.
  assert (H : if internal_failure promptContext
              then fst (generateRecommendations Math_random analysisData
                          promptContext n) = getFallbackRecommendations
              else
                (exists userVibe,
                   Val.prop promptContext "userVibe" = Some userVibe
                   /\ map name
                        (fst (generateRecommendations Math_random analysisData
                                promptContext n))
                      = firstn 8 (base_names ++ style_names userVibe)
                   /\ List.length
                        (fst (generateRecommendations Math_random analysisData
                                promptContext n))
                      = Nat.min 8 (6 + List.length (style_names userVibe)))
                /\ map id
                     (fst (generateRecommendations Math_random analysisData
                             promptContext n))
                   = map (fun k => ("rec_" ++ decimal k)%string)
                         (seq 1 (List.length
                                   (fst (generateRecommendations Math_random
                                           analysisData promptContext n))))).
  { unfold generateRecommendations, internal_failure.
    destruct (Val.prop promptContext "budgetRange") as [budgetRange|];
      [|reflexivity].
    pose proof (throws_iff_internal_failure budgetRange) as Hb.
    destruct (Val.prop promptContext "userVibe") as [userVibe|].
    - pose proof (style_throws_iff userVibe) as Hu.
      pose proof (style_products_named userVibe) as Hn.
      destruct (calculatePriceMultiplier budgetRange) as [multiplier|].
      + destruct (toLowerCase_throws budgetRange);
          [destruct Hb as [_ Hb]; discriminate (Hb eq_refl)|].
        destruct (getStyleSpecificProducts userVibe) as [styleProducts|].
        * destruct (toLowerCase_throws userVibe);
            [destruct Hu as [_ Hu]; discriminate (Hu eq_refl)|].
          simpl orb. cbv iota.
          specialize (Hn _ eq_refl).
          destruct (recommendAll_names Math_random multiplier
                      (firstn 8 (getBaseProducts ++ styleProducts)) 0 n)
            as [Hnames Hids].
          rewrite recommendAll_length.
          split.
          -- exists userVibe. split; [reflexivity|]. split.
             ++ rewrite Hnames, <- firstn_map, map_app, Hn. reflexivity.
             ++ rewrite length_firstn, length_app, <- Hn, length_map.
                reflexivity.
          -- rewrite Hids, <- seq_shift, map_map.
             apply map_ext. intros k. rewrite Nat.add_1_r. reflexivity.
        * destruct Hu as [Hu _]. rewrite (Hu eq_refl), orb_true_r. reflexivity.
      + destruct Hb as [Hb _]. rewrite (Hb eq_refl). reflexivity.
    - destruct (calculatePriceMultiplier budgetRange); reflexivity. }
  destruct (internal_failure promptContext).
  - rewrite H. simpl. repeat split; try lia. discriminate.
  - destruct H as [[userVibe [Hv [Hnames Hlen]]] Hids].
    assert (6 <= List.length
                   (fst (generateRecommendations Math_random analysisData
                           promptContext n)) <= 8)%nat by lia.
    split; [split; [exists userVibe; auto | split; [exact Hids | lia]]|].
    split; [lia|].
    intros Hnil. rewrite Hnil in *. simpl in *. lia.
Qed.

(** The three counts are reached: a vibe that selects no style
    template, one, and two or more. *)
Example generateRecommendations_counts_reached (Math_random : nat -> Q) (n : nat) :
  let count vibe :=
    List.length
      (fst (generateRecommendations Math_random JNull
              (JObj [ ("userVibe", JStr vibe); ("budgetRange", JStr "") ]) n)) in
  count "Quiet" = 6%nat
  /\ count "Cozy" = 7%nat
  /\ count "Modern and cozy" = 8%nat
  /\ count "modern, cozy, productive, creative, tech" = 8%nat.
Proof.
  repeat split; vm_compute; reflexivity.
Qed.

Lemma Math_round_nonneg (x : Q) : (0 <= x)%Q -> (0 <= Math_round x)%Z.
Proof.
  intros Hx. unfold Math_round.
  change 0%Z with (Qfloor 0). apply Qfloor_resp_le.
  apply Qle_trans with x; [exact Hx|].
  rewrite <- (Qplus_0_r x) at 1. apply Qplus_le_r. discriminate.
Qed.

Lemma recommendAll_ordered rnd multiplier products :
  (0 <= multiplier)%Q ->
  Forall (fun p => (0 <= basePrice p)%Z) products ->
  forall index n,
    Forall ordered (fst (recommendAll rnd multiplier products index n)).
Proof.
  intros Hm. induction 1 as [|p ps Hp _ IH]; intros index n; simpl.
  - constructor.
  - specialize (IH (S index) (S n)).
    destruct (recommendAll rnd multiplier ps (S index) (S n)) as [rs n2].
    simpl in *. constructor; [|exact IH].
    unfold ordered. simpl.
    assert (0 <= Math_round (inject_Z (basePrice p) * multiplier))%Z as Ha.
    { apply Math_round_nonneg. apply Qmult_le_0_compat; [|exact Hm].
      change 0%Q with (inject_Z 0). rewrite <- Zle_Qle. exact Hp. }
    assert (0 <= Math_round
                   (inject_Z (Math_round (inject_Z (basePrice p) * multiplier))
                    * (2 # 10)))%Z as Hv.
    { apply Math_round_nonneg. apply Qmult_le_0_compat; [|discriminate].
      change 0%Q with (inject_Z 0). rewrite <- Zle_Qle. exact Ha. }
    lia.
Qed.

Lemma multiplier_nonneg (budgetRange : JsVal) (multiplier : Q) :
  calculatePriceMultiplier budgetRange = Some multiplier -> (0 <= multiplier)%Q.
Proof.
  unfold calculatePriceMultiplier.
  destruct (negb (Val.truthy budgetRange)); [intros H; inversion H; discriminate|].
  destruct (Val.toLowerCase budgetRange); [|discriminate].
  repeat match goal with
         | |- context [if ?b then _ else _] => destruct b
         end; intros H; inversion H; discriminate.
Qed.

Lemma style_products_priced (userVibe : JsVal) (products : list Product) :
  getStyleSpecificProducts userVibe = Some products ->
  Forall (fun p => (0 <= basePrice p)%Z) products.
Proof.
  unfold getStyleSpecificProducts.
  destruct (negb (Val.truthy userVibe)); [intros H; inversion H; constructor|].
  destruct (Val.toLowerCase userVibe) as [vibe|]; [|discriminate].
  intros H; inversion H; subst; clear H. unfold when.
  repeat match goal with
         | |- context [if ?b then _ else _] => destruct b
         end; simpl; repeat constructor; simpl; lia.
Qed.

(** The first half of C3: every recommendation has [min <= max]. *)
Lemma generateRecommendations_ordered
    (Math_random : nat -> Q) (analysisData promptContext : JsVal) (n : nat) :
  Forall ordered
    (fst (generateRecommendations Math_random analysisData promptContext n)).
Proof.
  assert (Hf : Forall ordered getFallbackRecommendations).
  { repeat constructor; unfold ordered; simpl; lia. }
  unfold generateRecommendations.
  destruct (Val.prop promptContext "budgetRange") as [budgetRange|]; [|exact Hf].
  destruct (calculatePriceMultiplier budgetRange) as [multiplier|] eqn:Hm;
    [|exact Hf].
  destruct (Val.prop promptContext "userVibe") as [userVibe|]; [|exact Hf].
  destruct (getStyleSpecificProducts userVibe) as [styleProducts|] eqn:Hs;
    [|exact Hf].
  apply recommendAll_ordered.
  - eapply multiplier_nonneg; eauto.
  - apply Forall_forall. intros p Hp.
    assert (Hin : In p (getBaseProducts ++ styleProducts)).
    { rewrite <- (firstn_skipn 8 (getBaseProducts ++ styleProducts)).
      apply in_or_app. left. exact Hp. }
    clear Hp. rename Hin into Hp.
    apply in_app_or in Hp. destruct Hp as [Hp | Hp].
    + revert p Hp. apply Forall_forall. repeat constructor; simpl; lia.
    + revert p Hp. apply Forall_forall. eapply style_products_priced; eauto.
Qed.

(** Scenario C of the specification: under the low budget the chair of
    base price 150 is priced around 90, from 72 to 108. *)
Example generateRecommendations_scenario_C (Math_random : nat -> Q) (n : nat) :
  map (fun r => (name r, min (price r), max (price r)))
      (firstn 1 (fst (generateRecommendations Math_random JNull
                        (Samples.context "budget-low") n)))
  = [ ("Ergonomic Office Chair", 72%Z, 108%Z) ].
Proof.
  vm_compute. reflexivity.
Qed.

(** Were the three tiers told apart, prices would rise with the tier:
    on the base catalogue, the multipliers 0.6, 1 and 1.8 give strictly
    increasing [min] and [max]. *)
Lemma prices_rise_with_the_multiplier (Math_random : nat -> Q) (n : nat) :
  let prices m :=
    map (fun r => (min (price r), max (price r)))
        (fst (recommendAll Math_random m getBaseProducts 0 n)) in
  Forall2 (fun lo mid => (fst lo < fst mid /\ snd lo < snd mid)%Z)
          (prices (6 # 10)%Q) (prices 1%Q)
  /\ Forall2 (fun mid hi => (fst mid < fst hi /\ snd mid < snd hi)%Z)
             (prices 1%Q) (prices (18 # 10)%Q).
Proof.
  split; vm_compute; repeat constructor.
Qed.

(** C3, at the three budget answers of the quiz.  The descriptions of
    the mid and the high tier contain "500" ("$500 - $1500", "$1500+"),
    so [calculatePriceMultiplier] takes its first branch for them as it
    does for the low tier: all three contexts get the multiplier 0.6 and
    the same prices.  The branch for 1.8 tests "1500" after "500" and is
    never taken through it. *)
Theorem budget_tiers_get_the_same_prices (Math_random : nat -> Q) (n : nat) :
  let budgetRange tier := Val.prop (Samples.context tier) "budgetRange" in
  let prices tier :=
    map price (fst (generateRecommendations Math_random JNull
                      (Samples.context tier) n)) in
  budgetRange "budget-low"
    = Some (JStr "Under $500 - Budget-friendly essentials and DIY solutions")
  /\ budgetRange "budget-mid"
    = Some (JStr "$500 - $1500 - Quality pieces with good value for money")
  /\ budgetRange "budget-high"
    = Some (JStr "$1500+ - Premium furniture and complete workspace transformation")
  /\ option_map calculatePriceMultiplier (budgetRange "budget-low")
    = Some (Some (6 # 10)%Q)
  /\ option_map calculatePriceMultiplier (budgetRange "budget-mid")
    = Some (Some (6 # 10)%Q)
  /\ option_map calculatePriceMultiplier (budgetRange "budget-high")
    = Some (Some (6 # 10)%Q)
  /\ prices "budget-low" = prices "budget-mid"
  /\ prices "budget-mid" = prices "budget-high".
Proof.
  repeat split; vm_compute; reflexivity.
Qed.

End RecommendationFacts.

(** ** The colour extraction service *)

Module ColorFacts.

Import ColorExtractionService.

Lemma gtb_spec (x y : R) : gtb x y = true <-> (x > y)%R.
Proof.
  unfold gtb. destruct (Rgt_dec x y); split; auto; discriminate.
Qed.

Lemma ltb_spec (x y : R) : ltb x y = true <-> (x < y)%R.
Proof.
  unfold ltb. destruct (Rlt_dec x y); split; auto; discriminate.
Qed.

(** The counters after the loop: what they held before, plus the
    counts and sums over the list. *)
Lemma fold_tally (colors0 : list ExtractedColor) :
  forall t,
    fold_left tally colors0 t
    = {| warmColors := warmColors t + warmCount colors0;
         coolColors := coolColors t + coolCount colors0;
         totalSaturation := totalSaturation t + sumR (map saturation colors0);
         totalLuminance := totalLuminance t + sumR (map luminance colors0) |}.
Proof.
  unfold warmCount, coolCount.
  induction colors0 as [|c cs IH]; intros t; simpl.
  - destruct t; simpl. f_equal; try lia; ring.
  - rewrite IH. unfold tally at 1 2 3 4, isWarmColor, gtb.
    destruct (rgb c) as [[r g] b].
    destruct (Rgt_dec r b); simpl; f_equal; try lia; ring.
Qed.





(** The four branches of the rule, read as inequalities. *)
Lemma moodRule_cases (s l : R) (warm cool : nat) :
  match moodRule s l warm cool with
  | energizing => (s > 6 / 10 /\ l > 5 / 10)%R
  | creativity =>
      ~ (s > 6 / 10 /\ l > 5 / 10)%R /\ (s > 4 / 10)%R /\ (cool < warm)%nat
  | focus =>
      ~ (s > 6 / 10 /\ l > 5 / 10)%R
      /\ ~ ((s > 4 / 10)%R /\ (cool < warm)%nat)
      /\ (l < 3 / 10 \/ s < 2 / 10)%R
  | calm =>
      ~ (s > 6 / 10 /\ l > 5 / 10)%R
      /\ ~ ((s > 4 / 10)%R /\ (cool < warm)%nat)
      /\ ~ (l < 3 / 10 \/ s < 2 / 10)%R
  end.
Proof.
  unfold moodRule, gtb, ltb.
  destruct (Rgt_dec s (6 / 10)), (Rgt_dec l (5 / 10)),
           (Rgt_dec s (4 / 10)), (Nat.ltb_spec cool warm),
           (Rlt_dec l (3 / 10)), (Rlt_dec s (2 / 10));
    simpl; repeat split; try tauto; try lia; try lra.
Qed.

Lemma Rpower_1_base (y : R) : Rpower 1 y = 1%R.
Proof.
  unfold Rpower. rewrite ln_1, Rmult_0_r. apply exp_0.
Qed.

(** A pure white pixel has luminance 1. *)
Lemma white_luminance : pixel_luminance white = 1%R.
Proof.
  unfold pixel_luminance, white, calculateLuminance, linearize.
  replace (255 / 255)%R with 1%R by lra.
  destruct (Rle_dec 1 (3928 / 100000)) as [H|_]; [lra|].
  replace ((1 + 55 / 1000) / (1055 / 1000))%R with 1%R by lra.
  rewrite Rpower_1_base. lra.
Qed.

(** With [ignoreWhite] the filter drops every pure white pixel. *)
Lemma white_is_dropped (n : nat) (options : ColorExtractionOptions) :
  ignoreWhite options = true ->
  filter (keep options) (repeat white n) = [].
Proof.
  intros Hw. induction n as [|n IH]; simpl; [reflexivity|].
  rewrite IH. unfold keep. rewrite Hw, white_luminance. simpl.
  destruct (Rgt_dec 1 (9 / 10)) as [_|H]; [reflexivity|lra].
Qed.

Lemma no_pixels_no_colors (options : ColorExtractionOptions) (ps : list Pixel) :
  filter (keep options) ps = [] -> extractDominantColors ps options = [].
Proof.
  intros H. unfold extractDominantColors. rewrite H.
  unfold groupSimilarColors, slice0. simpl.
  destruct (maxColors options <? 0)%Z; rewrite firstn_nil; reflexivity.
Qed.

(** C5, as the code has it.  When no pixel survives the filter and the
    resize step has succeeded, [extractColorPalette] returns a palette
    with an empty colour array and the mood [focus]: not the fallback
    palette.  The fallback palette, with its 4 colours and the mood
    [focus], is what it returns when the resize step throws. *)
Theorem extractColorPalette_without_clusters
    (resized : bool) (pixelData : list Pixel) (now : Z) (options : PartialOptions) :
  filter (keep (merge options)) pixelData = [] ->
  let palette := extractColorPalette resized pixelData now options in
  if resized
  then colors palette = [] /\ mood palette = focus
       /\ palette <> createFallbackPalette now
  else palette = createFallbackPalette now
       /\ List.length (colors palette) = 4%nat /\ mood palette = focus.
Proof.
  intros H. unfold extractColorPalette.
  destruct resized; simpl.
  - rewrite (no_pixels_no_colors _ _ H). simpl.
    repeat split. intros Heq. inversion Heq.
  - repeat split.
Qed.

(** Scenario D of the specification: three pure white pixels, the
    default options. *)
Lemma extractColorPalette_without_clusters_witness :
  filter (keep (merge noOptions)) (repeat white 3) = []
  /\ let palette := extractColorPalette true (repeat white 3) 0 noOptions in
     colors palette = [] /\ mood palette = focus
     /\ palette <> createFallbackPalette 0.
Proof.
  split.
  - apply white_is_dropped. reflexivity.
  - apply (extractColorPalette_without_clusters true (repeat white 3) 0 noOptions).
    apply white_is_dropped. reflexivity.
Defined.

(** C5 as stated fails in Scenario D: every sample is pure white and
    [ignoreWhite] is set, no cluster survives, and the palette returned
    has no colours; it is not the fallback palette. *)
Lemma extractColorPalette_white_photo_has_no_colors :
  filter (keep (merge noOptions)) (repeat white 3) = []
  /\ colors (extractColorPalette true (repeat white 3) 0 noOptions) = []
  /\ extractColorPalette true (repeat white 3) 0 noOptions
     <> createFallbackPalette 0.
Proof.
  assert (H : filter (keep (merge noOptions)) (repeat white 3) = []).
  { apply white_is_dropped. reflexivity. }
  split; [exact H|].
  unfold extractColorPalette. rewrite (no_pixels_no_colors _ _ H). simpl.
  split; [reflexivity|]. intros Heq. inversion Heq.
Qed.

End ColorFacts.

(** ** The mood at a threshold *)

Module MoodRoundingFacts.

Import ColorExtractionService.
Import PrimFloat.


End MoodRoundingFacts.

(** ** The orchestrator *)

Module OrchestratorFacts.

Import OpenAIClientService AIAnalysisService Props.

(** The errors [analyzeImageWithPrompt] throws from its [catch] carry a
    message. *)
Lemma classify_message (m : string) : message (classify m) <> "".
Proof.
  unfold classify.
  repeat match goal with
         | |- context [if ?b then _ else _] => destruct b
         end; simpl; discriminate.
Qed.

Lemma analysis_error_message (r : Reply) (e : AIAnalysisError) :
  analyzeImageWithPrompt r = inl (AnalysisError e) -> message e <> "".
Proof.
  destruct r as [m | [m|] | [content|]]; simpl.
  - discriminate.
  - intros H; inversion H; apply classify_message.
  - intros H; inversion H; simpl; discriminate.
  - destruct (String.eqb content ""); intros H; inversion H.
    apply classify_message.
  - intros H; inversion H; apply classify_message.
Qed.

(** One attempt whose photo is valid and whose model call fails. *)
Lemma performAnalysis_model_failure (w : World) (attempt : nat) :
  valid_photo (photo w attempt) = true ->
  retryable_failure (reply w attempt) = true ->
  exists e,
    analyzeImageWithPrompt (reply w attempt) = inl (AnalysisError e)
    /\ retryable e = true
    /\ performAnalysis w attempt
       = ([ Progress PROCESSING_IMAGE 30; ReadImage; ReadImage;
            Progress PROCESSING_IMAGE 50; ModelCall ],
          inl (AnalysisError e)).
Proof.
  unfold valid_photo, retryable_failure, performAnalysis.
  intros Hv Hr. rewrite Hv. simpl negb. cbv iota.
  destruct (photo w attempt) as [len|]; [|discriminate Hv].
  destruct (analyzeImageWithPrompt (reply w attempt)) as [[m|e]|content];
    try discriminate Hr.
  exists e. auto.
Qed.

(** One attempt whose photo is not valid: nothing is converted and the
    model is not called. *)
Lemma performAnalysis_invalid_photo (w : World) (attempt : nat) :
  valid_photo (photo w attempt) = false ->
  exists reason,
    AIImageProcessingService.error
      (AIImageProcessingService.validateImageForAI (photo w attempt))
    = Some reason
    /\ performAnalysis w attempt
       = ([ Progress PROCESSING_IMAGE 30; ReadImage ],
          inl (PlainError ("Image validation failed: " ++ reason)%string)).
Proof.
  unfold valid_photo, performAnalysis. intros Hv. rewrite Hv. simpl negb. cbv iota.
  unfold AIImageProcessingService.validateImageForAI in *.
  destruct (photo w attempt) as [len|].
  - destruct (20 * (1024 * 1024) <? len)%Z; [eexists; split; reflexivity|].
    destruct (len =? 0)%Z; [eexists; split; reflexivity|discriminate Hv].
  - eexists; split; reflexivity.
Qed.

(** The loop from attempt [attempt] on, when every attempt left fails
    with the events [during]. *)
Lemma attempts_all_fail (w : World) (during : list Event)
    (failure : nat -> Thrown) :
  forall remaining attempt lastError,
    (forall a, (attempt <= a < attempt + remaining)%nat ->
               performAnalysis w a = (during, inl (failure a))) ->
    attempts w remaining attempt lastError
    = (flat_map (fun a => during ++ after_failure a) (seq attempt remaining),
       snd (attempts w 0 (attempt + remaining)
              (match remaining with
               | O => lastError
               | S r => Some (failure (attempt + r)%nat)
               end))).
Proof.
  induction remaining as [|r IH]; intros attempt lastError Hall.
  - reflexivity.
  - cbn [attempts seq flat_map].
    rewrite (Hall attempt) by lia.
    rewrite (IH (S attempt) (Some (failure attempt))) by (intros a Ha; apply Hall; lia).
    unfold after_failure. rewrite <- !app_assoc. cbn [app].
    f_equal.
    replace (S attempt + r)%nat with (attempt + S r)%nat by lia.
    destruct r as [|r']; [rewrite Nat.add_0_r; reflexivity|].
    replace (S attempt + r')%nat with (attempt + S r')%nat by lia.
    reflexivity.
Qed.

Lemma attempt_in_range (a : nat) :
  (1 <= a < 1 + MAX_RETRIES)%nat -> In a all_attempts.
Proof.
  intros Ha. unfold all_attempts. apply in_seq. lia.
Qed.

(** C6.  When at every attempt the photo is valid and the call to the
    model fails with a retryable error, [analyzeWorkspace] makes exactly
    5 attempts, each with one model call; after attempt 1, 2, 3 and 4 it
    sleeps 2000, 4000, 6000 and 8000 ms (attempt times the base delay);
    then it throws one error whose message ends with the message of the
    failure of the last attempt.  No result is returned. *)
Theorem analyzeWorkspace_exhausts_the_retries (w : World) :
  forallb (fun a => valid_photo (photo w a) && retryable_failure (reply w a))
          all_attempts = true ->
  exists lastFailure,
    analyzeImageWithPrompt (reply w MAX_RETRIES) = inl (AnalysisError lastFailure)
    /\ analyzeWorkspace w
       = (failing_run [ Progress PROCESSING_IMAGE 30; ReadImage; ReadImage;
                        Progress PROCESSING_IMAGE 50; ModelCall ],
          inl (PlainError ("Analysis failed after 5 attempts: "
                           ++ message lastFailure)%string))
    /\ attemptsMade (fst (analyzeWorkspace w)) = 5%nat
    /\ modelCalls (fst (analyzeWorkspace w)) = 5%nat
    /\ delays (fst (analyzeWorkspace w)) = [2000; 4000; 6000; 8000]%Z.
Proof.
  intros Hall.
  assert (Hevery : forall a, (1 <= a < 1 + MAX_RETRIES)%nat ->
             valid_photo (photo w a) = true
             /\ retryable_failure (reply w a) = true).
  { intros a Ha. apply attempt_in_range in Ha.
    rewrite forallb_forall in Hall. specialize (Hall a Ha).
    apply andb_prop in Hall. exact Hall. }
  set (failure := fun a =>
         match analyzeImageWithPrompt (reply w a) with
         | inl t => t
         | inr _ => PlainError ""
         end).
  set (during := [ Progress PROCESSING_IMAGE 30; ReadImage; ReadImage;
                   Progress PROCESSING_IMAGE 50; ModelCall ]).
  assert (Hperform : forall a, (1 <= a < 1 + MAX_RETRIES)%nat ->
             performAnalysis w a = (during, inl (failure a))).
  { intros a Ha. destruct (Hevery a Ha) as [Hv Hr].
    destruct (performAnalysis_model_failure w a Hv Hr) as [e [He [_ Hp]]].
    rewrite Hp. unfold failure. rewrite He. reflexivity. }
  destruct (Hevery MAX_RETRIES ltac:(unfold MAX_RETRIES; lia)) as [Hv Hr].
  destruct (performAnalysis_model_failure w MAX_RETRIES Hv Hr) as [e [He _]].
  exists e. split; [exact He|].
  assert (Hrun : analyzeWorkspace w
                 = (failing_run during,
                    inl (PlainError ("Analysis failed after 5 attempts: "
                                     ++ message e)%string))).
  { unfold analyzeWorkspace.
    rewrite (attempts_all_fail w during failure MAX_RETRIES 1 None Hperform).
    unfold failing_run, all_attempts. f_equal.
    cbn [MAX_RETRIES Nat.add attempts snd]. unfold failure.
    change 5%nat with MAX_RETRIES. rewrite He. cbn [message_of].
    pose proof (analysis_error_message _ _ He) as Hm.
    apply String.eqb_neq in Hm. rewrite Hm. reflexivity. }
  rewrite Hrun. repeat split.
Qed.

(** A photo of 1 MB and a model that times out at every attempt. *)
Lemma analyzeWorkspace_exhausts_the_retries_witness :
  forallb (fun a => valid_photo (photo Samples.always_timeout a)
                    && retryable_failure (reply Samples.always_timeout a))
          all_attempts = true
  /\ exists lastFailure,
       analyzeImageWithPrompt (reply Samples.always_timeout MAX_RETRIES)
       = inl (AnalysisError lastFailure)
       /\ analyzeWorkspace Samples.always_timeout
          = (failing_run [ Progress PROCESSING_IMAGE 30; ReadImage; ReadImage;
                           Progress PROCESSING_IMAGE 50; ModelCall ],
             inl (PlainError ("Analysis failed after 5 attempts: "
                              ++ message lastFailure)%string))
       /\ attemptsMade (fst (analyzeWorkspace Samples.always_timeout)) = 5%nat
       /\ modelCalls (fst (analyzeWorkspace Samples.always_timeout)) = 5%nat
       /\ delays (fst (analyzeWorkspace Samples.always_timeout))
          = [2000; 4000; 6000; 8000]%Z.
Proof.
  split.
  - reflexivity.
  - apply (analyzeWorkspace_exhausts_the_retries Samples.always_timeout).
    reflexivity.
Defined.

(** C7, as the code has it.  When the photo fails validation, each
    attempt stops right after the validation, before the conversion and
    without a call to the model; but the failure is caught by the retry
    loop like any other: the loop makes its 5 attempts, sleeping 2000,
    4000, 6000 and 8000 ms between them, and then throws the terminal
    error, whose message ends with the validation error. *)
Theorem analyzeWorkspace_retries_an_invalid_photo (w : World) :
  forallb (fun a => negb (valid_photo (photo w a))) all_attempts = true ->
  exists reason,
    AIImageProcessingService.error
      (AIImageProcessingService.validateImageForAI (photo w MAX_RETRIES))
    = Some reason
    /\ analyzeWorkspace w
       = (failing_run [ Progress PROCESSING_IMAGE 30; ReadImage ],
          inl (PlainError
                 ("Analysis failed after 5 attempts: Image validation failed: "
                  ++ reason)%string))
    /\ attemptsMade (fst (analyzeWorkspace w)) = 5%nat
    /\ modelCalls (fst (analyzeWorkspace w)) = 0%nat
    /\ delays (fst (analyzeWorkspace w)) = [2000; 4000; 6000; 8000]%Z.
Proof.
  intros Hall.
  assert (Hevery : forall a, (1 <= a < 1 + MAX_RETRIES)%nat ->
             valid_photo (photo w a) = false).
  { intros a Ha. apply attempt_in_range in Ha.
    rewrite forallb_forall in Hall. specialize (Hall a Ha).
    apply negb_true_iff in Hall. exact Hall. }
  set (failure := fun a =>
         PlainError
           ("Image validation failed: "
            ++ match AIImageProcessingService.error
                       (AIImageProcessingService.validateImageForAI (photo w a)) with
               | Some e => e
               | None => "undefined"
               end)%string).
  set (during := [ Progress PROCESSING_IMAGE 30; ReadImage ]).
  assert (Hperform : forall a, (1 <= a < 1 + MAX_RETRIES)%nat ->
             performAnalysis w a = (during, inl (failure a))).
  { intros a Ha.
    destruct (performAnalysis_invalid_photo w a (Hevery a Ha)) as [reason [Hr Hp]].
    rewrite Hp. unfold failure. rewrite Hr. reflexivity. }
  destruct (performAnalysis_invalid_photo w MAX_RETRIES
              (Hevery MAX_RETRIES ltac:(unfold MAX_RETRIES; lia)))
    as [reason [Hr _]].
  exists reason. split; [exact Hr|].
  assert (Hrun : analyzeWorkspace w
                 = (failing_run during,
                    inl (PlainError
                           ("Analysis failed after 5 attempts: Image validation failed: "
                            ++ reason)%string))).
  { unfold analyzeWorkspace.
    rewrite (attempts_all_fail w during failure MAX_RETRIES 1 None Hperform).
    unfold failing_run, all_attempts. f_equal.
    cbn [MAX_RETRIES Nat.add attempts snd]. unfold failure.
    change 5%nat with MAX_RETRIES. rewrite Hr. reflexivity. }
  rewrite Hrun. repeat split.
Qed.

(** A photo file without content. *)
Lemma analyzeWorkspace_retries_an_invalid_photo_witness :
  forallb (fun a => negb (valid_photo (photo Samples.empty_photo a)))
          all_attempts = true
  /\ exists reason,
       AIImageProcessingService.error
         (AIImageProcessingService.validateImageForAI
            (photo Samples.empty_photo MAX_RETRIES))
       = Some reason
       /\ analyzeWorkspace Samples.empty_photo
          = (failing_run [ Progress PROCESSING_IMAGE 30; ReadImage ],
             inl (PlainError
                    ("Analysis failed after 5 attempts: Image validation failed: "
                     ++ reason)%string))
       /\ attemptsMade (fst (analyzeWorkspace Samples.empty_photo)) = 5%nat
       /\ modelCalls (fst (analyzeWorkspace Samples.empty_photo)) = 0%nat
       /\ delays (fst (analyzeWorkspace Samples.empty_photo))
          = [2000; 4000; 6000; 8000]%Z.
Proof.
  split.
  - reflexivity.
  - apply (analyzeWorkspace_retries_an_invalid_photo Samples.empty_photo).
    reflexivity.
Defined.

(** C7 as stated fails: with a photo file without content the failed
    validation is retried.  The run makes 5 attempts and sleeps four
    times, 20 seconds in all, before it throws. *)
Lemma analyzeWorkspace_empty_photo_is_retried :
  attemptsMade (fst (analyzeWorkspace Samples.empty_photo)) = 5%nat
  /\ delays (fst (analyzeWorkspace Samples.empty_photo))
     = [2000; 4000; 6000; 8000]%Z
  /\ snd (analyzeWorkspace Samples.empty_photo)
     = inl (PlainError
              "Analysis failed after 5 attempts: Image validation failed: Image file is empty or corrupted").
Proof.
  repeat split.
Qed.

End OrchestratorFacts.

(** ** The retry loop *)

Module RetryFacts.
Import OpenAIClientService AIAnalysisService Props Observations.

Lemma attemptsMade_app (l l' : list Event) :
  attemptsMade (l ++ l') = (attemptsMade l + attemptsMade l')%nat.
Proof.
  unfold attemptsMade. rewrite filter_app, length_app. reflexivity.
Qed.

Lemma modelCalls_app (l l' : list Event) :
  modelCalls (l ++ l') = (modelCalls l + modelCalls l')%nat.
Proof.
  unfold modelCalls. rewrite filter_app, length_app. reflexivity.
Qed.

Lemma delays_app (l l' : list Event) : delays (l ++ l') = delays l ++ delays l'.
Proof.
  induction l as [|e l IH]; [reflexivity|].
  destruct e; cbn; rewrite ?IH; reflexivity.
Qed.

Lemma finalized_app (l l' : list Event) :
  finalized (l ++ l') = finalized l || finalized l'.
Proof.
  unfold finalized. apply existsb_app.
Qed.

(** One attempt: one mark at 30%, at most one call of the model, no
    pause, and no mark at 100%. *)
Lemma performAnalysis_events (w : World) (a : nat) :
  attemptsMade (fst (performAnalysis w a)) = 1%nat
  /\ (modelCalls (fst (performAnalysis w a)) <= 1)%nat
  /\ delays (fst (performAnalysis w a)) = []
  /\ finalized (fst (performAnalysis w a)) = false.
Proof.
  unfold performAnalysis.
  destruct (negb _); [cbn; auto|].
  destruct (photo w a); [|cbn; auto].
  destruct (analyzeImageWithPrompt (reply w a)) as [e|content]; [cbn; auto|].
  destruct (enrich w a content); cbn; auto.
Qed.

Lemma pauses_cons (first count : nat) :
  pauses first (S count)
  = (RETRY_DELAY_MS * Z.of_nat first)%Z :: pauses (S first) count.
Proof.
  reflexivity.
Qed.

(** The loop from attempt [attempt] on. *)
Lemma attempts_trace (w : World) :
  forall remaining attempt lastError,
    (attempt + remaining = S MAX_RETRIES)%nat ->
    let run := attempts w remaining attempt lastError in
    match snd run with
    | inr result =>
        exists k r,
          (attempt <= k <= MAX_RETRIES)%nat
          /\ (forall a, (attempt <= a < k)%nat -> succeeds w a = false)
          /\ snd (performAnalysis w k) = inr r
          /\ result = withProcessingTime r (endTime w k - startTime w)%Z
          /\ attemptsMade (fst run) = (S k - attempt)%nat
          /\ (modelCalls (fst run) <= S k - attempt)%nat
          /\ delays (fst run) = pauses attempt (k - attempt)
          /\ finalized (fst run) = true
    | inl e =>
        (forall a, (attempt <= a <= MAX_RETRIES)%nat -> succeeds w a = false)
        /\ attemptsMade (fst run) = remaining
        /\ (modelCalls (fst run) <= remaining)%nat
        /\ delays (fst run) = pauses attempt (remaining - 1)
        /\ finalized (fst run) = false
        /\ exists m,
             e = PlainError ("Analysis failed after 5 attempts: " ++ m)%string
    end.
Proof.
  unfold MAX_RETRIES.
  induction remaining as [|r IH]; intros attempt lastError Hsum; cbv zeta.
  - cbn [attempts fst snd]. split; [intros a Ha; lia|].
    repeat (split; [reflexivity || (cbn; lia)|]). eexists. reflexivity.
  - cbn [attempts].
    pose proof (performAnalysis_events w attempt) as [Hm [Hc [Hd Hf]]].
    destruct (performAnalysis w attempt) as [events [e|result]] eqn:Hp;
      cbn [fst snd] in *.
    + specialize (IH (S attempt) (Some e) ltac:(lia)). cbv zeta in IH.
      destruct (attempts w r (S attempt) (Some e)) as [later outcome].
      cbn [fst snd] in *.
      assert (Hfail : succeeds w attempt = false).
      { unfold succeeds. rewrite Hp. reflexivity. }
      rewrite !attemptsMade_app, !modelCalls_app, !delays_app, !finalized_app.
      rewrite Hm, Hd, Hf.
      destruct outcome as [e'|result].
      * destruct IH as [Hall [Hm' [Hc' [Hd' [Hf' Hmsg]]]]].
        split.
        { intros a Ha. destruct (Nat.eq_dec a attempt) as [-> | Hne];
            [exact Hfail | apply Hall; lia]. }
        unfold MAX_RETRIES.
        destruct (Nat.ltb_spec attempt 5) as [Hlt | Hge].
        -- destruct r as [|r]; [lia|].
           cbn [attemptsMade modelCalls delays finalized filter List.length
                existsb app orb Z.eqb] in *.
           rewrite Hm', Hd', Hf'. cbn [Nat.sub] in *. rewrite Nat.sub_0_r in *.
           rewrite pauses_cons.
           repeat (split; [reflexivity || lia|]). exact Hmsg.
        -- assert (Hr0 : r = 0%nat) by lia. rewrite Hr0 in *. clear Hr0.
           cbn [attemptsMade modelCalls delays finalized filter List.length
                existsb app orb] in *.
           rewrite Hm', Hd', Hf'.
           repeat (split; [reflexivity || lia|]). exact Hmsg.
      * destruct IH as [k [r0 [Hk [Hall [Hr [Hres [Hm' [Hc' [Hd' Hf']]]]]]]]].
        exists k, r0. split; [lia|]. split.
        { intros a Ha. destruct (Nat.eq_dec a attempt) as [-> | Hne];
            [exact Hfail | apply Hall; lia]. }
        split; [exact Hr|]. split; [exact Hres|].
        unfold MAX_RETRIES.
        destruct (Nat.ltb_spec attempt 5) as [Hlt | Hge]; [|lia].
        cbn [attemptsMade modelCalls delays finalized filter List.length
             existsb app orb] in *.
        rewrite Hm', Hd', Hf'.
        replace (k - attempt)%nat with (S (k - S attempt)) by lia.
        rewrite pauses_cons.
        repeat (split; [reflexivity || lia|]). reflexivity.
    + exists attempt, result. split; [lia|].
      split; [intros a Ha; lia|].
      rewrite Hp. cbn [snd]. split; [reflexivity|]. split; [reflexivity|].
      rewrite attemptsMade_app, modelCalls_app, delays_app, finalized_app.
      rewrite Hm, Hd, Hf. replace (attempt - attempt)%nat with 0%nat by lia.
      replace (S attempt - attempt)%nat with 1%nat by lia.
      cbn [attemptsMade modelCalls delays finalized filter List.length
           existsb app orb pauses seq map].
      repeat split; try reflexivity; lia.
Qed.

(** X30.  The retry loop in every world.  [analyzeWorkspace] returns
    the result of the first attempt that succeeds, within the five
    attempts, with the processing time set: it has then made exactly
    that many attempts, has paused 2000, 4000, ... ms after each of the
    failed ones, and its trace reaches 100%.  It throws only when all
    five attempts fail, after pauses of 2000, 4000, 6000 and 8000 ms,
    and its trace then never reaches 100%.  The model is called at most
    once in an attempt. *)
Theorem analyzeWorkspace_stops_at_the_first_success (w : World) :
  let events := fst (analyzeWorkspace w) in
  match snd (analyzeWorkspace w) with
  | inr result =>
      exists k r,
        (1 <= k <= MAX_RETRIES)%nat
        /\ (forall a, (1 <= a < k)%nat -> succeeds w a = false)
        /\ snd (performAnalysis w k) = inr r
        /\ result = withProcessingTime r (endTime w k - startTime w)%Z
        /\ attemptsMade events = k
        /\ (modelCalls events <= k)%nat
        /\ delays events = pauses 1 (k - 1)
        /\ finalized events = true
  | inl e =>
      (forall a, (1 <= a <= MAX_RETRIES)%nat -> succeeds w a = false)
      /\ attemptsMade events = MAX_RETRIES
      /\ (modelCalls events <= MAX_RETRIES)%nat
      /\ delays events = [2000; 4000; 6000; 8000]%Z
      /\ finalized events = false
      /\ exists m,
           e = PlainError ("Analysis failed after 5 attempts: " ++ m)%string
  end.
Proof.
  cbv zeta. unfold analyzeWorkspace.
  pose proof (attempts_trace w MAX_RETRIES 1 None eq_refl) as H.
  cbv zeta in H.
  destruct (attempts w MAX_RETRIES 1 None) as [events outcome].
  cbn [fst snd] in *.
  rewrite attemptsMade_app, modelCalls_app, delays_app, finalized_app.
  cbn [attemptsMade modelCalls delays finalized filter List.length existsb
       app orb Nat.add Z.eqb].
  destruct outcome as [e|result].
  - destruct H as [Hall [Hm [Hc [Hd [Hf Hmsg]]]]].
    split; [exact Hall|]. split; [exact Hm|]. split; [exact Hc|].
    split; [rewrite Hd; reflexivity|]. split; [exact Hf | exact Hmsg].
  - destruct H as [k [r [Hk [Hall [Hr [Hres [Hm [Hc [Hd Hf]]]]]]]]].
    exists k, r. split; [exact Hk|]. split; [exact Hall|].
    split; [exact Hr|]. split; [exact Hres|].
    split; [rewrite Hm; lia|]. split; [lia|].
    split; [exact Hd | exact Hf].
Qed.

End RetryFacts.

(** ** Sorting with a comparator *)

Module SortFacts.

Section Partition.
Context {A : Type}.
Variable compare : A -> A -> Z.
Variable p : A -> bool.
Hypothesis compare_below :
  forall a b, (compare a b <? 0)%Z = p a && negb (p b).

Lemma insert_first (x : A) (l : list A) :
  p x = true -> Sort.insert compare x l = x :: l.
Proof.
  intros Hx. destruct l as [|y l]; simpl; [reflexivity|].
  rewrite compare_below, Hx, andb_false_r. reflexivity.
Qed.

Lemma insert_behind (x : A) (front back : list A) :
  p x = false ->
  forallb p front = true ->
  forallb (fun a => negb (p a)) back = true ->
  Sort.insert compare x (front ++ back) = front ++ x :: back.
Proof.
  intros Hx. induction front as [|y front IH]; simpl; intros Hf Hb.
  - destruct back as [|z back]; simpl; [reflexivity|].
    simpl in Hb. apply andb_prop in Hb. destruct Hb as [Hz _].
    apply negb_true_iff in Hz.
    rewrite compare_below, Hz. reflexivity.
  - apply andb_prop in Hf. destruct Hf as [Hy Hf].
    rewrite compare_below, Hy, Hx. simpl. rewrite IH by assumption. reflexivity.
Qed.

Lemma forallb_filter (q : A -> bool) (l : list A) :
  forallb q (filter q l) = true.
Proof.
  induction l as [|x l IH]; simpl; [reflexivity|].
  destruct (q x) eqn:Hq; simpl; [rewrite Hq|]; exact IH.
Qed.

(** Sorting with a comparator that only puts the elements of [p] before
    the others is the stable partition. *)
Lemma sort_partition (l : list A) :
  Sort.sort compare l = filter p l ++ filter (fun a => negb (p a)) l.
Proof.
  induction l as [|x l IH]; simpl; [reflexivity|].
  fold (Sort.sort compare l). rewrite IH.
  destruct (p x) eqn:Hx; simpl.
  - apply insert_first. exact Hx.
  - apply insert_behind; [exact Hx | apply forallb_filter | apply forallb_filter].
Qed.

End Partition.
Section ByKey.
Context {A : Type}.
Variable compare : A -> A -> Z.
Variable key : A -> Z.
Hypothesis compare_key : forall a b, (compare a b <? 0)%Z = (key a <? key b)%Z.

Lemma insert_in (x y : A) (l : list A) :
  In y (Sort.insert compare x l) -> y = x \/ In y l.
Proof.
  induction l as [|z l IH]; simpl.
  - intros [<- | []]. left; reflexivity.
  - destruct (compare z x <? 0)%Z; simpl.
    + intros [<- | H]; [right; left; reflexivity|].
      destruct (IH H) as [-> | H']; [left; reflexivity | right; right; exact H'].
    + intros [<- | H]; [left; reflexivity | right; exact H].
Qed.

Lemma insert_sorted (x : A) (l : list A) :
  StronglySorted (fun a b => (key a <= key b)%Z) l ->
  StronglySorted (fun a b => (key a <= key b)%Z) (Sort.insert compare x l).
Proof.
  induction 1 as [|z l Hs IH Hz]; simpl.
  - constructor; constructor.
  - rewrite compare_key. destruct (Z.ltb_spec (key z) (key x)) as [Hlt|Hge].
    + constructor; [exact IH|].
      apply Forall_forall. intros y Hy.
      destruct (insert_in x y l Hy) as [-> | Hin]; [lia|].
      rewrite Forall_forall in Hz. apply Hz. exact Hin.
    + constructor; [constructor; assumption|].
      constructor; [exact Hge|].
      eapply Forall_impl; [|exact Hz]. intros y Hy. simpl in Hy. lia.
Qed.

(** Sorting with a comparator that follows a key puts the keys in
    ascending order. *)
Lemma sort_sorted (l : list A) :
  StronglySorted (fun a b => (key a <= key b)%Z) (Sort.sort compare l).
Proof.
  induction l as [|x l IH]; simpl.
  - constructor.
  - apply insert_sorted. exact IH.
Qed.
End ByKey.

End SortFacts.

(** ** Cleaning and validating the parsed response *)

Module CleaningFacts.

Import Props Observations AIResponseParserService.

Lemma own_assign_same (fields : list (string * JsVal)) (k : string) (x : JsVal) :
  Val.own (assign fields k x) k = Some x.
Proof.
  unfold assign. induction fields as [|[k' v] fields IH]; simpl.
  - rewrite String.eqb_refl. reflexivity.
  - rewrite IH. reflexivity.
Qed.

Lemma own_assign_other (fields : list (string * JsVal)) (k k' : string) (x : JsVal) :
  k <> k' -> Val.own (assign fields k x) k' = Val.own fields k'.
Proof.
  intros Hk. unfold assign. induction fields as [|[k0 v] fields IH]; simpl.
  - apply String.eqb_neq in Hk. rewrite Hk. reflexivity.
  - rewrite IH. reflexivity.
Qed.

Lemma field_assign_same fields k x : field (assign fields k x) k = x.
Proof. unfold field. rewrite own_assign_same. reflexivity. Qed.

Lemma field_assign_other fields k k' x :
  k <> k' -> field (assign fields k x) k' = field fields k'.
Proof. intros Hk. unfold field. rewrite own_assign_other by exact Hk. reflexivity. Qed.

(** An index is written with digits: it is none of the field names. *)
Lemma index_key_digit (i : nat) :
  exists c rest, index_key i = String c rest /\ Js.is_digit c = true.
Proof.
  unfold index_key, DecimalString.NilZero.string_of_uint.
  destruct (Nat.to_uint i); simpl; eexists; eexists; split;
    try reflexivity; reflexivity.
Qed.

Lemma own_indexed (items : list JsVal) (c : ascii) (rest : string) :
  Js.is_digit c = false ->
  forall i, Val.own (indexed i items) (String c rest) = None.
Proof.
  intros Hc. induction items as [|x items IH]; intros i; simpl; [reflexivity|].
  rewrite IH.
  destruct (index_key_digit i) as [d [r [-> Hd]]].
  simpl. destruct (Ascii.eqb_spec d c) as [->|]; [congruence | reflexivity].
Qed.

(** Reading a named field of the copy is reading it from the value. *)
Lemma field_spread (data : JsVal) (c : ascii) (rest : string) :
  Js.is_digit c = false ->
  field (spread data) (String c rest) = member data (String c rest).
Proof.
  intros Hc. unfold field, member.
  destruct data; simpl; try reflexivity.
  - rewrite own_indexed by exact Hc. reflexivity.
  - rewrite own_indexed by exact Hc. reflexivity.
  - destruct (Val.own fields (String c rest)); reflexivity.
Qed.

Lemma cleanEvaluation_throws (evaluation : JsVal) :
  cleanEvaluation evaluation = None <-> nullish evaluation = true.
Proof.
  destruct evaluation; simpl; split; try discriminate; try reflexivity.
  all: unfold cleanEvaluation; simpl.
  all: repeat match goal with
              | |- context [Val.own ?f ?k] => destruct (Val.own f k)
              end; discriminate.
Qed.

Lemma map_or_throw_throws (items : list JsVal) :
  map_or_throw cleanEvaluation items = None <-> existsb nullish items = true.
Proof.
  induction items as [|x items IH]; simpl.
  - split; discriminate.
  - pose proof (cleanEvaluation_throws x) as Hx.
    destruct (cleanEvaluation x) as [y|].
    + destruct (nullish x); [destruct Hx as [_ Hx]; discriminate Hx; reflexivity|].
      simpl. rewrite <- IH.
      destruct (map_or_throw cleanEvaluation items); split; congruence.
    + destruct Hx as [Hx _]. rewrite (Hx eq_refl). simpl. tauto.
Qed.

Lemma prop_member (data : JsVal) :
  Val.truthy data = true -> forall k, Val.prop data k = Some (member data k).
Proof.
  intros Ht k. unfold member. destruct data; try discriminate Ht; simpl; try reflexivity.
  destruct (Val.own fields k); reflexivity.
Qed.

Lemma not_object_no_array (data : JsVal) (k : string) (items : list JsVal) :
  negb (Val.truthy data) || negb (is_object data) = true ->
  Val.prop data k <> Some (JArr items).
Proof.
  destruct data; simpl; try discriminate.
Qed.

(** X1.  [cleanAnalysisData] throws exactly when the value it is given
    has an [ergonomic_evaluation] array with an entry that is [null] or
    [undefined]: reading [evaluation.observation] on that entry raises
    a TypeError, which nothing in the function catches.  On every other
    value it returns. *)
Theorem cleanAnalysisData_throws_on_null_entry (data : JsVal) :
  cleanAnalysisData data = None
  <-> exists items,
        Val.prop data "ergonomic_evaluation" = Some (JArr items)
        /\ existsb nullish items = true.
Proof.
  unfold cleanAnalysisData.
  destruct (negb (Val.truthy data) || negb (is_object data)) eqn:Hobj.
  - split; [discriminate|].
    intros [items [H _]]. exfalso. eapply not_object_no_array; eauto.
  - apply orb_false_elim in Hobj. destruct Hobj as [Ht _].
    apply negb_false_iff in Ht.
    rewrite (prop_member data Ht).
    cbv zeta.
    match goal with
    | |- context [match field ?c "ergonomic_evaluation" with _ => _ end] =>
        assert (He : field c "ergonomic_evaluation" = member data "ergonomic_evaluation")
    end.
    { repeat match goal with
             | |- context [if ?b then _ else _] => destruct b
             end;
      rewrite ?field_assign_other by discriminate;
      apply field_spread; reflexivity. }
    rewrite He.
    destruct (member data "ergonomic_evaluation") as [ | | b | q | s | items | fields | name ];
      try (split; [discriminate | intros [items [H _]]; discriminate H]).
    pose proof (map_or_throw_throws items) as Hm.
    destruct (map_or_throw cleanEvaluation items) as [es|].
    + split; [discriminate|].
      intros [items' [H Hn]]. inversion H; subst items'.
      destruct Hm as [_ Hm]. discriminate (Hm Hn).
    + split; [|reflexivity]. intros _. exists items. split; [reflexivity|].
      apply Hm. reflexivity.
Qed.

Lemma or_text_filled (a b : string) : b <> "" -> String.eqb (or_text a b) "" = false.
Proof.
  intros Hb. unfold or_text. destruct (String.eqb_spec a "") as [->|Ha].
  - apply String.eqb_neq. exact Hb.
  - apply String.eqb_neq. exact Ha.
Qed.

Lemma cleanEvaluation_filled (evaluation cleaned : JsVal) :
  cleanEvaluation evaluation = Some cleaned ->
  is_text (member cleaned "observation") = true
  /\ is_text (member cleaned "recommendation") = true.
Proof.
  unfold cleanEvaluation.
  destruct (Val.prop evaluation "observation") as [o|]; [|discriminate].
  destruct (Val.prop evaluation "description") as [d|]; [|discriminate].
  destruct (Val.prop evaluation "recommendation") as [r|]; [|discriminate].
  intros H; inversion H; subst; clear H.
  unfold member. cbn [Val.prop].
  rewrite own_assign_same, own_assign_other, own_assign_same by discriminate.
  simpl. rewrite !or_text_filled; try discriminate. 
  - split; reflexivity.
  - intros E. apply String.eqb_eq in E. rewrite or_text_filled in E; discriminate.
Qed.

Lemma map_or_throw_each (f : JsVal -> option JsVal) (P : JsVal -> Prop) :
  (forall x y, f x = Some y -> P y) ->
  forall items results,
    map_or_throw f items = Some results ->
    Forall P results /\ List.length results = List.length items.
Proof.
  intros Hf. induction items as [|x items IH]; simpl; intros results H.
  - inversion H. split; [constructor | reflexivity].
  - destruct (f x) as [y|] eqn:Hy; [|discriminate H].
    destruct (map_or_throw f items) as [ys|]; [|discriminate H].
    inversion H; subst; clear H.
    destruct (IH ys eq_refl) as [HP Hl]. split.
    + constructor; eauto.
    + simpl. congruence.
Qed.

Lemma not_object_no_member (data : JsVal) (k : string) (items : list JsVal) :
  negb (Val.truthy data) || negb (is_object data) = true ->
  member data k <> JArr items.
Proof.
  unfold member. destruct data; simpl; try discriminate.
Qed.

Lemma cleanAnalysisData_shape (data cleaned : JsVal) :
  cleanAnalysisData data = Some cleaned ->
  (forall evaluations,
      member cleaned "ergonomic_evaluation" = JArr evaluations ->
      forallb usable evaluations = true
      /\ exists items,
           member data "ergonomic_evaluation" = JArr items
           /\ (List.length evaluations <= List.length items)%nat)
  /\ (forall priorities,
        member cleaned "improvement_priorities" = JArr priorities ->
        forallb is_str priorities = true
        /\ exists items,
             member data "improvement_priorities" = JArr items
             /\ List.length priorities = List.length items).
Proof.
  unfold cleanAnalysisData.
  destruct (negb (Val.truthy data) || negb (is_object data)) eqn:Hobj.
  - intros H; inversion H; subst cleaned; clear H.
    split; intros l Hl; exfalso; eapply not_object_no_member; eauto.
  - cbv zeta.
    match goal with
    | |- context [match field ?c "ergonomic_evaluation" with _ => _ end] =>
        set (c0 := c)
    end.
    assert (He : field c0 "ergonomic_evaluation" = member data "ergonomic_evaluation").
    { unfold c0.
      repeat match goal with
             | |- context [if ?b then _ else _] => destruct b
             end;
      rewrite ?field_assign_other by discriminate;
      apply field_spread; reflexivity. }
    assert (Hp : field c0 "improvement_priorities"
                 = member data "improvement_priorities").
    { unfold c0.
      repeat match goal with
             | |- context [if ?b then _ else _] => destruct b
             end;
      rewrite ?field_assign_other by discriminate;
      apply field_spread; reflexivity. }
    clearbody c0.
    rewrite He.
    assert (Hfinal : forall c' evaluated,
      field c' "improvement_priorities" = member data "improvement_priorities" ->
      (forall evaluations, field c' "ergonomic_evaluation" = JArr evaluations ->
         forallb usable evaluations = true
         /\ exists items, member data "ergonomic_evaluation" = JArr items
                          /\ (List.length evaluations <= List.length items)%nat) ->
      Some (JObj match field c' "improvement_priorities" with
                 | JArr priorities =>
                     assign c' "improvement_priorities"
                       (JArr (map (fun priority => JStr (cleanText priority)) priorities))
                 | _ => c'
                 end) = Some evaluated ->
      (forall evaluations,
          member evaluated "ergonomic_evaluation" = JArr evaluations ->
          forallb usable evaluations = true
          /\ exists items,
               member data "ergonomic_evaluation" = JArr items
               /\ (List.length evaluations <= List.length items)%nat)
      /\ (forall priorities,
            member evaluated "improvement_priorities" = JArr priorities ->
            forallb is_str priorities = true
            /\ exists items,
                 member data "improvement_priorities" = JArr items
                 /\ List.length priorities = List.length items)).
    { intros c' evaluated Hp' He' H. inversion H; subst evaluated; clear H.
      rewrite Hp'.
      assert (Hm : forall fs k, member (JObj fs) k = field fs k).
      { intros fs k. unfold member, field. simpl. destruct (Val.own fs k); reflexivity. }
      destruct (member data "improvement_priorities")
        as [ | | b | q | s | ps | fields | name ] eqn:Hd;
        rewrite !Hm; try rewrite field_assign_other by discriminate;
        try rewrite field_assign_same;
        (split; [exact He' | ]).
      all: try (intros priorities E; rewrite E in Hp'; discriminate Hp').
      intros priorities E. inversion E as [E']; clear E. split.
      - clear. induction ps; simpl; auto.
      - exists ps. split; [reflexivity | apply length_map]. }
    destruct (member data "ergonomic_evaluation")
      as [ | | b | q | s | items | fields | name ] eqn:Hd;
      try (apply Hfinal; [exact Hp | rewrite He; intros evaluations E; discriminate E]).
    destruct (map_or_throw cleanEvaluation items) as [es|] eqn:Hes; [|discriminate].
    apply Hfinal.
    + rewrite field_assign_other by discriminate. exact Hp.
    + rewrite field_assign_same. intros evaluations E.
      inversion E; subst evaluations; clear E.
      destruct (map_or_throw_each cleanEvaluation
                  (fun y => is_text (member y "observation") = true
                            /\ is_text (member y "recommendation") = true)
                  cleanEvaluation_filled items es Hes) as [Hall Hlen].
      split.
      * apply forallb_forall. intros y Hy. apply filter_In in Hy.
        destruct Hy as [Hin Hcat].
        rewrite Forall_forall in Hall. destruct (Hall y Hin) as [Ho Hr].
        unfold usable. rewrite Hcat, Ho, Hr. reflexivity.
      * exists items. split; [reflexivity|].
        rewrite <- Hlen. apply filter_length_le.
Qed.

(** X2.  What [cleanAnalysisData] returns: every entry left in
    [ergonomic_evaluation] has a truthy category and an observation and
    a recommendation that are non-empty strings, the entries are at most
    as many as in the input, and [improvement_priorities] has as many
    elements as in the input, all of them strings. *)
Theorem cleanAnalysisData_leaves_usable_entries (data cleaned : JsVal) :
  cleanAnalysisData data = Some cleaned ->
  (forall evaluations,
      member cleaned "ergonomic_evaluation" = JArr evaluations ->
      forallb usable evaluations = true
      /\ exists items,
           member data "ergonomic_evaluation" = JArr items
           /\ (List.length evaluations <= List.length items)%nat)
  /\ (forall priorities,
        member cleaned "improvement_priorities" = JArr priorities ->
        forallb is_str priorities = true
        /\ exists items,
             member data "improvement_priorities" = JArr items
             /\ List.length priorities = List.length items).
Proof.
  intros Hc.
  destruct (cleanAnalysisData_shape data cleaned Hc) as [He Hp].
  split.
  - intros evaluations E.
    destruct (He evaluations E) as [Husable [items [Hitems Hlen]]].
    split; [exact Husable|]. exists items. split; assumption.
  - intros priorities E.
    destruct (Hp priorities E) as [Hstr [items [Hitems Hlen]]].
    split; [exact Hstr|]. exists items. split; assumption.
Qed.

(** Scenario A: the chair entry, whose recommendation is empty, gets
    the stock recommendation of the cleaner. *)
Lemma cleanAnalysisData_leaves_usable_entries_witness :
  exists cleaned,
    cleanAnalysisData Samples.one_chair = Some cleaned
    /\ (forall evaluations,
           member cleaned "ergonomic_evaluation" = JArr evaluations ->
           forallb usable evaluations = true
           /\ exists items,
                member Samples.one_chair "ergonomic_evaluation" = JArr items
                /\ (List.length evaluations <= List.length items)%nat)
    /\ (forall priorities,
          member cleaned "improvement_priorities" = JArr priorities ->
          forallb is_str priorities = true
          /\ exists items,
               member Samples.one_chair "improvement_priorities" = JArr items
               /\ List.length priorities = List.length items).
Proof.
  eexists. split; [vm_compute; reflexivity|].
  apply (cleanAnalysisData_leaves_usable_entries Samples.one_chair).
  vm_compute. reflexivity.
Defined.

Lemma fallback_is_valid (content : string) :
  isValid (validateResponseStructure (parseUnstructuredResponse content)) = true.
Proof.
  unfold validateResponseStructure, parseUnstructuredResponse.
  generalize (Js.take 200 content). intros prefix.
  destruct prefix; reflexivity.
Qed.

(** X3.  [validateResponseStructure] never rejects the unstructured
    fallback: when it rejects what [extractStructuredData] returned, the
    response contained a JSON text (a fenced block or a brace span) that
    [JSON.parse] accepted, and the value rejected is the value parsed. *)
Theorem validateResponseStructure_rejects_parsed_json_only
    (aiContent : string) (v : JsVal) :
  extractStructuredData aiContent = Returned v ->
  isValid (validateResponseStructure v) = false ->
  exists text,
    found_json aiContent = Some text /\ Json.parse text = Json.Ok v.
Proof.
  unfold extractStructuredData, found_json.
  assert (Hf : forall w, Returned (parseUnstructuredResponse aiContent) = Returned w ->
                         isValid (validateResponseStructure w) = false -> False).
  { intros w H Hw. inversion H; subst w.
    rewrite fallback_is_valid in Hw. discriminate Hw. }
  destruct (Regex.exec re_json_block aiContent) as [[whole group1]|].
  - destruct (Json.parse (Regex.expand Regex.Group1 group1)) eqn:Hp; intros Hx Hv.
    + inversion Hx; subst. eauto.
    + destruct (Hf _ Hx Hv).
    + discriminate Hx.
  - destruct (Regex.exec re_json_object aiContent) as [[whole group1]|].
    + destruct (Json.parse whole) eqn:Hp; intros Hx Hv.
      * inversion Hx; subst. eauto.
      * destruct (Hf _ Hx Hv).
      * discriminate Hx.
    + intros Hx Hv. destruct (Hf _ Hx Hv).
Qed.

(** The text of an empty object: parsed, and rejected for its missing
    description. *)
Lemma validateResponseStructure_rejects_parsed_json_only_witness :
  extractStructuredData "{}" = Returned (JObj [])
  /\ isValid (validateResponseStructure (JObj [])) = false
  /\ exists text,
       found_json "{}" = Some text /\ Json.parse text = Json.Ok (JObj []).
Proof.
  split; [reflexivity|]. split; [reflexivity|].
  apply (validateResponseStructure_rejects_parsed_json_only "{}" (JObj []));
    reflexivity.
Defined.

End CleaningFacts.

(** ** From the cleaned response to the insights *)

Module PipelineFacts.

Import Props Observations AIResponseParserService ErgonomicAnalysisService.

(** An insight is counted for at most one category. *)
Lemma counts_within_length (l : list ErgonomicInsight) :
  (fold_right (fun c acc => count_category c l + acc) 0 allCategories
   <= List.length l)%nat.
Proof.
  unfold allCategories, count_category. simpl.
  induction l as [|i l IH]; simpl; [lia|].
  destruct (category i) as [ | | b | q | s | items | fields | name ]; simpl;
    try lia.
  repeat match goal with
         | |- context [String.eqb s ?k] =>
             destruct (String.eqb_spec s k); [subst s|]
         end;
    simpl; try lia; try discriminate.
Qed.

Lemma completeInsights_at_least_five (found : list ErgonomicInsight) :
  (5 <= List.length (completeInsights found))%nat.
Proof.
  pose proof (counts_within_length (completeInsights found)) as H.
  unfold allCategories in H. simpl in H.
  rewrite !ErgonomicFacts.completeInsights_count in H
    by (unfold allCategories; simpl; tauto).
  lia.
Qed.

Lemma cleaned_never_reaches_catch (data cleaned : JsVal) :
  cleanAnalysisData data = Some cleaned ->
  nullish data = false ->
  reaches_catch cleaned = false.
Proof.
  intros Hc Hn.
  pose proof (CleaningFacts.cleanAnalysisData_shape data cleaned Hc) as [_ Hp].
  unfold reaches_catch.
  assert (Hnn : nullish cleaned = false).
  { unfold cleanAnalysisData in Hc.
    destruct (negb (Val.truthy data) || negb (is_object data)).
    - inversion Hc; subst. exact Hn.
    - cbv zeta in Hc.
      match type of Hc with
      | match ?e with _ => _ end = _ => destruct e; [|discriminate Hc]
      end.
      inversion Hc. reflexivity. }
  destruct (Val.prop cleaned "improvement_priorities") as [v|] eqn:Hv.
  - destruct v as [ | | b | q | s | ps | fields | name ]; try reflexivity.
    destruct (Hp ps) as [Hs _].
    + unfold member. rewrite Hv. reflexivity.
    + rewrite Hs. reflexivity.
  - destruct cleaned; simpl in *; try discriminate.
    destruct (Val.own fields "improvement_priorities"); discriminate.
Qed.

(** X4.  After [cleanAnalysisData], [analyzeErgonomics] never falls into
    its [catch]: for every value other than [null] and [undefined] that
    the cleaner returns, the insight list has at least five insights,
    at least one for each of the five categories.  The priorities the
    cleaner leaves are strings, so [toLowerCase] cannot throw on them. *)
Theorem analyzeErgonomics_after_cleaning
    (Math_random : nat -> Q) (data cleaned : JsVal)
    (config : ErgonomicAnalysisConfig) (n : nat) :
  cleanAnalysisData data = Some cleaned ->
  nullish data = false ->
  let result := fst (analyzeErgonomics Math_random cleaned config n) in
  (5 <= List.length result)%nat
  /\ forall c, In c allCategories -> (1 <= count_category c result)%nat.
Proof.
  intros Hc Hn.
  pose proof (cleaned_never_reaches_catch data cleaned Hc Hn) as Hr.
  pose proof (ErgonomicFacts.collectInsights_throws Math_random cleaned config n) as Ht.
  unfold analyzeErgonomics.
  destruct (collectInsights Math_random cleaned config n) as [[found|] n'];
    simpl in *.
  - split.
    + apply completeInsights_at_least_five.
    + intros c Hin. rewrite ErgonomicFacts.completeInsights_count by exact Hin. lia.
  - destruct Ht as [Ht _]. rewrite (Ht eq_refl) in Hr. discriminate Hr.
Qed.

(** A response whose only priority is a number: [analyzeErgonomics]
    alone would return the empty list on it, after cleaning it returns
    the five default insights. *)
Lemma analyzeErgonomics_after_cleaning_witness :
  exists cleaned,
    cleanAnalysisData (JObj [("improvement_priorities", JArr [JNum 1])])
    = Some cleaned
    /\ fst (analyzeErgonomics Samples.zeros
              (JObj [("improvement_priorities", JArr [JNum 1])])
              default_config 0) = []
    /\ let result :=
         fst (analyzeErgonomics Samples.zeros cleaned default_config 0) in
       (5 <= List.length result)%nat
       /\ forall c, In c allCategories -> (1 <= count_category c result)%nat.
Proof.
  eexists. split; [vm_compute; reflexivity|]. split; [vm_compute; reflexivity|].
  apply (analyzeErgonomics_after_cleaning Samples.zeros
           (JObj [("improvement_priorities", JArr [JNum 1])])).
  - vm_compute. reflexivity.
  - reflexivity.
Defined.

End PipelineFacts.

(** ** Prioritizing the recommendations *)

Module PrioritizingFacts.

Import ProductRecommendationService Props Observations.

Lemma category_first_below (c : string) (a b : ProductRecommendation) :
  (category_first c a b <? 0)%Z = in_category c a && negb (in_category c b).
Proof.
  unfold category_first, in_category.
  destruct (String.eqb (category a) c), (String.eqb (category b) c); reflexivity.
Qed.

Lemma sort_category_first (c : string) (l : list ProductRecommendation) :
  Sort.sort (category_first c) l = partition_first c l.
Proof.
  apply SortFacts.sort_partition. apply category_first_below.
Qed.

Lemma filter_twice {A : Type} (f g : A -> bool) (l : list A) :
  filter f (filter g l) = filter (fun x => g x && f x) l.
Proof.
  induction l as [|x l IH]; simpl; [reflexivity|].
  destruct (g x); simpl; [destruct (f x)|]; rewrite IH; reflexivity.
Qed.

Lemma filter_none {A : Type} (f : A -> bool) (l : list A) :
  (forall x, f x = false) -> filter f l = [].
Proof.
  intros Hf. induction l as [|x l IH]; simpl; [reflexivity|].
  rewrite Hf. exact IH.
Qed.

Lemma partition_first_perm (c : string) (l : list ProductRecommendation) :
  Permutation (partition_first c l) l.
Proof.
  rewrite <- sort_category_first. apply ErgonomicFacts.sort_perm.
Qed.

(** Storage products are not lighting products. *)
Lemma partition_twice (l : list ProductRecommendation) :
  partition_first "storage" (partition_first "lighting" l)
  = filter (in_category "storage") l
    ++ filter (in_category "lighting") l
    ++ filter (fun r => negb (in_category "storage" r)
                        && negb (in_category "lighting" r)) l.
Proof.
  unfold partition_first. rewrite !filter_app, !filter_twice.
  assert (Hx : forall r, in_category "lighting" r && in_category "storage" r = false).
  { intros r. unfold in_category.
    destruct (String.eqb_spec (category r) "lighting") as [->|]; reflexivity. }
  rewrite (filter_none _ l Hx). simpl.
  f_equal; [|f_equal].
  - apply filter_ext. intros r. unfold in_category.
    destruct (String.eqb_spec (category r) "lighting") as [->|]; reflexivity.
  - apply filter_ext. intros r. unfold in_category.
    destruct (String.eqb_spec (category r) "lighting") as [->|]; reflexivity.
  - apply filter_ext. intros r.
    destruct (in_category "lighting" r), (in_category "storage" r); reflexivity.
Qed.

(** X5.  [filterByAnalysisInsights], when neither test on the
    priorities throws, rearranges the recommendations and neither drops
    nor adds one: the lighting products are moved to the front when a
    priority mentions light, then the storage products when a priority
    mentions organizing or clutter, every group keeping its order.
    When both are mentioned the result is the storage products, then
    the lighting products, then the rest. *)
Theorem filterByAnalysisInsights_is_a_stable_partition
    (recommendations : list ProductRecommendation) (analysisData : JsVal)
    (lighting storage : bool) :
  priorities_mention analysisData "light" "bright" = Some lighting ->
  priorities_mention analysisData "organiz" "clutter" = Some storage ->
  exists result,
    filterByAnalysisInsights recommendations analysisData = Prioritized result
    /\ Permutation result recommendations
    /\ result
       = (let moved :=
            if lighting then partition_first "lighting" recommendations
            else recommendations in
          if storage then partition_first "storage" moved else moved)
    /\ (lighting = true -> storage = true ->
        result
        = filter (in_category "storage") recommendations
          ++ filter (in_category "lighting") recommendations
          ++ filter (fun r => negb (in_category "storage" r)
                              && negb (in_category "lighting" r))
                    recommendations).
Proof.
  intros Hl Hs. unfold filterByAnalysisInsights. rewrite Hl, Hs.
  eexists. split; [reflexivity|].
  rewrite !sort_category_first. split; [|split].
  - destruct lighting, storage;
      repeat (eapply Permutation_trans; [apply partition_first_perm|]);
      apply Permutation_refl.
  - reflexivity.
  - intros -> ->. apply partition_twice.
Qed.

(** Two priorities, one about light and one about clutter, and the
    three stock recommendations: chair, lamp, organizer. *)
Lemma filterByAnalysisInsights_is_a_stable_partition_witness :
  let data :=
    JObj [("improvement_priorities",
           JArr [JStr "Brighter light at the desk"; JStr "Less clutter"])] in
  priorities_mention data "light" "bright" = Some true
  /\ priorities_mention data "organiz" "clutter" = Some true
  /\ exists result,
       filterByAnalysisInsights getFallbackRecommendations data
       = Prioritized result
       /\ map category result = ["storage"; "lighting"; "chair"].
Proof.
  split; [reflexivity|]. split; [reflexivity|].
  destruct (filterByAnalysisInsights_is_a_stable_partition
              getFallbackRecommendations
              (JObj [("improvement_priorities",
                      JArr [JStr "Brighter light at the desk"; JStr "Less clutter"])])
              true true eq_refl eq_refl) as [result [Hr [_ [_ Hboth]]]].
  exists result. split; [exact Hr|].
  rewrite (Hboth eq_refl eq_refl). reflexivity.
Defined.

End PrioritizingFacts.

(** ** The recommendation cards *)

Module CardFacts.
Import ProductRecommendationService RecommendationCard AIPromptService.
Import Props Observations.

Lemma multiplier_listed (budgetRange : JsVal) (multiplier : Q) :
  calculatePriceMultiplier budgetRange = Some multiplier -> In multiplier multipliers.
Proof.
  unfold calculatePriceMultiplier, multipliers.
  destruct (negb (Val.truthy budgetRange)); [intros H; inversion H; simpl; auto|].
  destruct (Val.toLowerCase budgetRange); [|discriminate].
  repeat match goal with
         | |- context [if ?b then _ else _] => destruct b
         end; intros H; inversion H; simpl; auto.
Qed.

Lemma style_products_listed (userVibe : JsVal) (products : list Product) :
  getStyleSpecificProducts userVibe = Some products ->
  incl (getBaseProducts ++ products) catalogue.
Proof.
  unfold getStyleSpecificProducts.
  destruct (negb (Val.truthy userVibe)).
  - intros H; inversion H; subst. unfold catalogue. rewrite app_nil_r.
    apply incl_appl, incl_refl.
  - destruct (Val.toLowerCase userVibe) as [vibe|]; [|discriminate].
    intros H; inversion H; subst; clear H. unfold when.
    apply incl_app; [apply incl_appl, incl_refl|].
    unfold catalogue. apply incl_appr.
    repeat match goal with
           | |- context [if ?b then _ else _] => destruct b
           end; vm_compute; intros p Hp; intuition.
Qed.

Lemma catalogue_banded rnd :
  forall m, In m multipliers ->
  forall p, In p catalogue ->
  forall i n, banded (fst (recommend rnd m p i n)) = true.
Proof.
  intros m Hm p Hp i n. unfold banded, recommend. cbn [fst price min max].
  assert (H : forallb
                (fun m =>
                   forallb
                     (fun p =>
                        let adjustedPrice :=
                          Math_round (inject_Z (basePrice p) * m)%Q in
                        let priceVariation :=
                          Math_round (inject_Z adjustedPrice * (2 # 10))%Q in
                        (0 <? adjustedPrice - priceVariation)%Z
                        && (adjustedPrice - priceVariation
                            <? adjustedPrice + priceVariation)%Z)
                     catalogue)
                multipliers = true) by (vm_compute; reflexivity).
  rewrite forallb_forall in H. specialize (H m Hm).
  rewrite forallb_forall in H. exact (H p Hp).
Qed.

Lemma recommendAll_banded rnd m products :
  In m multipliers -> incl products catalogue ->
  forall index n,
    forallb banded (fst (recommendAll rnd m products index n)) = true.
Proof.
  intros Hm. induction products as [|p ps IH]; intros Hp index n; simpl.
  - reflexivity.
  - pose proof (catalogue_banded rnd m Hm p (Hp p (or_introl eq_refl)) index n) as Hb.
    unfold banded, recommend in Hb. cbn [fst price min max] in Hb.
    specialize (IH (fun q Hq => Hp q (or_intror Hq)) (S index) (S n)).
    destruct (recommendAll rnd m ps (S index) (S n)) as [rs n2].
    simpl in *. unfold banded at 1. cbn [price min max].
    rewrite Hb. exact IH.
Qed.

Lemma generateRecommendations_banded
    (Math_random : nat -> Q) (analysisData promptContext : JsVal) (n : nat) :
  forallb banded
    (fst (generateRecommendations Math_random analysisData promptContext n))
  = true.
Proof.
  assert (Hf : forallb banded getFallbackRecommendations = true) by reflexivity.
  unfold generateRecommendations.
  destruct (Val.prop promptContext "budgetRange") as [budgetRange|]; [|exact Hf].
  destruct (calculatePriceMultiplier budgetRange) as [multiplier|] eqn:Hm;
    [|exact Hf].
  destruct (Val.prop promptContext "userVibe") as [userVibe|]; [|exact Hf].
  destruct (getStyleSpecificProducts userVibe) as [styleProducts|] eqn:Hs;
    [|exact Hf].
  apply recommendAll_banded.
  - eapply multiplier_listed; eauto.
  - intros p Hp. eapply style_products_listed; eauto.
    rewrite <- (firstn_skipn 8 (getBaseProducts ++ styleProducts)).
    apply in_or_app. left. exact Hp.
Qed.

Lemma formatPrice_range (r : ProductRecommendation) :
  banded r = true ->
  formatPrice r
  = ("$" ++ text_of (min (price r)) ++ " - $" ++ text_of (max (price r)))%string.
Proof.
  unfold banded, formatPrice. intros Hb. apply andb_prop in Hb.
  destruct Hb as [_ Hlt]. apply Z.ltb_lt in Hlt.
  destruct (Z.eqb_spec (min (price r)) (max (price r))); [lia | reflexivity].
Qed.

(** X6.  Every recommendation [generateRecommendations] returns,
    whatever its inputs, has a price range with [0 < min < max], so
    that [formatPrice] on the card always shows a range and never a
    single price. *)
Theorem generateRecommendations_shows_price_ranges
    (Math_random : nat -> Q) (analysisData promptContext : JsVal) (n : nat) :
  Forall (fun r =>
            (0 < min (price r) < max (price r))%Z
            /\ formatPrice r
               = ("$" ++ text_of (min (price r)) ++ " - $"
                  ++ text_of (max (price r)))%string)
         (fst (generateRecommendations Math_random analysisData promptContext n)).
Proof.
  pose proof (generateRecommendations_banded Math_random analysisData
                promptContext n) as H.
  rewrite forallb_forall in H. apply Forall_forall. intros r Hr.
  specialize (H r Hr). split; [|apply formatPrice_range; exact H].
  unfold banded in H. apply andb_prop in H. destruct H as [H1 H2].
  apply Z.ltb_lt in H1. apply Z.ltb_lt in H2. lia.
Qed.

Lemma floor_between (q : Q) (z : Z) :
  (inject_Z z <= q)%Q -> (q < inject_Z (z + 1))%Q -> Qfloor q = z.
Proof.
  intros Hlo Hhi.
  assert (z <= Qfloor q)%Z.
  { rewrite <- (Qfloor_Z z). apply Qfloor_resp_le. exact Hlo. }
  assert (Qfloor q < z + 1)%Z.
  { rewrite Zlt_Qlt. eapply Qle_lt_trans; [apply Qfloor_le | exact Hhi]. }
  lia.
Qed.

Lemma ceiling_between (q : Q) (z : Z) :
  (inject_Z z < q)%Q -> (q <= inject_Z (z + 1))%Q -> Qceiling q = (z + 1)%Z.
Proof.
  intros Hlo Hhi. unfold Qceiling.
  rewrite (floor_between (- q) (- (z + 1))).
  - lia.
  - rewrite inject_Z_opp. apply Qopp_le_compat. exact Hhi.
  - replace (- (z + 1) + 1)%Z with (- z)%Z by lia.
    rewrite inject_Z_opp. apply Qopp_lt_compat. exact Hlo.
Qed.

Lemma fraction_bounds (q : Q) :
  (0 <= q - inject_Z (Qfloor q))%Q /\ (q - inject_Z (Qfloor q) < 1)%Q.
Proof.
  pose proof (Qfloor_le q) as Hlo. pose proof (Qlt_floor q) as Hhi.
  rewrite inject_Z_plus in Hhi. change (inject_Z 1) with 1%Q in Hhi.
  split; Lqa.lra.
Qed.

Lemma ceiling_of_whole (q : Q) :
  (q - inject_Z (Qfloor q) == 0)%Q -> Qceiling q = Qfloor q.
Proof.
  intros H. assert (Hq : (q == inject_Z (Qfloor q))%Q) by Lqa.lra.
  rewrite Hq at 1. apply Qceiling_Z.
Qed.

(** X7.  For every rating above 0 and up to 5, [renderStars] draws as
    many full stars as the rating has whole units, then a half star
    when its fractional part is at least one half, then the empty
    stars.  The row has five icons when the rating is whole or its
    fractional part is at least one half, and only four when the
    fractional part is positive and below one half: the star that was
    started is counted by [Math.ceil] and drawn by nothing. *)
Theorem renderStars_row_is_short_below_one_half (rating0 : Q) :
  (0 < rating0)%Q -> (rating0 <= 5)%Q ->
  let whole := Qfloor rating0 in
  let fraction := (rating0 - inject_Z whole)%Q in
  let half := Qle_bool (1 # 2) fraction in
  let exact := Qeq_bool fraction 0 in
  (0 <= whole <= 5)%Z
  /\ renderStars (Some rating0)
     = Some (repeat Full (Z.to_nat whole)
             ++ (if half then [Half] else [])
             ++ repeat Empty
                  (Z.to_nat (if exact then 5 - whole else 4 - whole)))
  /\ option_map (@List.length Star) (renderStars (Some rating0))
     = Some (if exact || half then 5%nat else 4%nat).
Proof.
  intros Hpos Hmax. cbv zeta.
  destruct (fraction_bounds rating0) as [Hf0 Hf1].
  assert (Hk : (0 <= Qfloor rating0 <= 5)%Z).
  { split.
    - change 0%Z with (Qfloor 0). apply Qfloor_resp_le. Lqa.lra.
    - change 5%Z with (Qfloor 5). apply Qfloor_resp_le. exact Hmax. }
  assert (Hz : Qeq_bool rating0 0 = false).
  { destruct (Qeq_bool rating0 0) eqn:E; [|reflexivity].
    apply Qeq_bool_eq in E. Lqa.lra. }
  assert (Hp : Qle_bool 0 rating0 = true) by (apply Qle_bool_iff; Lqa.lra).
  assert (Hc : Qceiling rating0
               = if Qeq_bool (rating0 - inject_Z (Qfloor rating0)) 0
                 then Qfloor rating0 else (Qfloor rating0 + 1)%Z).
  { destruct (Qeq_bool (rating0 - inject_Z (Qfloor rating0)) 0) eqn:E.
    - apply Qeq_bool_eq in E. apply ceiling_of_whole. exact E.
    - apply ceiling_between.
      + apply Qeq_bool_neq in E. Lqa.lra.
      + rewrite inject_Z_plus. change (inject_Z 1) with 1%Q. Lqa.lra. }
  assert (Hrow : renderStars (Some rating0)
     = Some (repeat Full (Z.to_nat (Qfloor rating0))
             ++ (if Qle_bool (1 # 2) (rating0 - inject_Z (Qfloor rating0))
                 then [Half] else [])
             ++ repeat Empty
                  (Z.to_nat
                     (if Qeq_bool (rating0 - inject_Z (Qfloor rating0)) 0
                      then 5 - Qfloor rating0 else 4 - Qfloor rating0)))).
  { unfold renderStars, remainder_1. rewrite Hz, Hp, Hc.
    destruct (Qeq_bool (rating0 - inject_Z (Qfloor rating0)) 0);
      [reflexivity|].
    replace (5 - (Qfloor rating0 + 1))%Z with (4 - Qfloor rating0)%Z by lia.
    reflexivity. }
  split; [exact Hk|]. split; [exact Hrow|].
  rewrite Hrow. cbn [option_map]. f_equal.
  rewrite !length_app, !repeat_length.
  destruct (Qeq_bool (rating0 - inject_Z (Qfloor rating0)) 0) eqn:E.
  - apply Qeq_bool_eq in E.
    destruct (Qle_bool (1 # 2) (rating0 - inject_Z (Qfloor rating0))) eqn:Eh.
    + apply Qle_bool_iff in Eh. Lqa.lra.
    + cbn [orb List.length]. lia.
  - assert (Qfloor rating0 <= 4)%Z.
    { destruct (Z.eq_dec (Qfloor rating0) 5) as [H5|]; [|lia].
      apply Qeq_bool_neq in E. rewrite H5 in *.
      change (inject_Z 5) with 5%Q in *. exfalso. apply E. Lqa.lra. }
    destruct (Qle_bool (1 # 2) (rating0 - inject_Z (Qfloor rating0)));
      cbn [orb List.length]; lia.
Qed.

(** A rating of 4.2: four full stars and nothing else. *)
Lemma renderStars_row_is_short_below_one_half_witness :
  (0 < 42 # 10)%Q /\ (42 # 10 <= 5)%Q
  /\ renderStars (Some (42 # 10)%Q) = Some [Full; Full; Full; Full]
  /\ option_map (@List.length Star) (renderStars (Some (42 # 10)%Q)) = Some 4%nat.
Proof.
  split; [reflexivity|]. split; [discriminate|].
  split; [vm_compute; reflexivity|].
  apply (renderStars_row_is_short_below_one_half (42 # 10)%Q);
    [reflexivity | discriminate].
Defined.
Lemma budget_multiplier (b : string) :
  if Table.inherited b
  then calculatePriceMultiplier
         (Val.or_else (Table.get_str budgetMap b) (JStr "Mid-range quality"))
       = None
  else exists m,
         calculatePriceMultiplier
           (Val.or_else (Table.get_str budgetMap b) (JStr "Mid-range quality"))
         = Some m.
Proof.
  unfold Table.get_str, Table.get. cbn [budgetMap Table.assoc]. split_key b.
  1-3: vm_compute; eexists; reflexivity.
  destruct (Table.inherited b); [reflexivity|].
  vm_compute. eexists; reflexivity.
Qed.

Lemma vibe_products (a : string) :
  if Table.inherited a
  then getStyleSpecificProducts
         (Val.or_else (Table.get_str vibeMap a) (JStr "Modern and functional"))
       = None
  else exists products,
         getStyleSpecificProducts
           (Val.or_else (Table.get_str vibeMap a) (JStr "Modern and functional"))
         = Some products
         /\ List.length products
            = if String.eqb a "focus-minimal" then 0%nat else 1%nat.
Proof.
  unfold Table.get_str, Table.get. cbn [vibeMap Table.assoc]. split_key a.
  1-3: vm_compute; eexists; split; reflexivity.
  destruct (Table.inherited a); [reflexivity|].
  destruct (String.eqb_spec a "focus-minimal"); [congruence|].
  vm_compute. eexists; split; reflexivity.
Qed.

(** X8.  The recommendations for the context [createPromptContext]
    builds from a quiz: 6 when the answer to the vibe question is
    focus-minimal (its description mentions none of the style
    keywords), 7 for every other answer, also an unknown or a missing
    one (the default description mentions modern), and the 3 fallback
    recommendations when the vibe or the budget answer is a name that
    object literals inherit, for then the description looked up is not
    a string.  The count is never 8. *)
Theorem recommendations_for_a_quiz
    (Math_random : nat -> Q) (analysisData : JsVal)
    (quizResponses : list QuizResponse) (n : nat) :
  let vibe := answer quizResponses "workspace-vibe" in
  let budget := answer quizResponses "budget-range" in
  let result :=
    fst (generateRecommendations Math_random analysisData
           (createPromptContext quizResponses) n) in
  if Table.inherited vibe || Table.inherited budget
  then result = getFallbackRecommendations
  else List.length result
       = if String.eqb vibe "focus-minimal" then 6%nat else 7%nat.
Proof.
  unfold answer, createPromptContext, describe.
  generalize (map (fun response =>
                     (questionId response, nth_error (selectedOptionIds response) 0))
                  quizResponses).
  intros responseMap.
  generalize (match map_get responseMap "workspace-vibe" with
              | Some (Some a) => a
              | _ => EmptyString
              end).
  generalize (match map_get responseMap "budget-range" with
              | Some (Some a) => a
              | _ => EmptyString
              end).
  intros b a. cbv zeta.
  unfold generateRecommendations. cbn [Val.prop Val.own String.eqb Ascii.eqb Bool.eqb].
  pose proof (budget_multiplier b) as Hb. pose proof (vibe_products a) as Ha.
  destruct (Table.inherited b).
  - rewrite Hb, orb_true_r. reflexivity.
  - destruct Hb as [m ->]. rewrite orb_false_r.
    destruct (Table.inherited a).
    + rewrite Ha. reflexivity.
    + destruct Ha as [products [-> Hlen]].
      cbn [fst]. rewrite RecommendationFacts.recommendAll_length, length_firstn, length_app.
      rewrite Hlen. simpl List.length.
      destruct (String.eqb a "focus-minimal"); reflexivity.
Qed.

End CardFacts.

(** ** Pixels, clusters and palettes *)

Module PaletteFacts.
Import ColorExtractionService Observations.

Lemma draw_member {A : Type} (Math_random : nat -> Q) (arr : list A) (n : nat) :
  unit_draws Math_random -> arr <> [] ->
  exists x, draw Math_random arr n = (Some x, S n) /\ In x arr.
Proof.
  intros Hr Harr. unfold draw. destruct (Hr n) as [Hlo Hhi].
  set (len := Z.of_nat (List.length arr)).
  assert (Hlen : (0 < len)%Z).
  { unfold len. destruct arr; [congruence | simpl; lia]. }
  set (i := Qfloor (Math_random n * inject_Z len)).
  assert (Hi0 : (0 <= i)%Z).
  { unfold i. change 0%Z with (Qfloor 0). apply Qfloor_resp_le.
    apply Qmult_le_0_compat; [exact Hlo|].
    change 0%Q with (inject_Z 0). rewrite <- Zle_Qle. lia. }
  assert (Hi1 : (i < len)%Z).
  { rewrite Zlt_Qlt. eapply Qle_lt_trans; [apply Qfloor_le|].
    rewrite <- (Qmult_1_l (inject_Z len)) at 2.
    apply Qmult_lt_compat_r; [|exact Hhi].
    change 0%Q with (inject_Z 0). rewrite <- Zlt_Qlt. exact Hlen. }
  destruct (Z.ltb_spec i 0) as [H|_]; [lia|].
  destruct (nth_error arr (Z.to_nat i)) as [x|] eqn:Hx.
  - exists x. split; [reflexivity|]. eapply nth_error_In; eauto.
  - apply nth_error_None in Hx. unfold len in Hi1. lia.
Qed.

Lemma vary_inside (Math_random : nat -> Q) (channel : Z) (n : nat) :
  unit_draws Math_random -> (10 <= channel <= 245)%Z ->
  exists d, vary Math_random channel n = (Some (channel + d)%Z, S n)
            /\ In d variation.
Proof.
  intros Hr Hc. unfold vary.
  destruct (draw_member Math_random variation n Hr) as [d [Hd Hin]];
    [discriminate|].
  rewrite Hd. exists d. split; [|exact Hin]. simpl. f_equal. f_equal.
  unfold clamp. unfold variation in Hin. simpl in Hin.
  destruct Hin as [<- | [<- | [<- | [<- | [<- | []]]]]]; lia.
Qed.

Lemma simulatePixel_near (Math_random : nat -> Q) (n : nat) :
  unit_draws Math_random ->
  exists c p, simulatePixel Math_random n = (Some p, (n + 4)%nat)
              /\ In c sampleColors /\ near c p.
Proof.
  intros Hr. unfold simulatePixel.
  destruct (draw_member Math_random sampleColors n Hr) as [[[r g] b] [Hd Hin]];
    [discriminate|].
  rewrite Hd.
  assert (Hrange : (10 <= r <= 245 /\ 10 <= g <= 245 /\ 10 <= b <= 245)%Z).
  { unfold sampleColors in Hin. simpl in Hin.
    repeat (destruct Hin as [Hin | Hin]; [inversion Hin; lia|]). destruct Hin. }
  destruct Hrange as [Hr0 [Hg0 Hb0]].
  destruct (vary_inside Math_random r (S n) Hr Hr0) as [dr [-> Hdr]].
  destruct (vary_inside Math_random g (S (S n)) Hr Hg0) as [dg [-> Hdg]].
  destruct (vary_inside Math_random b (S (S (S n))) Hr Hb0) as [db [-> Hdb]].
  exists (r, g, b), (r + dr, g + dg, b + db)%Z.
  split; [replace (n + 4)%nat with (S (S (S (S n)))) by lia; reflexivity|]. split; [exact Hin|].
  unfold near. replace (r + dr - r)%Z with dr by lia.
  replace (g + dg - g)%Z with dg by lia. replace (b + db - b)%Z with db by lia.
  tauto.
Qed.

Lemma simulatePixels_near (Math_random : nat -> Q) (count : nat) :
  unit_draws Math_random ->
  forall n, exists pixels,
    simulatePixels Math_random count n = (Some pixels, (n + 4 * count)%nat)
    /\ List.length pixels = count
    /\ Forall (fun p => exists c, In c sampleColors /\ near c p) pixels.
Proof.
  intros Hr. induction count as [|count IH]; intros n.
  - exists []. simpl. split; [f_equal; lia|]. split; [reflexivity | constructor].
  - cbn [simulatePixels].
    destruct (simulatePixel_near Math_random n Hr) as [c [p [-> [Hc Hn]]]].
    destruct (IH (n + 4)%nat) as [pixels [-> [Hlen Hall]]].
    exists (p :: pixels). split; [f_equal; lia|]. split; [simpl; lia|].
    constructor; [eauto | exact Hall].
Qed.

Lemma near_in_gamut (c p : Pixel) :
  In c sampleColors -> near c p -> in_gamut p.
Proof.
  destruct c as [[r g] b], p as [[x y] z]. unfold near, in_gamut, variation.
  intros Hc [Hx [Hy Hz]]. simpl in *.
  assert (Hrange : (10 <= r <= 245 /\ 10 <= g <= 245 /\ 10 <= b <= 245)%Z).
  { repeat (destruct Hc as [Hc | Hc]; [inversion Hc; lia|]). destruct Hc. }
  lia.
Qed.

(** X9.  With [Math.random] in [0, 1), [simulatePixelExtraction]
    returns 1000 pixels after 4000 draws; every pixel is one of the six
    sample colours with each channel moved by -10, -5, 0, 5 or 10, and
    every channel is within 0..255 without the clamping having to act. *)
Theorem simulatePixelExtraction_stays_near_the_samples
    (Math_random : nat -> Q) (n : nat) :
  unit_draws Math_random ->
  exists pixels,
    simulatePixelExtraction Math_random n = (Some pixels, (n + 4000)%nat)
    /\ List.length pixels = 1000%nat
    /\ Forall (fun p => in_gamut p
                        /\ exists c, In c sampleColors /\ near c p) pixels.
Proof.
  intros Hr. unfold simulatePixelExtraction.
  destruct (simulatePixels_near Math_random 1000 Hr n) as [pixels [Hs [Hlen Hall]]].
  exists pixels. split; [exact Hs|]. split; [exact Hlen|].
  eapply Forall_impl; [|exact Hall].
  intros p [c [Hc Hn]]. split; [eapply near_in_gamut; eauto | eauto].
Qed.

Lemma round_div_one (x : Z) : round_div x 1 = x.
Proof.
  unfold round_div. symmetry. apply Z.div_unique with 1%Z; lia.
Qed.

Lemma average_of_one (p : Pixel) : calculateAverageColor [p] = p.
Proof.
  destruct p as [[r g] b]. unfold calculateAverageColor.
  cbn [fold_left List.length Z.of_nat Pos.of_succ_nat].
  rewrite !Z.add_0_l, !round_div_one. reflexivity.
Qed.

Lemma join_keeps (pixel : Pixel) (groups groups' : list Group) :
  join pixel groups = Some groups' ->
  Permutation (members groups') (pixel :: members groups)
  /\ List.length groups' = List.length groups
  /\ (Forall settled groups -> Forall settled groups').
Proof.
  revert groups'. induction groups as [|g rest IH]; intros groups'; simpl.
  - discriminate.
  - destruct (Rlt_dec (calculateColorDistance pixel (centroid g)) threshold).
    + intros H; inversion H; subst; clear H. unfold members. simpl.
      split; [|split].
      * rewrite <- app_assoc. simpl.
        apply Permutation_sym, Permutation_middle.
      * reflexivity.
      * intros Hs. inversion Hs; subst. constructor; [|assumption].
        split; simpl; [|reflexivity]. destruct (pixels g); discriminate.
    + destruct (join pixel rest) as [rest'|]; [|discriminate].
      intros H; inversion H; subst; clear H.
      destruct (IH rest' eq_refl) as [Hp [Hl Hs]].
      unfold members in *. simpl. split; [|split].
      * eapply Permutation_trans; [apply Permutation_app_head; exact Hp|].
        apply Permutation_sym, Permutation_middle.
      * congruence.
      * intros Hall. inversion Hall; subst. constructor; auto.
Qed.

Lemma groups_keep (ps : list Pixel) :
  forall groups,
    Forall settled groups ->
    let groups' :=
      fold_left (fun groups pixel =>
                   match join pixel groups with
                   | Some groups' => groups'
                   | None => groups ++ [ {| pixels := [pixel]; centroid := pixel |} ]
                   end) ps groups in
    Permutation (members groups') (members groups ++ ps)
    /\ Forall settled groups'
    /\ (List.length groups' <= List.length groups + List.length ps)%nat.
Proof.
  induction ps as [|p ps IH]; intros groups Hs; simpl.
  - rewrite app_nil_r. split; [apply Permutation_refl|]. split; [exact Hs | lia].
  - destruct (join p groups) as [groups1|] eqn:Hj.
    + destruct (join_keeps p groups groups1 Hj) as [Hp [Hl Hs1]].
      destruct (IH groups1 (Hs1 Hs)) as [Hp' [Hs' Hl']].
      split; [|split; [exact Hs' | lia]].
      eapply Permutation_trans; [exact Hp'|].
      eapply Permutation_trans; [apply Permutation_app_tail; exact Hp|].
      simpl. apply Permutation_middle.
    + assert (Hs1 : Forall settled (groups ++ [ {| pixels := [p]; centroid := p |} ])).
      { apply Forall_app. split; [exact Hs|]. constructor; [|constructor].
        split; simpl; [discriminate | symmetry; apply average_of_one]. }
      destruct (IH _ Hs1) as [Hp' [Hs' Hl']].
      rewrite length_app in Hl'. simpl in Hl'.
      split; [|split; [exact Hs' | lia]].
      eapply Permutation_trans; [exact Hp'|].
      unfold members. rewrite map_app, concat_app. simpl.
      rewrite <- app_assoc. simpl. apply Permutation_refl.
Qed.

(** The groups made of a list of pixels, from no group at the start. *)
Lemma grouped (ps : list Pixel) :
  Permutation (members (groupSimilarColors ps)) ps
  /\ Forall settled (groupSimilarColors ps)
  /\ (List.length (groupSimilarColors ps) <= List.length ps)%nat.
Proof.
  unfold groupSimilarColors. apply (groups_keep ps [] (Forall_nil _)).
Qed.

(** X10.  [groupSimilarColors] partitions the pixels: the pixels of its
    groups, taken together, are the pixels it was given, none lost and
    none twice; no group is empty, the centroid of every group is the
    average colour of its pixels, and there are at most as many groups
    as pixels. *)
Theorem groupSimilarColors_partitions_the_pixels (ps : list Pixel) :
  let groups := groupSimilarColors ps in
  Permutation (members groups) ps
  /\ Forall settled groups
  /\ (List.length groups <= List.length ps)%nat.
Proof.
  unfold groupSimilarColors.
  destruct (groups_keep ps [] (Forall_nil _)) as [Hp [Hs Hl]].
  split; [exact Hp|]. split; [exact Hs | exact Hl].
Qed.

(** Every draw 0: the first sample colour with its channels lowered
    by 10. *)
Lemma simulatePixelExtraction_stays_near_the_samples_witness :
  unit_draws Samples.zeros
  /\ exists pixels,
       simulatePixelExtraction Samples.zeros 0 = (Some pixels, 4000%nat)
       /\ List.length pixels = 1000%nat
       /\ Forall (fun p => in_gamut p
                           /\ exists c, In c sampleColors /\ near c p) pixels.
Proof.
  assert (H : unit_draws Samples.zeros).
  { intros k. unfold Samples.zeros. split; [apply Qle_refl | reflexivity]. }
  split; [exact H|].
  apply (simulatePixelExtraction_stays_near_the_samples Samples.zeros 0 H).
Defined.




Lemma slice0_firstn {A : Type} (n : Z) (l : list A) :
  exists m, slice0 n l = firstn m l
            /\ ((m <= Z.to_nat n)%nat \/ (n < 0)%Z).
Proof.
  unfold slice0. destruct (Z.ltb_spec n 0).
  - eexists. split; [reflexivity | right; assumption].
  - eexists. split; [reflexivity | left; lia].
Qed.


Lemma sorted_map {A B : Type} (R : A -> A -> Prop) (R' : B -> B -> Prop)
    (f : A -> B) (l : list A) :
  (forall a b, R a b -> R' (f a) (f b)) ->
  StronglySorted R l -> StronglySorted R' (map f l).
Proof.
  intros Hf. induction 1 as [|x l Hs IH Hx]; simpl; constructor; [exact IH|].
  rewrite Forall_forall in *. intros y Hy.
  apply in_map_iff in Hy. destruct Hy as [a [<- Ha]]. auto.
Qed.





Lemma linearize_unit (c : R) :
  (0 <= c <= 1)%R -> (0 <= linearize c <= 1)%R.
Proof.
  intros [Hlo Hhi]. unfold linearize.
  destruct (Rle_dec c (3928 / 100000)) as [Hs|Hs].
  - split; lra.
  - split.
    + left. unfold Rpower. apply exp_pos.
    + rewrite <- (ColorFacts.Rpower_1_base (24 / 10)).
      apply Rle_Rpower_l; lra.
Qed.

(** X12.  The luminance [calculateLuminance] computes for a pixel
    whose channels are within 0..255 lies between 0 and 1, the range
    the thresholds 0.9 and 0.1 of the white and black filters are
    meant for. *)
Theorem pixel_luminance_in_unit_interval (p : Pixel) :
  in_gamut p -> (0 <= pixel_luminance p <= 1)%R.
Proof.
  destruct p as [[r g] b]. unfold in_gamut, pixel_luminance, calculateLuminance.
  intros [[Hr0 Hr1] [[Hg0 Hg1] [Hb0 Hb1]]].
  assert (Hc : forall x, (0 <= x <= 255)%Z -> (0 <= IZR x / 255 <= 1)%R).
  { intros x [H0 H1]. apply IZR_le in H0. apply IZR_le in H1. split; lra. }
  pose proof (linearize_unit _ (Hc r (conj Hr0 Hr1))) as Lr.
  pose proof (linearize_unit _ (Hc g (conj Hg0 Hg1))) as Lg.
  pose proof (linearize_unit _ (Hc b (conj Hb0 Hb1))) as Lb.
  split; lra.
Qed.

(** Pure white. *)
Lemma pixel_luminance_in_unit_interval_witness :
  in_gamut white /\ (0 <= pixel_luminance white <= 1)%R.
Proof.
  assert (H : in_gamut white) by (unfold in_gamut, white; lia).
  split; [exact H|].
  apply (pixel_luminance_in_unit_interval white H).
Defined.

Lemma hex2_two_digits (x : Z) : (0 <= x <= 255)%Z -> two_digits x = true.
Proof.
  intros Hx.
  assert (H : forallb (fun n => two_digits (Z.of_nat n)) (seq 0 256) = true)
    by (vm_compute; reflexivity).
  rewrite forallb_forall in H. specialize (H (Z.to_nat x)).
  rewrite Z2Nat.id in H by lia. apply H. apply in_seq. lia.
Qed.

Lemma toUpperCase_app (s t : string) :
  toUpperCase (s ++ t) = (toUpperCase s ++ toUpperCase t)%string.
Proof.
  induction s as [|c s IH]; simpl; [reflexivity|]. rewrite IH. reflexivity.
Qed.

Lemma rgbToHex_reads_back (r g b : Z) :
  in_gamut (r, g, b) ->
  String.length (rgbToHex r g b) = 7%nat
  /\ read_hex (rgbToHex r g b) = Some (r, g, b).
Proof.
  intros [Hr [Hg Hb]]. unfold rgbToHex. rewrite !toUpperCase_app.
  pose proof (hex2_two_digits r Hr) as Tr.
  pose proof (hex2_two_digits g Hg) as Tg.
  pose proof (hex2_two_digits b Hb) as Tb.
  unfold two_digits in *.
  destruct (toUpperCase (hex2 r)) as [|r1 [|r2 [|]]]; try discriminate Tr.
  destruct (toUpperCase (hex2 g)) as [|g1 [|g2 [|]]]; try discriminate Tg.
  destruct (toUpperCase (hex2 b)) as [|b1 [|b2 [|]]]; try discriminate Tb.
  simpl.
  destruct (hex_pair r1 r2); [|discriminate Tr].
  destruct (hex_pair g1 g2); [|discriminate Tg].
  destruct (hex_pair b1 b2); [|discriminate Tb].
  apply Z.eqb_eq in Tr, Tg, Tb. subst. split; reflexivity.
Qed.

Lemma sums_in_gamut (ps : list Pixel) :
  Forall in_gamut ps ->
  forall a0 a1 a2,
    let '(s0, s1, s2) :=
      fold_left (fun acc pixel =>
                   let '(a0, a1, a2) := acc in
                   let '(p0, p1, p2) := pixel in
                   (a0 + p0, a1 + p1, a2 + p2)%Z)
                ps (a0, a1, a2) in
    (a0 <= s0 <= a0 + 255 * Z.of_nat (List.length ps)
     /\ a1 <= s1 <= a1 + 255 * Z.of_nat (List.length ps)
     /\ a2 <= s2 <= a2 + 255 * Z.of_nat (List.length ps))%Z.
Proof.
  induction 1 as [|[[p0 p1] p2] ps Hp Hps IH]; intros a0 a1 a2.
  - simpl. lia.
  - cbn [fold_left]. specialize (IH (a0 + p0) (a1 + p1) (a2 + p2))%Z.
    destruct (fold_left _ ps _) as [[s0 s1] s2].
    unfold in_gamut in Hp. cbn [List.length]. lia.
Qed.

Lemma round_div_in_gamut (s count : Z) :
  (0 < count)%Z -> (0 <= s <= 255 * count)%Z -> (0 <= round_div s count <= 255)%Z.
Proof.
  intros Hc Hs. unfold round_div. split.
  - apply Z.div_pos; lia.
  - assert ((2 * s + count) / (2 * count) < 256)%Z; [|lia].
    apply Z.div_lt_upper_bound; lia.
Qed.

Lemma average_in_gamut (ps : list Pixel) :
  ps <> [] -> Forall in_gamut ps -> in_gamut (calculateAverageColor ps).
Proof.
  intros Hne Hall. unfold calculateAverageColor.
  pose proof (sums_in_gamut ps Hall 0 0 0)%Z as Hs.
  destruct (fold_left _ ps _) as [[s0 s1] s2].
  assert (Hc : (0 < Z.of_nat (List.length ps))%Z).
  { destruct ps; [congruence | simpl; lia]. }
  unfold in_gamut. repeat split; apply round_div_in_gamut; lia.
Qed.

Lemma group_pixels_in_gamut (ps : list Pixel) (g : Group) :
  Forall in_gamut ps -> In g (groupSimilarColors ps) ->
  pixels g <> [] /\ Forall in_gamut (pixels g).
Proof.
  intros Hall Hg.
  destruct (grouped ps) as [Hperm [Hs _]].
  rewrite Forall_forall in Hs. destruct (Hs g Hg) as [Hne _].
  split; [exact Hne|].
  apply Forall_forall. intros p Hp.
  rewrite Forall_forall in Hall. apply Hall.
  eapply Permutation_in; [exact Hperm|].
  unfold members. apply in_concat. exists (pixels g). split; [|exact Hp].
  apply in_map. exact Hg.
Qed.

(** X13.  When the channels of all pixels are within 0..255, so are
    the channels of every dominant colour, and its hex code is a hash
    sign and six hexadecimal digits that read back to exactly these
    channels: averaging and [rgbToHex] lose nothing and never produce a
    code that is too short or too long. *)
Theorem dominant_colours_have_readable_codes
    (ps : list Pixel) (options : ColorExtractionOptions) :
  Forall in_gamut ps ->
  Forall (fun c =>
            exists r g b,
              in_gamut (r, g, b)
              /\ rgb c = (IZR r, IZR g, IZR b)
              /\ String.length (hex c) = 7%nat
              /\ read_hex (hex c) = Some (r, g, b))
         (extractDominantColors ps options).
Proof.
  intros Hall. unfold extractDominantColors.
  apply Forall_forall. intros c Hc.
  apply in_map_iff in Hc. destruct Hc as [grp [<- Hg]].
  assert (Hin : In grp (groupSimilarColors (filter (keep options) ps))).
  { eapply Permutation_in; [apply ErgonomicFacts.sort_perm|].
    destruct (slice0_firstn (maxColors options)
                (Sort.sort (fun a b => (Z.of_nat (List.length (pixels b))
                                        - Z.of_nat (List.length (pixels a)))%Z)
                           (groupSimilarColors (filter (keep options) ps))))
      as [m [Hm _]].
    rewrite Hm in Hg.
    rewrite <- (firstn_skipn m (Sort.sort _ _)). apply in_or_app. left. exact Hg. }
  assert (Hf : Forall in_gamut (filter (keep options) ps)).
  { apply Forall_forall. intros p Hp. apply filter_In in Hp.
    rewrite Forall_forall in Hall. apply Hall. tauto. }
  destruct (group_pixels_in_gamut _ grp Hf Hin) as [Hne Hpx].
  pose proof (average_in_gamut _ Hne Hpx) as Havg.
  destruct (calculateAverageColor (pixels grp)) as [[r g] b].
  exists r, g, b. cbn [rgb hex].
  destruct (rgbToHex_reads_back r g b Havg) as [Hlen Hread].
  split; [exact Havg|]. split; [reflexivity|]. split; [exact Hlen | exact Hread].
Qed.

Import AIAnalysisService.

(** A single blue-gray pixel. *)
Lemma dominant_colours_have_readable_codes_witness :
  Forall in_gamut [(120, 140, 160)%Z]
  /\ Forall (fun c =>
               exists r g b,
                 in_gamut (r, g, b)
                 /\ rgb c = (IZR r, IZR g, IZR b)
                 /\ String.length (hex c) = 7%nat
                 /\ read_hex (hex c) = Some (r, g, b))
            (extractDominantColors [(120, 140, 160)%Z] DEFAULT_OPTIONS).
Proof.
  assert (H : Forall in_gamut [(120, 140, 160)%Z]).
  { constructor; [unfold in_gamut; lia | constructor]. }
  split; [exact H|].
  apply (dominant_colours_have_readable_codes [(120, 140, 160)%Z]
           DEFAULT_OPTIONS H).
Defined.

Lemma kept_pixels_give_colours (ps : list Pixel) (options : ColorExtractionOptions) :
  (0 < maxColors options)%Z ->
  filter (keep options) ps <> [] ->
  extractDominantColors ps options <> [].
Proof.
  intros Hmax Hkept. unfold extractDominantColors.
  set (filteredPixels := filter (keep options) ps) in *.
  destruct (grouped filteredPixels)
    as [Hperm _].
  set (groups := groupSimilarColors filteredPixels) in *.
  assert (Hg : groups <> []).
  { intros E. rewrite E in Hperm. simpl in Hperm.
    apply Permutation_nil in Hperm. congruence. }
  set (sorted := Sort.sort _ groups).
  assert (Hs : sorted <> []).
  { intros E. pose proof (ErgonomicFacts.sort_perm
                            (fun a b => (Z.of_nat (List.length (pixels b))
                                         - Z.of_nat (List.length (pixels a)))%Z)
                            groups) as Hp.
    fold sorted in Hp. rewrite E in Hp. apply Permutation_nil in Hp. congruence. }
  unfold slice0. destruct (Z.ltb_spec (maxColors options) 0); [lia|].
  destruct sorted as [|g rest]; [congruence|].
  destruct (Z.to_nat (maxColors options)) eqn:Hn; [lia|].
  simpl. discriminate.
Qed.

(** X14.  Where the palette of the orchestrator comes from.  It is the
    palette of the colour service, with at least one colour, exactly
    when the resize step failed (then it is the fallback palette) or a
    pixel passed the luminance filter.  Only when the resize step
    succeeded and no pixel passed are the [dominant_colors] of the
    response used, as they are, if they are truthy; otherwise the
    result is [undefined].  A palette that has no colour is never
    returned from the image. *)
Theorem orchestrator_palette_source
    (analysisData : JsVal) (resized : bool) (pixelData : list Pixel)
    (now later : Z) :
  let kept := filter (keep (merge paletteOptions)) pixelData in
  let fromImage :=
    ColorExtractionService.extractColorPalette resized pixelData now
      paletteOptions in
  match AIAnalysisService.extractColorPalette analysisData resized pixelData
          now later with
  | Some (FromImage palette) =>
      palette = fromImage /\ colors palette <> []
      /\ (resized = false \/ kept <> [])
  | Some (FromAnalysis id0 name0 colors0 mood0 description0) =>
      resized = true /\ kept = [] /\ Val.truthy colors0 = true
      /\ exists color_analysis,
           Val.prop analysisData "color_analysis" = Some color_analysis
           /\ AIResponseParserService.member color_analysis "dominant_colors"
              = colors0
  | None => resized = true /\ kept = []
  end.
Proof.
  cbv zeta. unfold AIAnalysisService.extractColorPalette.
  set (fromImage := ColorExtractionService.extractColorPalette resized pixelData
                      now paletteOptions).
  assert (Hkept : resized = true ->
                  filter (keep (merge paletteOptions)) pixelData <> [] ->
                  colors fromImage <> []).
  { intros -> Hk. unfold fromImage, ColorExtractionService.extractColorPalette.
    cbn [colors]. intros E. apply map_eq_nil in E. revert E.
    apply kept_pixels_give_colours; [reflexivity | exact Hk]. }
  assert (Hnone : resized = true ->
                  filter (keep (merge paletteOptions)) pixelData = [] ->
                  colors fromImage = []).
  { intros -> Hk. unfold fromImage, ColorExtractionService.extractColorPalette.
    cbn [colors]. rewrite (ColorFacts.no_pixels_no_colors _ _ Hk). reflexivity. }
  destruct (Nat.ltb_spec 0 (List.length (colors fromImage))) as [Hpos|Hzero].
  - split; [reflexivity|]. split; [destruct (colors fromImage); [simpl in Hpos; lia | discriminate]|].
    destruct resized; [right | left; reflexivity].
    intros Hk. rewrite (Hnone eq_refl Hk) in Hpos. simpl in Hpos. lia.
  - assert (Hempty : colors fromImage = []).
    { destruct (colors fromImage); [reflexivity | simpl in Hzero; lia]. }
    assert (Hr : resized = true).
    { destruct resized; [reflexivity|]. discriminate Hempty. }
    assert (Hk : filter (keep (merge paletteOptions)) pixelData = []).
    { destruct (filter (keep (merge paletteOptions)) pixelData) eqn:E;
        [reflexivity|].
      exfalso. apply (Hkept Hr); [discriminate | exact Hempty]. }
    destruct (Val.prop analysisData "color_analysis") as [ca|]; [|tauto].
    match goal with
    | |- context [Val.truthy ?d] => destruct (Val.truthy d) eqn:Ht
    end; [|tauto].
    split; [exact Hr|]. split; [exact Hk|]. split; [exact Ht|].
    exists ca. split; [reflexivity|].
    destruct ca; try reflexivity; discriminate Ht.
Qed.

End PaletteFacts.

(** ** The order of the insights *)

Module InsightOrderFacts.
Import ErgonomicAnalysisService Props Observations.

Lemma indexOf_from_range (arr : list string) (v : JsVal) :
  forall i, (0 <= i)%Z ->
    (Sort.indexOf_from i arr v = -1
     \/ i <= Sort.indexOf_from i arr v < i + Z.of_nat (List.length arr))%Z.
Proof.
  induction arr as [|s arr IH]; intros i Hi; cbn [Sort.indexOf_from].
  - left; reflexivity.
  - change (List.length (s :: arr)) with (S (List.length arr)).
    rewrite Nat2Z.inj_succ.
    destruct (Val.is_string v s); [right; lia|].
    destruct (IH (i + 1)%Z ltac:(lia)) as [H | H]; [left; exact H | right; lia].
Qed.

Lemma severity_range (i : ErgonomicInsight) : (-1 <= severity i <= 2)%Z.
Proof.
  unfold severity, Sort.indexOf.
  destruct (indexOf_from_range priorityOrder (status i) 0 ltac:(lia)) as [H | H];
    [lia|].
  change (Z.of_nat (List.length priorityOrder)) with 3%Z in H. lia.
Qed.

Lemma importance_range (i : ErgonomicInsight) : (-1 <= importance i <= 4)%Z.
Proof.
  unfold importance, Sort.indexOf.
  destruct (indexOf_from_range categoryOrder (category i) 0 ltac:(lia)) as [H | H];
    [lia|].
  change (Z.of_nat (List.length categoryOrder)) with 5%Z in H. lia.
Qed.

Lemma compareInsights_place (a b : ErgonomicInsight) :
  (compareInsights a b <? 0)%Z = (place a <? place b)%Z.
Proof.
  pose proof (severity_range a) as Ha. pose proof (severity_range b) as Hb.
  pose proof (importance_range a) as Ia. pose proof (importance_range b) as Ib.
  unfold compareInsights, place, severity, importance in *.
  set (sa := Sort.indexOf priorityOrder (status a)) in *.
  set (sb := Sort.indexOf priorityOrder (status b)) in *.
  set (ca := Sort.indexOf categoryOrder (category a)) in *.
  set (cb := Sort.indexOf categoryOrder (category b)) in *.
  destruct (Z.eqb_spec (sa - sb) 0); cbn [negb];
    destruct (Z.ltb_spec (10 * sa + ca) (10 * sb + cb));
    match goal with
    | |- (?x <? 0)%Z = _ => destruct (Z.ltb_spec x 0)
    end; try reflexivity; lia.
Qed.

Lemma place_precedes (a b : ErgonomicInsight) :
  (place a <= place b)%Z -> precedes a b.
Proof.
  unfold place, precedes.
  pose proof (severity_range a). pose proof (severity_range b).
  pose proof (importance_range a). pose proof (importance_range b).
  intros H3. destruct (Z.lt_trichotomy (severity a) (severity b)) as [Hl | [He | Hg]].
  - left; exact Hl.
  - right. split; [exact He | lia].
  - lia.
Qed.

Lemma prioritizeInsights_sorted (insights : list ErgonomicInsight) :
  StronglySorted precedes (prioritizeInsights insights).
Proof.
  unfold prioritizeInsights.
  rewrite <- (map_id (Sort.sort compareInsights insights)).
  eapply PaletteFacts.sorted_map;
    [|apply (SortFacts.sort_sorted compareInsights place compareInsights_place)].
  intros a b H. apply place_precedes. exact H.
Qed.

Lemma sorted_at {A : Type} (R : A -> A -> Prop) (l : list A) :
  StronglySorted R l ->
  forall i j a b, (i < j)%nat ->
    nth_error l i = Some a -> nth_error l j = Some b -> R a b.
Proof.
  induction 1 as [|x l Hs IH Hx]; intros i j a b Hij Hi Hj.
  - destruct i; discriminate Hi.
  - destruct j as [|j]; [lia|]. simpl in Hj.
    destruct i as [|i]; simpl in Hi.
    + inversion Hi; subst. rewrite Forall_forall in Hx. apply Hx.
      eapply nth_error_In; eauto.
    + eapply IH; [|exact Hi | exact Hj]. lia.
Qed.

Lemma severity_of (i : ErgonomicInsight) (s : string) :
  Val.is_string (status i) s = true ->
  severity i = Sort.indexOf priorityOrder (JStr s).
Proof.
  unfold severity. destruct (status i); simpl; try discriminate.
  intros H. apply String.eqb_eq in H. subst. reflexivity.
Qed.

(** X15.  The insights [analyzeErgonomics] returns are sorted: by the
    place of their status in poor, needs-improvement, good, and among
    equal statuses by the place of their category in the category order.
    So no insight that needs improvement or is good comes before a poor
    one, and no good one before one that needs improvement. *)
Theorem analyzeErgonomics_is_prioritized
    (Math_random : nat -> Q) (analysisData : JsVal)
    (config : ErgonomicAnalysisConfig) (n : nat) :
  let result := fst (analyzeErgonomics Math_random analysisData config n) in
  StronglySorted precedes result
  /\ forall i j a b, (i < j)%nat ->
       nth_error result i = Some a -> nth_error result j = Some b ->
       (Val.is_string (status b) "poor" = true ->
        Val.is_string (status a) "needs-improvement" = false
        /\ Val.is_string (status a) "good" = false)
       /\ (Val.is_string (status b) "needs-improvement" = true ->
           Val.is_string (status a) "good" = false).
Proof.
  cbv zeta.
  assert (Hs : StronglySorted precedes
                 (fst (analyzeErgonomics Math_random analysisData config n))).
  { unfold analyzeErgonomics.
    destruct (collectInsights Math_random analysisData config n) as [[found|] n'];
      simpl; [|constructor].
    unfold completeInsights. apply prioritizeInsights_sorted. }
  split; [exact Hs|].
  intros i j a b Hij Hi Hj.
  pose proof (sorted_at precedes _ Hs i j a b Hij Hi Hj) as Hab.
  assert (Hle : (severity a <= severity b)%Z).
  { destruct Hab as [H | [H _]]; lia. }
  split.
  - intros Hb. rewrite (severity_of b _ Hb) in Hle.
    split.
    + destruct (Val.is_string (status a) "needs-improvement") eqn:Ha;
        [|reflexivity].
      rewrite (severity_of a _ Ha) in Hle. vm_compute in Hle. congruence.
    + destruct (Val.is_string (status a) "good") eqn:Ha; [|reflexivity].
      rewrite (severity_of a _ Ha) in Hle. vm_compute in Hle. congruence.
  - intros Hb. rewrite (severity_of b _ Hb) in Hle.
    destruct (Val.is_string (status a) "good") eqn:Ha; [|reflexivity].
    rewrite (severity_of a _ Ha) in Hle. vm_compute in Hle. congruence.
Qed.

End InsightOrderFacts.

(** ** The comfort metrics of the results screen *)

Module MetricFacts.
Import ErgonomicAnalysisService Props ComfortMetricsDisplay.

Lemma analyzeErgonomics_canonical rnd data cfg n :
  plain data = true ->
  Forall canonical (fst (analyzeErgonomics rnd data cfg n)).
Proof.
  intros Hp. unfold analyzeErgonomics.
  destruct (collectInsights rnd data cfg n) as [[found|] n'] eqn:Hc; simpl;
    [|constructor].
  apply ErgonomicFacts.completeInsights_canonical.
  eapply ErgonomicFacts.collectInsights_canonical; eauto.
Qed.

(** A canonical insight gets a metric that shows a measurement. *)
Lemma metric_of_canonical (i : ErgonomicInsight) :
  canonical i ->
  exists m, metric_of i = Some m
            /\ ComfortMetricsDisplay.status m = ErgonomicAnalysisService.status i
            /\ recommendation m = ErgonomicAnalysisService.recommendation i
            /\ exists shown, value m = JStr shown /\ shown <> "N/A".
Proof.
  intros [[c [Hc Ec]] [s [Hs Es]]].
  unfold metric_of. rewrite Ec, Es.
  unfold allCategories, priorityOrder in *. simpl in Hc, Hs.
  destruct Hc as [<- | [<- | [<- | [<- | [<- | []]]]]];
    destruct Hs as [<- | [<- | [<- | []]]];
    cbn [Val.is_string String.eqb Ascii.eqb Bool.eqb];
    (eexists; split; [reflexivity|]; cbn [ComfortMetricsDisplay.status recommendation value];
     split; [reflexivity|]; split; [reflexivity|];
     eexists; split; [vm_compute; reflexivity|discriminate]).
Qed.

(** X16.  For an analysis whose raw category and status strings are
    not names inherited from a prototype, [generateComfortMetrics] turns
    the insights of [analyzeErgonomics] into one metric each, in the same
    order, with the status and the recommendation of the insight, and no
    metric shows the placeholder N/A. *)
Theorem comfort_metrics_of_an_analysis
    (Math_random : nat -> Q) (analysisData : JsVal)
    (config : ErgonomicAnalysisConfig) (n : nat) :
  plain analysisData = true ->
  let insights := fst (analyzeErgonomics Math_random analysisData config n) in
  let metrics := generateComfortMetrics insights in
  map ComfortMetricsDisplay.status metrics
    = map ErgonomicAnalysisService.status insights
  /\ map recommendation metrics
    = map ErgonomicAnalysisService.recommendation insights
  /\ Forall (fun m => exists shown, value m = JStr shown /\ shown <> "N/A")
            metrics.
Proof.
  intros Hp. cbv zeta.
  pose proof (analyzeErgonomics_canonical Math_random analysisData config n Hp) as Hc.
  induction Hc as [|i l Hi _ IH]; simpl; [repeat split; constructor|].
  destruct (metric_of_canonical i Hi) as [m [-> [Hs [Hr Hv]]]].
  destruct IH as [IH1 [IH2 IH3]]. simpl.
  rewrite Hs, Hr, IH1, IH2. repeat split. constructor; assumption.
Qed.

(** Scenario A: the chair insight and the four default insights. *)
Lemma comfort_metrics_of_an_analysis_witness :
  plain Samples.one_chair = true
  /\ let insights :=
       fst (analyzeErgonomics Samples.zeros Samples.one_chair default_config 0) in
     let metrics := generateComfortMetrics insights in
     map ComfortMetricsDisplay.status metrics
       = map ErgonomicAnalysisService.status insights
     /\ map recommendation metrics
       = map ErgonomicAnalysisService.recommendation insights
     /\ Forall (fun m => exists shown, value m = JStr shown /\ shown <> "N/A")
               metrics.
Proof.
  split; [reflexivity|].
  apply (comfort_metrics_of_an_analysis Samples.zeros Samples.one_chair
           default_config 0).
  reflexivity.
Defined.

End MetricFacts.

(** ** The daily usage limit *)

Module UsageFacts.
Import UsageTrackingService Observations.

Ltac unfold_device :=
  cbv beta iota zeta delta
    [getUsageTracking getItem getTodayDateString now tick called setItem
     removeItem createUsageTracking resetDailyUsage migrateUsageTracking
     held ticks calls].

Section WithDevice.

Variable Date_now : nat -> Z.
Variable ISODate : Z -> string.
Variable rejects : nat -> bool.

(** What [getUsageTracking] returns and leaves on the device. *)
Lemma getUsageTracking_cases (d : Device) :
  match getUsageTracking Date_now ISODate rejects d with
  | (Failure _, d1) => held d1 = held d
  | (Success u, d1) =>
      held d1 = Saved u
      /\ match held d with
         | NoItem =>
             analysisCount (currentDaily u) = 0%Z
             /\ totalAnalyses u = 0%Z
             /\ version u = 1%Z
             /\ date (currentDaily u) = ISODate (Date_now (S (ticks d)))
         | Unreadable => False
         | Saved u0 =>
             totalAnalyses u = totalAnalyses u0
             /\ totalDesignsSaved u = totalDesignsSaved u0
             /\ if String.eqb (date (currentDaily u0))
                              (ISODate (Date_now (ticks d)))
                then currentDaily u = currentDaily u0 /\ version u = 1%Z
                else analysisCount (currentDaily u) = 0%Z
                     /\ version u = version u0
                     /\ date (currentDaily u)
                        = ISODate (Date_now (S (S (ticks d))))
         end
  end.
Proof.
  destruct d as [item t c]. unfold_device.
  destruct (rejects c) eqn:Hr; [reflexivity|].
  destruct item as [ | | u0]; cbv iota beta.
  - destruct (rejects (S c)); cbn; [reflexivity|]. repeat split.
  - reflexivity.
  - destruct (String.eqb (date (currentDaily u0)) (ISODate (Date_now t)))
      eqn:Hd; cbn [negb]; cbv iota beta.
    + destruct (version u0 =? STORAGE_VERSION)%Z eqn:Hv; cbn [negb].
      * apply Z.eqb_eq in Hv. cbn. repeat split; assumption.
      * destruct (rejects (S c)); cbn; [reflexivity|]. repeat split.
    + destruct (rejects (S c)); cbn; [reflexivity|]. repeat split.
Qed.

Section OneDay.

Variable today : string.
Hypothesis same_day : forall k, ISODate (Date_now k) = today.

Lemma getUsageTracking_allowance (d : Device) :
  match getUsageTracking Date_now ISODate rejects d with
  | (Failure _, d1) => held d1 = held d
  | (Success u, d1) =>
      held d1 = Saved u
      /\ date (currentDaily u) = today
      /\ (allowance today (Saved u) <= allowance today (held d))%Z
  end.
Proof.
  pose proof (getUsageTracking_cases d) as H.
  destruct (getUsageTracking Date_now ISODate rejects d) as [[u|e] d1];
    [|exact H].
  destruct H as [Hd1 H]. split; [exact Hd1|].
  destruct (held d) as [ | | u0]; [| contradiction |].
  - destruct H as [Hc [_ [_ Hd]]]. rewrite same_day in Hd.
    split; [exact Hd|]. unfold allowance. rewrite Hd, Hc, String.eqb_refl. lia.
  - destruct H as [_ [_ H]]. rewrite same_day in H. unfold allowance.
    destruct (String.eqb (date (currentDaily u0)) today) eqn:E.
    + destruct H as [Hc _]. rewrite Hc. apply String.eqb_eq in E.
      split; [exact E|]. rewrite E, String.eqb_refl. lia.
    + destruct H as [Hc [_ Hd]]. rewrite same_day in Hd.
      split; [exact Hd|]. rewrite Hd, Hc, String.eqb_refl. lia.
Qed.

Lemma allowance_nonneg (item : Item) : (0 <= allowance today item)%Z.
Proof.
  unfold allowance. destruct item as [ | | u]; try lia.
  destruct (String.eqb _ _); lia.
Qed.

(** A request uses up the allowance by one when it is a recording that
    succeeds; only the two requests that start the item afresh restore
    it, to five at most. *)
Lemma serve_allowance (r : Request) (d : Device) :
  (allowance today (held (snd (serve Date_now ISODate rejects r d)))
   + (if fst (serve Date_now ISODate rejects r d) then 1 else 0)
   <= allowance today (held d) + (if resets r then 5 else 0))%Z.
Proof.
  pose proof (getUsageTracking_allowance d) as H.
  pose proof (allowance_nonneg (held d)) as Hpos.
  destruct r; cbn [resets]; rewrite ?Z.add_0_r.
  7: { (* createUsageTracking *)
    destruct d as [item t c]. unfold serve. unfold_device.
    destruct (rejects c); cbn [fst snd held] in *; [lia|].
    unfold allowance at 1. cbn [currentDaily date analysisCount].
    rewrite same_day, String.eqb_refl. lia. }
  7: { (* clearUsageTracking *)
    destruct d as [item t c]. unfold serve, clearUsageTracking. unfold_device.
    destruct (rejects c); cbn [fst snd held] in *; [lia|].
    unfold allowance at 1. lia. }
  all: unfold serve, canPerformAnalysis, recordAnalysisUsage,
    recordDesignSave, getRemainingAnalyses, getUsageStats;
    destruct (getUsageTracking Date_now ISODate rejects d) as [[u|e] d1];
    cbn [fst snd success]; try (rewrite H; lia);
    destruct H as [Hd1 [Hdate Hle]]; try (rewrite Hd1; lia).
  - (* recordAnalysisUsage *)
    unfold now, setItem, tick. cbn [held ticks calls].
    destruct (DAILY_ANALYSES <=? analysisCount (currentDaily u))%Z eqn:Hlim;
      cbn [fst snd success held]; [rewrite Hd1; lia|].
    destruct (rejects (calls d1)); cbn [fst snd success held called];
      [rewrite Hd1; lia|].
    apply Z.leb_gt in Hlim. unfold DAILY_ANALYSES in Hlim.
    unfold allowance in *. cbn [currentDaily date analysisCount].
    rewrite Hdate, String.eqb_refl in *. lia.
  - (* recordDesignSave *)
    unfold now, setItem, tick. cbn [held ticks calls].
    destruct (rejects (calls d1)); cbn [fst snd held called];
      [rewrite Hd1; lia|].
    unfold allowance in *. cbn [currentDaily]. lia.
  - (* getUsageStats *)
    unfold now, tick. cbn [snd held]. rewrite Hd1. lia.
Qed.

Lemma serve_all_allowance (rs : list Request) :
  forall d,
    (Z.of_nat (fst (serve_all Date_now ISODate rejects rs d))
     <= allowance today (held d)
        + 5 * Z.of_nat (List.length (filter resets rs)))%Z.
Proof.
  induction rs as [|r rs IH]; intros d; cbn [serve_all filter].
  - cbn. pose proof (allowance_nonneg (held d)). lia.
  - pose proof (serve_allowance r d) as Hs.
    destruct (serve Date_now ISODate rejects r d) as [recorded d1].
    specialize (IH d1).
    destruct (serve_all Date_now ISODate rejects rs d1) as [n d2].
    cbn [fst snd] in *.
    destruct (resets r); cbn [List.length]; destruct recorded; lia.
Qed.

End OneDay.

(** With an unreadable item every reading fails and nothing is written. *)
Lemma getUsageTracking_unreadable (d : Device) :
  held d = Unreadable ->
  exists e d1,
    getUsageTracking Date_now ISODate rejects d = (Failure e, d1)
    /\ held d1 = Unreadable.
Proof.
  intros Hd. destruct d as [item t c]. cbn in Hd. subst item. unfold_device.
  destruct (rejects c); eexists; eexists; split; reflexivity.
Qed.

Lemma serve_unreadable (r : Request) (d : Device) :
  resets r = false ->
  held d = Unreadable ->
  fst (serve Date_now ISODate rejects r d) = false
  /\ held (snd (serve Date_now ISODate rejects r d)) = Unreadable.
Proof.
  intros Hr Hd. destruct (getUsageTracking_unreadable d Hd) as [e [d1 [E Hd1]]].
  destruct r; try discriminate Hr;
    unfold serve, canPerformAnalysis, recordAnalysisUsage,
    recordDesignSave, getRemainingAnalyses, getUsageStats;
    rewrite E; cbn; auto.
Qed.

Lemma serve_all_unreadable (rs : list Request) :
  forall d,
    forallb (fun r => negb (resets r)) rs = true ->
    held d = Unreadable ->
    fst (serve_all Date_now ISODate rejects rs d) = 0%nat
    /\ held (snd (serve_all Date_now ISODate rejects rs d)) = Unreadable.
Proof.
  induction rs as [|r rs IH]; intros d Hrs Hd; cbn [serve_all]; [auto|].
  cbn [forallb] in Hrs. apply andb_prop in Hrs. destruct Hrs as [Hr Hrs].
  apply negb_true_iff in Hr.
  destruct (serve_unreadable r d Hr Hd) as [Hb Hd1].
  destruct (serve Date_now ISODate rejects r d) as [recorded d1].
  cbn [fst snd] in *. subst recorded.
  destruct (IH d1 Hrs Hd1) as [Hn Hd2].
  destruct (serve_all Date_now ISODate rejects rs d1) as [n d2]. auto.
Qed.

(** What the two requests that start the item afresh leave, when the
    storage serves them. *)
Lemma serve_afresh (d : Device) :
  rejects (calls d) = false ->
  held (snd (serve Date_now ISODate rejects Clear d)) = NoItem
  /\ exists u,
       held (snd (serve Date_now ISODate rejects Create d)) = Saved u
       /\ analysisCount (currentDaily u) = 0%Z
       /\ totalAnalyses u = 0%Z
       /\ version u = STORAGE_VERSION.
Proof.
  intros Hr. destruct d as [item t c]. cbn [calls] in Hr.
  unfold serve, clearUsageTracking. unfold_device. rewrite Hr.
  cbn [fst snd held]. split; [reflexivity|].
  eexists. repeat split.
Qed.

(** A request keeps the account: the total grows by one exactly when a
    recording succeeds, and the two requests that start the item afresh
    can only bring it back to 0. *)
Lemma serve_accounts (r : Request) (d : Device) (k : Z) :
  (0 <= k)%Z ->
  accounts_for k (held d) ->
  exists k',
    accounts_for k' (held (snd (serve Date_now ISODate rejects r d)))
    /\ (0 <= k'
        <= k + (if fst (serve Date_now ISODate rejects r d) then 1 else 0))%Z
    /\ (resets r = false ->
        k' = (k + (if fst (serve Date_now ISODate rejects r d) then 1 else 0))%Z).
Proof.
  intros Hpos Hk.
  destruct r; cbn [resets].
  7: { (* createUsageTracking *)
    destruct d as [item t c]. unfold serve. unfold_device.
    destruct (rejects c); cbn [fst snd held] in *.
    - exists k. split; [exact Hk|]. split; [lia | discriminate].
    - exists 0%Z. split; [|split; [lia | discriminate]].
      cbn. repeat split; lia. }
  7: { (* clearUsageTracking *)
    destruct d as [item t c]. unfold serve, clearUsageTracking. unfold_device.
    destruct (rejects c); cbn [fst snd held] in *.
    - exists k. split; [exact Hk|]. split; [lia | discriminate].
    - exists 0%Z. split; [reflexivity|]. split; [lia | discriminate]. }
  all: eexists; split; [|split; [|intros _; reflexivity]].
  all: pose proof (getUsageTracking_cases d) as H.
  all: assert (Hload : match getUsageTracking Date_now ISODate rejects d with
                  | (Failure _, d1) => accounts_for k (held d1)
                  | (Success u, d1) =>
                      held d1 = Saved u /\ accounts_for k (Saved u)
                  end);
    [ destruct (getUsageTracking Date_now ISODate rejects d) as [[u|e] d1];
      [|rewrite H; exact Hk];
      destruct H as [Hd1 H]; (split; [exact Hd1|]);
      destruct (held d) as [ | | u0]; cbn in Hk; [| contradiction |];
      [ destruct H as [Hc [Ht [Hv _]]]; cbn; rewrite Hc, Ht, Hv; lia
      | destruct H as [Ht [_ H]]; destruct Hk as [Hk [Hc [Hle Hv]]]; cbn;
        destruct (String.eqb _ _);
        [ destruct H as [Hcur Hv']; rewrite Hcur, Ht; auto
        | destruct H as [Hc0 [Hv' _]]; rewrite Hc0, Ht, Hv';
          repeat split; lia ] ]
    | clear H ].
  all: try (destruct (fst (serve Date_now ISODate rejects _ d)); lia).
  all: unfold serve, canPerformAnalysis, recordAnalysisUsage,
    recordDesignSave, getRemainingAnalyses, getUsageStats;
    destruct (getUsageTracking Date_now ISODate rejects d) as [[u|e] d1];
    cbn [fst snd success]; rewrite ?Z.add_0_r; try exact Hload;
    destruct Hload as [Hd1 Hu]; try (rewrite Hd1; exact Hu).
  - unfold now, setItem, tick. cbn [held ticks calls].
    destruct (DAILY_ANALYSES <=? analysisCount (currentDaily u))%Z eqn:Hlim;
      cbn [fst snd success held]; rewrite ?Z.add_0_r;
      [rewrite Hd1; exact Hu|].
    destruct (rejects (calls d1)); cbn [fst snd success held called];
      rewrite ?Z.add_0_r; [rewrite Hd1; exact Hu|].
    apply Z.leb_gt in Hlim. unfold DAILY_ANALYSES in Hlim.
    cbn in *. repeat split; lia.
  - unfold now, setItem, tick. cbn [held ticks calls].
    destruct (rejects (calls d1)); cbn [fst snd held called];
      [rewrite Hd1; exact Hu|].
    exact Hu.
  - unfold now, tick. cbn [snd held]. rewrite Hd1. exact Hu.
Qed.

Lemma serve_all_accounts (rs : list Request) :
  forall d k,
    (0 <= k)%Z ->
    accounts_for k (held d) ->
    exists k',
      accounts_for k' (held (snd (serve_all Date_now ISODate rejects rs d)))
      /\ (0 <= k'
          <= k + Z.of_nat (fst (serve_all Date_now ISODate rejects rs d)))%Z
      /\ (forallb (fun r => negb (resets r)) rs = true ->
          k' = (k + Z.of_nat (fst (serve_all Date_now ISODate rejects rs d)))%Z).
Proof.
  induction rs as [|r rs IH]; intros d k Hpos Hk; cbn [serve_all forallb].
  - exists k. cbn. split; [exact Hk|]. split; [lia|]. intros _. lia.
  - destruct (serve_accounts r d k Hpos Hk) as [k1 [Hk1 [Hb1 He1]]].
    destruct (serve Date_now ISODate rejects r d) as [recorded d1].
    cbn [fst snd] in *.
    destruct (IH d1 k1 ltac:(lia) Hk1) as [k2 [Hk2 [Hb2 He2]]].
    destruct (serve_all Date_now ISODate rejects rs d1) as [n d2].
    cbn [fst snd] in *.
    exists k2. split; [exact Hk2|]. split.
    + destruct recorded; lia.
    + intros Hrs. apply andb_prop in Hrs. destruct Hrs as [Hr Hrs].
      apply negb_true_iff in Hr.
      rewrite (He2 Hrs), (He1 Hr). destruct recorded; lia.
Qed.

End WithDevice.
(** X17.  While the clock stays on one day, of any calls of the public
    methods of the service, made one after the other, at most as many
    recordings succeed as the item held at the start allows (five less
    the count stored for that day, five for an item of another day or
    no item, none for an unreadable item), and five more for every call
    of [createUsageTracking] or [clearUsageTracking], which start the
    item afresh.  So when the stored count is not negative at most five
    recordings succeed as long as neither is called, whatever the
    storage calls do. *)
Theorem at_most_five_recordings_a_day
    (Date_now : nat -> Z) (ISODate : Z -> string) (rejects : nat -> bool)
    (today : string) (rs : list Request) (d : Device) :
  (forall k, ISODate (Date_now k) = today) ->
  let recorded := fst (serve_all Date_now ISODate rejects rs d) in
  let restarts := List.length (filter resets rs) in
  (Z.of_nat recorded <= allowance today (held d) + 5 * Z.of_nat restarts)%Z
  /\ ((forall u, held d = Saved u -> (0 <= analysisCount (currentDaily u))%Z) ->
      (recorded <= 5 * (1 + restarts))%nat
      /\ (restarts = 0%nat -> (recorded <= 5)%nat)).
Proof.
  intros Hday. cbv zeta.
  pose proof (serve_all_allowance Date_now ISODate rejects today Hday rs d) as H.
  split; [exact H|]. intros Hpos.
  assert (allowance today (held d) <= 5)%Z; [|lia].
  unfold allowance. destruct (held d) as [ | | u]; try lia.
  specialize (Hpos u eq_refl). destruct (String.eqb _ _); lia.
Qed.

(** A fresh device: of six recordings in a row five succeed, and five
    more of the six that follow a call of [clearUsageTracking]. *)
Lemma at_most_five_recordings_a_day_witness :
  let Date_now := fun _ : nat => 0%Z in
  let ISODate := fun _ : Z => "1970-01-01" in
  let rejects := fun _ : nat => false in
  let d := {| held := NoItem; ticks := 0; calls := 0 |} in
  let six := [Record_; Record_; Record_; Record_; Record_; Record_] in
  (forall k, ISODate (Date_now k) = "1970-01-01")
  /\ fst (serve_all Date_now ISODate rejects (Check :: six) d) = 5%nat
  /\ fst (serve_all Date_now ISODate rejects (six ++ Clear :: six) d) = 10%nat
  /\ (fst (serve_all Date_now ISODate rejects (six ++ Clear :: six) d)
      <= 5 * (1 + List.length (filter resets (six ++ Clear :: six))))%nat.
Proof.
  cbv zeta. split; [reflexivity|]. split; [vm_compute; reflexivity|].
  split; [vm_compute; reflexivity|].
  apply (at_most_five_recordings_a_day
           (fun _ => 0%Z) (fun _ => "1970-01-01") (fun _ => false)
           "1970-01-01"); [reflexivity | discriminate].
Defined.

(** X18.  With an unreadable item under the storage key the check is
    open and the recording is closed: [handleDesignMyOffice] opens the
    quiz and five analyses are reported as remaining, but
    [startAIAnalysis] stops with the usage error before the analysis.
    No call of the six methods that read the item first repairs it, so
    no recording succeeds until [createUsageTracking] or
    [clearUsageTracking] is called; each of these two replaces the item
    when the storage serves it. *)
Theorem unreadable_usage_blocks_every_analysis
    (Date_now : nat -> Z) (ISODate : Z -> string) (rejects : nat -> bool)
    (rs : list Request) (d : Device) :
  held d = Unreadable ->
  fst (handleDesignMyOffice Date_now ISODate rejects d) = QuizOpened
  /\ fst (startAIAnalysis Date_now ISODate rejects true d)
     = UsageLimitError "Failed to record analysis usage"
  /\ fst (getRemainingAnalyses Date_now ISODate rejects d) = Success 5%Z
  /\ (forallb (fun r => negb (resets r)) rs = true ->
      fst (serve_all Date_now ISODate rejects rs d) = 0%nat
      /\ held (snd (serve_all Date_now ISODate rejects rs d)) = Unreadable)
  /\ (rejects (calls d) = false ->
      held (snd (serve Date_now ISODate rejects Clear d)) = NoItem
      /\ exists u,
           held (snd (serve Date_now ISODate rejects Create d)) = Saved u
           /\ analysisCount (currentDaily u) = 0%Z
           /\ totalAnalyses u = 0%Z
           /\ version u = STORAGE_VERSION).
Proof.
  intros Hd.
  destruct (getUsageTracking_unreadable Date_now ISODate rejects d Hd)
    as [e [d1 [E _]]].
  unfold handleDesignMyOffice, startAIAnalysis, canPerformAnalysis,
    recordAnalysisUsage, getRemainingAnalyses.
  rewrite E. cbn [fst negb]. repeat split.
  - apply serve_all_unreadable; assumption.
  - apply serve_all_unreadable; assumption.
  - apply serve_afresh; assumption.
  - apply serve_afresh; assumption.
Qed.

(** A device whose storage works: three requests leave the item
    unreadable, and a recording after [createUsageTracking] succeeds. *)
Lemma unreadable_usage_blocks_every_analysis_witness :
  let Date_now := fun _ : nat => 0%Z in
  let ISODate := fun _ : Z => "1970-01-01" in
  let rejects := fun _ : nat => false in
  let d := {| held := Unreadable; ticks := 0; calls := 0 |} in
  held d = Unreadable
  /\ fst (serve_all Date_now ISODate rejects [Check; Record_; Load] d) = 0%nat
  /\ held (snd (serve_all Date_now ISODate rejects [Check; Record_; Load] d))
     = Unreadable
  /\ fst (serve_all Date_now ISODate rejects [Record_; Create; Record_] d)
     = 1%nat.
Proof.
  cbv zeta. split; [reflexivity|].
  pose proof (unreadable_usage_blocks_every_analysis
                (fun _ => 0%Z) (fun _ => "1970-01-01") (fun _ => false)
                [Check; Record_; Load]
                {| held := Unreadable; ticks := 0; calls := 0 |} eq_refl)
    as [_ [_ [_ [H _]]]].
  destruct (H eq_refl) as [H1 H2].
  split; [exact H1|]. split; [exact H2|]. vm_compute; reflexivity.
Defined.

(** X19.  From an empty storage key on, whatever the clock and the
    storage calls do, no call of the public methods of the service
    leaves an unreadable item, and once written the item has a daily
    count between 0 and 5 that is at most its [totalAnalyses], and the
    current version.  Its [totalAnalyses] is at most the number of
    recordings that succeeded, and is that number as long as neither
    [createUsageTracking] nor [clearUsageTracking] is called: these two
    start the count again. *)
Theorem totalAnalyses_counts_the_recordings
    (Date_now : nat -> Z) (ISODate : Z -> string) (rejects : nat -> bool)
    (rs : list Request) (d : Device) :
  held d = NoItem ->
  let recorded := fst (serve_all Date_now ISODate rejects rs d) in
  let undisturbed := forallb (fun r => negb (resets r)) rs in
  match held (snd (serve_all Date_now ISODate rejects rs d)) with
  | NoItem => undisturbed = true -> recorded = 0%nat
  | Unreadable => False
  | Saved u =>
      (0 <= totalAnalyses u <= Z.of_nat recorded)%Z
      /\ (undisturbed = true -> totalAnalyses u = Z.of_nat recorded)
      /\ (0 <= analysisCount (currentDaily u) <= 5)%Z
      /\ (analysisCount (currentDaily u) <= totalAnalyses u)%Z
      /\ version u = STORAGE_VERSION
  end.
Proof.
  intros Hd. cbv zeta.
  destruct (serve_all_accounts Date_now ISODate rejects rs d 0 ltac:(lia))
    as [k [Hk [Hb He]]]; [rewrite Hd; reflexivity|].
  rewrite Z.add_0_l in *.
  unfold accounts_for in Hk.
  destruct (held (snd (serve_all Date_now ISODate rejects rs d))) as [ | | u].
  - intros Hrs. specialize (He Hrs). lia.
  - exact Hk.
  - destruct Hk as [Ht [Hc [Hle Hv]]]. rewrite Ht.
    repeat split; try lia; try assumption.
Qed.

(** Four recordings over two days, the write of the second rejected;
    and two recordings with a call of [clearUsageTracking] between
    them, after which the item counts one. *)
Lemma totalAnalyses_counts_the_recordings_witness :
  let Date_now := fun k : nat => (Z.of_nat k * 50000000)%Z in
  let ISODate := fun t : Z => if (t <? 86400000)%Z then "1970-01-01" else "1970-01-02" in
  let rejects := fun k : nat => Nat.eqb k 3 in
  let d := {| held := NoItem; ticks := 0; calls := 0 |} in
  let rs := [Record_; Record_; Check; Record_; Save; Record_] in
  held d = NoItem
  /\ fst (serve_all Date_now ISODate rejects rs d) = 3%nat
  /\ option_map totalAnalyses
       match held (snd (serve_all Date_now ISODate rejects rs d)) with
       | Saved u => Some u
       | _ => None
       end = Some 3%Z
  /\ fst (serve_all Date_now ISODate (fun _ => false) [Record_; Clear; Record_] d)
     = 2%nat
  /\ option_map totalAnalyses
       match held (snd (serve_all Date_now ISODate (fun _ => false)
                          [Record_; Clear; Record_] d)) with
       | Saved u => Some u
       | _ => None
       end = Some 1%Z.
Proof.
  cbv zeta. split; [reflexivity|]. split; [vm_compute; reflexivity|].
  split.
  - pose proof (totalAnalyses_counts_the_recordings
                  (fun k => (Z.of_nat k * 50000000)%Z)
                  (fun t => if (t <? 86400000)%Z then "1970-01-01"
                            else "1970-01-02")
                  (fun k => Nat.eqb k 3)
                  [Record_; Record_; Check; Record_; Save; Record_]
                  {| held := NoItem; ticks := 0; calls := 0 |} eq_refl) as H.
    cbv zeta in H.
    destruct (held (snd (serve_all _ _ _ _ _))) as [ | | u];
      [ | contradiction | ].
    + specialize (H eq_refl). vm_compute in H. discriminate H.
    + destruct H as [_ [H _]]. cbn [option_map]. rewrite (H eq_refl).
      vm_compute. reflexivity.
  - split; vm_compute; reflexivity.
Defined.

(** X20.  When the date stored is not today's, the check answers yes and
    five analyses remain, whatever count was stored and whatever the
    storage calls do; and when the three storage calls are served, a
    recording succeeds with the daily count 1 and one more in total. *)
Theorem a_new_day_restores_the_allowance
    (Date_now : nat -> Z) (ISODate : Z -> string) (rejects : nat -> bool)
    (d : Device) (u0 : UsageTracking) :
  held d = Saved u0 ->
  date (currentDaily u0) <> ISODate (Date_now (ticks d)) ->
  fst (canPerformAnalysis Date_now ISODate rejects d) = Success true
  /\ fst (getRemainingAnalyses Date_now ISODate rejects d) = Success 5%Z
  /\ fst (handleDesignMyOffice Date_now ISODate rejects d) = QuizOpened
  /\ (rejects (calls d) = false -> rejects (S (calls d)) = false ->
      rejects (S (S (calls d))) = false ->
      exists u,
        fst (recordAnalysisUsage Date_now ISODate rejects d) = Success u
        /\ analysisCount (currentDaily u) = 1%Z
        /\ totalAnalyses u = (totalAnalyses u0 + 1)%Z
        /\ held (snd (recordAnalysisUsage Date_now ISODate rejects d))
           = Saved u).
Proof.
  intros Hd Hdate.
  apply String.eqb_neq in Hdate.
  destruct d as [item t c]. cbn in Hd, Hdate. subst item.
  unfold handleDesignMyOffice, canPerformAnalysis, getRemainingAnalyses,
    recordAnalysisUsage.
  unfold_device.
  destruct (rejects c); cbv iota beta; [repeat split; discriminate|].
  rewrite Hdate. cbn [negb].
  destruct (rejects (S c)); cbv iota beta; [repeat split; discriminate|].
  cbn. repeat split. intros _ _ ->. eexists. repeat split.
Qed.

(** The day after five analyses. *)
Lemma a_new_day_restores_the_allowance_witness :
  let Date_now := fun _ : nat => 86400000%Z in
  let ISODate := fun _ : Z => "1970-01-02" in
  let rejects := fun _ : nat => false in
  let u0 :=
    {| currentDaily :=
         {| date := "1970-01-01"; analysisCount := 5;
            lastAnalysisAt := Some 1000%Z; resetAt := 0 |};
       totalAnalyses := 5; totalDesignsSaved := 0; firstUsageAt := 0;
       lastUsageAt := 1000; version := 1 |} in
  let d := {| held := Saved u0; ticks := 0; calls := 0 |} in
  fst (canPerformAnalysis Date_now ISODate rejects d) = Success true
  /\ fst (getRemainingAnalyses Date_now ISODate rejects d) = Success 5%Z
  /\ fst (handleDesignMyOffice Date_now ISODate rejects d) = QuizOpened
  /\ (rejects (calls d) = false -> rejects (S (calls d)) = false ->
      rejects (S (S (calls d))) = false ->
      exists u,
        fst (recordAnalysisUsage Date_now ISODate rejects d) = Success u
        /\ analysisCount (currentDaily u) = 1%Z
        /\ totalAnalyses u = (totalAnalyses u0 + 1)%Z
        /\ held (snd (recordAnalysisUsage Date_now ISODate rejects d))
           = Saved u).
Proof.
  cbv zeta.
  apply (a_new_day_restores_the_allowance
           (fun _ => 86400000%Z) (fun _ => "1970-01-02") (fun _ => false)).
  - reflexivity.
  - discriminate.
Defined.

End UsageFacts.

(** ** The check and the recording *)

Module GateFacts.
Import UsageTrackingService Observations.

Section Served.

Variable Date_now : nat -> Z.
Variable ISODate : Z -> string.
Variable rejects : nat -> bool.
Hypothesis served : forall k, rejects k = false.

(** With a storage that serves every call, reading succeeds on every
    item that can be read, and what it returns is held afterwards. *)
Lemma getUsageTracking_served (d : Device) :
  held d <> Unreadable ->
  exists u d1,
    getUsageTracking Date_now ISODate rejects d = (Success u, d1)
    /\ held d1 = Saved u.
Proof.
  intros Hd. pose proof (UsageFacts.getUsageTracking_cases
                           Date_now ISODate rejects d) as H.
  destruct (getUsageTracking Date_now ISODate rejects d) as [[u|e] d1] eqn:E.
  - exists u, d1. split; [reflexivity | tauto].
  - exfalso. revert E. destruct d as [item t c]. cbn in Hd.
    UsageFacts.unfold_device. rewrite !served.
    destruct item as [ | | u0]; [discriminate | congruence |].
    cbv iota beta.
    destruct (negb (String.eqb _ _)); [rewrite ?served; discriminate|].
    destruct (negb (version u0 =? STORAGE_VERSION)%Z);
      rewrite ?served; discriminate.
Qed.

(** What a recording does after a reading that succeeded. *)
Lemma recordAnalysisUsage_served (d : Device) (u : UsageTracking) :
  held d = Saved u ->
  (analysisCount (currentDaily u) < 5)%Z
  \/ date (currentDaily u) <> ISODate (Date_now (ticks d)) ->
  success (fst (recordAnalysisUsage Date_now ISODate rejects d)) = true.
Proof.
  intros Hd Hroom.
  pose proof (UsageFacts.getUsageTracking_cases Date_now ISODate rejects d) as H.
  destruct (getUsageTracking_served d ltac:(rewrite Hd; discriminate))
    as [u1 [d1 [E Hd1]]].
  unfold recordAnalysisUsage. rewrite E in *. rewrite Hd in H.
  destruct H as [_ [_ [_ H]]].
  unfold now, setItem, tick. cbn [held ticks calls]. rewrite served.
  assert (Hc : (analysisCount (currentDaily u1) < 5)%Z).
  { destruct (String.eqb_spec (date (currentDaily u))
                (ISODate (Date_now (ticks d)))) as [Heq | Hne].
    - destruct H as [-> _]. destruct Hroom; [assumption | contradiction].
    - destruct H as [-> _]. lia. }
  destruct (Z.leb_spec DAILY_ANALYSES (analysisCount (currentDaily u1)));
    [unfold DAILY_ANALYSES in *; lia | reflexivity].
Qed.

End Served.

(** X29.  With a storage that serves every call and an item that can
    be read, the check and the recording agree: when
    [handleDesignMyOffice] opens the quiz, the recording in
    [startAIAnalysis] that follows succeeds and the analysis starts,
    whatever the clock does in between; and while the clock stays on
    one day, when the alert of the daily limit is shown, the recording
    would be refused with the text of the limit. *)
Theorem open_quiz_means_the_analysis_starts
    (Date_now : nat -> Z) (ISODate : Z -> string) (rejects : nat -> bool)
    (d : Device) :
  (forall k, rejects k = false) ->
  held d <> Unreadable ->
  let asked := fst (handleDesignMyOffice Date_now ISODate rejects d) in
  let start :=
    fst (startAIAnalysis Date_now ISODate rejects true
           (snd (handleDesignMyOffice Date_now ISODate rejects d))) in
  (asked = QuizOpened -> start = AnalysisStarted)
  /\ ((forall k, ISODate (Date_now k) = ISODate (Date_now 0)) ->
      asked = DailyLimitReached ->
      start = UsageLimitError "Daily analysis limit of 5 reached").
Proof.
  intros Hserved Hd. cbv zeta.
  destruct (getUsageTracking_served Date_now ISODate rejects Hserved d Hd)
    as [u [d1 [E Hd1]]].
  unfold handleDesignMyOffice, canPerformAnalysis. rewrite E.
  unfold DAILY_ANALYSES.
  destruct (Z.ltb_spec (analysisCount (currentDaily u)) 5) as [Hlt | Hge];
    cbn [fst snd]; (split; [intros Hq | intros Hday Hq]);
    try discriminate Hq.
  - unfold startAIAnalysis. cbn [negb].
    pose proof (recordAnalysisUsage_served Date_now ISODate rejects Hserved
                  d1 u Hd1 (or_introl Hlt)) as Hs.
    destruct (recordAnalysisUsage Date_now ISODate rejects d1) as [[u2|e] d2];
      [reflexivity | discriminate Hs].
  - pose proof (UsageFacts.getUsageTracking_allowance
                  Date_now ISODate rejects _ Hday d) as Ha.
    rewrite E in Ha. destruct Ha as [_ [Hdate _]].
    pose proof (UsageFacts.getUsageTracking_cases
                  Date_now ISODate rejects d1) as H1.
    destruct (getUsageTracking_served Date_now ISODate rejects Hserved d1
                ltac:(rewrite Hd1; discriminate)) as [u1 [d2 [E1 Hd2]]].
    unfold startAIAnalysis, recordAnalysisUsage. cbn [negb].
    rewrite E1 in *. rewrite Hd1 in H1. destruct H1 as [_ [_ [_ H1]]].
    rewrite Hdate, (Hday (ticks d1)), String.eqb_refl in H1.
    destruct H1 as [Hcur _].
    unfold now, tick. rewrite Hcur.
    destruct (Z.leb_spec DAILY_ANALYSES (analysisCount (currentDaily u)));
      [reflexivity | unfold DAILY_ANALYSES in *; lia].
Qed.

(** A fresh device. *)
Lemma open_quiz_means_the_analysis_starts_witness :
  let Date_now := fun _ : nat => 0%Z in
  let ISODate := fun _ : Z => "1970-01-01" in
  let rejects := fun _ : nat => false in
  let d := {| held := NoItem; ticks := 0; calls := 0 |} in
  let asked := fst (handleDesignMyOffice Date_now ISODate rejects d) in
  let start :=
    fst (startAIAnalysis Date_now ISODate rejects true
           (snd (handleDesignMyOffice Date_now ISODate rejects d))) in
  asked = QuizOpened
  /\ (asked = QuizOpened -> start = AnalysisStarted)
  /\ ((forall k, ISODate (Date_now k) = ISODate (Date_now 0)) ->
      asked = DailyLimitReached ->
      start = UsageLimitError "Daily analysis limit of 5 reached").
Proof.
  cbv zeta. split; [reflexivity|].
  apply (open_quiz_means_the_analysis_starts
           (fun _ => 0%Z) (fun _ => "1970-01-01") (fun _ => false)).
  - reflexivity.
  - discriminate.
Defined.

End GateFacts.

(** ** The client of the remote model *)

Module ClientFacts.

Import OpenAIClientService Observations.

(** Asking for the key never touches the client. *)
Lemma fetchApiKeyFromProxy_keeps_client
    (ACCESS_TOKEN : string) (now later : Z) (proxy : Fetched) (s : Statics) :
  openai (snd (fetchApiKeyFromProxy ACCESS_TOKEN now later proxy s)) = openai s.
Proof.
  unfold fetchApiKeyFromProxy.
  destruct (cachedApiKey s) as [cached|].
  - destruct (negb (CACHE_DURATION <? now - timestamp cached)%Z);
      [reflexivity|].
    destruct (String.eqb ACCESS_TOKEN ""); [reflexivity|].
    destruct proxy as [[m|] | status m | key0]; cbn; try reflexivity.
    destruct (String.eqb key0 ""); reflexivity.
  - destruct (String.eqb ACCESS_TOKEN ""); [reflexivity|].
    destruct proxy as [[m|] | status m | key0]; cbn; try reflexivity.
    destruct (String.eqb key0 ""); reflexivity.
Qed.

(** X21.  Once [getClient] has built a client, every later [getClient]
    returns that client, built with the same key, whatever the clock,
    the access token and the proxy do and however often the key cache
    expires, is refreshed or is cleared in between: the five minutes of
    the key cache never reach the client, and only [resetClient] drops
    it. *)
Theorem client_outlives_the_key_cache
    (ACCESS_TOKEN : string) (calls : list ClientCall) (s : Statics)
    (client : string) :
  openai s = Some client ->
  Forall (fun answer => answer = inr client)
         (fst (clients ACCESS_TOKEN calls s))
  /\ openai (snd (clients ACCESS_TOKEN calls s)) = Some client.
Proof.
  revert s. induction calls as [|call calls IH]; intros s Hs; cbn [clients].
  - split; [constructor | exact Hs].
  - destruct call as [now later proxy | now later proxy | ].
    + unfold getClient. rewrite Hs.
      destruct (IH s Hs) as [Hall Hend].
      destruct (clients ACCESS_TOKEN calls s) as [answers s2].
      cbn [fst snd] in *. split; [constructor; [reflexivity | exact Hall]|].
      exact Hend.
    + apply IH. rewrite fetchApiKeyFromProxy_keeps_client. exact Hs.
    + apply IH. exact Hs.
Qed.

(** A client built with the first key, then the cache cleared and the
    proxy answering with a second key ten minutes later. *)
Lemma client_outlives_the_key_cache_witness :
  let first := getClient "token" 0 0 (Ok "key-1")
                 {| openai := None; cachedApiKey := None |} in
  let calls := [ ClearCache;
                 AskKey 600000 600000 (Ok "key-2");
                 AskClient 600001 600001 (Ok "key-2") ] in
  fst first = inr "key-1"
  /\ option_map key (cachedApiKey (snd (clients "token" calls (snd first))))
     = Some "key-2"
  /\ Forall (fun answer => answer = inr "key-1")
            (fst (clients "token" calls (snd first)))
  /\ openai (snd (clients "token" calls (snd first))) = Some "key-1".
Proof.
  cbv zeta. split; [reflexivity|]. split; [reflexivity|].
  apply (client_outlives_the_key_cache "token").
  reflexivity.
Defined.

End ClientFacts.

(** ** From the reply to the result *)

Module ReplyFacts.
Import AIResponseParserService ErgonomicAnalysisService AIAnalysisService.
Import Props Observations.

Lemma fallback_description (content : string) :
  exists c t, (Js.take 200 content ++ "...")%string = String c t.
Proof.
  destruct (Js.take 200 content) as [|c t]; cbn; eauto.
Qed.

Lemma extractStructuredData_fallback (aiContent : string) :
  match found_json aiContent with
  | Some text => Json.parse text = Json.Throws
  | None => True
  end ->
  extractStructuredData aiContent
  = Returned (parseUnstructuredResponse aiContent).
Proof.
  unfold found_json, extractStructuredData.
  destruct (Regex.exec re_json_block aiContent) as [[whole group1]|].
  - intros ->. reflexivity.
  - destruct (Regex.exec re_json_object aiContent) as [[whole group1]|].
    + intros ->. reflexivity.
    + reflexivity.
Qed.

Lemma cleanText_fallback_texts :
  cleanText (JStr "Modern workspace") = "Modern workspace"
  /\ cleanText (JStr "Good potential for improvement")
     = "Good potential for improvement"
  /\ cleanText (JStr "Enhance ergonomics") = "Enhance ergonomics"
  /\ cleanText (JStr "Improve organization") = "Improve organization"
  /\ cleanText (JStr "Add personal touches") = "Add personal touches".
Proof.
  repeat split; vm_compute; reflexivity.
Qed.

(** X22.  A reply in which no JSON is found, or whose JSON does not
    parse, always leads to the same five insights, whatever the reply
    says: the chair posture is poor and the organization needs
    improvement (read off the fixed priorities of the fallback), desk
    height, screen position and lighting are good.  The summary is the
    cleaned start of the reply, and the style match the fixed one of
    the fallback. *)
Theorem reply_without_json_reports_a_poor_chair
    (Math_random : nat -> Q) (aiContent : string) (n : nat) :
  match found_json aiContent with
  | Some text => Json.parse text = Json.Throws
  | None => True
  end ->
  exists data cleaned,
    extractStructuredData aiContent = Returned data
    /\ cleanAnalysisData data = Some cleaned
    /\ map (fun i => (category i, status i, title i, description i))
           (fst (analyzeErgonomics Math_random cleaned default_config n))
       = [ (JStr "chair-posture", JStr "poor",
            JStr "Chair & Posture Issues Detected", JStr "Enhance ergonomics");
           (JStr "organization", JStr "needs-improvement",
            JStr "Organization Opportunities", JStr "Improve organization");
           (JStr "desk-height", JStr "good", JStr "Desk Height Optimal",
            JStr "No specific issues identified in this area.");
           (JStr "screen-position", JStr "good", JStr "Screen Position Optimal",
            JStr "No specific issues identified in this area.");
           (JStr "lighting", JStr "good", JStr "Lighting Conditions Good",
            JStr "No specific issues identified in this area.") ]
    /\ describe cleaned
       = Some {| summaryText :=
                   or_text
                     (cleanText
                        (JStr (cleanText
                                 (JStr (Js.take 200 aiContent ++ "...")%string))))
                     "Workspace analysis completed";
                 styleVibe := "Modern workspace";
                 styleConfidence := JNum (7 # 10);
                 styleExplanation := "Good potential for improvement" |}.
Proof.
  intros Hjson.
  exists (parseUnstructuredResponse aiContent).
  unfold parseUnstructuredResponse.
  destruct (fallback_description aiContent) as [c [t Hd]].
  pose proof (extractStructuredData_fallback aiContent Hjson) as Hx.
  unfold parseUnstructuredResponse in Hx. rewrite Hd in *.
  destruct cleanText_fallback_texts as [H1 [H2 [H3 [H4 H5]]]].
  eexists. split; [exact Hx|].
  split.
  - cbv -[cleanText]. rewrite H1, H2, H3, H4, H5. reflexivity.
  - split.
    + set (d := cleanText (JStr (String c t))). clearbody d.
      vm_compute. reflexivity.
    + unfold describe. cbv -[cleanText or_text]. rewrite H1, H2.
      reflexivity.
Qed.

(** A reply in plain prose. *)
Lemma reply_without_json_reports_a_poor_chair_witness :
  found_json "The desk looks fine." = None
  /\ exists data cleaned,
       extractStructuredData "The desk looks fine." = Returned data
       /\ cleanAnalysisData data = Some cleaned
       /\ map (fun i => (category i, status i, title i, description i))
              (fst (analyzeErgonomics Samples.zeros cleaned default_config 0))
          = [ (JStr "chair-posture", JStr "poor",
               JStr "Chair & Posture Issues Detected",
               JStr "Enhance ergonomics");
              (JStr "organization", JStr "needs-improvement",
               JStr "Organization Opportunities", JStr "Improve organization");
              (JStr "desk-height", JStr "good", JStr "Desk Height Optimal",
               JStr "No specific issues identified in this area.");
              (JStr "screen-position", JStr "good",
               JStr "Screen Position Optimal",
               JStr "No specific issues identified in this area.");
              (JStr "lighting", JStr "good", JStr "Lighting Conditions Good",
               JStr "No specific issues identified in this area.") ]
       /\ describe cleaned
          = Some {| summaryText :=
                      or_text
                        (cleanText
                           (JStr (cleanText
                                    (JStr (Js.take 200 "The desk looks fine."
                                           ++ "...")%string))))
                        "Workspace analysis completed";
                    styleVibe := "Modern workspace";
                    styleConfidence := JNum (7 # 10);
                    styleExplanation := "Good potential for improvement" |}.
Proof.
  split; [vm_compute; reflexivity|].
  apply (reply_without_json_reports_a_poor_chair
           Samples.zeros "The desk looks fine." 0).
  vm_compute. exact I.
Defined.

Lemma describe_throws (cleaned : JsVal) :
  describe cleaned = None <-> nullish cleaned = true.
Proof.
  unfold describe.
  destruct cleaned; cbn; split; intros H; try reflexivity; try discriminate.
  destruct (Val.own fields "workspace_description");
    destruct (Val.own fields "style_assessment"); discriminate.
Qed.

Lemma cleanAnalysisData_nullish (data cleaned : JsVal) :
  cleanAnalysisData data = Some cleaned ->
  nullish cleaned = nullish data /\ (nullish data = true -> cleaned = data).
Proof.
  unfold cleanAnalysisData.
  destruct (negb (Val.truthy data) || negb (is_object data)) eqn:E.
  - intros H; inversion H; subst. auto.
  - cbv zeta.
    match goal with
    | |- match ?e with _ => _ end = _ -> _ => destruct e; [|discriminate]
    end.
    intros H; inversion H; subst; clear H.
    destruct data; cbn in E; try discriminate; cbn; split; auto; discriminate.
Qed.

(** X23.  After cleaning, building the result throws exactly when the
    parsed reply is [null] or [undefined]: the cleaner hands such a
    value on as it is, [analyzeErgonomics] answers it with the empty
    list, and reading [workspace_description] off it throws.  Every
    other cleaned value gives a summary and a style match. *)
Theorem null_reply_fails_when_the_result_is_built
    (Math_random : nat -> Q) (data cleaned : JsVal)
    (config : ErgonomicAnalysisConfig) (n : nat) :
  cleanAnalysisData data = Some cleaned ->
  (describe cleaned = None <-> nullish data = true)
  /\ (nullish data = true ->
      cleaned = data
      /\ fst (analyzeErgonomics Math_random cleaned config n) = []).
Proof.
  intros Hc.
  destruct (cleanAnalysisData_nullish data cleaned Hc) as [Hn Hsame].
  split.
  - rewrite describe_throws, Hn. tauto.
  - intros Hd. specialize (Hsame Hd). subst cleaned. split; [reflexivity|].
    destruct data; try discriminate Hd; reflexivity.
Qed.

(** A reply that is a fenced block holding the literal null. *)
Lemma null_reply_fails_when_the_result_is_built_witness :
  let fence := String backtick (String backtick (String backtick "")) in
  let nl := String "010"%char "" in
  let aiContent := (fence ++ "json" ++ nl ++ "null" ++ nl ++ fence)%string in
  extractStructuredData aiContent = Returned JNull
  /\ cleanAnalysisData JNull = Some JNull
  /\ (describe JNull = None <-> nullish JNull = true)
  /\ (nullish JNull = true ->
      JNull = JNull
      /\ fst (analyzeErgonomics Samples.zeros JNull default_config 0) = []).
Proof.
  cbv zeta. split; [vm_compute; reflexivity|]. split; [reflexivity|].
  apply (null_reply_fails_when_the_result_is_built
           Samples.zeros JNull JNull default_config 0).
  reflexivity.
Defined.

End ReplyFacts.

(** ** The wording of the insights *)

Module WordingFacts.
Import ErgonomicAnalysisService Props Observations.

Section Lifting.

Variable Math_random : nat -> Q.
Variable config : ErgonomicAnalysisConfig.
Variable P : ErgonomicInsight -> Prop.
Variable known : JsVal -> Prop.

Hypothesis of_item : forall item n i n',
  known item ->
  plain_item item = true ->
  processErgonomicItem Math_random item config n = (Some i, n') -> P i.
Hypothesis of_priority : forall improvement priority n i n',
  parseImprovement Math_random improvement priority config n
  = (Some (Some i), n') -> P i.
Hypothesis of_default : forall c,
  In c allCategories -> P (generateDefaultInsight c).

Lemma processItems_each (items : list JsVal) :
  forall n, Forall known items -> forallb plain_item items = true ->
    Forall P (fst (processItems Math_random items config n)).
Proof.
  induction items as [|item items IH]; intros n Hk Hp; cbn [processItems].
  - constructor.
  - cbn in Hp. apply andb_prop in Hp. destruct Hp as [Hp1 Hp2].
    inversion Hk as [|? ? Hk1 Hk2]; subst.
    destruct (processErgonomicItem Math_random item config n)
      as [insight n1] eqn:H1.
    specialize (IH n1 Hk2 Hp2).
    destruct (processItems Math_random items config n1) as [insights n2].
    cbn [fst] in *. destruct insight as [i|]; [constructor|]; eauto.
Qed.

Lemma extractFrom_each (priorities : list JsVal) :
  forall index n found n',
    extractFrom Math_random index priorities config n = (Some found, n') ->
    Forall P found.
Proof.
  induction priorities as [|p ps IH]; cbn [extractFrom]; intros index n found n' H.
  - inversion H; constructor.
  - destruct (parseImprovement Math_random p index config n)
      as [[insight|] n1] eqn:H1; [|discriminate H].
    destruct (extractFrom Math_random (S index) ps config n1)
      as [[insights|] n2] eqn:H2; [|discriminate H].
    inversion H; subst; clear H. specialize (IH _ _ _ _ H2).
    destruct insight as [i|]; [constructor|]; eauto.
Qed.

Lemma analyzeErgonomics_each (analysisData : JsVal) (n : nat) :
  (forall items,
      Val.prop analysisData "ergonomic_evaluation" = Some (JArr items) ->
      Forall known items) ->
  plain analysisData = true ->
  Forall P (fst (analyzeErgonomics Math_random analysisData config n)).
Proof.
  intros Hk Hp. unfold analyzeErgonomics.
  destruct (collectInsights Math_random analysisData config n)
    as [[found|] n'] eqn:Hc; cbn [fst]; [|constructor].
  assert (Hfound : Forall P found).
  { revert Hc. unfold plain, collectInsights in *.
    destruct (Val.prop analysisData "ergonomic_evaluation") as [evaluation|];
      [|discriminate].
    destruct (Val.prop analysisData "improvement_priorities") as [priorities|];
      [|discriminate].
    assert (Hitems : Forall P
              (fst match evaluation with
                   | JArr items => processItems Math_random items config n
                   | _ => ([], n)
                   end)).
    { destruct evaluation; try constructor.
      apply processItems_each; [apply Hk; reflexivity | exact Hp]. }
    destruct (match evaluation with
              | JArr items => processItems Math_random items config n
              | _ => ([], n)
              end) as [fromItems n1].
    cbn [fst] in Hitems.
    destruct priorities; try (intros H; inversion H; subst; exact Hitems).
    unfold extractInsightsFromPriorities.
    destruct (extractFrom Math_random 0 items config n1)
      as [[additional|] n2] eqn:Hx; [|discriminate].
    intros H; inversion H; subst; clear H.
    apply Forall_app. split; [exact Hitems|].
    eapply extractFrom_each; eauto. }
  unfold completeInsights, prioritizeInsights.
  eapply Permutation_Forall.
  - apply Permutation_sym, ErgonomicFacts.sort_perm.
  - apply Forall_app. split; [exact Hfound|].
    apply Forall_forall. intros i Hi.
    apply in_map_iff in Hi. destruct Hi as [c [<- Hin]].
    apply of_default.
    unfold getMissingCategories in Hin. apply filter_In in Hin. tauto.
Qed.

End Lifting.
Lemma title_listed (c s : string) :
  In c allCategories -> In s priorityOrder ->
  exists t, generateTitle (JStr c) (JStr s) = JStr t /\ In t listed_titles.
Proof.
  unfold allCategories, priorityOrder. cbn [In].
  intros [<- | [<- | [<- | [<- | [<- | []]]]]] [<- | [<- | [<- | []]]];
    eexists; (split; [vm_compute; reflexivity|]); cbn; auto 20.
Qed.

Lemma or_else_text (x fallback : string) :
  x <> "" -> Val.or_else (JStr x) (JStr fallback) = JStr x.
Proof.
  intros Hx. unfold Val.or_else. cbn.
  destruct (String.eqb_spec x ""); [contradiction|reflexivity].
Qed.

Lemma generateRecommendation_listed
    (Math_random : nat -> Q) (c s : string) (n : nat) :
  unit_draws Math_random ->
  In c allCategories -> In s priorityOrder ->
  (s = "good"
   /\ fst (generateRecommendation Math_random (JStr c) (JStr s) n)
      = JStr "Maintain current setup and monitor for changes")
  \/ exists r,
       fst (generateRecommendation Math_random (JStr c) (JStr s) n) = JStr r
       /\ In r (listed_recommendations c s).
Proof.
  intros Hr. unfold allCategories, priorityOrder. cbn [In].
  intros [<- | [<- | [<- | [<- | [<- | []]]]]] [<- | [<- | [<- | []]]];
    try (left; split; reflexivity); right;
    unfold generateRecommendation, listed_recommendations;
    cbn [Table.key_of];
    match goal with
    | |- context [Table.get recommendations ?k] =>
        let row := eval vm_compute in (Table.get recommendations k) in
        change (Table.get recommendations k) with row
    end;
    cbv iota beta;
    match goal with
    | |- context [Val.is_string (JStr ?a) ?b] =>
        change (Val.is_string (JStr a) b) with false
    end;
    cbv iota beta;
    repeat match goal with
    | |- context [Table.get ?r ?k] =>
        let row := eval vm_compute in (Table.get r k) in
        change (Table.get r k) with row
    end;
    cbv iota beta;
    match goal with
    | |- context [pick Math_random ?arr n] =>
        destruct (PaletteFacts.draw_member Math_random arr n Hr ltac:(discriminate))
          as [x [Hx Hin]];
        change (pick Math_random arr n)
          with (ColorExtractionService.draw Math_random arr n);
        rewrite Hx; cbn [fst]; exists x; split; [|exact Hin];
        apply or_else_text;
        cbn [In] in Hin;
        destruct Hin as [<- | [<- | [<- | []]]]; discriminate
    end.
Qed.

Lemma worded_generated
    (Math_random : nat -> Q) (analysisData : JsVal) (i : ErgonomicInsight)
    (n : nat) :
  unit_draws Math_random ->
  canonical i ->
  title i = generateTitle (category i) (status i) ->
  recommendation i
  = fst (generateRecommendation Math_random (category i) (status i) n) ->
  worded analysisData i.
Proof.
  intros Hr [[c [Hc Ec]] [s [Hs Es]]] Ht Hrec.
  rewrite Ec, Es in *. split.
  - rewrite Ht. apply title_listed; assumption.
  - destruct (generateRecommendation_listed Math_random c s n Hr Hc Hs)
      as [[Hgood Hm] | [r [Hm Hin]]].
    + right; right; left. rewrite Es, Hrec, Hm, Hgood. split; reflexivity.
    + right; right; right. exists r. rewrite Ec, Es, Hrec, Hm.
      split; [reflexivity | exact Hin].
Qed.

Lemma entries_kept_listed (analysisData : JsVal) (items : list JsVal) :
  Val.prop analysisData "ergonomic_evaluation" = Some (JArr items) ->
  Forall (kept_is_listed analysisData) items.
Proof.
  intros He. apply Forall_forall. intros item Hin raw Hraw Hkept.
  unfold reply_recommendations. rewrite He.
  apply filter_In. split; [|exact Hkept].
  apply in_flat_map. exists item. split; [exact Hin|].
  rewrite Hraw. left. reflexivity.
Qed.

Lemma processErgonomicItem_worded
    (Math_random : nat -> Q) (config : ErgonomicAnalysisConfig)
    (analysisData item : JsVal) (n : nat) (i : ErgonomicInsight) (n' : nat) :
  unit_draws Math_random ->
  kept_is_listed analysisData item ->
  plain_item item = true ->
  processErgonomicItem Math_random item config n = (Some i, n') ->
  worded analysisData i.
Proof.
  intros Hr Hk Hplain Hi.
  pose proof (ErgonomicFacts.processErgonomicItem_canonical
                _ _ _ _ _ _ Hplain Hi) as Hcan.
  revert Hi. unfold processErgonomicItem. unfold kept_is_listed in Hk.
  destruct (Val.prop item "category") as [rawCategory|]; [|discriminate 1].
  destruct (Val.prop item "status") as [rawStatus|]; [|discriminate 1].
  destruct (Val.prop item "observation"); [|discriminate 1].
  destruct (Val.prop item "description"); [|discriminate 1].
  destruct (Val.prop item "recommendation") as [raw|]; [|discriminate 1].
  specialize (Hk raw eq_refl).
  destruct (normalizeCategory rawCategory) as [category0|]; [|discriminate 1].
  destruct (negb (Val.truthy category0)); [discriminate 1|].
  destruct (normalizeStatus rawStatus (strictnessLevel config)) as [status0|];
    [|discriminate 1].
  unfold enhanceRecommendation.
  destruct (Val.truthy raw && Num.gt (Num.length_of raw) (inject_Z 20)) eqn:E.
  - intros H; inversion H; subst; clear H.
    destruct Hcan as [[c [Hc Ec]] [s [Hs Es]]]. cbn in Ec, Es. subst.
    split; cbn.
    + apply title_listed; assumption.
    + right; left. apply Hk. reflexivity.
  - destruct (generateRecommendation Math_random category0 status0 n)
      as [rec n1] eqn:Hg.
    intros H; inversion H; subst; clear H.
    apply (worded_generated Math_random analysisData _ n Hr Hcan); cbn;
      [reflexivity | rewrite Hg; reflexivity].
Qed.

Lemma parseImprovement_worded
    (Math_random : nat -> Q) (config : ErgonomicAnalysisConfig)
    (analysisData improvement : JsVal) (priority n : nat)
    (i : ErgonomicInsight) (n' : nat) :
  unit_draws Math_random ->
  parseImprovement Math_random improvement priority config n
  = (Some (Some i), n') ->
  worded analysisData i.
Proof.
  intros Hr Hi.
  pose proof (ErgonomicFacts.parseImprovement_canonical _ _ _ _ _ _ _ Hi) as Hcan.
  revert Hi. unfold parseImprovement.
  destruct (Val.toLowerCase improvement) as [lower|]; [|discriminate 1].
  destruct (detect categoryMappings lower) as [c|]; [|discriminate 1].
  match goal with
  | |- context [generateRecommendation Math_random ?c0 ?s0 n] =>
      destruct (generateRecommendation Math_random c0 s0 n) as [rec n1] eqn:Hg
  end.
  intros H; inversion H; subst; clear H.
  apply (worded_generated Math_random analysisData _ n Hr Hcan); cbn;
    [reflexivity | rewrite Hg; reflexivity].
Qed.

Lemma default_worded (analysisData : JsVal) (c : string) :
  In c allCategories -> worded analysisData (generateDefaultInsight c).
Proof.
  intros Hc. split; cbn.
  - apply title_listed; [exact Hc | unfold priorityOrder; cbn; auto].
  - left. reflexivity.
Qed.

(** Neither table holds a text of the other kind: no title is the
    placeholder built from a category, and no recommendation of the
    table is the generic one. *)
Lemma tables_hold_no_fallback :
  forallb (fun c =>
             negb (existsb (String.eqb (c ++ " Assessment")) listed_titles)
             && forallb (fun s =>
                           negb (existsb
                                   (fun r => Val.is_string generic_recommendation r)
                                   (listed_recommendations c s)))
                        priorityOrder)
          allCategories
  = true.
Proof.
  vm_compute. reflexivity.
Qed.

(** An insight worded from the tables bears the generic recommendation
    only if the reply gave it, and never the placeholder title. *)
Lemma worded_without_fallback (analysisData : JsVal) (i : ErgonomicInsight) :
  canonical i ->
  worded analysisData i ->
  title i <> JStr (Table.key_of (category i) ++ " Assessment")
  /\ (recommendation i = generic_recommendation ->
      In generic_recommendation (reply_recommendations analysisData)).
Proof.
  intros [[c [Hc Ec]] [s [Hs Es]]] [[t [Ht Hin]] Hrec].
  pose proof tables_hold_no_fallback as Hall.
  rewrite forallb_forall in Hall. specialize (Hall c Hc).
  apply andb_prop in Hall. destruct Hall as [Htitle Hrecs].
  rewrite forallb_forall in Hrecs. specialize (Hrecs s Hs).
  rewrite Ec, Es in *. cbn [Table.key_of] in *. split.
  - rewrite Ht. intros Heq. inversion Heq; subst t.
    apply negb_true_iff in Htitle.
    assert (existsb (String.eqb (c ++ " Assessment")) listed_titles = true);
      [|congruence].
    apply existsb_exists. exists (c ++ " Assessment")%string.
    split; [exact Hin | apply String.eqb_refl].
  - intros Hg.
    destruct Hrec as [Hu | [Hreply | [[_ Hm] | [r [Hr Hlisted]]]]].
    + rewrite Hg in Hu. discriminate Hu.
    + rewrite Hg in Hreply. exact Hreply.
    + rewrite Hg in Hm. discriminate Hm.
    + apply negb_true_iff in Hrecs.
      assert (existsb (fun r => Val.is_string generic_recommendation r)
                      (listed_recommendations c s) = true); [|congruence].
      apply existsb_exists. exists r. split; [exact Hlisted|].
      rewrite Hg in Hr. inversion Hr; subst r. reflexivity.
Qed.

(** X24.  With [Math.random] in [0, 1) and raw category and status
    strings that are not names inherited from a prototype, every insight
    of [analyzeErgonomics] has one of the fifteen titles of the table,
    never the placeholder built from the category; and its
    recommendation is absent (a default insight), a recommendation of
    one of the entries of the reply, truthy and longer than 20
    characters, the text for a good status, or one of the three texts
    the table has for its category and status.  The generic text for a
    missing entry is never drawn: an insight bears it only when the
    reply gave it. *)
Theorem insights_are_worded_from_the_tables
    (Math_random : nat -> Q) (analysisData : JsVal)
    (config : ErgonomicAnalysisConfig) (n : nat) :
  unit_draws Math_random ->
  plain analysisData = true ->
  Forall (fun i =>
            worded analysisData i
            /\ title i <> JStr (Table.key_of (category i) ++ " Assessment")
            /\ (recommendation i = generic_recommendation ->
                In generic_recommendation (reply_recommendations analysisData)))
         (fst (analyzeErgonomics Math_random analysisData config n)).
Proof.
  intros Hr Hp.
  assert (Hw : Forall (worded analysisData)
                 (fst (analyzeErgonomics Math_random analysisData config n))).
  { apply (analyzeErgonomics_each Math_random config (worded analysisData)
             (kept_is_listed analysisData)).
    - intros item m i m' Hk Hplain Hi.
      eapply processErgonomicItem_worded; eauto.
    - intros improvement priority m i m' Hi.
      eapply parseImprovement_worded; eauto.
    - apply default_worded.
    - apply entries_kept_listed.
    - exact Hp. }
  pose proof (MetricFacts.analyzeErgonomics_canonical
                Math_random analysisData config n Hp) as Hc.
  rewrite Forall_forall in *. intros i Hi.
  split; [apply Hw; exact Hi|].
  apply worded_without_fallback; [apply Hc | apply Hw]; exact Hi.
Qed.

(** Scenario A, and a reply that recommends a lamp for the lighting:
    the insight bears the recommendation of the reply. *)
Lemma insights_are_worded_from_the_tables_witness :
  let lamp :=
    JObj [ ("ergonomic_evaluation",
             JArr [ JObj [ ("category", JStr "lighting");
                           ("status", JStr "poor");
                           ("observation", JStr "The desk is dim.");
                           ("recommendation",
                             JStr "Put a lamp on the left of the desk.") ] ]) ] in
  unit_draws Samples.zeros
  /\ plain lamp = true
  /\ map recommendation
       (firstn 1 (fst (analyzeErgonomics Samples.zeros lamp default_config 0)))
     = [ JStr "Put a lamp on the left of the desk." ]
  /\ Forall (fun i =>
               worded lamp i
               /\ title i <> JStr (Table.key_of (category i) ++ " Assessment")
               /\ (recommendation i = generic_recommendation ->
                   In generic_recommendation (reply_recommendations lamp)))
            (fst (analyzeErgonomics Samples.zeros lamp default_config 0)).
Proof.
  cbv zeta.
  assert (Hr : unit_draws Samples.zeros).
  { intros k. unfold Samples.zeros. split; [apply Qle_refl | reflexivity]. }
  split; [exact Hr|]. split; [reflexivity|]. split; [vm_compute; reflexivity|].
  apply (insights_are_worded_from_the_tables Samples.zeros _ default_config 0 Hr).
  reflexivity.
Defined.

End WordingFacts.

(** ** The style quiz *)

Module QuizFacts.
Import AIPromptService StyleQuizModal Observations.

Lemma map_get_key (pairs : list (string * option string)) (k : string) :
  map_get pairs k <> None -> In k (map fst pairs).
Proof.
  induction pairs as [|[k1 v1] pairs IH]; cbn; [congruence|].
  destruct (map_get pairs k).
  - intros _. right. apply IH. discriminate.
  - destruct (String.eqb_spec k1 k); [left; assumption | congruence].
Qed.

(** [Map.get] on pairs with distinct keys. *)
Lemma map_get_unique (pairs : list (string * option string))
    (k : string) (v : option string) :
  NoDup (map fst pairs) -> In (k, v) pairs -> map_get pairs k = Some v.
Proof.
  induction pairs as [|[k' v'] pairs IH]; intros Hnd Hin; [contradiction|].
  cbn in Hnd. inversion Hnd as [|? ? Hnotin Hnd']; subst.
  cbn [map_get]. destruct Hin as [Heq | Hin].
  - inversion Heq; subst.
    destruct (map_get pairs k) as [v''|] eqn:Hg.
    + exfalso. apply Hnotin. apply map_get_key. rewrite Hg. discriminate.
    + rewrite String.eqb_refl. reflexivity.
  - rewrite (IH Hnd' Hin). reflexivity.
Qed.

(** The three tables of [createPromptContext] describe every option
    of the quiz by its label and its description. *)
Lemma options_described :
  forall q, In q QUIZ_QUESTIONS ->
  forall o, In o (options q) ->
    match id q with
    | "workspace-vibe" => Table.get_str vibeMap (option_id o) = described o
    | "color-preference" => Table.get_str colorMap (option_id o) = described o
    | _ => Table.get_str budgetMap (option_id o) = described o
    end.
Proof.
  intros q Hq.
  cbn in Hq. destruct Hq as [<- | [<- | [<- | []]]]; intros o Ho; cbn in Ho;
    destruct Ho as [<- | [<- | [<- | []]]]; vm_compute; reflexivity.
Qed.

Lemma question_listed (j : nat) :
  (j < 3)%nat ->
  In (question j) QUIZ_QUESTIONS
  /\ nth_error QUIZ_QUESTIONS j = Some (question j).
Proof.
  intros Hj. destruct j as [|[|[|j]]]; try lia; cbn; auto 10.
Qed.

Lemma question_ids_differ (i j : nat) :
  (i < 3)%nat -> (j < 3)%nat -> id (question i) = id (question j) -> i = j.
Proof.
  intros Hi Hj.
  destruct i as [|[|[|i]]]; try lia; destruct j as [|[|[|j]]]; try lia;
    cbn; congruence.
Qed.

Lemma question_of_id (q : QuizQuestion) (j : nat) :
  In q QUIZ_QUESTIONS -> (j < 3)%nat -> id q = id (question j) ->
  q = question j.
Proof.
  intros Hq Hj. cbn in Hq.
  destruct Hq as [<- | [<- | [<- | []]]];
    destruct j as [|[|[|j]]]; try lia; cbn; try congruence; reflexivity.
Qed.

Section Selecting.

Variable quizState next : QuizState.
Variable q : QuizQuestion.
Variable o : QuizOption.
Variable now : Z.

Hypothesis current : currentQuestion quizState = Some q.
Hypothesis selected :
  handleOptionSelect (option_id o) now quizState = Some next.

Lemma select_responses :
  responses next
  = filter (fun response => negb (String.eqb (questionId response) (id q)))
           (responses quizState)
    ++ [ {| questionId := id q; selectedOptionIds := [option_id o];
            timestamp := now |} ]
  /\ currentQuestionIndex next = currentQuestionIndex quizState.
Proof.
  revert selected. unfold handleOptionSelect. rewrite current.
  intros H; inversion H; subst; clear H. split; reflexivity.
Qed.

Lemma select_sets : In o (options q) -> selects (responses next) q o.
Proof.
  intros Ho. destruct select_responses as [-> _]. split; [exact Ho|].
  eexists. split; [apply in_or_app; right; left; reflexivity|].
  split; reflexivity.
Qed.

Lemma select_keeps (q' : QuizQuestion) (o' : QuizOption) :
  id q' <> id q ->
  selects (responses quizState) q' o' -> selects (responses next) q' o'.
Proof.
  intros Hne [Ho' [r [Hr [Hid Hsel]]]]. destruct select_responses as [-> _].
  split; [exact Ho'|].
  exists r. split; [|split; assumption].
  apply in_or_app. left. apply filter_In. split; [exact Hr|].
  apply negb_true_iff. apply String.eqb_neq. congruence.
Qed.

Lemma select_valid :
  In q QUIZ_QUESTIONS -> In o (options q) ->
  valid_responses (responses quizState) -> valid_responses (responses next).
Proof.
  intros Hq Ho [Hnd Hall]. destruct select_responses as [-> _]. split.
  - rewrite map_app. cbn [map questionId].
    apply NoDup_app.
    + clear - Hnd. induction (responses quizState) as [|r l IH]; cbn;
        [constructor|].
      inversion Hnd as [|? ? Hnotin Hnd']; subst.
      destruct (negb (String.eqb (questionId r) (id q))); cbn; [|auto].
      constructor; [|auto]. intros Hin. apply Hnotin.
      apply in_map_iff in Hin. destruct Hin as [r' [<- Hr']].
      apply filter_In in Hr'. apply in_map. tauto.
    + repeat constructor. intros [].
    + intros a Ha [<- | []]. apply in_map_iff in Ha.
      destruct Ha as [r [Hid Hr]]. apply filter_In in Hr.
      destruct Hr as [_ Hr]. apply negb_true_iff, String.eqb_neq in Hr.
      congruence.
  - apply Forall_app. split.
    + apply Forall_forall. intros r Hr. apply filter_In in Hr.
      rewrite Forall_forall in Hall. apply Hall. tauto.
    + constructor; [|constructor]. exists q, o. repeat split; assumption.
Qed.

End Selecting.

(** What holds of the state between two presses. *)
Lemma press_keeps (p : Press) (quizState : QuizState) :
  (currentQuestionIndex quizState < 3)%nat ->
  valid_responses (responses quizState) ->
  answered_so_far quizState ->
  match press p quizState with
  | None => False
  | Some (Some completed, _) =>
      valid_responses completed
      /\ forall j, (j < 3)%nat -> exists o, selects completed (question j) o
  | Some (None, next) =>
      (currentQuestionIndex next < 3)%nat
      /\ valid_responses (responses next)
      /\ answered_so_far next
  end.
Proof.
  intros Hidx Hvalid Hans.
  destruct (question_listed _ Hidx) as [Hq Hnth].
  unfold press. unfold currentQuestion at 1. rewrite Hnth.
  destruct p as [k now | | ].
  - destruct (nth_error (options (question (currentQuestionIndex quizState))) k)
      as [o|] eqn:Hk; [|auto].
    apply nth_error_In in Hk.
    destruct (handleOptionSelect (option_id o) now quizState) as [next|] eqn:Hs;
      [|unfold handleOptionSelect, currentQuestion in Hs; rewrite Hnth in Hs;
        discriminate].
    destruct (select_responses quizState next _ o now Hnth Hs) as [_ Hsame].
    rewrite Hsame. split; [exact Hidx|]. split.
    + eapply select_valid; eauto.
    + intros j Hj. rewrite Hsame in Hj. destruct (Hans j Hj) as [o' Ho'].
      exists o'. eapply select_keeps; eauto.
      intros Heq. apply question_ids_differ in Heq; lia.
  - unfold canProceed, getCurrentResponse. unfold currentQuestion. rewrite Hnth.
    destruct (find _ (responses quizState)) as [r|] eqn:Hf; [|auto].
    apply find_some in Hf. destruct Hf as [Hr Hid].
    apply String.eqb_eq in Hid.
    assert (Hcur : exists o,
               selects (responses quizState)
                 (question (currentQuestionIndex quizState)) o).
    { destruct Hvalid as [_ Hall]. rewrite Forall_forall in Hall.
      destruct (Hall r Hr) as [q' [o' [Hq' [Ho' [Hid' Hsel]]]]].
      assert (q' = question (currentQuestionIndex quizState)) as ->.
      { apply question_of_id; [assumption | assumption | congruence]. }
      exists o'. split; [exact Ho'|]. exists r. auto. }
    unfold handleNext, isLastQuestion. cbn [List.length QUIZ_QUESTIONS].
    destruct (Z.eqb_spec (Z.of_nat (currentQuestionIndex quizState))
                (Z.of_nat 3 - 1)) as [Hlast | Hnot].
    + split; [exact Hvalid|]. intros j Hj.
      destruct (Nat.eq_dec j (currentQuestionIndex quizState)) as [-> | Hne];
        [exact Hcur|].
      apply Hans. lia.
    + cbn [currentQuestionIndex responses]. split; [lia|].
      split; [exact Hvalid|]. intros j Hj. cbn [currentQuestionIndex] in Hj.
      cbn [responses].
      destruct (Nat.eq_dec j (currentQuestionIndex quizState)) as [-> | Hne];
        [exact Hcur|].
      apply Hans. lia.
  - unfold handleBack, isFirstQuestion.
    destruct (currentQuestionIndex quizState =? 0)%nat eqn:E; cbn [negb].
    + auto.
    + cbn [currentQuestionIndex responses]. split; [lia|].
      split; [exact Hvalid|]. intros j Hj. cbn [currentQuestionIndex] in Hj.
      cbn [responses]. apply Hans. lia.
Qed.

Lemma presses_keep (ps : list Press) :
  forall quizState,
    (currentQuestionIndex quizState < 3)%nat ->
    valid_responses (responses quizState) ->
    answered_so_far quizState ->
    match presses ps quizState with
    | None => False
    | Some (inl completed) =>
        valid_responses completed
        /\ forall j, (j < 3)%nat -> exists o, selects completed (question j) o
    | Some (inr final) =>
        (currentQuestionIndex final < 3)%nat
        /\ valid_responses (responses final)
    end.
Proof.
  induction ps as [|p ps IH]; intros quizState Hidx Hvalid Hans;
    cbn [presses]; [auto|].
  pose proof (press_keeps p quizState Hidx Hvalid Hans) as H.
  destruct (press p quizState) as [[[completed|] next]|]; [exact H| |exact H].
  destruct H as [H1 [H2 H3]]. apply IH; assumption.
Qed.

(** A field of the context reads back the option selected. *)
Lemma context_field (rs : list QuizResponse) (j : nat) (o : QuizOption) :
  (j < 3)%nat ->
  valid_responses rs ->
  selects rs (question j) o ->
  let responseMap :=
    map (fun response =>
           (questionId response, nth_error (selectedOptionIds response) 0)) rs in
  match j with
  | 0 => describe responseMap "workspace-vibe" vibeMap "Modern and functional"
  | 1 => describe responseMap "color-preference" colorMap "Neutral and calming"
  | _ => describe responseMap "budget-range" budgetMap "Mid-range quality"
  end = described o.
Proof.
  intros Hj [Hnd _] [Ho [r [Hr [Hid Hsel]]]]. cbv zeta.
  assert (Hget : map_get
                   (map (fun response =>
                           (questionId response,
                            nth_error (selectedOptionIds response) 0)) rs)
                   (id (question j)) = Some (Some (option_id o))).
  { apply map_get_unique.
    - rewrite map_map. cbn [fst]. exact Hnd.
    - apply in_map_iff. exists r. rewrite Hid, Hsel. split; [reflexivity|exact Hr]. }
  destruct (question_listed j Hj) as [Hq _].
  pose proof (options_described _ Hq o Ho) as Hd.
  destruct j as [|[|[|j]]]; try lia; cbn [question nth QUIZ_QUESTIONS id] in *;
    unfold describe; rewrite Hget, Hd;
    cbn in Ho; destruct Ho as [<- | [<- | [<- | []]]]; reflexivity.
Qed.

(** X25.  Whatever is pressed while the quiz is open, no handler
    throws, the current question stays one of the three, and the
    responses stay at most one per question.  When the quiz completes,
    the responses handed on answer all three questions, and the prompt
    context built from them describes each answer by the label and the
    description of the option selected: none of the three fallback
    descriptions is used.  The responses loaded at the start may be any
    that a completed quiz has saved. *)
Theorem completed_quiz_describes_every_answer
    (loaded : list QuizResponse) (complete : bool) (ps : list Press) :
  valid_responses loaded ->
  match presses ps {| currentQuestionIndex := 0; responses := loaded;
                      isComplete := complete |} with
  | None => False
  | Some (inr quizState) =>
      (currentQuestionIndex quizState < List.length QUIZ_QUESTIONS)%nat
      /\ valid_responses (responses quizState)
  | Some (inl completed) =>
      valid_responses completed
      /\ exists vibe color budget,
           selects completed (question 0) vibe
           /\ selects completed (question 1) color
           /\ selects completed (question 2) budget
           /\ createPromptContext completed
              = JObj [ ("userVibe", described vibe);
                       ("colorPreference", described color);
                       ("budgetRange", described budget);
                       ("imageDescription", JStr "") ]
  end.
Proof.
  intros Hvalid.
  pose proof (presses_keep ps
                {| currentQuestionIndex := 0; responses := loaded;
                   isComplete := complete |}) as H.
  cbn [currentQuestionIndex responses] in H.
  specialize (H ltac:(lia) Hvalid).
  assert (Hans : answered_so_far
                   {| currentQuestionIndex := 0; responses := loaded;
                      isComplete := complete |}).
  { intros j Hj. cbn in Hj. lia. }
  specialize (H Hans).
  destruct (presses ps _) as [[completed | final]|]; [| exact H | exact H].
  destruct H as [Hv Hall]. split; [exact Hv|].
  destruct (Hall 0%nat ltac:(lia)) as [vibe Hvibe].
  destruct (Hall 1%nat ltac:(lia)) as [color Hcolor].
  destruct (Hall 2%nat ltac:(lia)) as [budget Hbudget].
  exists vibe, color, budget. repeat (split; [assumption|]).
  unfold createPromptContext.
  rewrite (context_field completed 0 vibe ltac:(lia) Hv Hvibe).
  rewrite (context_field completed 1 color ltac:(lia) Hv Hcolor).
  rewrite (context_field completed 2 budget ltac:(lia) Hv Hbudget).
  reflexivity.
Qed.

(** A quiz in which the first answer is changed and a step is retraced. *)
Lemma completed_quiz_describes_every_answer_witness :
  let ps := [ PressNext; PressOption 2 10; PressOption 0 20; PressNext;
              PressOption 1 30; PressNext; PressBack; PressNext;
              PressOption 2 40; PressNext ] in
  valid_responses []
  /\ option_map (fun done =>
                   match done with
                   | inl completed => map selectedOptionIds completed
                   | inr _ => []
                   end)
                (presses ps initialState)
     = Some [["focus-minimal"]; ["bold-accents"]; ["budget-high"]]
  /\ match presses ps initialState with
     | None => False
     | Some (inr quizState) =>
         (currentQuestionIndex quizState < List.length QUIZ_QUESTIONS)%nat
         /\ valid_responses (responses quizState)
     | Some (inl completed) =>
         valid_responses completed
         /\ exists vibe color budget,
              selects completed (question 0) vibe
              /\ selects completed (question 1) color
              /\ selects completed (question 2) budget
              /\ createPromptContext completed
                 = JObj [ ("userVibe", described vibe);
                          ("colorPreference", described color);
                          ("budgetRange", described budget);
                          ("imageDescription", JStr "") ]
     end.
Proof.
  assert (Hv : valid_responses []).
  { split; constructor. }
  cbv zeta. split; [exact Hv|]. split; [vm_compute; reflexivity|].
  apply (completed_quiz_describes_every_answer [] false).
  exact Hv.
Defined.

End QuizFacts.

(** ** The image sent to the model *)

Module ImageFacts.
Import AIImageProcessingService Observations.

Lemma chunkSize_positive : (0 < chunkSize)%nat.
Proof.
  unfold chunkSize. lia.
Qed.

Lemma fromCharCode_app (l l' : list ascii) :
  fromCharCode (l ++ l') = (fromCharCode l ++ fromCharCode l')%string.
Proof.
  unfold fromCharCode. induction l as [|c l IH]; cbn; [reflexivity|].
  rewrite IH. reflexivity.
Qed.

Lemma append_assoc (a b c : string) :
  ((a ++ b) ++ c = a ++ (b ++ c))%string.
Proof.
  induction a as [|x a IH]; cbn; [reflexivity|]. rewrite IH. reflexivity.
Qed.

Lemma append_empty (a : string) : (a ++ "")%string = a.
Proof.
  induction a as [|x a IH]; cbn; [reflexivity|]. rewrite IH. reflexivity.
Qed.

(** The loop appends what is left of the array from index [i] on, when
    it is given iterations enough. *)
Lemma appendChunks_all (uint8Array : list ascii) :
  forall fuel i binaryString,
    (List.length uint8Array <= i + fuel * chunkSize)%nat ->
    appendChunks fuel uint8Array i binaryString
    = (binaryString ++ fromCharCode (skipn i uint8Array))%string.
Proof.
  pose proof chunkSize_positive as Hpos.
  induction fuel as [|fuel IH]; intros i acc Hlen; cbn [appendChunks].
  - rewrite skipn_all2 by lia. cbn. rewrite append_empty. reflexivity.
  - destruct (Nat.ltb_spec i (List.length uint8Array)) as [Hi | Hi].
    + rewrite IH by lia. unfold slice.
      replace (i + chunkSize - i)%nat with chunkSize by lia.
      rewrite append_assoc, <- fromCharCode_app.
      rewrite Nat.add_comm, <- skipn_skipn, firstn_skipn. reflexivity.
    + rewrite skipn_all2 by lia. cbn. rewrite append_empty. reflexivity.
Qed.

Lemma digits_read_back :
  forallb (fun v =>
             match value_of (digit v) with
             | Some w => (w =? v)%nat && negb (Ascii.eqb (digit v) "="%char)
             | None => false
             end) (seq 0 64) = true.
Proof.
  vm_compute. reflexivity.
Qed.

Lemma value_of_digit (v : nat) :
  (v < 64)%nat ->
  value_of (digit v) = Some v /\ Ascii.eqb (digit v) "="%char = false.
Proof.
  intros Hv. pose proof digits_read_back as H.
  rewrite forallb_forall in H.
  specialize (H v ltac:(apply in_seq; lia)).
  destruct (value_of (digit v)) as [w|]; [|discriminate].
  apply andb_prop in H. destruct H as [Hw He].
  apply Nat.eqb_eq in Hw. apply negb_true_iff in He. subst. auto.
Qed.

Lemma by_threes (P : list nat -> Prop) :
  P [] -> (forall a, P [a]) -> (forall a b, P [a; b]) ->
  (forall a b c rest, P rest -> P (a :: b :: c :: rest)) ->
  forall codes, P codes.
Proof.
  intros H0 H1 H2 H3 codes.
  assert (H : P codes /\ (forall a, P (a :: codes))
              /\ forall a b, P (a :: b :: codes)).
  { induction codes as [|c codes [IH0 [IH1 IH2]]]; [auto|].
    split; [apply IH1|]. split; [intros a; apply IH2|].
    intros a b. apply H3. exact IH0. }
  exact (proj1 H).
Qed.

Lemma encode_length (codes : list nat) :
  String.length (encode codes) = (4 * ((List.length codes + 2) / 3))%nat.
Proof.
  induction codes as [ | a | a b | a b c rest IH] using by_threes;
    try reflexivity.
  cbn [encode String.length List.length]. rewrite IH.
  replace (S (S (S (List.length rest))) + 2)%nat
    with (1 * 3 + (List.length rest + 2))%nat by lia.
  rewrite Nat.div_add_l by lia. lia.
Qed.

(** Three bytes are read back from their four digits. *)
Lemma group_read_back (a b c : nat) :
  (a < 256)%nat -> (b < 256)%nat -> (c < 256)%nat ->
  (a / 4 < 64 /\ a mod 4 * 16 + b / 16 < 64
   /\ b mod 16 * 4 + c / 64 < 64 /\ c mod 64 < 64
   /\ a mod 4 * 16 < 64 /\ b mod 16 * 4 < 64)%nat
  /\ (a / 4 * 4 + (a mod 4 * 16 + b / 16) / 16 = a)%nat
  /\ ((a mod 4 * 16 + b / 16) mod 16 * 16 + (b mod 16 * 4 + c / 64) / 4 = b)%nat
  /\ ((b mod 16 * 4 + c / 64) mod 4 * 64 + c mod 64 = c)%nat
  /\ (a / 4 * 4 + (a mod 4 * 16) / 16 = a)%nat
  /\ ((a mod 4 * 16 + b / 16) mod 16 * 16 + (b mod 16 * 4) / 4 = b)%nat.
Proof.
  intros Ha Hb Hc.
  pose proof (Nat.div_mod_eq a 4). pose proof (Nat.mod_upper_bound a 4).
  pose proof (Nat.div_mod_eq b 16). pose proof (Nat.mod_upper_bound b 16).
  pose proof (Nat.div_mod_eq c 64). pose proof (Nat.mod_upper_bound c 64).
  assert (E1 : ((a mod 4 * 16 + b / 16) / 16 = a mod 4)%nat).
  { rewrite Nat.add_comm, Nat.div_add by lia.
    rewrite (Nat.div_small (b / 16)); [lia|].
    apply Nat.Div0.div_lt_upper_bound; lia. }
  assert (E2 : ((a mod 4 * 16 + b / 16) mod 16 = b / 16)%nat).
  { rewrite Nat.add_comm, Nat.Div0.mod_add.
    apply Nat.mod_small. apply Nat.Div0.div_lt_upper_bound; lia. }
  assert (E3 : ((b mod 16 * 4 + c / 64) / 4 = b mod 16)%nat).
  { rewrite Nat.add_comm, Nat.div_add by lia.
    rewrite (Nat.div_small (c / 64)); [lia|].
    apply Nat.Div0.div_lt_upper_bound; lia. }
  assert (E4 : ((b mod 16 * 4 + c / 64) mod 4 = c / 64)%nat).
  { rewrite Nat.add_comm, Nat.Div0.mod_add.
    apply Nat.mod_small. apply Nat.Div0.div_lt_upper_bound; lia. }
  assert (E5 : ((a mod 4 * 16) / 16 = a mod 4)%nat).
  { apply Nat.div_mul. lia. }
  assert (E6 : ((b mod 16 * 4) / 4 = b mod 16)%nat).
  { apply Nat.div_mul. lia. }
  assert (b / 16 < 16)%nat by (apply Nat.Div0.div_lt_upper_bound; lia).
  assert (c / 64 < 4)%nat by (apply Nat.Div0.div_lt_upper_bound; lia).
  assert (a / 4 < 64)%nat by (apply Nat.Div0.div_lt_upper_bound; lia).
  rewrite E1, E2, E3, E4, E5, E6.
  repeat split; lia.
Qed.

Lemma decode_encode (codes : list nat) :
  Forall (fun a => a < 256)%nat codes ->
  forall fuel, (List.length codes <= 3 * fuel)%nat ->
    decode fuel (encode codes) = Some codes.
Proof.
  induction codes as [ | a | a b | a b c rest IH] using by_threes;
    intros Hall fuel Hfuel.
  - destruct fuel; reflexivity.
  - destruct fuel as [|fuel]; [cbn in Hfuel; lia|].
    inversion Hall as [|? ? Ha _]; subst.
    destruct (group_read_back a 0 0 Ha ltac:(lia) ltac:(lia))
      as [[B1 [_ [_ [_ [B5 _]]]]] [_ [_ [_ [E5 _]]]]].
    cbn [encode decode].
    destruct (value_of_digit _ B1) as [-> _].
    destruct (value_of_digit _ B5) as [-> _].
    cbv zeta. rewrite E5. reflexivity.
  - destruct fuel as [|fuel]; [cbn in Hfuel; lia|].
    inversion Hall as [|? ? Ha Hall']; subst.
    inversion Hall' as [|? ? Hb _]; subst.
    destruct (group_read_back a b 0 Ha Hb ltac:(lia))
      as [[B1 [B2 [_ [_ [_ B6]]]]] [E1 [_ [_ [_ E6]]]]].
    cbn [encode decode].
    destruct (value_of_digit _ B1) as [-> _].
    destruct (value_of_digit _ B2) as [-> _].
    destruct (value_of_digit _ B6) as [-> ->].
    cbv zeta. rewrite E1, E6. reflexivity.
  - destruct fuel as [|fuel]; [cbn in Hfuel; lia|].
    inversion Hall as [|? ? Ha Hall1]; subst.
    inversion Hall1 as [|? ? Hb Hall2]; subst.
    inversion Hall2 as [|? ? Hc Hall3]; subst.
    destruct (group_read_back a b c Ha Hb Hc)
      as [[B1 [B2 [B3 [B4 _]]]] [E1 [E2 [E3 _]]]].
    cbn [encode decode].
    destruct (value_of_digit _ B1) as [-> _].
    destruct (value_of_digit _ B2) as [-> _].
    destruct (value_of_digit _ B3) as [-> ->].
    destruct (value_of_digit _ B4) as [-> ->].
    rewrite (IH Hall3 fuel) by (cbn in Hfuel; lia).
    cbv zeta. rewrite E1, E2, E3. reflexivity.
Qed.

Lemma codes_are_bytes (l : list ascii) :
  Forall (fun a => a < 256)%nat (map nat_of_ascii l).
Proof.
  induction l as [|c l IH]; cbn; constructor; [apply nat_ascii_bounded | exact IH].
Qed.

Lemma binary_string (l : list ascii) :
  list_ascii_of_string (fromCharCode l) = l.
Proof.
  apply list_ascii_of_string_of_list_ascii.
Qed.

(** X26.  For a file of any length, the chunks of 8192 bytes that
    [convertImageToBase64] appends make up the whole file, each byte
    once and in order, as soon as the loop has iterations enough; the
    text it returns has four characters for every three bytes begun and
    stands for exactly the bytes of the file. *)
Theorem convertImageToBase64_reads_back (uint8Array : list ascii) :
  (forall fuel,
     (List.length uint8Array <= fuel * chunkSize)%nat ->
     appendChunks fuel uint8Array 0 "" = fromCharCode uint8Array)
  /\ exists text,
       convertImageToBase64 (Some uint8Array) = inr text
       /\ atob text = Some (map nat_of_ascii uint8Array)
       /\ String.length text = (4 * ((List.length uint8Array + 2) / 3))%nat.
Proof.
  split.
  - intros fuel Hfuel. rewrite appendChunks_all by lia. reflexivity.
  - eexists. split; [reflexivity|].
    rewrite appendChunks_all
      by (pose proof chunkSize_positive; cbn [Nat.mul Nat.add]; nia).
    cbn [skipn append]. unfold btoa, atob. rewrite binary_string.
    rewrite encode_length, length_map. split; [|reflexivity].
    apply decode_encode; [apply codes_are_bytes|].
    rewrite length_map.
    pose proof (Nat.div_mod_eq (List.length uint8Array + 2) 3).
    pose proof (Nat.mod_upper_bound (List.length uint8Array + 2) 3).
    lia.
Qed.

End ImageFacts.

(** ** The mood of the palette *)

Module MoodFacts.
Import ColorExtractionService Observations.

Lemma near_muted (c p : Pixel) :
  In c sampleColors -> near c p -> muted 4 p.
Proof.
  destruct c as [[r g] b], p as [[x y] z]. unfold near, muted, variation.
  intros Hc [Hx [Hy Hz]]. cbn [In] in Hx, Hy, Hz.
  assert (Hd : (-10 <= x - r <= 10 /\ -10 <= y - g <= 10
                /\ -10 <= z - b <= 10)%Z) by lia.
  clear Hx Hy Hz. unfold sampleColors in Hc. cbn [In] in Hc.
  repeat (destruct Hc as [Hc | Hc]; [inversion Hc; subst; lia|]).
  destruct Hc.
Qed.

Lemma sums_muted (ps : list Pixel) :
  Forall (muted 4) ps ->
  forall a0 a1 a2,
    let '(s0, s1, s2) :=
      fold_left (fun acc pixel =>
                   let '(a0, a1, a2) := acc in
                   let '(p0, p1, p2) := pixel in
                   (a0 + p0, a1 + p1, a2 + p2)%Z)
                ps (a0, a1, a2) in
    let n := Z.of_nat (List.length ps) in
    (n <= s0 - a0 /\ n <= s1 - a1 /\ n <= s2 - a2
     /\ 3 * (s0 - a0) + 4 * n <= 5 * (s1 - a1)
     /\ 3 * (s0 - a0) + 4 * n <= 5 * (s2 - a2)
     /\ 3 * (s1 - a1) + 4 * n <= 5 * (s0 - a0)
     /\ 3 * (s1 - a1) + 4 * n <= 5 * (s2 - a2)
     /\ 3 * (s2 - a2) + 4 * n <= 5 * (s0 - a0)
     /\ 3 * (s2 - a2) + 4 * n <= 5 * (s1 - a1))%Z.
Proof.
  induction 1 as [|[[p0 p1] p2] ps Hp Hps IH]; intros a0 a1 a2.
  - cbn [fold_left List.length Z.of_nat]. cbv zeta. lia.
  - cbn [fold_left]. specialize (IH (a0 + p0) (a1 + p1) (a2 + p2))%Z.
    destruct (fold_left _ ps _) as [[s0 s1] s2].
    unfold muted in Hp. cbv zeta in *.
    change (List.length ((p0, p1, p2) :: ps)) with (S (List.length ps)).
    rewrite Nat2Z.inj_succ. lia.
Qed.

Lemma round_div_bounds (s n : Z) :
  (0 < n)%Z ->
  (2 * n * round_div s n <= 2 * s + n < 2 * n * round_div s n + 2 * n)%Z.
Proof.
  intros Hn. unfold round_div.
  pose proof (Z.div_mod (2 * s + n) (2 * n) ltac:(lia)).
  pose proof (Z.mod_pos_bound (2 * s + n) (2 * n) ltac:(lia)).
  lia.
Qed.

Lemma average_muted (ps : list Pixel) :
  ps <> [] -> Forall (muted 4) ps -> muted 0 (calculateAverageColor ps).
Proof.
  intros Hne Hall. unfold calculateAverageColor.
  pose proof (sums_muted ps Hall 0 0 0)%Z as Hs.
  destruct (fold_left _ ps _) as [[s0 s1] s2]. cbv zeta in Hs.
  set (n := Z.of_nat (List.length ps)) in *.
  assert (Hn : (0 < n)%Z).
  { unfold n. destruct ps; [congruence | cbn [List.length]; lia]. }
  pose proof (round_div_bounds s0 n Hn).
  pose proof (round_div_bounds s1 n Hn).
  pose proof (round_div_bounds s2 n Hn).
  unfold muted.
  set (x := round_div s0 n) in *. set (y := round_div s1 n) in *.
  set (z := round_div s2 n) in *.
  repeat split; nia.
Qed.

Lemma quotient_below (a b c : R) :
  (0 < c)%R -> (a <= b * c)%R -> (a / c <= b)%R.
Proof.
  intros Hc H. apply (Rmult_le_reg_r c); [exact Hc|].
  unfold Rdiv. rewrite Rmult_assoc, Rinv_l by lra. lra.
Qed.

Lemma ratio_bound (M m : R) :
  (0 < M)%R -> (3 * M <= 5 * m)%R -> ((M - m) / M <= 4 / 10)%R.
Proof.
  intros HM H. apply quotient_below; [exact HM | lra].
Qed.

Lemma muted_saturation (c : ExtractedColor) (r g b : Z) :
  rgb c = (IZR r, IZR g, IZR b) -> muted 0 (r, g, b) ->
  (saturation c <= 4 / 10)%R.
Proof.
  intros Hrgb [Hr [Hg [Hb [H1 [H2 [H3 [H4 [H5 H6]]]]]]]].
  unfold saturation. rewrite Hrgb.
  apply IZR_lt in Hr, Hg, Hb.
  apply IZR_le in H1, H2, H3, H4, H5, H6.
  rewrite ?plus_IZR, ?mult_IZR in *.
  set (x := IZR r) in *. set (y := IZR g) in *. set (z := IZR b) in *.
  destruct (Req_dec_T (Rmax (Rmax x y) z) 0); [lra|].
  unfold Rmax, Rmin.
  destruct (Rle_dec x y); destruct (Rle_dec y z); destruct (Rle_dec x z);
    apply ratio_bound; lra.
Qed.

Lemma sumR_bound (l : list R) (bound : R) :
  Forall (fun x => x <= bound)%R l ->
  (sumR l <= bound * INR (List.length l))%R.
Proof.
  induction 1 as [|x l Hx _ IH].
  - cbn. lra.
  - change (sumR (x :: l)) with (x + sumR l)%R.
    change (List.length (x :: l)) with (S (List.length l)).
    rewrite S_INR. lra.
Qed.

Lemma determineMood_muted (colors0 : list ExtractedColor) :
  Forall (fun c => saturation c <= 4 / 10)%R colors0 ->
  determineMood colors0 = focus \/ determineMood colors0 = calm.
Proof.
  intros Hall. destruct colors0 as [|c cs]; [left; reflexivity|].
  unfold determineMood. rewrite ColorFacts.fold_tally.
  cbn [warmColors coolColors totalSaturation totalLuminance].
  rewrite !Rplus_0_l.
  set (colors1 := c :: cs) in *.
  assert (Hs : (sumR (map saturation colors1) / INR (List.length colors1)
                <= 4 / 10)%R).
  { assert (Hn : (0 < INR (List.length colors1))%R).
    { apply lt_0_INR. cbn. lia. }
    apply quotient_below; [exact Hn|].
    rewrite <- (length_map saturation).
    apply sumR_bound. apply Forall_forall. intros x Hx.
    apply in_map_iff in Hx. destruct Hx as [c' [<- Hc']].
    rewrite Forall_forall in Hall. apply Hall. exact Hc'. }
  unfold gtb, ltb.
  destruct (Rgt_dec _ (6 / 10)) as [H6|_]; [lra|]. cbn [andb].
  destruct (Rgt_dec _ (4 / 10)) as [H4|_]; [lra|]. cbn [andb].
  destruct (_ || _); auto.
Qed.

Lemma dominant_colours_muted
    (ps : list Pixel) (options : ColorExtractionOptions) :
  Forall (muted 4) ps ->
  Forall (fun c => saturation c <= 4 / 10)%R (extractDominantColors ps options).
Proof.
  intros Hall. unfold extractDominantColors.
  apply Forall_forall. intros c Hc.
  apply in_map_iff in Hc. destruct Hc as [grp [<- Hg]].
  assert (Hin : In grp (groupSimilarColors (filter (keep options) ps))).
  { eapply Permutation_in; [apply ErgonomicFacts.sort_perm|].
    destruct (PaletteFacts.slice0_firstn (maxColors options)
                (Sort.sort (fun a b => (Z.of_nat (List.length (pixels b))
                                        - Z.of_nat (List.length (pixels a)))%Z)
                           (groupSimilarColors (filter (keep options) ps))))
      as [m [Hm _]].
    rewrite Hm in Hg.
    rewrite <- (firstn_skipn m (Sort.sort _ _)). apply in_or_app. left. exact Hg. }
  destruct (PaletteFacts.grouped (filter (keep options) ps)) as [Hperm [Hs _]].
  rewrite Forall_forall in Hs. destruct (Hs grp Hin) as [Hne _].
  assert (Hpx : Forall (muted 4) (pixels grp)).
  { apply Forall_forall. intros p Hp.
    assert (Hp' : In p (filter (keep options) ps)).
    { eapply Permutation_in; [exact Hperm|].
      unfold members. apply in_concat. exists (pixels grp).
      split; [apply in_map; exact Hin | exact Hp]. }
    apply filter_In in Hp'. rewrite Forall_forall in Hall. apply Hall. tauto. }
  pose proof (average_muted _ Hne Hpx) as Havg.
  destruct (calculateAverageColor (pixels grp)) as [[r g] b].
  apply (muted_saturation _ r g b); [reflexivity | exact Havg].
Qed.

(** X27.  With [Math.random] in [0, 1), the palette made of the
    simulated pixels never has the mood energizing or creativity: every
    simulated pixel is close to one of six muted sample colours, so the
    saturation of every dominant colour, an average of such pixels, is
    at most 0.4, and [determineMood] answers focus or calm.  The
    fallback palette, for a resize step that fails, has the mood focus. *)
Theorem simulated_palette_is_never_vivid
    (Math_random : nat -> Q) (n : nat) (resized : bool) (now : Z)
    (options : PartialOptions) :
  unit_draws Math_random ->
  exists pixelData,
    fst (simulatePixelExtraction Math_random n) = Some pixelData
    /\ let palette := extractColorPalette resized pixelData now options in
       mood palette = focus \/ mood palette = calm.
Proof.
  intros Hr. unfold simulatePixelExtraction.
  destruct (PaletteFacts.simulatePixels_near Math_random 1000 Hr n)
    as [pixels [Hs [_ Hall]]].
  exists pixels. rewrite Hs. split; [reflexivity|].
  cbv zeta. unfold extractColorPalette.
  destruct resized; cbn [mood]; [|left; reflexivity].
  apply determineMood_muted, dominant_colours_muted.
  eapply Forall_impl; [|exact Hall].
  intros p [c [Hc Hn]]. eapply near_muted; eauto.
Qed.

(** Every draw 0. *)
Lemma simulated_palette_is_never_vivid_witness :
  unit_draws Samples.zeros
  /\ exists pixelData,
       fst (simulatePixelExtraction Samples.zeros 0) = Some pixelData
       /\ let palette := extractColorPalette true pixelData 0 noOptions in
          mood palette = focus \/ mood palette = calm.
Proof.
  assert (H : unit_draws Samples.zeros).
  { intros k. unfold Samples.zeros. split; [apply Qle_refl | reflexivity]. }
  split; [exact H|].
  apply (simulated_palette_is_never_vivid Samples.zeros 0 true 0 noOptions H).
Defined.

End MoodFacts.

(** ** Categories inherited from the prototype *)

Module LeakFacts.
Import ErgonomicAnalysisService Props Observations ComfortMetricsDisplay.

Lemma inherited_cases (k : string) :
  Table.inherited k = true -> In k Table.inherited_names.
Proof.
  unfold Table.inherited. intros H. apply existsb_exists in H.
  destruct H as [x [Hx He]]. apply String.eqb_eq in He. subst. exact Hx.
Qed.

Lemma normalizeCategory_inherited (s : string) :
  Table.inherited (Js.toLowerCase s) = true ->
  normalizeCategory (JStr s) = Some (JNative (Js.toLowerCase s)).
Proof.
  intros H. unfold normalizeCategory. cbn [Val.toLowerCase].
  apply inherited_cases in H. unfold Table.inherited_names in H. cbn [In] in H.
  repeat (destruct H as [<- | H]; [vm_compute; reflexivity|]). destruct H.
Qed.

(** X28.  An evaluation entry whose category, in lower case, is a name
    that object literals inherit (constructor, __proto__) is not
    dropped: the lookup in the category table finds the inherited
    member, and [processErgonomicItem] makes an insight of it whose
    category is that member and no string, under the placeholder title.
    The insight is outside the five categories, and the metrics display
    has no metric for it. *)
Theorem inherited_category_becomes_an_insight
    (Math_random : nat -> Q) (fields : list (string * JsVal))
    (config : ErgonomicAnalysisConfig) (n : nat) (s st : string) :
  Val.own fields "category" = Some (JStr s) ->
  Val.own fields "status" = Some (JStr st) ->
  Table.inherited (Js.toLowerCase s) = true ->
  exists i n',
    processErgonomicItem Math_random (JObj fields) config n = (Some i, n')
    /\ ErgonomicAnalysisService.category i = JNative (Js.toLowerCase s)
    /\ ErgonomicAnalysisService.title i
       = JStr (Table.key_of (JNative (Js.toLowerCase s)) ++ " Assessment")
    /\ ~ canonical i
    /\ metric_of i = None.
Proof.
  intros Hc Hs Hin.
  unfold processErgonomicItem. cbn [Val.prop]. rewrite Hc, Hs.
  destruct (Val.own fields "observation"), (Val.own fields "description"),
    (Val.own fields "recommendation"); cbv iota beta;
    rewrite (normalizeCategory_inherited s Hin);
    cbn [Val.truthy negb normalizeStatus Val.toLowerCase];
    match goal with
    | |- context [enhanceRecommendation ?r ?a ?b ?c ?d] =>
        destruct (enhanceRecommendation r a b c d) as [rec n1]
    end.
  all: eexists; eexists; (split; [reflexivity|]);
    cbn [ErgonomicAnalysisService.category ErgonomicAnalysisService.title];
    (split; [reflexivity|]);
    split;
    [ unfold generateTitle;
      apply inherited_cases in Hin; unfold Table.inherited_names in Hin;
      cbn [In] in Hin;
      repeat (destruct Hin as [<- | Hin]; [vm_compute; reflexivity|]);
      destruct Hin
    | split; [intros [[c [_ Hcat]] _]; discriminate Hcat | reflexivity] ].
Qed.

(** One entry of the category Constructor: six insights, five metrics. *)
Lemma inherited_category_becomes_an_insight_witness :
  let fields := [ ("category", JStr "Constructor"); ("status", JStr "poor") ] in
  let data := JObj [ ("ergonomic_evaluation", JArr [JObj fields]) ] in
  let insights := fst (analyzeErgonomics Samples.zeros data default_config 0) in
  List.length insights = 6%nat
  /\ List.length (generateComfortMetrics insights) = 5%nat
  /\ exists i n',
       processErgonomicItem Samples.zeros (JObj fields) default_config 0
       = (Some i, n')
       /\ ErgonomicAnalysisService.category i = JNative "constructor"
       /\ ErgonomicAnalysisService.title i
          = JStr (Table.key_of (JNative "constructor") ++ " Assessment")
       /\ ~ canonical i
       /\ metric_of i = None.
Proof.
  cbv zeta. split; [vm_compute; reflexivity|]. split; [vm_compute; reflexivity|].
  apply (inherited_category_becomes_an_insight Samples.zeros
           [ ("category", JStr "Constructor"); ("status", JStr "poor") ]
           default_config 0 "Constructor" "poor"); reflexivity.
Defined.

End LeakFacts.
